(* ===== verification/_CoqProject ===== *)
-Q . S2P
Prelude.v
JsValue.v
TokenStore.v
Provider.v
XeroService.v
Envelope.v
JsonType.v
AuthSchema.v
Users.v
Auth.v
Controller.v
Validate.v
ServiceCopy.v
TrustProxy.v
App.v
Concurrency.v
ClientApi.v
Json.v
ClientState.v
Routes.v
ClientHooks.v
Tables.v
TableViews.v
JsNumber.v
Utils.v
Router.v
PaymentForm.v
PaymentHooks.v
RecentBatches.v
Approval.v
Selection.v
Summary.v
SummaryView.v
DetailsModal.v
SupplierSearch.v
BillList.v
ApprovalPage.v
Columns.v
PageViews.v
EndToEnd.v
