(* ===== verification/Prelude.v ===== *)
(** * A verification development of the xero-api payment-approval application

    The repository (src/server and src/client) is an Express backend and a
    React frontend.  The backend keeps one active Xero OAuth2 credential in
    a MySQL table, refreshes it on demand before every call to the Xero
    accounting API, and reshapes the provider's answers into a response
    envelope; the frontend calls it through axios services, keeps the
    answers in React hooks and contexts, and draws tables and forms.  This
    development models both sides in Rocq, as a shallow embedding, and
    proves what they guarantee and where they do not keep the contract of
    spec.md or of their own code.

    ** How the program's parts interact

    An HTTP request GET /api/xero/invoices passes, in this order,
    [authenticateToken] (src/server/src/middlewares/authMiddleware.js),
    [validateQuery(PaginationQuerySchema)] (middlewares/validateSchema.js,
    schemas/xeroSchema.js), [validateXeroToken]
    (middlewares/validateXeroToken.js), which reads the active credential
    through [XeroTokenModel.getActiveToken] (models/xeroTokenModel.js), and
    the controller [getXeroInvoices] (controllers/xeroController.js).  The
    controller calls [XeroService.getInvoices] (services/xeroService.js),
    which calls [ensureValidToken] (load the token into the shared SDK
    client; refresh it and persist it with [XeroTokenModel.updateToken]
    when it has expired), then the SDK.  [responseFormatter]
    (middlewares/responseHandler.js) wraps the controller's [res.json] in
    the envelope [{success, statusCode, data, pagination?, message?,
    error}].  On the client, services/xeroService.js sends the request
    with the cookie's bearer token (utils/api.js), hooks/useXero.jsx keeps
    the result, and the tables draw it.  Manual payments go from
    CreatePaymentForm.jsx (validated by schemas/manualPaymentValidation.js)
    through ManualPaymentsPage.jsx and hooks/useManualPayments.jsx to
    services/manualPaymentService.js; payment batches through
    hooks/usePaymentBatch.jsx and services/paymentBatchService.js.  On
    pages/RequestApproval.jsx the user selects invoices (useXero) and adds
    manual payments (useManualPayments.createPayment); the component
    PaymentSummary.jsx groups the selection by supplier and finalizes the
    batch through usePaymentBatch.createBatch, then calls back the page to
    clear the selection and reload the invoices.

    ** Files, and what each models

    Server:
    - [Prelude] (this file): the notation scope [xero_scope], the
      state-and-error monad [St] of the stateful server code (an error
      keeps the state reached before it: a JavaScript [throw] does not
      undo the queries that ran before it), the sum bind [x <-? m ;; k] of
      the synchronous client code, the hint databases [xero] and
      [xero_simpl], the tactics, and generic lemmas.
    - [JsValue]: JavaScript values ([undefined], [null], integers,
      strings, arrays, objects as ordered association lists), truthiness,
      [||], [===], property reads, spread, [delete], [slice], [trim], and
      the controllers' loop deleting undefined parameters, the
      induction principle through nested arrays and objects and the
      decidable equality of values.
    - [TokenStore] (Module [TokenStore]): the [xero_tokens] table and the
      queries of models/xeroTokenModel.js, an abstract single-credential
      store and the refinement of it.
    - [Provider]: the [Class] stating what the code expects of the
      xero-node SDK (refresh, callback, accounting calls); the theorems of
      [XeroService] are proved against this interface.
    - [XeroService] (Modules [XeroService], [Service]): [ensureValidToken],
      [handleCallback] (its [apiCallback] stores the new token set in the
      shared session, and [updateTenants] is a provider call on that
      access token) and the four list operations over a [world] (table,
      shared SDK session, clock, call trace), in the [St] monad.
    - [Envelope]: [responseFormatter], [errorHandler], [notFoundHandler].
    - [JsonType] (Module [JsonType]): a language of JSON types [ty]
      (closed objects with optional keys, arrays, constants), the typing
      judgement [has_type] with its decision procedure [typeb]
      ([typeb_spec]), and the type [envelope_ty] of the envelope.
    - [AuthSchema], [Users], [Auth]: the zod schemas of login and
      registration, the users table, [authService] and [authController],
      JWT signing as a parameter, [authenticateToken].
    - [Controller]: the query schema, [validateQuery],
      [validateXeroToken], the Xero handlers and their status codes.
    - [Validate] (Module [Validate]): middlewares/validateSchema.js
      ([validate] on any target, [validateBody], [validateQuery],
      [validateParams], [validateMultiple]) over the zod model of
      [AuthSchema], [XeroCallbackSchema], and the routes that validate
      their body ([login_route], [register_route], [callback_route])
      composed with their handlers.  [Controller]'s query validation is
      the same middleware over the query schema's own parse.
    - [ServiceCopy]: the unused services/xeroService copy.js.
    - [TrustProxy]: utils/trustProxyDetector.js.
    - [App]: the route table of app.js and routes/*.js as the list of
      stages a request passes, the rate limiters, the start-up retry loop
      of index.js.
    - [Concurrency]: requests cut at their [await] points and interleaved,
      as a step relation on (world, threads).
    Client:
    - [ClientApi]: utils/api.js and the four services as request builders
      and answer handlers.
    - [Json]: [JSON.stringify] on JavaScript values, and the reading back
      of a string literal that shows quoting injective.
    - [ClientState]: context/XeroContext.jsx, hooks/useXeroSyncRedirect.jsx
      and pages/XeroCallbackRedirect.jsx (its effect and its status
      view), with the browser effects they perform.
    - [Routes] (Modules [Guards], [LoginPage]):
      components/ProtectedRoute.jsx and components/PublicRoute.jsx, with
      the 30-second session check, and pages/LoginPage.jsx.
    - [ClientHooks]: hooks/useXero.jsx.  A [setData] or [setPagination]
      updater runs at the next render, outside the fetch's [try]: a throw
      there is kept as the hook's [render_error] (the page crashes), not
      handled by the fetch's [catch].
    - [Tables]: components/table/ClientPaginatedTable.jsx and
      PaginatedTable.jsx: [getPageNumbers], the table state machine.
    - [TableViews] (Module [TableViews]): the renders of the two
      tables.
    - [JsNumber]: the [Class] [JsArith] of the host's number operations
      the client applies to amounts ([+], [*], [/], [Number],
      [parseFloat], [toFixed]) and its laws [JsArithOk] on integers; the
      components that compute amounts are sections over an instance.
    - [Utils]: utils/index.js.
    - [Router] (Modules [Router], [AppSidebar]): router/routes.jsx as
      [useRoutes] matches it, with the guards, and
      components/AppSidebar.jsx.
    - [PaymentForm]: JavaScript's ToNumber on the form's strings ([Num]),
      schemas/manualPaymentValidation.js, utils/formData.js and
      utils/data.js ([Validation]), and the handlers of
      components/manual-payment/CreatePaymentForm.jsx ([Form] for the
      contact, inputs, line list and submission; [LineItems] for
      [handleLineItemChange], the tax select, the line amount and the
      total).
    - [SupplierSearch] (Modules [SupplierSearch], [FormView]): the
      effects and asynchronous handlers of CreatePaymentForm.jsx: the
      mount and its two fetches (completing in either order), the
      debounced supplier search cut at its [await], the dropdown; and
      what the form draws (its fields, line cards and submit button).
      [ClientHooks] cuts each fetch of useXero.jsx at its [await] for
      it.
    - [BillList] (Modules [SyncRequired], [BillList]):
      components/xero/SyncRequired.jsx, and
      components/invoices/SupplierBillList.jsx as a step function on
      events (its handlers, its effect, the answers of its fetches in
      any order).
    - [PaymentHooks]: hooks/useManualPayments.jsx,
      pages/ManualPaymentsPage.jsx and hooks/usePaymentBatch.jsx.
    - [RecentBatches] (Modules [StatusBadge], [RecentBatches]):
      components/payment-batch/PaymentBatchStatusBadge.jsx and
      RecentBatches.jsx, the card of the latest batches over its own
      [usePaymentBatch].
    - [Approval] (Module [RequestApproval]): pages/RequestApproval.jsx,
      its selection, invoice cache, effects and [handleAddManualPayment].
    - [Selection] (Modules [TableData], [AvailableInvoices],
      [InvoiceSelection]): the checkboxes of
      components/table/TableData.jsx, the buttons and the render of
      components/request-approval/AvailableInvoices.jsx, and the
      selection of the request-approval page they change.
    - [Summary] (Module [PaymentSummary]):
      components/request-approval/PaymentSummary.jsx, the supplier
      grouping, the totals and [handleConfirmSubmit] composed with
      [createBatch] and the page's callbacks; Module
      [ConfirmationModal]: components/ConfirmationModal.jsx, its props
      and defaults, its render and the callbacks of its buttons.
    - [SummaryView] (Modules [SummaryList], [SummaryView]): the render
      of PaymentSummary.jsx, with its confirmation dialog, and of
      PaymentSummaryList.jsx over [Summary].
    - [DetailsModal] (Module [DetailsModal]):
      components/request-approval/PaymentDetailsModal.jsx, the dialog the
      summary opens on a payment, as what it shows, with React's
      rendering of a falsy [cond && <el/>].
    - [ApprovalPage] (Modules [Filters], [ApprovalPage]):
      pages/ApprovalPage.jsx and components/approval/Filters.jsx, the
      filters, their debounced search and the refetch of the batches.
    - [Columns] (Modules [Columns], [TableView], [PaymentList]): the
      columns of utils/columnData.jsx, the render of
      components/table/TableData.jsx, and the Approve and Delete buttons
      of components/approval/PaymentList.jsx wired to the approval page.
    - [PageViews] (Modules [PaginatedTable], [PaymentListView],
      [ApprovalView], [ManualPage]): the render of ApprovalPage.jsx, its
      batches list through PaginatedTable.jsx into TableData.jsx, and its
      two confirmation dialogs; pages/ManualPaymentsPage.jsx, its page
      and page size set by its table, the effect fetching the payments,
      the Refresh button and the render.
    - [EndToEnd]: the client composed with the server's answers.

    Stateful code is written as explicit state passing: the server in the
    [St] monad over its [world], the React code as functions from a
    hook's or component's state (a [Record] of its [useState]s) and the
    answers of the calls it awaits to its result and next state; a
    [useCallback] takes the render it closes over apart from the state it
    updates.  Interleavings are the step relation of [Concurrency] and, on
    the client, explicit sequences of handler calls.

    ** The theorems

    The claims C1 to C40 of the manifest are marked in the files.
    - The token lifecycle (C1 to C4, C20, XeroService): a fresh token is
      used as is, an expired one is refreshed once and persisted, a
      rejected refresh is reported and changes nothing, the tenant
      survives; the OAuth callback stores its token set in the shared
      session before the tenant lookup and saves the one active row, and
      a rejected lookup leaves the session changed and the table as it
      was.
    - The store (C6, C7, TokenStore): one active row after any sequence of
      saves; the queries refine the abstract store.
    - Provider calls and shapes (C5, C10, C11): the list shapes, the
      tax rates that are accounts, an answer without pagination reaching
      the client.
    - The envelope's type (C25, JsonType): every answer of
      [responseFormatter], once stringified, has [envelope_ty]: no
      [undefined] at any depth, only the envelope's keys, the stack only
      outside production.
    - Server errors, authentication and start-up (C8, C28, C29, C33 to
      C35).
    - Concurrency (C21 to C23): two requests can refresh the same token
      twice, two saves can leave two active rows, and a request's
      accounting call can carry the stale access token another request
      loaded into the shared session.
    - The manual-payment form (C16 to C18, C24): the validation, the
      form always has a line, every line's tax is one its account allows,
      the total adds the tax whatever [taxIncl] says, in any host
      arithmetic.
    - The payment hooks and pages (C9, C14, C15, C19, C27, C30, C32,
      C37, C40): the recent-batches card shows at most its limit, every
      batch operation settles, page bounds, concurrent deletions, the
      double submission of a batch, the supplier grouping and its crash
      on [Object.prototype] names, the approval page's search refetching
      from page 1 exactly when it changes, the invoices loaded once per
      connection.
    - The selection of invoices (C26): no invoice id is selected twice.
    - End to end (C11 to C13, C31, C36, C38, C39): an answer without
      pagination that crashes the page at the next render, manual
      payments and batches never confirmed, the login page against the
      login handler (a failed validation answers 500 under zod 4), the recent-batches card that only
      ever shows an error, Xero consent, unrouted endpoints.

    Other theorems of the files state what the claims build on or what
    no claim needs: [Validate.callback_route_spec] (the Xero callback
    exchanges only a string code), [Validate.validateMultiple_spec],
    [Router.sidebar_links] and [Router.guards_redirect] (where the
    sidebar and the guards send the browser),
    [Columns.table_rows_shape] (a row per datum, a cell per column) and
    [Columns.approval_table_actions] (only a pending batch can be
    approved from the table, and confirming approves that batch),
    [Approval.manual_payment_card_closes_iff_added] (the manual payment
    card closes exactly when the page added the payment),
    [ClientState.provider_mount_polls] and [setupSmartInterval_installs]
    (the provider's mount checks the connection and installs the smart
    poll, whose interval stays between its bounds),
    [Envelope.production_error_envelope] (the production case of C25
    spelled out), [DetailsModal.zero_totals_stray] and
    [manual_payment_details] (a manual payment without tax shows the
    text "0" in place of its Tax row),
    [SupplierSearch.first_search_dropdown_closed] (the first supplier
    search never opens the dropdown: it reads the suppliers of the
    render that started it), [mount_completions_commute] and
    [mount_loading_cleared_early] (the order of the mount's two answers
    does not change the data, but the first clears the shared
    [isLoading]), [BillList.page_size_change_requests_twice],
    [late_answer_overwrites] (an earlier page's answer arriving last is
    shown on the later page) and [row_click_not_found] (a bill's row
    leads to a path no route declares),
    [SummaryView.manual_payment_label] (manual payments without
    reference or description all show the label "manual_1"),
    [BillList.table_page_size_three_requests] (a page size chosen in
    the bills table sends three requests, one for the old size),
    [TableViews.client_active_link] (one active page link, the current
    page), [filters_clear_shown] (the approval filters' Clear button
    appears exactly when the filters differ from the defaults, and
    Clear restores them) and
    [login_button_pending] (the login button is disabled and reads
    "Signing in..." from the submit to the server's answer),
    [PageViews.approve_dialog_of_row] (Approve on a row opens the
    dialog naming that batch), [approved_dialog_reads_undefined] (the
    dialog closed after a successful approval asks about batch
    "undefined"), [no_batches_message],
    [SummaryView.confirm_dialog_not_loading]
    (while the batch is created, the summary's dialog still offers
    "Finalize Batch", never "Creating batch..."),
    [callback_success_shown_failed_reported] (the callback page shows
    "Success!" while the navigation it schedules reports "failed"),
    [select_all_buttons] (after Select All, Select All is disabled and
    Clear All enabled), [PageViews.page_size_change_one_request] (a
    new page size in the manual payments table sends one request, for
    page 1), [refresh_sends_nothing] (the page's Refresh button
    rejects before sending anything) and
    [SupplierSearch.opening_submit_errors_shown] (submitting the empty
    form shows each validation error under its own field).

    ** Bounds and representation choices

    JavaScript numbers are modelled as [Z]: every number the server
    handles (page, pageSize, expires_in, timestamps in milliseconds) is an
    integer; double rounding above 2^53 is not modelled.  On the client,
    the strings of numeric inputs are converted by [PaymentForm.Num] up to
    the sign of their value (all [x <= 0] needs), or to an integer.
    The amounts of the client (decimal numbers, [toFixed]) go through
    the interface [JsArith]: C18 holds in every instance; the other
    theorems on amounts assume [JsArithOk] and state the amounts where
    the inputs are integers, which the integer instance shows
    consistent; double rounding is the host's.
    zod is zod 4, the version whose API the schemas call ([z.email]):
    its default messages and issue codes, [required_error] ignored, and
    a [ZodError] without [.errors], so the [error.errors.map] of
    validateSchema.js throws and a failed validation answers 500 through
    [errorHandler].
    Strings are ASCII.  There is no fuel: every recursion is structural.
    [startServer] makes at most [retries = 5] attempts (C35).

    ** Not modelled

    React rendering and CSS: the components that only draw their props
    (Layout*.jsx, Navbar*.jsx, ErrorPage.jsx, the invoice badges,
    SelectedContact, SupplierBillsPage), DashboardPage
    (constant sample data) and the unused LoginPage copy.jsx;
    ContactSearch.jsx, which no file imports, and ManualPayment.jsx,
    whose timers and handlers repeat what [PaymentForm] and [Approval]
    model; the values of decimal
    arithmetic and [toFixed] (an interface only); the cleanup of effects
    ([clearTimeout]); property names inherited from [Object.prototype]
    except in [supplierSummary] (invoice ids and field names are not
    such names); the order JavaScript gives to integer-like keys of an
    object; date parsing and locale formatting
    ([new Date(string)], [toLocaleDateString], [Intl.NumberFormat]),
    which are the host's; bcrypt and JWT signing (library calls, section
    parameters); the MySQL engine beyond the modelled queries (a
    [DATETIME] column keeps [expires_at] as the exact millisecond value,
    without MySQL's rounding of the [Date]); the
    internals of the xero-node SDK (only its interface); logging. *)

From stdpp Require Export base list strings option sets.
From Stdlib Require Export ZArith Lia.

Declare Scope xero_scope.
Delimit Scope xero_scope with xero.

Create HintDb xero.
Create Rewrite HintDb xero_simpl.

(** ** The state-and-error monad

    [St S E A] threads a state [S]; a computation ends with [inl e] (a
    thrown error) or [inr a] (a returned value), together with the state
    reached.  Errors keep the state: the writes performed before a throw
    stay performed, as in the awaited JavaScript code. *)

Definition St (S E A : Type) : Type := S -> (E + A) * S.

Section Monad.
Context {S E : Type}.

Definition st_ret {A} (a : A) : St S E A := fun s => (inr a, s).

Definition st_bind {A B} (m : St S E A) (k : A -> St S E B) : St S E B :=
  fun s => match m s with
           | (inl e, s') => (inl e, s')
           | (inr a, s') => k a s'
           end.

Definition st_throw {A} (e : E) : St S E A := fun s => (inl e, s).
Definition st_get : St S E S := fun s => (inr s, s).
Definition st_put (s : S) : St S E unit := fun _ => (inr tt, s).
Definition st_modify (f : S -> S) : St S E unit := fun s => (inr tt, f s).

(** [try m catch h]: the handler sees the error and the state reached. *)
Definition st_catch {A} (m : St S E A) (h : E -> St S E A) : St S E A :=
  fun s => match m s with
           | (inl e, s') => h e s'
           | (inr a, s') => (inr a, s')
           end.

(** A state predicate kept by every step of a computation, whether it
    returns or throws. *)
Definition st_preserves {A} (P : S -> Prop) (m : St S E A) : Prop :=
  forall s, P s -> P (snd (m s)).

End Monad.

(** A synchronous computation that returns [inr a] or throws [inl e]. *)
Definition ex_bind {E A B} (m : E + A) (k : A -> E + B) : E + B :=
  match m with inl e => inl e | inr a => k a end.

(** [xs.map(f)] where [f] may throw: the first error, or every result. *)
Fixpoint traverse {E A B} (f : A -> E + B) (xs : list A) : E + list B :=
  match xs with
  | [] => inr []
  | x :: xs' => ex_bind (f x) (fun y => ex_bind (traverse f xs') (fun ys => inr (y :: ys)))
  end.

(** The element of a list with the greatest key; the first one wins a tie
    ([ORDER BY key DESC LIMIT 1] on unique keys). *)
Fixpoint max_by {A} (key : A -> nat) (l : list A) : option A :=
  match l with
  | [] => None
  | x :: l' =>
      match max_by key l' with
      | None => Some x
      | Some y => if decide (key x < key y)%nat then Some y else Some x
      end
  end.

(** The last element satisfying a test, scanning left to right. *)
Definition last_such {A} (p : A -> bool) (l : list A) : option A :=
  fold_left (fun acc x => if p x then Some x else acc) l None.

(** Zero or more steps of a relation: the runs of a transition system. *)
Inductive star {A} (R : A -> A -> Prop) : A -> A -> Prop :=
| star_refl a : star R a a
| star_step a b c : R a b -> star R b c -> star R a c.

(** ** Lemmas on the monad *)

Section MonadLemmas.
Context {S E : Type}.

Lemma st_bind_ret_l {A B} (a : A) (k : A -> St S E B) s :
  st_bind (st_ret a) k s = k a s.
Proof. reflexivity. Qed.

Lemma st_bind_ok {A B} (m : St S E A) (k : A -> St S E B) s a s' :
  m s = (inr a, s') -> st_bind m k s = k a s'.
Proof. unfold st_bind. by intros ->. Qed.

Lemma st_bind_err {A B} (m : St S E A) (k : A -> St S E B) s e s' :
  m s = (inl e, s') -> st_bind m k s = (inl e, s').
Proof. unfold st_bind. by intros ->. Qed.

Lemma st_bind_assoc {A B C} (m : St S E A) (k : A -> St S E B)
  (k' : B -> St S E C) s :
  st_bind (st_bind m k) k' s = st_bind m (fun a => st_bind (k a) k') s.
Proof. unfold st_bind. by destruct (m s) as [[e|a] s']. Qed.

Lemma st_preserves_bind {A B} (P : S -> Prop) (m : St S E A)
  (k : A -> St S E B) :
  st_preserves P m -> (forall a, st_preserves P (k a)) ->
  st_preserves P (st_bind m k).
Proof.
  intros Hm Hk s Hs. unfold st_bind.
  specialize (Hm s Hs). destruct (m s) as [[e|a] s']; simpl in *; auto.
  by apply Hk.
Qed.

Lemma st_preserves_ret {A} P (a : A) : st_preserves P (@st_ret S E A a).
Proof. by intros s Hs. Qed.

Lemma st_preserves_throw {A} P (e : E) : st_preserves P (@st_throw S E A e).
Proof. by intros s Hs. Qed.

Lemma st_preserves_get P : st_preserves P (@st_get S E).
Proof. by intros s Hs. Qed.
End MonadLemmas.

Arguments st_ret {S E A} a _ /.
Arguments st_throw {S E A} e _ /.
Arguments st_get {S E} _ /.
Arguments st_put {S E} s _ /.
Arguments st_modify {S E} f _ /.

Notation "x <- m ;; k" := (st_bind m (fun x => k))
  (at level 100, m at next level, right associativity) : xero_scope.
Notation "m ;;; k" := (st_bind m (fun _ => k))
  (at level 100, right associativity) : xero_scope.

Notation "x <-? m ;; k" := (ex_bind m (fun x => k))
  (at level 100, m at next level, right associativity) : xero_scope.

#[export] Hint Resolve st_preserves_bind st_preserves_ret st_preserves_throw
  st_preserves_get : xero.
#[export] Hint Rewrite @st_bind_ret_l @st_bind_assoc : xero_simpl.

(** ** Generic lemmas on lists and options *)

Lemma max_by_in {A} (key : A -> nat) l x : max_by key l = Some x -> In x l.
Proof.
  induction l as [|y l IH]; simpl; [done|].
  destruct (max_by key l) as [z|]; [case_decide|]; intros [= <-]; auto.
Qed.

Lemma max_by_None {A} (key : A -> nat) l : max_by key l = None <-> l = [].
Proof.
  split; [|by intros ->].
  destruct l as [|y l]; simpl; [done|].
  destruct (max_by key l); [case_decide|]; done.
Qed.

Lemma max_by_ge {A} (key : A -> nat) l x y :
  max_by key l = Some x -> In y l -> (key y <= key x)%nat.
Proof.
  revert x. induction l as [|z l IH]; simpl; [done|]. intros x Hx [<-|Hy].
  - destruct (max_by key l) as [w|]; [case_decide|]; simplify_eq; lia.
  - destruct (max_by key l) as [w|] eqn:E.
    + specialize (IH w eq_refl Hy). case_decide; simplify_eq; lia.
    + apply max_by_None in E. subst. done.
Qed.

Lemma max_by_map {A B} (key : A -> nat) (key' : B -> nat) (f : A -> B) l :
  (forall x, key' (f x) = key x) -> max_by key' (map f l) = f <$> max_by key l.
Proof.
  intros Hf. induction l as [|x l IH]; simpl; [done|]. rewrite IH.
  destruct (max_by key l) as [y|]; simpl; [|done]. rewrite !Hf.
  by case_decide.
Qed.

(** String concatenation is a monoid. *)
Lemma string_app_assoc (a b c : string) : (a +:+ b) +:+ c = a +:+ (b +:+ c).
Proof. induction a as [|x a IH]; [reflexivity|]. exact (f_equal (String x) IH). Qed.

Lemma string_app_nil_r (a : string) : a +:+ "" = a.
Proof. induction a as [|x a IH]; [reflexivity|]. exact (f_equal (String x) IH). Qed.

(** [String.append] is [simpl never] under stdpp: its two equations. *)
Lemma string_app_nil_l (a : string) : "" +:+ a = a.
Proof. reflexivity. Qed.

Lemma string_app_cons c (a b : string) : String c a +:+ b = String c (a +:+ b).
Proof. reflexivity. Qed.

#[export] Hint Rewrite string_app_assoc string_app_nil_r string_app_nil_l string_app_cons
  : xero_simpl.

Lemma star_one {A} (R : A -> A -> Prop) a b : R a b -> star R a b.
Proof. intros H. eapply star_step; [exact H|constructor]. Qed.

Lemma star_trans {A} (R : A -> A -> Prop) a b c :
  star R a b -> star R b c -> star R a c.
Proof. induction 1; intros; [done|]. eapply star_step; eauto. Qed.

(** Booleans of the code as [Prop]s, for the automation. *)
Lemma ex_bind_inr {E A B} (a : A) (k : A -> E + B) : ex_bind (inr a) k = k a.
Proof. done. Qed.

Lemma ex_bind_inl {E A B} (e : E) (k : A -> E + B) : ex_bind (inl e) k = inl e.
Proof. done. Qed.

#[export] Hint Rewrite @ex_bind_inr @ex_bind_inl : xero_simpl.

Lemma ex_bind_inr_inv {E A B} (m : E + A) (k : A -> E + B) b :
  ex_bind m k = inr b -> exists a, m = inr a /\ k a = inr b.
Proof. destruct m; simpl; [discriminate|eauto]. Qed.

(** [traverse] of a total function is its [map]. *)
Lemma traverse_inr {E A B} (f : A -> B) (xs : list A) :
  traverse (E:=E) (fun x => inr (f x)) xs = inr (map f xs).
Proof. induction xs as [|x xs IH]; [done|]. simpl. by rewrite IH. Qed.

(** Each result of [traverse] is the result of its element. *)
Lemma traverse_Forall2 {E A B} (f : A -> E + B) xs ys :
  traverse f xs = inr ys -> Forall2 (fun x y => f x = inr y) xs ys.
Proof.
  revert ys. induction xs as [|x xs IH]; intros ys H; simpl in H; [injection H as <-; constructor|].
  destruct (f x) eqn:Ef; [discriminate|]. simpl in H. destruct (traverse f xs) eqn:E'; [discriminate|].
  injection H as <-. constructor; [done|]. by apply IH.
Qed.

Lemma traverse_ok {E A B} (f : A -> E + B) xs :
  Forall (fun x => exists y, f x = inr y) xs -> exists ys, traverse f xs = inr ys.
Proof.
  induction 1 as [|x xs [y Hy] _ [ys IH]]; [by exists []|]. exists (y :: ys). simpl. by rewrite Hy, IH.
Qed.

Lemma traverse_length {E A B} (f : A -> E + B) xs ys :
  traverse f xs = inr ys -> length ys = length xs.
Proof. intros H. symmetry. exact (Forall2_length _ _ _ (traverse_Forall2 f xs ys H)). Qed.

Lemma Z_leb_true a b : (a <=? b)%Z = true <-> (a <= b)%Z.
Proof. apply Z.leb_le. Qed.

Lemma Z_leb_false a b : (a <=? b)%Z = false <-> (b < a)%Z.
Proof. rewrite Z.leb_gt. done. Qed.

#[export] Hint Rewrite Z_leb_true Z_leb_false : xero_simpl.

(** Split a membership [x ∈ [a; b; ...]] into its cases, discarding
    those that are impossible by constructors. *)
Ltac elem_cases H :=
  repeat (apply elem_of_cons in H as [H|H]; [try discriminate H|]);
  try (apply elem_of_nil in H; contradiction).

(** [inv_st H] takes apart an equation [m s = (r, s')] produced by
    running a computation. *)
Ltac inv_st H := injection H as <- <-.

(** [inr_binds H] peels the binds of [H : (x <-? m ;; k) = inr b],
    keeping an equation [m = inr x] for each. *)
Ltac inr_binds H :=
  repeat (let a := fresh "a" in let Ha := fresh "Ha" in
          apply ex_bind_inr_inv in H as (a & Ha & H); cbv beta in H).

(** Unfold a monadic computation and evaluate its binds. *)
Ltac st_simpl := unfold st_bind, st_ret, st_throw, st_get, st_put, st_modify in *; simpl in *.
