(* ===== verification/JsValue.v ===== *)
(** * JavaScript values as the backend manipulates them

    The values that flow through the controllers, the service and the
    response formatter: [undefined], [null], booleans, numbers (integers,
    see the header of [Prelude]), strings, arrays and plain objects.  An
    object is an association list of its own enumerable keys in insertion
    order, without duplicates, which is what [Object.keys], object
    literals, spread and [JSON.stringify] observe.

    Operations: truthiness ([if (x)], [a || b], [a && b]), property reads
    [o.k] (a TypeError on [undefined]/[null]) and [o?.k], property
    assignment, [delete], [Object.keys], and the loop
    [Object.keys(params).forEach(key => params[key] === undefined &&
    delete params[key])] of controllers/xeroController.js. *)

From S2P Require Import Prelude.
From stdpp Require Import pretty.

#[local] Set Warnings "-register-all".


Inductive jsval : Type :=
| JUndef
| JNull
| JBool (b : bool)
| JNum (n : Z)
| JStr (s : string)
| JArr (xs : list jsval)
| JObj (fields : list (string * jsval)).

(** ** Induction and equality through arrays and objects *)

Section jsval_nested_ind.
Variable P : jsval -> Prop.
Hypothesis case_undef : P JUndef.
Hypothesis case_null : P JNull.
Hypothesis case_bool : forall b, P (JBool b).
Hypothesis case_num : forall n, P (JNum n).
Hypothesis case_str : forall s, P (JStr s).
Hypothesis case_arr : forall xs, Forall P xs -> P (JArr xs).
Hypothesis case_obj : forall fs, Forall (fun kv => P kv.2) fs -> P (JObj fs).

(** Induction on values through the elements of arrays and objects. *)
Fixpoint jsval_ind' (v : jsval) : P v :=
  match v with
  | JUndef => case_undef
  | JNull => case_null
  | JBool b => case_bool b
  | JNum n => case_num n
  | JStr s => case_str s
  | JArr xs =>
      case_arr xs ((fix go (xs : list jsval) : Forall P xs :=
                      match xs return Forall P xs with
                      | [] => @List.Forall_nil _ _
                      | x :: xs' => @List.Forall_cons _ _ x xs' (jsval_ind' x) (go xs')
                      end) xs)
  | JObj fs =>
      case_obj fs ((fix go (fs : list (string * jsval)) : Forall (fun kv => P kv.2) fs :=
                      match fs return Forall (fun kv => P kv.2) fs with
                      | [] => @List.Forall_nil _ _
                      | kv :: fs' => @List.Forall_cons _ _ kv fs' (jsval_ind' kv.2) (go fs')
                      end) fs)
  end.
End jsval_nested_ind.

(** Structural equality of values, the [===] of the constants a type
    names; [jsval_eq_dec] makes it an [EqDecision]. *)
Fixpoint jsval_eqb (x y : jsval) : bool :=
  match x, y with
  | JUndef, JUndef | JNull, JNull => true
  | JBool a, JBool b => Bool.eqb a b
  | JNum a, JNum b => Z.eqb a b
  | JStr a, JStr b => String.eqb a b
  | JArr xs, JArr ys =>
      (fix go (xs ys : list jsval) : bool :=
         match xs, ys with
         | [], [] => true
         | x :: xs', y :: ys' => jsval_eqb x y && go xs' ys'
         | _, _ => false
         end) xs ys
  | JObj fs, JObj gs =>
      (fix go (fs gs : list (string * jsval)) : bool :=
         match fs, gs with
         | [], [] => true
         | (k, x) :: fs', (k', y) :: gs' => String.eqb k k' && jsval_eqb x y && go fs' gs'
         | _, _ => false
         end) fs gs
  | _, _ => false
  end.

Lemma jsval_eqb_spec x y : jsval_eqb x y = true <-> x = y.
Proof.
  revert y. induction x as [| | | | |xs IH|fs IH] using jsval_ind'; intros [| |b'|n'|s'|ys|gs];
    simpl; rewrite ?Bool.eqb_true_iff, ?Z.eqb_eq, ?String.eqb_eq; try naive_solver.
  - revert ys. induction IH as [|x xs Hx _ IHxs]; intros [|y ys]; simpl; try naive_solver.
    rewrite andb_true_iff, Hx, IHxs. naive_solver.
  - revert gs. induction IH as [|[k x] fs Hx _ IHfs]; intros [|[k' y] gs]; simpl; try naive_solver.
    rewrite !andb_true_iff, String.eqb_eq, Hx, IHfs. naive_solver.
Qed.

#[export] Instance jsval_eq_dec : EqDecision jsval.
Proof.
  intros x y. destruct (jsval_eqb x y) eqn:E; [left; by apply jsval_eqb_spec|right].
  intros Hxy. apply jsval_eqb_spec in Hxy. congruence.
Defined.


Module Js.

(** ToBoolean: [undefined], [null], [false], [0] and [""] are falsy;
    arrays and objects, even empty, are truthy. *)
Definition truthy (v : jsval) : bool :=
  match v with
  | JUndef | JNull => false
  | JBool b => b
  | JNum n => negb (Z.eqb n 0)
  | JStr s => negb (String.eqb s "")
  | JArr _ | JObj _ => true
  end.

(** [a || b] and [a && b] return one of their operands. *)
Definition or (a b : jsval) : jsval := if truthy a then a else b.
Definition and (a b : jsval) : jsval := if truthy a then b else a.

Definition is_undef (v : jsval) : bool :=
  match v with JUndef => true | _ => false end.

Definition is_nullish (v : jsval) : bool :=
  match v with JUndef | JNull => true | _ => false end.

(** Own-property lookup in an object's fields. *)
Fixpoint field (k : string) (fs : list (string * jsval)) : option jsval :=
  match fs with
  | [] => None
  | (k', v) :: fs' => if String.eqb k k' then Some v else field k fs'
  end.

(** [===] on the primitive values the code compares. *)
Definition strict_eq (a b : jsval) : bool :=
  match a, b with
  | JUndef, JUndef | JNull, JNull => true
  | JBool x, JBool y => Bool.eqb x y
  | JNum x, JNum y => Z.eqb x y
  | JStr x, JStr y => String.eqb x y
  | _, _ => false
  end.

(** [o?.k]: [undefined] when [o] is nullish or lacks [k].  Arrays,
    strings, numbers and booleans have none of the keys the code reads
    ([pagination], [message], [data], ...), so the read gives
    [undefined] on them too. *)
Definition opt_get (o : jsval) (k : string) : jsval :=
  match o with
  | JObj fs => default JUndef (field k fs)
  | _ => JUndef
  end.

(** [o.k]: [None] is the TypeError of reading a property of [undefined]
    or [null]. *)
Definition get (o : jsval) (k : string) : option jsval :=
  if is_nullish o then None else Some (opt_get o k).

(** [o[k] = v]: replaces the value in place or appends the key. *)
Fixpoint set_field (k : string) (v : jsval) (fs : list (string * jsval))
    : list (string * jsval) :=
  match fs with
  | [] => [(k, v)]
  | (k', v') :: fs' =>
      if String.eqb k k' then (k', v) :: fs' else (k', v') :: set_field k v fs'
  end.

(** [delete o[k]]. *)
Fixpoint delete_field (k : string) (fs : list (string * jsval))
    : list (string * jsval) :=
  match fs with
  | [] => []
  | (k', v) :: fs' =>
      if String.eqb k k' then delete_field k fs' else (k', v) :: delete_field k fs'
  end.

Definition keys (fs : list (string * jsval)) : list string := fst <$> fs.

(** The loop of the controllers, statement by statement: for each key
    of [Object.keys(params)] (a snapshot taken before the loop), read
    [params[key]] and delete it when it is [undefined]. *)
Definition drop_undefined_loop (fs : list (string * jsval))
    : list (string * jsval) :=
  fold_left (fun acc k =>
               if is_undef (default JUndef (field k acc))
               then delete_field k acc else acc)
            (keys fs) fs.

(** What the loop computes, written as one filter: the reference the
    loop is proved equal to, under unique keys. *)
Fixpoint drop_undefined (fs : list (string * jsval))
    : list (string * jsval) :=
  match fs with
  | [] => []
  | (k, v) :: fs' =>
      if is_undef v then drop_undefined fs' else (k, v) :: drop_undefined fs'
  end.

(** [s.split(sep)] for a one-character separator, given as a test:
    the pieces between separators, empty ones included. *)
Fixpoint split_acc (is_sep : Ascii.ascii -> bool) (cur : string) (s : string) : list string :=
  match s with
  | EmptyString => [cur]
  | String c s' =>
      if is_sep c then cur :: split_acc is_sep EmptyString s'
      else split_acc is_sep (cur +:+ String c EmptyString) s'
  end.

(** A string with no separator. *)
Definition no_sep (is_sep : Ascii.ascii -> bool) (s : string) : bool :=
  forallb (fun c => negb (is_sep c)) (String.list_ascii_of_string s).

Definition split (is_sep : Ascii.ascii -> bool) (s : string) : list string :=
  split_acc is_sep EmptyString s.

(** The white space [String.prototype.trim] removes, on ASCII: tab, line
    feed, vertical tab, form feed, carriage return, space. *)
Definition is_space (c : Ascii.ascii) : bool :=
  let n := Ascii.nat_of_ascii c in ((9 <=? n) && (n <=? 13)) || (n =? 32).

Fixpoint trim_start (s : string) : string :=
  match s with
  | String c s' => if is_space c then trim_start s' else s
  | EmptyString => EmptyString
  end.

(** [s.trim()]: white space removed at both ends. *)
Definition trim (s : string) : string :=
  String.string_of_list_ascii
    (rev (String.list_ascii_of_string
            (trim_start (String.string_of_list_ascii
                           (rev (String.list_ascii_of_string (trim_start s))))))).

(** [String(v)], as a template literal [`${v}`] converts: integers in
    decimal, arrays joined with [","] (with [null] and [undefined]
    elements empty), plain objects as ["[object Object]"]. *)
Fixpoint to_string (v : jsval) : string :=
  match v with
  | JUndef => "undefined"
  | JNull => "null"
  | JBool b => if b then "true" else "false"
  | JNum n => pretty n
  | JStr s => s
  | JArr xs =>
      (fix go (first : bool) (xs : list jsval) : string :=
         match xs with
         | [] => ""
         | x :: xs' =>
             (if first then "" else ",") +:+
             (if is_nullish x then "" else to_string x) +:+ go false xs'
         end) true xs
  | JObj _ => "[object Object]"
  end%string.

(** The array index keys ["0"], ["1"], ... of [n] elements. *)
Definition index_keys (n : nat) : list string := pretty <$> seq 0 n.

(** [Object.keys(o)]: [None] is the TypeError on [undefined] and [null];
    arrays and strings have their index keys, numbers and booleans none. *)
Definition own_keys (o : jsval) : option (list string) :=
  match o with
  | JUndef | JNull => None
  | JObj fs => Some (keys fs)
  | JArr xs => Some (index_keys (length xs))
  | JStr s => Some (index_keys (String.length s))
  | JBool _ | JNum _ => Some []
  end.

(** The element at index key [k], counting from [i]. *)
Fixpoint index_lookup {A} (i : nat) (k : string) (xs : list A) : option A :=
  match xs with
  | [] => None
  | x :: xs' => if String.eqb k (pretty i) then Some x else index_lookup (S i) k xs'
  end.

(** [o[k]] for a key [k] of [Object.keys(o)]. *)
Definition own_value (o : jsval) (k : string) : jsval :=
  match o with
  | JObj fs => default JUndef (field k fs)
  | JArr xs => default JUndef (index_lookup 0 k xs)
  | JStr s =>
      default JUndef ((fun c => JStr (String c EmptyString)) <$>
                      index_lookup 0 k (String.list_ascii_of_string s))
  | _ => JUndef
  end.

(** [{...o}]: the own enumerable properties of [o] in order; spreading
    [undefined] or [null] adds nothing. *)
Definition spread (o : jsval) : list (string * jsval) :=
  match own_keys o with
  | Some ks => map (fun k => (k, own_value o k)) ks
  | None => []
  end.

(** [s.includes(sub)]: [sub] occurs at some position of [s]. *)
Fixpoint includes (sub s : string) : bool :=
  String.prefix sub s ||
  match s with
  | EmptyString => false
  | String _ s' => includes sub s'
  end.

(** A relative index of [Array.prototype.slice]: negative counts from
    the end, the result is clamped to [0, len]. *)
Definition rel_index (i : Z) (len : nat) : nat :=
  if (i <? 0)%Z then Z.to_nat (Z.max (Z.of_nat len + i) 0)
  else Nat.min (Z.to_nat i) len.

(** [xs.slice(start, end)] *)
Definition slice {A} (start stop : Z) (xs : list A) : list A :=
  let from := rel_index start (length xs) in
  let to := rel_index stop (length xs) in
  firstn (to - from) (skipn from xs).

End Js.

(** ** Lemmas *)

(** Helpers of the proof that the cleanup loop is a filter. *)

Section JsHelpers.
Import Js.

(** One iteration of the loop body. *)
Definition cleanup_step (acc : list (string * jsval)) (k : string) :=
  if is_undef (default JUndef (field k acc)) then delete_field k acc else acc.

(** Removing the entries of key [k] whose value is [undefined]. *)
Fixpoint del_undef_key (k : string) (fs : list (string * jsval)) :=
  match fs with
  | [] => []
  | (k', v) :: fs' =>
      if String.eqb k k' && is_undef v then del_undef_key k fs'
      else (k', v) :: del_undef_key k fs'
  end.

(** Removing the [undefined] entries whose key is in [ks]. *)
Fixpoint drop_undef_in (ks : list string) (fs : list (string * jsval)) :=
  match fs with
  | [] => []
  | (k, v) :: fs' =>
      if bool_decide (k ∈ ks) && is_undef v then drop_undef_in ks fs'
      else (k, v) :: drop_undef_in ks fs'
  end.

End JsHelpers.


Section JsLemmas.
Import Js.

Lemma field_app k fs1 fs2 :
  field k (fs1 ++ fs2) =
    match field k fs1 with Some v => Some v | None => field k fs2 end.
Proof.
  induction fs1 as [|[k' v'] fs1 IH]; simpl; [done|].
  by destruct (String.eqb k k').
Qed.

Lemma field_In k fs v : field k fs = Some v -> In (k, v) fs.
Proof.
  induction fs as [|[k' v'] fs IH]; simpl; [done|].
  destruct (String.eqb_spec k k') as [->|]; [intros [= ->]; auto|auto].
Qed.

Lemma field_None k fs : field k fs = None <-> k ∉ keys fs.
Proof.
  induction fs as [|[k' v'] fs IH]; simpl.
  - split; [set_solver|done].
  - destruct (String.eqb_spec k k') as [->|Hne].
    + split; [done|]. intros H. exfalso. apply H. constructor.
    + rewrite IH. rewrite elem_of_cons. naive_solver.
Qed.

Lemma field_delete_same k fs : field k (delete_field k fs) = None.
Proof.
  induction fs as [|[k' v'] fs IH]; simpl; [done|].
  destruct (String.eqb_spec k k') as [->|Hne]; simpl; [done|].
  apply String.eqb_neq in Hne. by rewrite Hne.
Qed.

Lemma field_delete_other k k' fs :
  k <> k' -> field k (delete_field k' fs) = field k fs.
Proof.
  intros Hne. induction fs as [|[k'' v''] fs IH]; simpl; [done|].
  destruct (String.eqb_spec k' k'') as [->|Hne']; simpl.
  - apply String.eqb_neq in Hne. by rewrite Hne.
  - by rewrite IH.
Qed.

Lemma delete_field_not_in k fs : k ∉ keys fs -> delete_field k fs = fs.
Proof.
  induction fs as [|[k' v'] fs IH]; simpl; [done|].
  rewrite elem_of_cons. intros Hk.
  destruct (String.eqb_spec k k') as [->|]; [naive_solver|].
  simpl. f_equal. apply IH. naive_solver.
Qed.

Lemma delete_field_drop_comm k fs :
  delete_field k (drop_undefined fs) = drop_undefined (delete_field k fs).
Proof.
  induction fs as [|[k' v'] fs IH]; simpl; [done|].
  destruct (is_undef v') eqn:Hu; destruct (String.eqb k k') eqn:Hk; simpl;
    rewrite ?Hu, ?Hk; congruence.
Qed.

Lemma keys_drop_sub fs k : k ∈ keys (drop_undefined fs) -> k ∈ keys fs.
Proof.
  induction fs as [|[k' v'] fs IH]; simpl; [done|].
  unfold keys in *. destruct (is_undef v'); simpl; rewrite !elem_of_cons; naive_solver.
Qed.

Lemma set_field_same k v fs : field k (set_field k v fs) = Some v.
Proof.
  induction fs as [|[k' v'] fs IH]; simpl.
  - by rewrite String.eqb_refl.
  - destruct (String.eqb_spec k k') as [->|Hne]; simpl.
    + by rewrite String.eqb_refl.
    + apply String.eqb_neq in Hne. by rewrite Hne.
Qed.

Lemma set_field_other k k' v fs :
  k <> k' -> field k (set_field k' v fs) = field k fs.
Proof.
  intros Hne. induction fs as [|[k'' v''] fs IH]; simpl.
  - apply String.eqb_neq in Hne. by rewrite Hne.
  - destruct (String.eqb_spec k' k'') as [->|Hne']; simpl.
    + apply String.eqb_neq in Hne. by rewrite Hne.
    + by rewrite IH.
Qed.

Lemma or_truthy a b : truthy a = true -> or a b = a.
Proof. unfold or. by intros ->. Qed.

Lemma or_falsy a b : truthy a = false -> or a b = b.
Proof. unfold or. by intros ->. Qed.

(** *** The cleanup loop of the controllers *)

Lemma del_undef_key_not_in k fs : k ∉ keys fs -> del_undef_key k fs = fs.
Proof.
  induction fs as [|[k' v'] fs IH]; simpl; [done|].
  unfold keys in *. simpl. rewrite elem_of_cons. intros Hk.
  destruct (String.eqb_spec k k'); [naive_solver|]. simpl. f_equal. naive_solver.
Qed.

Lemma keys_del_undef_key_sublist k fs :
  keys (del_undef_key k fs) `sublist_of` keys fs.
Proof.
  induction fs as [|[k' v'] fs IH]; simpl; [done|].
  destruct (_ && _); simpl; [by apply sublist_cons | by apply sublist_skip].
Qed.

Lemma cleanup_step_nodup k fs :
  NoDup (keys fs) -> cleanup_step fs k = del_undef_key k fs.
Proof.
  unfold cleanup_step. induction fs as [|[k' v'] fs IH]; simpl; [done|].
  unfold keys. simpl. rewrite NoDup_cons. intros [Hnot Hnd].
  destruct (String.eqb_spec k k') as [->|Hne]; simpl.
  - rewrite (del_undef_key_not_in k' fs Hnot).
    destruct (is_undef v'); [|done]. by apply delete_field_not_in.
  - rewrite <- IH by done. by destruct (is_undef (default JUndef (field k fs))).
Qed.

Lemma drop_undef_in_nil fs : drop_undef_in [] fs = fs.
Proof.
  induction fs as [|[k v] fs IH]; simpl; [done|]. by f_equal.
Qed.

Lemma drop_undef_in_ext ks ks' fs :
  (forall x, x ∈ ks <-> x ∈ ks') -> drop_undef_in ks fs = drop_undef_in ks' fs.
Proof.
  intros Hext. induction fs as [|[k v] fs IH]; simpl; [done|].
  rewrite IH. by rewrite (bool_decide_ext _ _ (Hext k)).
Qed.

Lemma del_undef_key_drop_undef_in k ks fs :
  del_undef_key k (drop_undef_in ks fs) = drop_undef_in (k :: ks) fs.
Proof.
  induction fs as [|[k' v'] fs IH]; simpl; [done|].
  destruct (is_undef v') eqn:Hu; rewrite ?andb_true_r, ?andb_false_r.
  - destruct (String.eqb_spec k k') as [->|Hne].
    + rewrite (bool_decide_true (k' ∈ k' :: ks)) by (apply elem_of_cons; by left).
      destruct (bool_decide (k' ∈ ks)); simpl; rewrite ?String.eqb_refl, ?Hu; exact IH.
    + rewrite (bool_decide_ext (k' ∈ k :: ks) (k' ∈ ks)) by (rewrite elem_of_cons; naive_solver).
      destruct (bool_decide (k' ∈ ks)); simpl; [done|].
      apply String.eqb_neq in Hne. rewrite Hne. simpl. by f_equal.
  - simpl. rewrite Hu, andb_false_r. by f_equal.
Qed.

Lemma fold_del_undef_key ks D fs :
  fold_left (fun acc k => del_undef_key k acc) ks (drop_undef_in D fs) =
    drop_undef_in (ks ++ D) fs.
Proof.
  revert D. induction ks as [|k ks IH]; intros D; simpl; [done|].
  rewrite del_undef_key_drop_undef_in, IH.
  apply drop_undef_in_ext. intros x. repeat rewrite ?elem_of_app, ?elem_of_cons. tauto.
Qed.

Lemma drop_undef_in_all ks fs :
  (forall k, k ∈ keys fs -> k ∈ ks) -> drop_undef_in ks fs = drop_undefined fs.
Proof.
  induction fs as [|[k v] fs IH]; simpl; [done|].
  unfold keys. simpl. intros Hall.
  rewrite bool_decide_true by (apply Hall; left).
  rewrite IH by (intros; apply Hall; by right). done.
Qed.

Lemma fold_cleanup_step ks fs :
  NoDup (keys fs) ->
  fold_left cleanup_step ks fs = fold_left (fun acc k => del_undef_key k acc) ks fs.
Proof.
  revert fs. induction ks as [|k ks IH]; intros fs Hnd; simpl; [done|].
  rewrite cleanup_step_nodup by done. apply IH.
  eapply sublist_NoDup; [exact Hnd|apply keys_del_undef_key_sublist].
Qed.

(** The loop [Object.keys(params).forEach(key => params[key] ===
    undefined && delete params[key])] of the controllers removes exactly
    the keys whose value is [undefined], keeping the others in their
    order, on every object (an object's keys are unique). *)
Lemma drop_undefined_loop_spec fs :
  NoDup (keys fs) -> drop_undefined_loop fs = drop_undefined fs.
Proof.
  intros Hnd. unfold drop_undefined_loop.
  change (fun acc k => if is_undef (default JUndef (field k acc))
                       then delete_field k acc else acc) with cleanup_step.
  rewrite fold_cleanup_step by done.
  rewrite <- (drop_undef_in_nil fs) at 2. rewrite fold_del_undef_key.
  apply drop_undef_in_all. intros k. rewrite elem_of_app. auto.
Qed.

(** On an object with unique keys, no property read sees the cleanup. *)
Lemma field_drop_undefined k fs :
  NoDup (keys fs) ->
  default JUndef (field k (drop_undefined fs)) = default JUndef (field k fs).
Proof.
  induction fs as [|[k' v'] fs IH]; simpl; [done|].
  unfold keys at 1. simpl. rewrite NoDup_cons. intros [Hnot Hnd].
  destruct (is_undef v') eqn:Hu; simpl; destruct (String.eqb_spec k k') as [->|];
    simpl; auto.
  assert (Hn : field k' (drop_undefined fs) = None).
  { apply field_None. intros Hin. by apply Hnot, keys_drop_sub. }
  rewrite Hn. by destruct v'.
Qed.

Lemma split_acc_no_sep p cur s : no_sep p s = true -> split_acc p cur s = [cur +:+ s].
Proof.
  revert cur. induction s as [|c s IH]; intros cur Hs; simpl.
  - by rewrite string_app_nil_r.
  - unfold no_sep in Hs. simpl in Hs. apply andb_prop in Hs as [Hc Hs].
    apply negb_true_iff in Hc. rewrite Hc, IH by done.
    by rewrite string_app_assoc.
Qed.

(** Splitting at the first separator after a separator-free prefix. *)
Lemma split_acc_app p cur a c b :
  no_sep p a = true -> p c = true ->
  split_acc p cur (a +:+ String c b) = (cur +:+ a) :: split_acc p "" b.
Proof.
  intros Ha Hc. revert cur. induction a as [|c' a IH]; intros cur; simpl.
  - by rewrite Hc, string_app_nil_r.
  - unfold no_sep in Ha. simpl in Ha. apply andb_prop in Ha as [Hc' Ha].
    apply negb_true_iff in Hc'. rewrite Hc', IH by done.
    by rewrite string_app_assoc.
Qed.

(** [xs.slice(0, n)] for [n >= 0] keeps the first [n] elements. *)
Lemma slice_prefix {A} (n : Z) (xs : list A) :
  (0 <= n)%Z -> slice 0 n xs = firstn (Z.to_nat n) xs.
Proof.
  intros Hn. unfold slice, rel_index. simpl.
  destruct (Z.ltb_spec n 0); [lia|]. rewrite Nat.sub_0_r.
  destruct (Nat.min_spec (Z.to_nat n) (length xs)) as [[_ ->]|[? ->]]; [done|].
  rewrite drop_0. rewrite take_ge by lia. by rewrite take_ge by lia.
Qed.

End JsLemmas.

(** ** Witnesses *)

Example drop_undefined_loop_spec_witness :
  let fs := [("where", JStr "AUTHORISED"); ("order", JUndef);
             ("page", JNum 2); ("pageSize", JUndef)]%string in
  NoDup (Js.keys fs) /\ Js.drop_undefined_loop fs = Js.drop_undefined fs.
Proof.
  intros fs. assert (H : NoDup (Js.keys fs)).
  { apply (bool_decide_unpack _). vm_compute. exact I. }
  split; [exact H|]. apply drop_undefined_loop_spec. exact H.
Defined.

#[export] Hint Rewrite field_delete_same set_field_same : xero_simpl.
#[export] Hint Resolve field_In keys_drop_sub : xero.
