(* ===== verification/TokenStore.v ===== *)
(** * The token store: models/xeroTokenModel.js

    The [xero_tokens] table holds one row per credential ever obtained;
    the row with [active = 1] and the greatest [id] is the current one.
    [XeroTokenModel] issues three kinds of query:
    - [getActiveToken]: [SELECT * FROM xero_tokens WHERE active = 1
      ORDER BY id DESC LIMIT 1], [rows[0]] ([undefined] when empty);
    - [saveToken]: two statements awaited one after the other and not in
      a transaction, [UPDATE xero_tokens SET active = 0] then
      [INSERT ... VALUES (?, ?, ?, ?, 1, NOW(), NOW())];
    - [updateToken]: [UPDATE xero_tokens SET access_token = ?,
      refresh_token = ?, expires_at = ?, updated_at = NOW() WHERE active = 1].

    The table is a list of rows in insertion order with the auto-increment
    counter; each SQL statement is one atomic transition [exec_stmt] (the
    unit of interleaving in [Concurrency]).  The [created_at]/[updated_at]
    columns are written and never read: they are left out.  [expires_at]
    is the millisecond value the service computes; MySQL's conversion of
    the [Date] to the [DATETIME] column (its rounding to the column's
    precision) is not modelled, so the stored expiry is exact.

    The abstract store of spec.md section 4.1 is [option credential] (the
    current credential, if any); [abs] maps a table to it, and the
    refinement lemmas show that each query implements its abstract
    operation. *)

From S2P Require Import Prelude.

Module TokenStore.

(** A row of [xero_tokens].  [tenant_id] is [None] for SQL [NULL]: the
    callback stores [connections[0]?.tenantId], [undefined] when the
    consent gave no organisation. *)
Record token_row := mkRow {
  id : nat;
  access_token : string;
  refresh_token : string;
  expires_at : Z;
  tenant_id : option string;
  active : bool
}.

Record table := mkTable {
  rows : list token_row;
  next_id : nat
}.

(** The credential the code passes to [saveToken]
    ([{accessToken, refreshToken, expiresAt, tenantId}]). *)
Record credential := mkCred {
  cr_access : string;
  cr_refresh : string;
  cr_expires : Z;
  cr_tenant : option string
}.

(** The statements the model issues. *)
Inductive stmt :=
| DeactivateAll
| InsertActive (c : credential)
| UpdateActive (access refresh : string) (expires : Z).

Definition deactivate (r : token_row) : token_row :=
  mkRow (id r) (access_token r) (refresh_token r) (expires_at r) (tenant_id r) false.

Definition update_row (access refresh : string) (expires : Z) (r : token_row)
    : token_row :=
  if active r
  then mkRow (id r) access refresh expires (tenant_id r) (active r)
  else r.

Definition exec_stmt (s : stmt) (t : table) : table :=
  match s with
  | DeactivateAll => mkTable (map deactivate (rows t)) (next_id t)
  | InsertActive c =>
      mkTable (rows t ++ [mkRow (next_id t) (cr_access c) (cr_refresh c)
                                (cr_expires c) (cr_tenant c) true])
              (S (next_id t))
  | UpdateActive a r e => mkTable (map (update_row a r e) (rows t)) (next_id t)
  end.

Definition exec_stmts (ss : list stmt) (t : table) : table :=
  fold_left (fun t s => exec_stmt s t) ss t.

(** [getActiveToken]: [WHERE active = 1 ORDER BY id DESC LIMIT 1]. *)
Definition getActiveToken (t : table) : option token_row :=
  max_by id (filter (fun r => active r) (rows t)).

Definition saveToken_stmts (c : credential) : list stmt :=
  [DeactivateAll; InsertActive c].

Definition saveToken (c : credential) (t : table) : table :=
  exec_stmts (saveToken_stmts c) t.

Definition updateToken_stmts (access refresh : string) (expires : Z) : list stmt :=
  [UpdateActive access refresh expires].

Definition updateToken (access refresh : string) (expires : Z) (t : table) : table :=
  exec_stmts (updateToken_stmts access refresh expires) t.

(** ** Invariants *)

(** Well-formedness of the table: ids strictly increase in insertion
    order and stay below the auto-increment counter. *)
Fixpoint ids_below (n : nat) (rs : list token_row) : Prop :=
  match rs with
  | [] => True
  | r :: rs' => n <= id r /\ ids_below (S (id r)) rs'
  end.

Definition wf (t : table) : Prop :=
  ids_below 0 (rows t) /\ Forall (fun r => id r < next_id t) (rows t).

Definition active_rows (t : table) : list token_row :=
  filter (fun r => active r) (rows t).

(** spec.md section 3: at most one row is active. *)
Definition single_active (t : table) : Prop := length (active_rows t) <= 1.

(** ** The abstract store and the abstraction function *)

Definition cred_of (r : token_row) : credential :=
  mkCred (access_token r) (refresh_token r) (expires_at r) (tenant_id r).

Definition abs (t : table) : option credential := cred_of <$> getActiveToken t.

Definition spec_save (c : credential) (_ : option credential) : option credential :=
  Some c.

Definition spec_update (a r : string) (e : Z) (s : option credential)
    : option credential :=
  (fun c => mkCred a r e (cr_tenant c)) <$> s.

Definition empty_table : table := mkTable [] 1.

(** ** Lemmas *)

Lemma active_rows_app t rs :
  filter (fun r => active r) (rows t ++ rs) =
    active_rows t ++ filter (fun r => active r) rs.
Proof. apply filter_app. Qed.

Lemma filter_active_deactivate rs :
  filter (fun r => active r) (map deactivate rs) = [].
Proof. induction rs as [|r rs IH]; simpl; [done|]. rewrite filter_cons. exact IH. Qed.

Lemma active_update_row a r e x : active (update_row a r e x) = active x.
Proof. unfold update_row. destruct (active x) eqn:E; simpl; auto. Qed.

Lemma id_update_row a r e x : id (update_row a r e x) = id x.
Proof. unfold update_row. destruct (active x) eqn:E; simpl; auto. Qed.

Lemma filter_active_update_row a r e rs :
  filter (fun x => active x) (map (update_row a r e) rs) =
    map (update_row a r e) (filter (fun x => active x) rs).
Proof.
  induction rs as [|x rs IH]; simpl; [done|].
  rewrite !filter_cons, active_update_row.
  destruct (active x); simpl; by rewrite IH.
Qed.

Lemma saveToken_rows c t :
  rows (saveToken c t) =
    map deactivate (rows t) ++
    [mkRow (next_id t) (cr_access c) (cr_refresh c) (cr_expires c) (cr_tenant c) true].
Proof. reflexivity. Qed.

(** The active rows after [saveToken] are exactly the inserted row. *)
Lemma active_rows_saveToken c t :
  active_rows (saveToken c t) =
    [mkRow (next_id t) (cr_access c) (cr_refresh c) (cr_expires c) (cr_tenant c) true].
Proof.
  unfold active_rows. rewrite saveToken_rows, filter_app, filter_active_deactivate.
  done.
Qed.

Lemma getActiveToken_updateToken a r e t :
  getActiveToken (updateToken a r e t) = update_row a r e <$> getActiveToken t.
Proof.
  unfold getActiveToken, updateToken; simpl.
  rewrite filter_active_update_row.
  apply max_by_map. intros x. apply id_update_row.
Qed.

Lemma ids_below_mono n m rs : m <= n -> ids_below n rs -> ids_below m rs.
Proof. destruct rs; simpl; [done|]. intros ? [? ?]; split; [lia|done]. Qed.

Lemma ids_below_map f n rs :
  (forall x, id (f x) = id x) -> ids_below n rs -> ids_below n (map f rs).
Proof.
  intros Hf. revert n. induction rs as [|x rs IH]; intros n; simpl; [done|].
  rewrite Hf. intros [? ?]. split; [done|]. rewrite <- (Hf x). apply IH. by rewrite Hf.
Qed.

Lemma ids_below_snoc n rs x :
  ids_below n rs -> n <= id x -> Forall (fun r => id r < id x) rs ->
  ids_below n (rs ++ [x]).
Proof.
  revert n. induction rs as [|y rs IH]; intros n; simpl; [lia|].
  rewrite Forall_cons. intros [? ?] ? [? ?]. split; [done|]. apply IH; auto; lia.
Qed.

Lemma next_id_saveToken c t : next_id (saveToken c t) = S (next_id t).
Proof. reflexivity. Qed.

Lemma max_by_singleton {A} (key : A -> nat) x : max_by key [x] = Some x.
Proof. reflexivity. Qed.

Lemma wf_exec_stmt s t : wf t -> wf (exec_stmt s t).
Proof.
  intros [Hids Hlt]. destruct s as [|c|a r e]; simpl; split.
  - apply ids_below_map; [done|exact Hids].
  - apply Forall_map. eapply Forall_impl; [exact Hlt|]. done.
  - apply ids_below_snoc; simpl; [exact Hids|lia|exact Hlt].
  - apply Forall_app. split.
    + eapply Forall_impl; [exact Hlt|]. simpl. lia.
    + constructor; [simpl; lia|constructor].
  - apply ids_below_map; [apply id_update_row|exact Hids].
  - apply Forall_map. eapply Forall_impl; [exact Hlt|]. intros x. by rewrite id_update_row.
Qed.

Lemma getActiveToken_Some_active t x :
  getActiveToken t = Some x -> active x = true.
Proof.
  unfold getActiveToken. intros Hx. apply max_by_in, list_elem_of_In in Hx.
  apply list_elem_of_filter in Hx as [Hact _]. by destruct (active x).
Qed.

Lemma update_row_active a r e x :
  active x = true -> update_row a r e x = mkRow (id x) a r e (tenant_id x) true.
Proof. unfold update_row. by intros ->. Qed.

(** ** Theorems *)

(** C6. spec.md 8.1: after any sequence of [saveToken] calls, exactly
    one row is active, and it is the row inserted by the last call, with
    the last credential and the newest id. *)
Theorem saveToken_sequence_single_active cs c t :
  active_rows (fold_left (fun t c => saveToken c t) (cs ++ [c]) t) =
    [mkRow (next_id t + length cs) (cr_access c) (cr_refresh c) (cr_expires c)
           (cr_tenant c) true].
Proof.
  rewrite fold_left_app. simpl. rewrite active_rows_saveToken. do 2 f_equal.
  revert t. induction cs as [|c' cs IH]; intros t; simpl; [lia|].
  rewrite IH, next_id_saveToken. lia.
Qed.

(** C7. Refinement: on every table, [getActiveToken], [saveToken] and
    [updateToken] implement the abstract store of spec.md 4.1: saving
    makes the saved credential the current one, and updating replaces
    the tokens and expiry of the current one (if any), leaving its
    tenant untouched. *)
Theorem TokenStore_refines c a r e t :
  abs (saveToken c t) = spec_save c (abs t) /\
  abs (updateToken a r e t) = spec_update a r e (abs t).
Proof.
  split.
  - unfold abs, getActiveToken. fold (active_rows (saveToken c t)).
    rewrite active_rows_saveToken. by destruct c.
  - unfold abs. rewrite getActiveToken_updateToken.
    destruct (getActiveToken t) as [x|] eqn:E; [|done]. simpl.
    unfold getActiveToken in E. apply max_by_in, list_elem_of_In in E.
    apply list_elem_of_filter in E as [Hact _].
    unfold update_row. by destruct (active x).
Qed.

(** [getActiveToken] returns an active row of the table whose id is
    the greatest among the active rows, and returns nothing exactly when
    no row is active. *)
Theorem getActiveToken_spec t :
  (forall x, getActiveToken t = Some x ->
     active x = true /\ In x (rows t) /\
     forall y, In y (rows t) -> active y = true -> id y <= id x) /\
  (getActiveToken t = None <-> active_rows t = []).
Proof.
  unfold getActiveToken. split; [|apply max_by_None]. intros x Hx.
  pose proof (max_by_in _ _ _ Hx) as Hin. apply list_elem_of_In in Hin.
  apply list_elem_of_filter in Hin as [Hact Hin]. apply list_elem_of_In in Hin.
  split; [by destruct (active x)|]. split; [done|]. intros y Hy Hya.
  eapply max_by_ge; [exact Hx|]. apply list_elem_of_In, list_elem_of_filter.
  split; [by rewrite Hya|]. by apply list_elem_of_In.
Qed.

(** Every statement the model issues keeps the table well formed
    (ids strictly increasing, below the auto-increment counter). *)
Theorem wf_exec_stmts ss t : wf t -> wf (exec_stmts ss t).
Proof.
  unfold exec_stmts. revert t. induction ss as [|s ss IH]; intros t Ht; simpl; [done|].
  apply IH. by apply wf_exec_stmt.
Qed.

(** ** Witnesses *)

Lemma wf_exec_stmts_witness :
  wf empty_table /\
  wf (exec_stmts (saveToken_stmts (mkCred "a1"%string "r1"%string 1000 (Some "t1"%string))
                  ++ updateToken_stmts "a2"%string "r2"%string 2000) empty_table).
Proof.
  assert (H : wf empty_table) by (split; simpl; [exact I|constructor]).
  split; [exact H|]. apply wf_exec_stmts. exact H.
Defined.

End TokenStore.
