(* ===== verification/Provider.v ===== *)
(** * The interface the backend expects of the xero-node SDK

    services/xeroService.js uses one shared [XeroClient] ([xero], built in
    config/xeroConfig.js) and, for refreshing, a fresh [XeroClient]:
    - [xero.setTokenSet({access_token, refresh_token, expires_at})] loads a
      token set into the shared client's session;
    - [new XeroClient().refreshWithRefreshToken(client_id, client_secret,
      refresh_token)] exchanges a refresh token for a new token set;
    - [xero.apiCallback(url)] and [xero.updateTenants()] complete the
      consent flow;
    - [xero.accountingApi.getInvoices / getContacts / getAccounts /
      getTaxRates(...)] take positional arguments and answer
      [{response, body}].

    The SDK is a library: its behaviour is not modelled, it is a parameter
    of the development, the class [XeroApi]; what the backend relies on is
    stated as the class's fields.  The positional parameter lists of the
    four accounting calls are those of the xero-node [AccountingApi]
    (first parameter [xeroTenantId]); [bind_args] is how a JavaScript call
    binds positional arguments to parameter names (missing arguments are
    [undefined], extra ones are ignored).  The provider sees the named
    arguments and the access token of the shared session. *)

From S2P Require Import Prelude JsValue.

Module Provider.

(** A token set as [setTokenSet] receives it. *)
Record token_set := mkTokenSet {
  ts_access : string;
  ts_refresh : string;
  ts_expires : Z
}.

(** What [refreshWithRefreshToken] and [apiCallback] resolve to: the
    fields the code reads ([access_token], [refresh_token],
    [expires_in] in seconds). *)
Record token_response := mkResp {
  rs_access : string;
  rs_refresh : string;
  rs_expires_in : Z
}.

(** The accounting operations the code calls. *)
Inductive sdk_op := OpGetInvoices | OpGetContacts | OpGetAccounts | OpGetTaxRates.

(** The positional parameters of each operation in xero-node's
    [AccountingApi]. *)
Definition signature (op : sdk_op) : list string :=
  match op with
  | OpGetInvoices =>
      ["xeroTenantId"; "ifModifiedSince"; "where"; "order"; "iDs";
       "invoiceNumbers"; "contactIDs"; "statuses"; "page"; "includeArchived";
       "createdByMyApp"; "unitdp"; "summaryOnly"; "pageSize"; "searchTerm"]
  | OpGetContacts =>
      ["xeroTenantId"; "ifModifiedSince"; "where"; "order"; "iDs"; "page";
       "includeArchived"; "summaryOnly"; "searchTerm"; "pageSize"]
  | OpGetAccounts => ["xeroTenantId"; "ifModifiedSince"; "where"; "order"]
  | OpGetTaxRates => ["xeroTenantId"; "where"; "order"]
  end%string.

(** Binding positional arguments to parameter names. *)
Fixpoint bind_args (params : list string) (args : list jsval)
    : list (string * jsval) :=
  match params, args with
  | [], _ => []
  | p :: ps, [] => (p, JUndef) :: bind_args ps []
  | p :: ps, a :: as' => (p, a) :: bind_args ps as'
  end.

(** The SDK, as the backend uses it.  [None] is a rejected promise. *)
Class XeroApi := {
  (** [refreshWithRefreshToken(client_id, client_secret, refresh_token)] *)
  xero_refresh : string -> string -> string -> option token_response;
  (** [apiCallback(url)] with the url built from the code *)
  xero_callback : string -> option token_response;
  (** [updateTenants()]: the tenant ids of the connections, in order, as
      the connections endpoint answers them for the session's access
      token; [None] is a rejected call *)
  xero_tenants : string -> option (list string);
  (** an accounting call: its named arguments and the session's access
      token; the answer is the response [body] *)
  xero_call : sdk_op -> list (string * jsval) -> option string -> option jsval
}.

End Provider.

Section ProviderLemmas.
Import Provider.

Lemma bind_args_length ps args : length (bind_args ps args) = length ps.
Proof.
  revert args. induction ps as [|p ps IH]; intros [|a args]; simpl; auto.
Qed.

Lemma keys_bind_args ps args : Js.keys (bind_args ps args) = ps.
Proof.
  revert args. induction ps as [|p ps IH]; intros [|a args]; simpl; [done|done| |];
    unfold Js.keys in *; simpl; by rewrite IH.
Qed.

End ProviderLemmas.
