(* ===== verification/XeroService.v ===== *)
(** * The Xero service: services/xeroService.js

    The state a request sees is a [world]: the [xero_tokens] table, the
    session of the shared SDK client [xero] (the token set last passed to
    [setTokenSet]), the clock ([Date.now()]) and the trace of the external
    effects issued so far (session loads, refresh calls, SQL statements,
    accounting calls), which the ordering theorems read.  Every operation
    of [XeroService] is a computation of the monad [St world error] of
    [Prelude]: an error keeps the effects performed before it, as an
    awaited JavaScript function that throws keeps the queries it ran.

    - [ensureValidToken]: load the passed row into the shared session; when
      [expires_at <= now], refresh with a fresh client, persist with
      [XeroTokenModel.updateToken], re-read the active row with
      [getActiveToken] and load it into the session; return the row's
      [tenant_id].
    - [getInvoices], [getContacts]: the positional SDK call, then the dual
      result shape: [{pagination, data, message}] when [params.page &&
      params.pageSize], the bare list otherwise.
    - [getTaxRates], [getAccounts]: as written, both call the SDK's
      [getAccounts], with different argument positions.
    - [handleCallback]: exchange the code ([apiCallback], which also
      stores the token set in the shared session, its [expires_at] in
      seconds), read the tenants with that session ([updateTenants], a
      provider call that can reject), [saveToken] with the first tenant.

    The SDK is the class [Provider.XeroApi]; [client_id] and
    [client_secret] (config/xeroConfig.js) are section variables. *)

From S2P Require Import Prelude JsValue TokenStore Provider.

Module XeroService.
Local Open Scope xero_scope.
Import Provider.

(** The external effects, in the order the code issues them. *)
Inductive event :=
| EvSetTokenSet (ts : token_set)
| EvRefresh (refresh_token : string)
| EvStmt (s : TokenStore.stmt)
| EvSelectActive
| EvCallback (code : string)
| EvCall (op : sdk_op) (args : list (string * jsval)) (access : option string).

Record world := mkWorld {
  db : TokenStore.table;
  session : option token_set;
  now : Z;
  trace : list event
}.

(** What the service throws: the refresh call rejected, a property read
    on [undefined] (a TypeError), an accounting call rejected, the
    authorisation exchange rejected. *)
Inductive error := ErrRefreshFailed | ErrTypeError | ErrProviderCall | ErrCallbackFailed.

Abbreviation M := (St world error).

Definition set_db (t : TokenStore.table) (w : world) : world :=
  mkWorld t (session w) (now w) (trace w).
Definition set_session (ts : token_set) (w : world) : world :=
  mkWorld (db w) (Some ts) (now w) (trace w).
Definition add_event (e : event) (w : world) : world :=
  mkWorld (db w) (session w) (now w) (trace w ++ [e]).

Definition emit (e : event) : M unit := st_modify (add_event e).

(** The token set of a row, as [setTokenSet] is called with it. *)
Definition ts_of_row (r : TokenStore.token_row) : token_set :=
  mkTokenSet (TokenStore.access_token r) (TokenStore.refresh_token r)
             (TokenStore.expires_at r).

(** A tenant id as the SDK receives it: SQL [NULL] is [null]. *)
Definition tenant_js (t : option string) : jsval :=
  match t with Some s => JStr s | None => JNull end.

(** [params.k] on the parameter object. *)
Definition param (params : list (string * jsval)) (k : string) : jsval :=
  Js.opt_get (JObj params) k.

Section Service.
Context `{XeroApi}.
Context (client_id client_secret : string).

(** [await xero.setTokenSet(ts)] *)
Definition setTokenSet (ts : token_set) : M unit :=
  emit (EvSetTokenSet ts) ;;; st_modify (set_session ts).

(** One SQL write statement. *)
Definition exec_sql (s : TokenStore.stmt) : M unit :=
  emit (EvStmt s) ;;;
  w <- st_get ;; st_put (set_db (TokenStore.exec_stmt s (db w)) w).

Fixpoint exec_sqls (ss : list TokenStore.stmt) : M unit :=
  match ss with
  | [] => st_ret tt
  | s :: ss' => exec_sql s ;;; exec_sqls ss'
  end.

(** [XeroTokenModel.getActiveToken()] *)
Definition getActiveToken : M (option TokenStore.token_row) :=
  emit EvSelectActive ;;;
  w <- st_get ;; st_ret (TokenStore.getActiveToken (db w)).

(** [XeroTokenModel.updateToken({accessToken, refreshToken, expiresAt})] *)
Definition updateToken (a r : string) (e : Z) : M unit :=
  exec_sqls (TokenStore.updateToken_stmts a r e).

(** [XeroTokenModel.saveToken(...)] *)
Definition saveToken (c : TokenStore.credential) : M unit :=
  exec_sqls (TokenStore.saveToken_stmts c).

(** [Date.now()] *)
Definition date_now : M Z := w <- st_get ;; st_ret (now w).

(** [new XeroClient().refreshWithRefreshToken(client_id, client_secret, rt)] *)
Definition refreshWithRefreshToken (rt : string) : M token_response :=
  emit (EvRefresh rt) ;;;
  match xero_refresh client_id client_secret rt with
  | Some r => st_ret r
  | None => st_throw ErrRefreshFailed
  end.

(** Reading a property of a value that may be [undefined]. *)
Definition require {A} (o : option A) : M A :=
  match o with Some a => st_ret a | None => st_throw ErrTypeError end.

Definition read (o : jsval) (k : string) : M jsval := require (Js.get o k).

(** An accounting call: the SDK reads the shared session's access token. *)
Definition call (op : sdk_op) (args : list jsval) : M jsval :=
  w <- st_get ;;
  let named := bind_args (signature op) args in
  let acc := ts_access <$> session w in
  emit (EvCall op named acc) ;;;
  match xero_call op named acc with
  | Some body => st_ret body
  | None => st_throw ErrProviderCall
  end.

(** [XeroService.ensureValidToken(passedToken)] *)
Definition ensureValidToken (token : TokenStore.token_row) : M (option string) :=
  w <- st_get ;;
  let expiresAt := TokenStore.expires_at token in
  setTokenSet (ts_of_row token) ;;;
  if (expiresAt <=? now w)%Z then
    newToken <- refreshWithRefreshToken (TokenStore.refresh_token token) ;;
    t <- date_now ;;
    updateToken (rs_access newToken) (rs_refresh newToken)
                (t + rs_expires_in newToken * 1000)%Z ;;;
    o <- getActiveToken ;;
    token' <- require o ;;
    setTokenSet (ts_of_row token') ;;;
    st_ret (TokenStore.tenant_id token')
  else st_ret (TokenStore.tenant_id token).

(** The result shape of the paginated operations. *)
Definition shape (key msg : string) (params : list (string * jsval)) (body : jsval)
    : M jsval :=
  if Js.truthy (param params "page") && Js.truthy (param params "pageSize") then
    pagination <- read body "pagination" ;;
    data <- read body key ;;
    st_ret (JObj [("pagination", Js.or pagination JNull); ("data", data);
                  ("message", JStr msg)])
  else read body key.

(** The positional arguments of the four SDK calls, as the code writes them. *)
Definition invoices_args (tenantId : option string) (params : list (string * jsval))
    : list jsval :=
  [tenant_js tenantId; JUndef; param params "where"; param params "order";
   JUndef; param params "invoiceNumbers"; param params "contactIds";
   param params "statuses"; param params "page"; JUndef; JUndef; JUndef;
   JUndef; param params "pageSize"; param params "searchTerm"].

Definition contacts_args (tenantId : option string) (params : list (string * jsval))
    : list jsval :=
  [tenant_js tenantId; JUndef; param params "where"; param params "order";
   JUndef; param params "page"; JUndef; JUndef; param params "searchTerm";
   param params "pageSize"].

Definition taxRates_args (tenantId : option string) (params : list (string * jsval))
    : list jsval :=
  [tenant_js tenantId; JUndef; param params "where"; param params "order"].

Definition accounts_args (tenantId : option string) (params : list (string * jsval))
    : list jsval :=
  [tenant_js tenantId; param params "where"; param params "order"].

(** [XeroService.getInvoices(params, token)] *)
Definition getInvoices (params : list (string * jsval)) (token : TokenStore.token_row)
    : M jsval :=
  tenantId <- ensureValidToken token ;;
  body <- call OpGetInvoices (invoices_args tenantId params) ;;
  shape "invoices" "Invoices synced successfully" params body.

(** [XeroService.getContacts(params, token)] *)
Definition getContacts (params : list (string * jsval)) (token : TokenStore.token_row)
    : M jsval :=
  tenantId <- ensureValidToken token ;;
  body <- call OpGetContacts (contacts_args tenantId params) ;;
  shape "contacts" "Contacts synced successfully" params body.

(** [XeroService.getTaxRates(params, token)]: as written, it calls the
    SDK's [getAccounts] and returns [response.body.accounts]. *)
Definition getTaxRates (params : list (string * jsval)) (token : TokenStore.token_row)
    : M jsval :=
  tenantId <- ensureValidToken token ;;
  body <- call OpGetAccounts (taxRates_args tenantId params) ;;
  read body "accounts".

(** [XeroService.getAccounts(params, token)]: three positional arguments. *)
Definition getAccounts (params : list (string * jsval)) (token : TokenStore.token_row)
    : M jsval :=
  tenantId <- ensureValidToken token ;;
  body <- call OpGetAccounts (accounts_args tenantId params) ;;
  read body "accounts".

(** [XeroService.handleCallback(code)].  [apiCallback] stores the token
    set it receives in the shared client (its [expires_at] in seconds, as
    the SDK computes it from the clock), so that [updateTenants] runs with
    that access token; the row saved afterwards expires [expires_in]
    seconds after [Date.now()], in milliseconds. *)
Definition handleCallback (code : string) : M bool :=
  emit (EvCallback code) ;;;
  tokenSet <- match xero_callback code with
              | Some r => st_ret r
              | None => st_throw ErrCallbackFailed
              end ;;
  t <- date_now ;;
  st_modify (set_session (mkTokenSet (rs_access tokenSet) (rs_refresh tokenSet)
                            (t / 1000 + rs_expires_in tokenSet)%Z)) ;;;
  w <- st_get ;;
  connections <- match session w with
                 | Some ts => match xero_tenants (ts_access ts) with
                              | Some cs => st_ret cs
                              | None => st_throw ErrProviderCall
                              end
                 | None => st_throw ErrProviderCall
                 end ;;
  let tenantId := head connections in
  t <- date_now ;;
  saveToken (TokenStore.mkCred (rs_access tokenSet) (rs_refresh tokenSet)
                               (t + rs_expires_in tokenSet * 1000)%Z tenantId) ;;;
  st_ret true.

End Service.

(** ** The runs the theorems describe *)

(** The world after [setTokenSet ts]. *)
Definition after_set (ts : token_set) (w : world) : world :=
  set_session ts (add_event (EvSetTokenSet ts) w).

Definition refreshed_table (nt : token_response) (w : world) : TokenStore.table :=
  TokenStore.updateToken (rs_access nt) (rs_refresh nt)
    (now w + rs_expires_in nt * 1000)%Z (db w).

Definition refresh_events (token : TokenStore.token_row) (nt : token_response)
    (w : world) : list event :=
  [EvSetTokenSet (ts_of_row token); EvRefresh (TokenStore.refresh_token token);
   EvStmt (TokenStore.UpdateActive (rs_access nt) (rs_refresh nt)
             (now w + rs_expires_in nt * 1000)%Z); EvSelectActive].

(** The token set [apiCallback] leaves in the shared client. *)
Definition callback_session (r : token_response) (w : world) : token_set :=
  mkTokenSet (rs_access r) (rs_refresh r) (now w / 1000 + rs_expires_in r)%Z.

(** The row [handleCallback] saves, with the first tenant of [cs]. *)
Definition callback_cred (r : token_response) (cs : list string) (w : world)
    : TokenStore.credential :=
  TokenStore.mkCred (rs_access r) (rs_refresh r) (now w + rs_expires_in r * 1000)%Z
                    (head cs).

(** What [shape] returns on an object body. *)
Definition shaped (key msg : string) (params : list (string * jsval))
    (bfs : list (string * jsval)) : jsval :=
  if Js.truthy (param params "page") && Js.truthy (param params "pageSize") then
    JObj [("pagination", Js.or (default JUndef (Js.field "pagination" bfs)) JNull);
          ("data", default JUndef (Js.field key bfs)); ("message", JStr msg)]
  else default JUndef (Js.field key bfs).

(** ** Concrete inputs for the witnesses *)

(** An SDK that accepts the refresh token ["r-ok"] and answers every
    accounting call with one body. *)
Definition demo_body : jsval :=
  JObj [("invoices", JArr [JStr "INV-1"]); ("contacts", JArr []);
        ("accounts", JArr [JStr "090"]); ("pagination", JObj [("page", JNum 1)])].

#[local] Instance demo_api : XeroApi := {|
  xero_refresh := fun _ _ rt =>
    if String.eqb rt "r-ok" then Some (mkResp "a2" "r2" 1800) else None;
  xero_callback := fun _ => Some (mkResp "a0" "r0" 1800);
  xero_tenants := fun _ => Some ["tenant-1"];
  xero_call := fun _ _ _ => Some demo_body
|}%string.

Definition demo_row (expires : Z) (rt : string) : TokenStore.token_row :=
  TokenStore.mkRow 1 "a1" rt expires (Some "tenant-1"%string) true.

Definition demo_world (expires : Z) (rt : string) : world :=
  mkWorld (TokenStore.mkTable [demo_row expires rt] 2) None 1000 [].

(** ** Lemmas *)

(** Unfold the service's operations and evaluate the binds. *)
Ltac run_service :=
  unfold ensureValidToken, setTokenSet, emit, refreshWithRefreshToken, date_now,
    updateToken, exec_sqls, exec_sql, getActiveToken, require, read, call, shape,
    TokenStore.updateToken_stmts, TokenStore.saveToken_stmts in *;
  st_simpl.

Section ServiceLemmas.
Context `{XeroApi}.
Context (client_id client_secret : string).

Lemma setTokenSet_run ts w : setTokenSet ts w = (inr tt, after_set ts w).
Proof. reflexivity. Qed.

(** The run of [ensureValidToken] on a token that has not expired. *)
Lemma ensureValidToken_fresh_run token w :
  (now w < TokenStore.expires_at token)%Z ->
  ensureValidToken client_id client_secret token w =
    (inr (TokenStore.tenant_id token), after_set (ts_of_row token) w).
Proof.
  intros Hlt. run_service.
  destruct (Z.leb_spec (TokenStore.expires_at token) (now w)); [lia|done].
Qed.

(** C1. spec.md 8.2: with an access token that has not expired,
    [ensureValidToken] loads it into the shared session and returns its
    tenant; it issues no refresh call and no query, and the table is
    unchanged. *)
Theorem ensureValidToken_fresh token w :
  (now w < TokenStore.expires_at token)%Z ->
  ensureValidToken client_id client_secret token w =
    (inr (TokenStore.tenant_id token), after_set (ts_of_row token) w).
Proof. intros Hlt. by apply ensureValidToken_fresh_run. Qed.


(** C20. spec.md 8.1: once the provider accepts the code, [handleCallback]
    has put the new token set in the shared client before it asks for the
    tenants, with that access token.  When the tenants come back it
    deactivates every row and inserts the new tokens with the first
    tenant, as the one active row, and answers [true]; when the tenants
    call rejects it throws with the table untouched, and the shared client
    keeps the new tokens although no row holds them. *)
Theorem handleCallback_session code r w :
  xero_callback code = Some r ->
  handleCallback code w =
    match xero_tenants (rs_access r) with
    | Some cs =>
        (inr true,
         mkWorld (TokenStore.saveToken (callback_cred r cs w) (db w))
                 (Some (callback_session r w)) (now w)
                 (trace w ++ EvCallback code ::
                    map EvStmt (TokenStore.saveToken_stmts (callback_cred r cs w))))
    | None =>
        (inl ErrProviderCall,
         mkWorld (db w) (Some (callback_session r w)) (now w)
                 (trace w ++ [EvCallback code]))
    end.
Proof.
  intros Hr. unfold handleCallback, saveToken. run_service. rewrite Hr. simpl.
  destruct (xero_tenants (rs_access r)); simpl; [|reflexivity].
  unfold callback_cred, TokenStore.saveToken, TokenStore.exec_stmts; simpl.
  unfold set_db, add_event, set_session, callback_session; simpl. by rewrite <- !app_assoc.
Qed.

(** The run of [ensureValidToken] on an expired token. *)
Lemma ensureValidToken_expired_run token w nt :
  (TokenStore.expires_at token <= now w)%Z ->
  xero_refresh client_id client_secret (TokenStore.refresh_token token) = Some nt ->
  ensureValidToken client_id client_secret token w =
    match TokenStore.getActiveToken (refreshed_table nt w) with
    | Some r =>
        (inr (TokenStore.tenant_id r),
         after_set (ts_of_row r)
           (mkWorld (refreshed_table nt w) (Some (ts_of_row token)) (now w)
                    (trace w ++ refresh_events token nt w)))
    | None =>
        (inl ErrTypeError,
         mkWorld (refreshed_table nt w) (Some (ts_of_row token)) (now w)
                 (trace w ++ refresh_events token nt w))
    end.
Proof.
  intros Hle Hr. run_service.
  destruct (Z.leb_spec (TokenStore.expires_at token) (now w)); [|lia].
  rewrite Hr. simpl.
  unfold refreshed_table, refresh_events, after_set, add_event, set_session, set_db; simpl.
  destruct (TokenStore.getActiveToken _); simpl; rewrite <- ?app_assoc; reflexivity.
Qed.

(** C2. spec.md 8.3: with an expired access token and a refresh the
    provider accepts, [ensureValidToken] loads the old token, issues
    exactly one refresh call, persists the new tokens and expiry
    ([now + expires_in * 1000]) with [updateToken], re-reads the active
    row and loads it into the session before returning its tenant; when
    no row is active any more the re-read gives [undefined] and the
    function throws a TypeError after the table was updated. *)
Theorem ensureValidToken_expired token w nt :
  (TokenStore.expires_at token <= now w)%Z ->
  xero_refresh client_id client_secret (TokenStore.refresh_token token) = Some nt ->
  ensureValidToken client_id client_secret token w =
    match TokenStore.getActiveToken (refreshed_table nt w) with
    | Some r =>
        (inr (TokenStore.tenant_id r),
         after_set (ts_of_row r)
           (mkWorld (refreshed_table nt w) (Some (ts_of_row token)) (now w)
                    (trace w ++ refresh_events token nt w)))
    | None =>
        (inl ErrTypeError,
         mkWorld (refreshed_table nt w) (Some (ts_of_row token)) (now w)
                 (trace w ++ refresh_events token nt w))
    end.
Proof. intros Hle Hr. by apply ensureValidToken_expired_run. Qed.


(** The run of [ensureValidToken] when the refresh is rejected. *)
Lemma ensureValidToken_refresh_rejected_run token w :
  (TokenStore.expires_at token <= now w)%Z ->
  xero_refresh client_id client_secret (TokenStore.refresh_token token) = None ->
  ensureValidToken client_id client_secret token w =
    (inl ErrRefreshFailed,
     add_event (EvRefresh (TokenStore.refresh_token token))
               (after_set (ts_of_row token) w)).
Proof.
  intros Hle Hr. run_service.
  destruct (Z.leb_spec (TokenStore.expires_at token) (now w)); [|lia].
  by rewrite Hr.
Qed.

(** C3. spec.md 4.2, 7: a refresh the provider rejects makes
    [ensureValidToken] throw the refresh error; the table is unchanged and
    the session still holds the expired token. *)
Theorem ensureValidToken_refresh_rejected token w :
  (TokenStore.expires_at token <= now w)%Z ->
  xero_refresh client_id client_secret (TokenStore.refresh_token token) = None ->
  ensureValidToken client_id client_secret token w =
    (inl ErrRefreshFailed,
     add_event (EvRefresh (TokenStore.refresh_token token))
               (after_set (ts_of_row token) w)).
Proof. intros Hle Hr. by apply ensureValidToken_refresh_rejected_run. Qed.


(** C4. When the passed token is the active row of the table (what
    [validateXeroToken] passes) and it has expired, a successful refresh
    cannot end in the TypeError: [ensureValidToken] returns the same
    tenant, the current credential of the store becomes the refreshed one
    with the same tenant, and the session holds the refreshed tokens for
    the call that follows. *)
Theorem ensureValidToken_store_token token w nt :
  TokenStore.getActiveToken (db w) = Some token ->
  (TokenStore.expires_at token <= now w)%Z ->
  xero_refresh client_id client_secret (TokenStore.refresh_token token) = Some nt ->
  exists w',
    ensureValidToken client_id client_secret token w =
      (inr (TokenStore.tenant_id token), w') /\
    TokenStore.abs (db w') =
      Some (TokenStore.mkCred (rs_access nt) (rs_refresh nt)
              (now w + rs_expires_in nt * 1000)%Z (TokenStore.tenant_id token)) /\
    session w' =
      Some (mkTokenSet (rs_access nt) (rs_refresh nt) (now w + rs_expires_in nt * 1000)%Z).
Proof.
  intros Hact Hle Hr. rewrite (ensureValidToken_expired_run token w nt Hle Hr).
  unfold refreshed_table. rewrite TokenStore.getActiveToken_updateToken, Hact. simpl.
  rewrite (TokenStore.update_row_active _ _ _ _ (TokenStore.getActiveToken_Some_active _ _ Hact)).
  eexists. split; [reflexivity|]. split; [|reflexivity].
  unfold TokenStore.abs. simpl. rewrite TokenStore.getActiveToken_updateToken, Hact. simpl.
  rewrite (TokenStore.update_row_active _ _ _ _ (TokenStore.getActiveToken_Some_active _ _ Hact)).
  reflexivity.
Qed.

Lemma shape_obj key msg params bfs w :
  shape key msg params (JObj bfs) w = (inr (shaped key msg params bfs), w).
Proof. unfold shaped. run_service. by destruct (_ && _). Qed.

Lemma call_ok op args w body :
  xero_call op (bind_args (signature op) args) (ts_access <$> session w) = Some body ->
  call op args w =
    (inr body, add_event (EvCall op (bind_args (signature op) args)
                                 (ts_access <$> session w)) w).
Proof. intros Hc. run_service. by rewrite Hc. Qed.

(** C5. spec.md 4.3, 8.4: from one provider answer, [getInvoices] and
    [getContacts] return [{pagination: body.pagination || null, data:
    body.invoices (body.contacts), message}] when both [params.page] and
    [params.pageSize] are truthy, and the bare list [body.invoices]
    ([body.contacts]) otherwise. *)
Theorem getInvoices_getContacts_shape token w params bfs bfs' :
  (now w < TokenStore.expires_at token)%Z ->
  let acc := Some (TokenStore.access_token token) in
  let tenant := TokenStore.tenant_id token in
  xero_call OpGetInvoices (bind_args (signature OpGetInvoices) (invoices_args tenant params)) acc
    = Some (JObj bfs) ->
  xero_call OpGetContacts (bind_args (signature OpGetContacts) (contacts_args tenant params)) acc
    = Some (JObj bfs') ->
  fst (getInvoices client_id client_secret params token w) =
    inr (shaped "invoices" "Invoices synced successfully" params bfs) /\
  fst (getContacts client_id client_secret params token w) =
    inr (shaped "contacts" "Contacts synced successfully" params bfs').
Proof.
  intros Hlt acc tenant Hi Hc. unfold getInvoices, getContacts.
  subst acc tenant. split.
  - erewrite st_bind_ok; [|by apply ensureValidToken_fresh_run].
    erewrite st_bind_ok; cycle 1.
    { apply call_ok. exact Hi. }
    by rewrite shape_obj.
  - erewrite st_bind_ok; [|by apply ensureValidToken_fresh_run].
    erewrite st_bind_ok; cycle 1.
    { apply call_ok. exact Hc. }
    by rewrite shape_obj.
Qed.


Lemma call_read_world op args k w :
  snd (st_bind (call op args) (fun b => read b k) w) =
    add_event (EvCall op (bind_args (signature op) args) (ts_access <$> session w)) w.
Proof.
  run_service. destruct (xero_call _ _ _) as [b|]; simpl; [|done].
  by destruct (Js.get b k).
Qed.

(** [getAccounts] passes [params.where] in the position of the SDK's
    [ifModifiedSince] and [params.order] in the position of [where]: the
    accounting call it issues has [ifModifiedSince = params.where],
    [where = params.order] and no [order]. *)
Theorem getAccounts_argument_positions token w params :
  (now w < TokenStore.expires_at token)%Z ->
  trace (snd (getAccounts client_id client_secret params token w)) =
    trace w ++
    [EvSetTokenSet (ts_of_row token);
     EvCall OpGetAccounts
       [("xeroTenantId", tenant_js (TokenStore.tenant_id token));
        ("ifModifiedSince", param params "where");
        ("where", param params "order");
        ("order", JUndef)]
       (Some (TokenStore.access_token token))].
Proof.
  intros Hlt. unfold getAccounts.
  erewrite st_bind_ok; [|by apply ensureValidToken_fresh_run].
  rewrite call_read_world. simpl. by rewrite <- app_assoc.
Qed.

(** C10. [getTaxRates] never calls the SDK's tax-rates endpoint: it calls
    [getAccounts] (with its arguments in the right positions) and returns
    the [accounts] of the answer. *)
Theorem getTaxRates_returns_accounts token w params bfs :
  (now w < TokenStore.expires_at token)%Z ->
  let named := [("xeroTenantId", tenant_js (TokenStore.tenant_id token));
                ("ifModifiedSince", JUndef); ("where", param params "where");
                ("order", param params "order")] in
  xero_call OpGetAccounts named (Some (TokenStore.access_token token)) = Some (JObj bfs) ->
  getTaxRates client_id client_secret params token w =
    (inr (default JUndef (Js.field "accounts" bfs)),
     add_event (EvCall OpGetAccounts named (Some (TokenStore.access_token token)))
       (after_set (ts_of_row token) w)).
Proof.
  intros Hlt named Hc. unfold getTaxRates.
  erewrite st_bind_ok; [|by apply ensureValidToken_fresh_run].
  erewrite st_bind_ok; [|apply call_ok; exact Hc].
  reflexivity.
Qed.

End ServiceLemmas.

(** C20 at the demo provider: the callback on an empty table. *)
Lemma handleCallback_session_witness :
  xero_callback "c1" = Some (mkResp "a0" "r0" 1800) /\
  handleCallback "c1" (mkWorld TokenStore.empty_table None 5000 []) =
    (inr true,
     mkWorld (TokenStore.mkTable
                [TokenStore.mkRow 1 "a0" "r0" 1805000 (Some "tenant-1") true] 2)
             (Some (mkTokenSet "a0" "r0" 1805)) 5000
             [EvCallback "c1"; EvStmt TokenStore.DeactivateAll;
              EvStmt (TokenStore.InsertActive
                        (TokenStore.mkCred "a0" "r0" 1805000 (Some "tenant-1")))]).
Proof.
  split; [reflexivity|].
  rewrite (handleCallback_session "c1" (mkResp "a0" "r0" 1800)); reflexivity.
Defined.

(** ** Witnesses *)

Section Witnesses.
Local Open Scope string_scope.


Lemma ensureValidToken_fresh_witness :
  (now (demo_world 5000 "r-ok") < TokenStore.expires_at (demo_row 5000 "r-ok"))%Z /\
  ensureValidToken "id" "secret" (demo_row 5000 "r-ok") (demo_world 5000 "r-ok") =
    (inr (Some "tenant-1"), after_set (ts_of_row (demo_row 5000 "r-ok"))
                                      (demo_world 5000 "r-ok")).
Proof.
  assert (Hlt : (now (demo_world 5000 "r-ok") < TokenStore.expires_at (demo_row 5000 "r-ok"))%Z)
    by reflexivity.
  split; [exact Hlt|]. exact (ensureValidToken_fresh "id" "secret" _ _ Hlt).
Defined.

Lemma ensureValidToken_expired_witness :
  (TokenStore.expires_at (demo_row 500 "r-ok") <= now (demo_world 500 "r-ok"))%Z /\
  xero_refresh "id" "secret" (TokenStore.refresh_token (demo_row 500 "r-ok")) =
    Some (mkResp "a2" "r2" 1800) /\
  fst (ensureValidToken "id" "secret" (demo_row 500 "r-ok") (demo_world 500 "r-ok")) =
    inr (Some "tenant-1").
Proof.
  assert (Hle : (TokenStore.expires_at (demo_row 500 "r-ok") <= now (demo_world 500 "r-ok"))%Z)
    by (simpl; lia).
  assert (Hr : xero_refresh "id" "secret" (TokenStore.refresh_token (demo_row 500 "r-ok")) =
    Some (mkResp "a2" "r2" 1800)) by reflexivity.
  split; [exact Hle|]. split; [exact Hr|].
  rewrite (ensureValidToken_expired "id" "secret" _ _ _ Hle Hr). reflexivity.
Defined.

Lemma ensureValidToken_refresh_rejected_witness :
  (TokenStore.expires_at (demo_row 500 "r-bad") <= now (demo_world 500 "r-bad"))%Z /\
  xero_refresh "id" "secret" (TokenStore.refresh_token (demo_row 500 "r-bad")) = None /\
  fst (ensureValidToken "id" "secret" (demo_row 500 "r-bad") (demo_world 500 "r-bad")) =
    inl ErrRefreshFailed.
Proof.
  assert (Hle : (TokenStore.expires_at (demo_row 500 "r-bad") <= now (demo_world 500 "r-bad"))%Z)
    by (simpl; lia).
  assert (Hr : xero_refresh "id" "secret" (TokenStore.refresh_token (demo_row 500 "r-bad")) =
    None) by reflexivity.
  split; [exact Hle|]. split; [exact Hr|].
  rewrite (ensureValidToken_refresh_rejected "id" "secret" _ _ Hle Hr). reflexivity.
Defined.

Lemma ensureValidToken_store_token_witness :
  TokenStore.getActiveToken (db (demo_world 500 "r-ok")) = Some (demo_row 500 "r-ok") /\
  exists w', ensureValidToken "id" "secret" (demo_row 500 "r-ok") (demo_world 500 "r-ok") =
               (inr (Some "tenant-1"), w').
Proof.
  assert (Ha : TokenStore.getActiveToken (db (demo_world 500 "r-ok")) =
               Some (demo_row 500 "r-ok")) by reflexivity.
  split; [exact Ha|].
  destruct (@ensureValidToken_store_token demo_api "id" "secret" _ _ (mkResp "a2" "r2" 1800) Ha
              ltac:(simpl; lia) ltac:(reflexivity)) as [w' [Hrun _]].
  exists w'. exact Hrun.
Defined.

Lemma getInvoices_getContacts_shape_witness :
  fst (getInvoices "id" "secret" [("page", JNum 1); ("pageSize", JNum 10)]
         (demo_row 5000 "r-ok") (demo_world 5000 "r-ok")) =
    inr (JObj [("pagination", JObj [("page", JNum 1)]); ("data", JArr [JStr "INV-1"]);
               ("message", JStr "Invoices synced successfully")]) /\
  fst (getContacts "id" "secret" [("page", JNum 1)]
         (demo_row 5000 "r-ok") (demo_world 5000 "r-ok")) = inr (JArr []).
Proof.
  destruct (@getInvoices_getContacts_shape demo_api "id" "secret" (demo_row 5000 "r-ok")
              (demo_world 5000 "r-ok") [("page", JNum 1); ("pageSize", JNum 10)]
              _ _ ltac:(reflexivity) ltac:(reflexivity) ltac:(reflexivity)) as [Hi _].
  destruct (@getInvoices_getContacts_shape demo_api "id" "secret" (demo_row 5000 "r-ok")
              (demo_world 5000 "r-ok") [("page", JNum 1)]
              _ _ ltac:(reflexivity) ltac:(reflexivity) ltac:(reflexivity)) as [_ Hc].
  split; [exact Hi|exact Hc].
Defined.

Lemma getAccounts_argument_positions_witness :
  trace (snd (getAccounts "id" "secret" [("where", JStr "Type=BANK"); ("order", JStr "Name")]
                (demo_row 5000 "r-ok") (demo_world 5000 "r-ok"))) =
    [EvSetTokenSet (ts_of_row (demo_row 5000 "r-ok"));
     EvCall OpGetAccounts
       [("xeroTenantId", JStr "tenant-1"); ("ifModifiedSince", JStr "Type=BANK");
        ("where", JStr "Name"); ("order", JUndef)] (Some "a1")].
Proof.
  exact (@getAccounts_argument_positions demo_api "id" "secret" (demo_row 5000 "r-ok")
           (demo_world 5000 "r-ok") _ ltac:(reflexivity)).
Defined.

Lemma getTaxRates_returns_accounts_witness :
  fst (getTaxRates "id" "secret" [] (demo_row 5000 "r-ok") (demo_world 5000 "r-ok")) =
    inr (JArr [JStr "090"]).
Proof.
  rewrite (@getTaxRates_returns_accounts demo_api "id" "secret" (demo_row 5000 "r-ok")
             (demo_world 5000 "r-ok") [] _ ltac:(reflexivity) ltac:(reflexivity)).
  reflexivity.
Defined.

End Witnesses.

End XeroService.
