(* ===== verification/Envelope.v ===== *)
(** * The response envelope: middlewares/responseHandler.js

    [responseFormatter] replaces [res.json] so that every answer of the
    API is wrapped: with status [>= 400] as
    [{success: false, statusCode, error: {message, code?, stack?, errors?},
    data: null}], otherwise as [{success: true, statusCode, ..., error:
    null}] where the middle depends on the payload: its [pagination],
    [filters], [meta] or [summary] (with [data] taken from [data.data ||
    data.results || data.items]), or its [message] (moved to the top level,
    the remaining keys kept as [data], or [null] when none remain), or the
    payload itself as [data].

    [production] stands for [process.env.NODE_ENV === "production"].  The
    answer goes through [JSON.stringify], which drops object keys whose
    value is [undefined]; [Js.json] below does that. *)

From S2P Require Import Prelude JsValue.

Module Envelope.

(** [JSON.stringify] on the values the envelope holds: [undefined]
    properties disappear, [undefined] array elements become [null]. *)
Fixpoint json (v : jsval) : jsval :=
  match v with
  | JArr xs => JArr ((fix go (xs : list jsval) : list jsval :=
                        match xs with
                        | [] => []
                        | x :: xs' =>
                            (if Js.is_undef x then JNull else json x) :: go xs'
                        end) xs)
  | JObj fs => JObj ((fix go (fs : list (string * jsval)) : list (string * jsval) :=
                        match fs with
                        | [] => []
                        | (k, x) :: fs' =>
                            if Js.is_undef x then go fs' else (k, json x) :: go fs'
                        end) fs)
  | _ => v
  end.

(** [data?.k] *)
Definition at_ (data : jsval) (k : string) : jsval := Js.opt_get data k.

(** [data.data || data.results || data.items] *)
Definition payload (data : jsval) : jsval :=
  Js.or (at_ data "data") (Js.or (at_ data "results") (at_ data "items")).

(** [const { message: _, ...restData } = data;
     Object.keys(restData).length > 0 ? restData : null] *)
Definition rest_or_null (data : jsval) : jsval :=
  match data with
  | JObj fs =>
      match Js.delete_field "message" fs with
      | [] => JNull
      | rest => JObj rest
      end
  | _ => JNull
  end.

(** [...(cond && { k: v })] *)
Definition spread_if (c : bool) (k : string) (v : jsval) : list (string * jsval) :=
  if c then [(k, v)] else [].

(** The error branch's [error] object. *)
Definition error_object (production : bool) (data : jsval) : jsval :=
  JObj ([("message", Js.or (at_ data "message")
                       (Js.or (at_ data "details")
                          (Js.or (at_ data "error") (JStr "An error occurred"))))]
        ++ spread_if (Js.truthy (at_ data "code")) "code" (at_ data "code")
        ++ spread_if (negb production && Js.truthy (at_ data "stack")) "stack"
                     (at_ data "stack")
        ++ spread_if (Js.truthy (at_ data "errors")) "errors" (at_ data "errors")).

(** The success branch's fields between [statusCode] and [error]. *)
Definition success_fields (data : jsval) : list (string * jsval) :=
  let message := at_ data "message" in
  if Js.truthy (at_ data "pagination") then
    [("pagination", at_ data "pagination"); ("data", payload data)]
  else if Js.truthy (at_ data "filters") then
    [("filters", at_ data "filters"); ("data", payload data)]
  else if Js.truthy (at_ data "meta") then
    [("meta", at_ data "meta"); ("data", payload data)]
  else if Js.truthy (at_ data "summary") then
    [("summary", at_ data "summary"); ("data", payload data)]
  else if Js.truthy message then
    [("data", rest_or_null data); ("message", message)]
  else [("data", data)].

(** [res.json(data)] after [responseFormatter], with [res.statusCode]. *)
Definition responseFormatter (production : bool) (statusCode : Z) (data : jsval)
    : jsval :=
  if (400 <=? statusCode)%Z then
    JObj [("success", JBool false); ("statusCode", JNum statusCode);
          ("error", error_object production data); ("data", JNull)]
  else
    JObj ([("success", JBool true); ("statusCode", JNum statusCode)]
          ++ success_fields data ++ [("error", JNull)]).

(** What the client receives. *)
Definition send (production : bool) (statusCode : Z) (data : jsval) : jsval :=
  json (responseFormatter production statusCode data).

(** ** The helpers and handlers of responseHandler.js

    Each gives the status it sets and the payload it hands to [res.json];
    [deliver] is what the client then receives.  A status that is not a
    number (an [err.status] string) is outside the model: Node coerces or
    rejects it. *)

Definition deliver (production : bool) (r : jsval * jsval) : option jsval :=
  match r with
  | (JNum status, body) => Some (send production status body)
  | _ => None
  end.

(** [res.success(data, message, statusCode = 200)]; [None] is an omitted
    (or [undefined]) argument. *)
Definition res_success (data message : jsval) (statusCode : option Z) : jsval * jsval :=
  (JNum (default 200%Z statusCode), JObj [("data", data); ("message", message)]).

(** [res.error(message, statusCode = 500, details = null)] *)
Definition res_error (message : jsval) (statusCode : option Z) (details : option jsval)
    : jsval * jsval :=
  (JNum (default 500%Z statusCode),
   JObj [("message", message); ("details", default JNull details)]).

(** [notFoundHandler], for [req.method] and [req.originalUrl]. *)
Definition notFoundHandler (method originalUrl : string) : jsval * jsval :=
  (JNum 404,
   JObj [("message", JStr "Resource not found");
         ("details", JStr ("The requested endpoint " +:+ method +:+ " " +:+
                           originalUrl +:+ " does not exist"));
         ("code", JStr "ENDPOINT_NOT_FOUND");
         ("suggestions", JArr [JStr "Check the URL spelling";
                               JStr "Verify the HTTP method";
                               JStr "Consult the API documentation"])]).

(** [v === "name"] *)
Definition is_str (v : jsval) (name : string) : bool :=
  match v with JStr s => String.eqb s name | _ => false end.

(** [Object.keys(errors).reduce((acc, key) => { acc[key] =
    errors[key].message; return acc; }, {})]; [None] is a TypeError. *)
Definition validation_of (errors : jsval) : option jsval :=
  match Js.own_keys errors with
  | None => None
  | Some ks =>
      JObj <$> fold_left
        (fun acc key =>
           match acc, Js.get (Js.own_value errors key) "message" with
           | Some fs, Some m => Some (Js.set_field key m fs)
           | _, _ => None
           end) ks (Some [])
  end.

(** The [switch (err.name)] of [errorHandler]: the status and the fields
    of [errorResponse]; [statusCode] is the value computed before it. *)
Definition error_case (err statusCode : jsval) : option (jsval * list (string * jsval)) :=
  let g := Js.opt_get err in
  let name := g "name" in
  let internal := [("message", JStr "Internal Server Error");
                   ("code", JStr "INTERNAL_ERROR")] in
  if is_str name "ValidationError" then
    v ← validation_of (g "errors");
    Some (JNum 400, [("message", JStr "Validation failed");
                     ("code", JStr "VALIDATION_ERROR"); ("validation", v)])
  else if is_str name "CastError" then
    Some (JNum 400, [("message", JStr "Invalid data format");
                     ("code", JStr "INVALID_FORMAT");
                     ("details", JStr ("Invalid " +:+ Js.to_string (g "path") +:+ ": " +:+
                                       Js.to_string (g "value")))])
  else if is_str name "MongoServerError" then
    match g "code" with
    | JNum 11000 =>
        ks ← Js.own_keys (g "keyPattern");
        let field := default JUndef (JStr <$> head ks) in
        Some (JNum 409, [("message", JStr "Resource already exists");
                         ("code", JStr "DUPLICATE_ENTRY");
                         ("details", JStr (Js.to_string field +:+ " already exists"))])
    | _ => Some (statusCode, internal)
    end
  else if is_str name "JsonWebTokenError" then
    Some (JNum 401, [("message", JStr "Invalid token"); ("code", JStr "INVALID_TOKEN")])
  else if is_str name "TokenExpiredError" then
    Some (JNum 401, [("message", JStr "Token expired"); ("code", JStr "TOKEN_EXPIRED")])
  else if is_str name "MulterError" then
    Some (JNum 400, [("message", JStr "File upload error"); ("code", JStr "UPLOAD_ERROR");
                     ("details", g "message")])
  else
    let fs1 := if Js.truthy (g "message") then Js.set_field "message" (g "message") internal
               else internal in
    let fs2 := if Js.truthy (g "code") then Js.set_field "code" (g "code") fs1 else fs1 in
    Some (statusCode, fs2).

(** [errorHandler(err, req, res, next)]: [None] is a TypeError thrown by
    the handler itself. *)
Definition errorHandler (production : bool) (err : jsval) : option (jsval * jsval) :=
  let g := Js.opt_get err in
  let statusCode := Js.or (g "statusCode") (Js.or (g "status") (JNum 500)) in
  '(status, fs) ← error_case err statusCode;
  Some (status, JObj (if production then fs else Js.set_field "stack" (g "stack") fs)).

(** [rateLimitHandler]: [retryAfter] is [Math.round(resetTime / 1000) ||
    60], with [resetTime] the reset [Date] in milliseconds ([None]:
    [undefined], whose division is [NaN]).  [Math.round(x)] is
    [floor(x + 1/2)]. *)
Definition retry_after (resetTime : option Z) : Z :=
  match resetTime with
  | Some t => let r := ((t + 500) / 1000)%Z in if Z.eqb r 0 then 60 else r
  | None => 60
  end.

Definition rateLimitHandler (resetTime : option Z) : jsval * jsval :=
  (JNum 429,
   JObj [("message", JStr "Too many requests"); ("code", JStr "RATE_LIMIT_EXCEEDED");
         ("details", JStr "Rate limit exceeded. Please try again later.");
         ("retryAfter", JNum (retry_after resetTime))]).

(** ** Lemmas *)

Lemma truthy_not_undef v : Js.truthy v = true -> Js.is_undef v = false.
Proof. by destruct v. Qed.

Lemma truthy_json v : Js.truthy v = true -> Js.truthy (json v) = true.
Proof. by destruct v. Qed.

Lemma success_branch production status data :
  (status < 400)%Z ->
  responseFormatter production status data =
    JObj ([("success", JBool true); ("statusCode", JNum status)]
          ++ success_fields data ++ [("error", JNull)]).
Proof.
  intros Hlt. unfold responseFormatter.
  destruct (Z.leb_spec 400 status); [lia|done].
Qed.

Lemma error_branch production status data :
  (400 <= status)%Z ->
  responseFormatter production status data =
    JObj [("success", JBool false); ("statusCode", JNum status);
          ("error", error_object production data); ("data", JNull)].
Proof.
  intros Hle. unfold responseFormatter.
  destruct (Z.leb_spec 400 status); [done|lia].
Qed.

(** [JSON.stringify] keeps a subset of an object's keys. *)
Lemma json_obj_keys fs :
  exists fs', json (JObj fs) = JObj fs' /\ Js.keys fs' ⊆ Js.keys fs.
Proof.
  induction fs as [|[k x] fs IH]; simpl; [by exists []|].
  destruct IH as [fs' [E Hk]]. simpl in E. injection E as E. rewrite E.
  unfold Js.keys in *. destruct (Js.is_undef x); simpl.
  - exists fs'. split; [done|]. intros y Hy. apply elem_of_cons. right. by apply Hk.
  - exists ((k, json x) :: fs'). split; [done|]. simpl. intros y Hy.
    apply elem_of_cons in Hy as [->|Hy]; apply elem_of_cons; [by left|right; by apply Hk].
Qed.

(** The error object has only [message], [code], [errors], and [stack]
    outside production. *)
Lemma keys_error_object production data :
  Js.keys (match error_object production data with JObj fs => fs | _ => [] end) ⊆
    ["message"; "code"; "errors"] ++ (if production then [] else ["stack"]).
Proof.
  unfold error_object, spread_if.
  destruct production, (Js.truthy (at_ data "code")), (Js.truthy (at_ data "stack")),
    (Js.truthy (at_ data "errors")); apply (bool_decide_unpack _); vm_compute; exact I.
Qed.

Lemma opt_get_obj fs k : Js.opt_get (JObj fs) k = default JUndef (Js.field k fs).
Proof. reflexivity. Qed.

(** The default branch of [errorHandler]: the status is [err.statusCode
    || err.status || 500], and [err.message] and [err.code] replace the
    defaults when truthy. *)
Lemma errorHandler_default production err :
  let g := Js.opt_get err in
  (forall n, n ∈ ["ValidationError"; "CastError"; "MongoServerError";
                  "JsonWebTokenError"; "TokenExpiredError"; "MulterError"] ->
             is_str (g "name") n = false) ->
  errorHandler production err =
    let fs1 := if Js.truthy (g "message")
               then Js.set_field "message" (g "message")
                      [("message", JStr "Internal Server Error"); ("code", JStr "INTERNAL_ERROR")]
               else [("message", JStr "Internal Server Error"); ("code", JStr "INTERNAL_ERROR")] in
    let fs2 := if Js.truthy (g "code") then Js.set_field "code" (g "code") fs1 else fs1 in
    Some (Js.or (g "statusCode") (Js.or (g "status") (JNum 500)),
          JObj (if production then fs2 else Js.set_field "stack" (g "stack") fs2)).
Proof.
  intros g Hn. unfold errorHandler, error_case. fold g.
  rewrite !Hn by set_solver. reflexivity.
Qed.

(** ** Theorems *)

(** spec.md 6: a bare list answered with a success status reaches
    the client as the envelope's [data], with no [pagination] and no
    [message]. *)
Theorem envelope_list production status xs :
  (status < 400)%Z ->
  send production status (JArr xs) =
    JObj [("success", JBool true); ("statusCode", JNum status);
          ("data", json (JArr xs)); ("error", JNull)].
Proof. intros Hlt. unfold send. rewrite success_branch by done. reflexivity. Qed.

(** A paginated result [{pagination, data, message}] whose
    [pagination] and [data] are truthy reaches the client as the envelope's
    [pagination] and [data]; its [message] is dropped. *)
Theorem envelope_paginated production status p items m :
  (status < 400)%Z -> Js.truthy p = true -> Js.truthy items = true ->
  send production status
    (JObj [("pagination", p); ("data", items); ("message", m)]) =
    JObj [("success", JBool true); ("statusCode", JNum status);
          ("pagination", json p); ("data", json items); ("error", JNull)].
Proof.
  intros Hlt Hp Hi. unfold send. rewrite success_branch by done.
  unfold success_fields, payload, at_. simpl. rewrite Hp. simpl.
  rewrite (or_truthy items _ Hi), (truthy_not_undef p Hp), (truthy_not_undef items Hi).
  reflexivity.
Qed.

(** A paginated result whose provider answer had no pagination
    ([pagination: null]) falls to the [message] branch: the envelope's
    [data] is the object [{pagination: null, data: items}], not the list,
    and the message moves to the top level. *)
Theorem envelope_null_pagination production status items m :
  (status < 400)%Z -> Js.truthy items = true -> Js.truthy m = true ->
  send production status
    (JObj [("pagination", JNull); ("data", items); ("message", m)]) =
    JObj [("success", JBool true); ("statusCode", JNum status);
          ("data", JObj [("pagination", JNull); ("data", json items)]);
          ("message", json m); ("error", JNull)].
Proof.
  intros Hlt Hi Hm. unfold send. rewrite success_branch by done.
  unfold success_fields, payload, at_. simpl.
  rewrite Hm. simpl.
  rewrite (truthy_not_undef items Hi), (truthy_not_undef m Hm). reflexivity.
Qed.

(** An error answer [{error: msg}] (what the controllers send with
    status 400 or 500) reaches the client as [{success: false,
    statusCode, error: {message: msg}, data: null}]. *)
Theorem envelope_error production status msg :
  (400 <= status)%Z -> msg <> ""%string ->
  send production status (JObj [("error", JStr msg)]) =
    JObj [("success", JBool false); ("statusCode", JNum status);
          ("error", JObj [("message", JStr msg)]); ("data", JNull)].
Proof.
  intros Hle Hmsg. unfold send. rewrite error_branch by done.
  unfold error_object, at_, Js.or. simpl.
  destruct (String.eqb_spec msg ""); [done|]. by destruct production.
Qed.

(** In production, whatever an error answer carries, the client
    receives [{success: false, statusCode, error, data: null}] whose
    [error] has no keys but [message], [code] and [errors]: no stack
    trace, and none of the [details], [validation] or [suggestions] the
    handlers build. *)
Theorem production_error_envelope status data :
  (400 <= status)%Z ->
  exists fs,
    send true status data =
      JObj [("success", JBool false); ("statusCode", JNum status);
            ("error", JObj fs); ("data", JNull)] /\
    Js.keys fs ⊆ ["message"; "code"; "errors"].
Proof.
  intros Hle. unfold send. rewrite error_branch by done. simpl.
  pose proof (keys_error_object true data) as Hk.
  destruct (json_obj_keys (match error_object true data with JObj fs => fs | _ => [] end))
    as [fs' [E Hk']].
  unfold error_object in *. simpl in *. rewrite E.
  eexists. split; [reflexivity|]. intros y Hy. by apply Hk, Hk'.
Qed.

(** A [ValidationError] reaches the client as [{message: "Validation
    failed", code: "VALIDATION_ERROR"}] with status 400 (and the stack
    outside production): the per-field [validation] map that
    [errorHandler] builds is dropped by the envelope. *)
Theorem errorHandler_validation_dropped production err v :
  Js.opt_get err "name" = JStr "ValidationError" ->
  validation_of (Js.opt_get err "errors") = Some v ->
  (errorHandler production err ≫= deliver production) =
    Some (JObj [("success", JBool false); ("statusCode", JNum 400);
                ("error", json (JObj ([("message", JStr "Validation failed");
                                       ("code", JStr "VALIDATION_ERROR")] ++
                                      spread_if (negb production &&
                                                 Js.truthy (Js.opt_get err "stack"))
                                                "stack" (Js.opt_get err "stack"))));
                ("data", JNull)]).
Proof.
  intros Hname Hv. unfold errorHandler, error_case. rewrite Hname, Hv. simpl.
  unfold send. rewrite error_branch by lia.
  destruct production; simpl; [reflexivity|].
  destruct (Js.truthy (Js.opt_get err "stack")) eqn:Hs; simpl; rewrite ?Hs; reflexivity.
Qed.

(** The 404 answer of [notFoundHandler] reaches the client as
    [{message: "Resource not found", code: "ENDPOINT_NOT_FOUND"}]: the
    [details] naming the endpoint and the [suggestions] are dropped. *)
Theorem notFound_envelope production method url :
  deliver production (notFoundHandler method url) =
    Some (JObj [("success", JBool false); ("statusCode", JNum 404);
                ("error", JObj [("message", JStr "Resource not found");
                                ("code", JStr "ENDPOINT_NOT_FOUND")]);
                ("data", JNull)]).
Proof. by destruct production. Qed.

(** ** Witnesses *)

Section Witnesses.
Local Open Scope string_scope.

Lemma envelope_list_witness :
  send false 200 (JArr [JStr "INV-1"]) =
    JObj [("success", JBool true); ("statusCode", JNum 200);
          ("data", JArr [JStr "INV-1"]); ("error", JNull)].
Proof. exact (envelope_list false 200 [JStr "INV-1"] ltac:(lia)). Defined.

Lemma envelope_paginated_witness :
  send true 200 (JObj [("pagination", JObj [("page", JNum 1)]); ("data", JArr []);
                       ("message", JStr "Invoices synced successfully")]) =
    JObj [("success", JBool true); ("statusCode", JNum 200);
          ("pagination", JObj [("page", JNum 1)]); ("data", JArr []); ("error", JNull)].
Proof.
  exact (envelope_paginated true 200 (JObj [("page", JNum 1)]) (JArr [])
           (JStr "Invoices synced successfully") ltac:(lia) eq_refl eq_refl).
Defined.

Lemma envelope_null_pagination_witness :
  send true 200 (JObj [("pagination", JNull); ("data", JArr [JStr "INV-1"]);
                       ("message", JStr "Invoices synced successfully")]) =
    JObj [("success", JBool true); ("statusCode", JNum 200);
          ("data", JObj [("pagination", JNull); ("data", JArr [JStr "INV-1"])]);
          ("message", JStr "Invoices synced successfully"); ("error", JNull)].
Proof.
  exact (envelope_null_pagination true 200 (JArr [JStr "INV-1"])
           (JStr "Invoices synced successfully") ltac:(lia) eq_refl eq_refl).
Defined.

Lemma envelope_error_witness :
  send false 500 (JObj [("error", JStr "Request failed")]) =
    JObj [("success", JBool false); ("statusCode", JNum 500);
          ("error", JObj [("message", JStr "Request failed")]); ("data", JNull)].
Proof.
  exact (envelope_error false 500 "Request failed" ltac:(lia) ltac:(discriminate)).
Defined.

Lemma errorHandler_validation_dropped_witness :
  let err := JObj [("name", JStr "ValidationError");
                   ("errors", JObj [("email", JObj [("message", JStr "Email is required")])])] in
  validation_of (Js.opt_get err "errors") =
    Some (JObj [("email", JStr "Email is required")]) /\
  (errorHandler true err ≫= deliver true) =
    Some (JObj [("success", JBool false); ("statusCode", JNum 400);
                ("error", JObj [("message", JStr "Validation failed");
                                ("code", JStr "VALIDATION_ERROR")]);
                ("data", JNull)]).
Proof.
  intros err. split; [reflexivity|].
  exact (errorHandler_validation_dropped true err _ eq_refl eq_refl).
Defined.

Lemma production_error_envelope_witness :
  exists fs,
    send true 404 (snd (notFoundHandler "GET" "/api/nothing")) =
      JObj [("success", JBool false); ("statusCode", JNum 404);
            ("error", JObj fs); ("data", JNull)] /\
    Js.keys fs ⊆ ["message"; "code"; "errors"].
Proof. exact (production_error_envelope 404 _ ltac:(lia)). Defined.

End Witnesses.

End Envelope.
