(* ===== verification/JsonType.v ===== *)
(** * The types of the JSON the server sends

    The client reads the server's answers as the envelope of
    middlewares/responseHandler.js ([Envelope]): spec.md (§6) has the
    frontend consume [{data, pagination?, message?}] and branch on
    [pagination].  [ty] is a small language of JSON types: any JSON value
    ([TJson]: no [undefined] at any depth), [null], booleans, numbers,
    strings, a constant, arrays, closed objects whose listed keys have a
    type ([TOpt t]: absent or of type [t]) and which have no other key.
    [has_type] is the typing judgement, [typeb] its decision procedure
    ([typeb_spec]).  The theorem [envelope_well_typed] gives every answer
    of [send] its type: what the client receives is JSON and has exactly
    the envelope's keys. *)

From S2P Require Import Prelude JsValue Envelope.

Module JsonType.
Local Open Scope xero_scope.

(** ** Values without [undefined] *)

(** A JSON value: no [undefined], at any depth. *)
Fixpoint json_value (v : jsval) : bool :=
  match v with
  | JUndef => false
  | JArr xs => forallb json_value xs
  | JObj fs => forallb (fun kv => json_value kv.2) fs
  | _ => true
  end.

(** ** Types *)

Section ty_def.
Local Unset Elimination Schemes.
Inductive ty :=
| TJson
| TNull
| TBool
| TNum
| TStr
| TConst (c : jsval)
| TArr (t : ty)
| TObj (fs : list (string * ty))
| TOpt (t : ty).
End ty_def.

Section ty_nested_ind.
Variable P : ty -> Prop.
Hypothesis case_json : P TJson.
Hypothesis case_null : P TNull.
Hypothesis case_bool : P TBool.
Hypothesis case_num : P TNum.
Hypothesis case_str : P TStr.
Hypothesis case_const : forall c, P (TConst c).
Hypothesis case_arr : forall t, P t -> P (TArr t).
Hypothesis case_obj : forall fs, Forall (fun kt => P kt.2) fs -> P (TObj fs).
Hypothesis case_opt : forall t, P t -> P (TOpt t).

Fixpoint ty_ind (t : ty) : P t :=
  match t with
  | TJson => case_json
  | TNull => case_null
  | TBool => case_bool
  | TNum => case_num
  | TStr => case_str
  | TConst c => case_const c
  | TArr t => case_arr t (ty_ind t)
  | TObj fs =>
      case_obj fs ((fix go (fs : list (string * ty)) : Forall (fun kt => P kt.2) fs :=
                      match fs return Forall (fun kt => P kt.2) fs with
                      | [] => @List.Forall_nil _ _
                      | kt :: fs' => @List.Forall_cons _ _ kt fs' (ty_ind kt.2) (go fs')
                      end) fs)
  | TOpt t => case_opt t (ty_ind t)
  end.
End ty_nested_ind.

(** The value of a key of an object, [undefined] when it is absent. *)
Definition key_value (k : string) (kvs : list (string * jsval)) : jsval := default JUndef (Js.field k kvs).

(** The typing judgement. *)
Inductive has_type : jsval -> ty -> Prop :=
| HT_json v : json_value v = true -> has_type v TJson
| HT_null : has_type JNull TNull
| HT_bool b : has_type (JBool b) TBool
| HT_num n : has_type (JNum n) TNum
| HT_str s : has_type (JStr s) TStr
| HT_const c : has_type c (TConst c)
| HT_arr xs t : Forall (fun x => has_type x t) xs -> has_type (JArr xs) (TArr t)
| HT_obj kvs fs :
    Forall (fun kt => has_type (key_value kt.1 kvs) kt.2) fs ->
    Forall (fun kv => kv.1 ∈ fs.*1) kvs ->
    has_type (JObj kvs) (TObj fs)
| HT_opt_absent t : has_type JUndef (TOpt t)
| HT_opt v t : has_type v t -> has_type v (TOpt t).

(** The decision procedure. *)
Fixpoint typeb (t : ty) (v : jsval) : bool :=
  match t with
  | TJson => json_value v
  | TNull => match v with JNull => true | _ => false end
  | TBool => match v with JBool _ => true | _ => false end
  | TNum => match v with JNum _ => true | _ => false end
  | TStr => match v with JStr _ => true | _ => false end
  | TConst c => bool_decide (v = c)
  | TArr t => match v with JArr xs => forallb (typeb t) xs | _ => false end
  | TObj fs =>
      match v with
      | JObj kvs =>
          (fix go (fs : list (string * ty)) : bool :=
             match fs with
             | [] => true
             | (k, t) :: fs' => typeb t (key_value k kvs) && go fs'
             end) fs &&
          forallb (fun kv => bool_decide (kv.1 ∈ fs.*1)) kvs
      | _ => false
      end
  | TOpt t => match v with JUndef => true | _ => typeb t v end
  end.

(** ** The decision procedure decides the judgement *)

Create HintDb json_type.
#[export] Hint Constructors has_type : json_type.

Lemma typeb_obj_fields (kvs : list (string * jsval)) (fs : list (string * ty)) :
  Forall (fun kt => forall v, typeb kt.2 v = true <-> has_type v kt.2) fs ->
  (fix go (fs : list (string * ty)) : bool :=
     match fs with
     | [] => true
     | (k, t) :: fs' => typeb t (key_value k kvs) && go fs'
     end) fs = true <-> Forall (fun kt => has_type (key_value kt.1 kvs) kt.2) fs.
Proof.
  induction 1 as [|[k t] fs Ht _ IH]; simpl; [split; constructor|].
  rewrite andb_true_iff, Ht, IH, Forall_cons. done.
Qed.

Lemma forallb_keys (kvs : list (string * jsval)) (ks : list string) :
  forallb (fun kv => bool_decide (kv.1 ∈ ks)) kvs = true <-> Forall (fun kv => kv.1 ∈ ks) kvs.
Proof.
  rewrite forallb_forall, Forall_forall. split; intros H kv Hkv.
  - apply (bool_decide_eq_true_1 _), H. by apply list_elem_of_In.
  - apply bool_decide_eq_true_2, H. by apply list_elem_of_In.
Qed.

Theorem typeb_spec t v : typeb t v = true <-> has_type v t.
Proof.
  revert v. induction t as [| | | | |c|t IH|fs IH|t IH] using ty_ind; intros v; simpl.
  - split; [by constructor|by inversion 1].
  - split; [destruct v; naive_solver eauto with json_type|by inversion 1].
  - split; [destruct v; naive_solver eauto with json_type|by inversion 1].
  - split; [destruct v; naive_solver eauto with json_type|by inversion 1].
  - split; [destruct v; naive_solver eauto with json_type|by inversion 1].
  - rewrite bool_decide_eq_true. split; [intros ->; constructor|by inversion 1].
  - destruct v as [| | | | |xs|]; split; try done; try by inversion 1.
    + rewrite forallb_forall. intros H. constructor. apply Forall_forall. intros x Hx.
      apply IH, H. by apply list_elem_of_In.
    + inversion 1 as [| | | | | |? ? Hxs| | |]; subst. apply forallb_forall. intros x Hx.
      apply IH. rewrite Forall_forall in Hxs. apply Hxs. by apply list_elem_of_In.
  - destruct v as [| | | | | |kvs]; split; try done; try by inversion 1.
    + rewrite andb_true_iff, typeb_obj_fields, forallb_keys by done. intros [? ?]. by constructor.
    + inversion 1; subst. rewrite andb_true_iff, typeb_obj_fields, forallb_keys by done. done.
  - destruct v; split; try done; rewrite ?IH; try by constructor; try by inversion 1.
    all: inversion 1; subst; try done; by apply IH.
Qed.

#[export] Instance has_type_dec v t : Decision (has_type v t).
Proof. destruct (typeb t v) eqn:E; [left; by apply typeb_spec|right]. rewrite <- typeb_spec. congruence. Defined.

(** ** What [JSON.stringify] produces *)

Lemma json_undef : Envelope.json JUndef = JUndef.
Proof. reflexivity. Qed.

(** [JSON.stringify] leaves no [undefined] in what it does not drop. *)
Lemma json_value_json v : v <> JUndef -> json_value (Envelope.json v) = true.
Proof.
  induction v as [| | | | |xs IH|fs IH] using jsval_ind'; simpl; try done; intros _.
  - induction IH as [|x xs Hx _ IHxs]; simpl; [done|].
    rewrite IHxs, andb_true_r. destruct x; simpl; try done; apply Hx; discriminate.
  - induction IH as [|[k x] fs Hx _ IHfs]; simpl; [done|].
    destruct (Js.is_undef x) eqn:Hu; simpl; [done|]. rewrite IHfs, andb_true_r.
    apply Hx. by destruct x.
Qed.

(** Any value a key may hold, once stringified, is absent or JSON. *)
Lemma json_opt v : has_type (Envelope.json v) (TOpt TJson).
Proof.
  destruct (decide (v = JUndef)) as [->|Hv]; [constructor|].
  apply HT_opt, HT_json, json_value_json, Hv.
Qed.

Lemma key_value_absent k (kvs : list (string * jsval)) : k ∉ Js.keys kvs -> key_value k kvs = JUndef.
Proof.
  unfold key_value, Js.keys. induction kvs as [|[k' x] kvs IH]; simpl; [done|].
  rewrite not_elem_of_cons. intros [Hk Hks]. destruct (String.eqb_spec k k'); [done|]. by apply IH.
Qed.

(** On an object without duplicate keys, [JSON.stringify] keeps a
    subset of the keys and stringifies the value of each. *)
Lemma json_obj_fields fs :
  NoDup (Js.keys fs) ->
  exists fs', Envelope.json (JObj fs) = JObj fs' /\ Js.keys fs' ⊆ Js.keys fs /\
    forall k, key_value k fs' = Envelope.json (key_value k fs).
Proof.
  induction fs as [|[k x] fs IH]; simpl; [intros _; exists []; naive_solver|].
  unfold Js.keys at 1. simpl. rewrite NoDup_cons. intros [Hk Hnd].
  destruct (IH Hnd) as (fs' & E & Hsub & Hkv). simpl in E. injection E as E. rewrite E.
  assert (Hk' : k ∉ Js.keys fs') by set_solver.
  destruct (Js.is_undef x) eqn:Hu.
  - exists fs'. split_and!; [done|unfold Js.keys; simpl; set_solver|].
    intros k'. unfold key_value at 2. simpl. destruct (String.eqb_spec k' k) as [->|]; [|apply Hkv].
    rewrite key_value_absent by done. by destruct x.
  - exists ((k, Envelope.json x) :: fs'). split_and!; [done|unfold Js.keys in *; simpl; set_solver|].
    intros k'. unfold key_value. simpl. destruct (String.eqb_spec k' k); [done|apply Hkv].
Qed.

(** A stringified object has a closed object type when the value of
    each listed key has its type and every key is listed. *)
Lemma json_obj_typed fs tys :
  NoDup (Js.keys fs) ->
  Forall (fun kt => has_type (Envelope.json (key_value kt.1 fs)) kt.2) tys ->
  Forall (fun k => k ∈ tys.*1) (Js.keys fs) ->
  has_type (Envelope.json (JObj fs)) (TObj tys).
Proof.
  intros Hnd Hty Hks. destruct (json_obj_fields fs Hnd) as (fs' & -> & Hsub & Hkv). constructor.
  - eapply Forall_impl; [exact Hty|]. intros kt. by rewrite Hkv.
  - apply Forall_forall. intros [k x] Hin. rewrite Forall_forall in Hks. apply Hks, Hsub.
    unfold Js.keys. apply list_elem_of_fmap. by exists (k, x).
Qed.

(** ** The envelope's type *)

(** The error object: [message], and [code] and [errors] when truthy;
    [stack] only outside production. *)
Definition error_obj_ty (production : bool) : ty :=
  TObj ([("message", TJson); ("code", TOpt TJson); ("errors", TOpt TJson)] ++
        if production then [] else [("stack", TOpt TJson)]).

Definition error_ty (production : bool) (status : Z) : ty :=
  TObj [("success", TConst (JBool false)); ("statusCode", TConst (JNum status));
        ("error", error_obj_ty production); ("data", TNull)].

Definition success_ty (status : Z) : ty :=
  TObj [("success", TConst (JBool true)); ("statusCode", TConst (JNum status));
        ("pagination", TOpt TJson); ("filters", TOpt TJson); ("meta", TOpt TJson);
        ("summary", TOpt TJson); ("data", TOpt TJson); ("message", TOpt TJson); ("error", TNull)].

Definition envelope_ty (production : bool) (status : Z) : ty :=
  if (400 <=? status)%Z then error_ty production status else success_ty status.

Lemma or_not_undef a b : b <> JUndef -> Js.or a b <> JUndef.
Proof. unfold Js.or. destruct a; simpl; try done; by case_match. Qed.

(** One field of a stringified object literal. *)
Ltac typed_field :=
  first [ apply json_opt
        | simpl; apply HT_json, json_value_json; unfold Envelope.at_; repeat apply or_not_undef; discriminate
        | simpl; first [apply HT_null | apply HT_const] ].

(** A stringified object literal: its keys are distinct and listed, and
    each field has its type. *)
Ltac typed_obj :=
  apply json_obj_typed;
  [ simpl; apply (bool_decide_unpack _); vm_compute; exact I
  | simpl; repeat apply List.Forall_cons; try apply List.Forall_nil; try typed_field
  | simpl; apply (bool_decide_unpack _); vm_compute; exact I ].

(** C25. Every answer [responseFormatter] sends has the envelope's type:
    with a status of at least 400, [{success: false, statusCode, error,
    data: null}] whose [error] has a JSON [message], may have [code] and
    [errors], and has a [stack] only outside production; below 400,
    [{success: true, statusCode, error: null}] with at most [pagination],
    [filters], [meta], [summary], [data] and [message] besides.  No
    [undefined] remains at any depth, and no other key appears. *)
Theorem envelope_well_typed production status data :
  has_type (Envelope.send production status data) (envelope_ty production status).
Proof.
  unfold Envelope.send, envelope_ty. destruct (Z.leb_spec 400 status).
  - assert (He : has_type (Envelope.json (Envelope.error_object production data)) (error_obj_ty production)).
    { unfold Envelope.error_object, Envelope.spread_if.
      destruct production, (Js.truthy (Envelope.at_ data "code")), (Js.truthy (Envelope.at_ data "stack")),
        (Js.truthy (Envelope.at_ data "errors")); typed_obj. }
    rewrite Envelope.error_branch by done. typed_obj. exact He.
  - rewrite Envelope.success_branch by lia. unfold Envelope.success_fields.
    repeat case_match; typed_obj.
Qed.

End JsonType.
