(* ===== verification/AuthSchema.v ===== *)
(** * The request schemas of authentication: schemas/authSchema.js

    [loginSchema] and [registrationSchema] are zod objects of string
    fields.  A zod string schema checks that the input is a string, then
    runs its steps in the order they are written: [.trim()] and
    [.toLowerCase()] replace the value, [.email()], [.min()], [.max()]
    and [.regex()] add an issue and go on with the same value.  An object
    schema parses every key it names, keeps only those keys, and fails
    when any key has an issue; its [.refine] runs on the output when no
    key failed on its type.  A type failure aborts the key; check failures
    only mark it dirty (zod's [aborted] and [dirty]).  A union
    ([.or]) answers the first branch that succeeds, otherwise the issues
    of the first branch that was only dirty, otherwise ["Invalid input"].

    The schemas are zod 4's: [z.email] exists only there.  zod 4
    ignores the [required_error] option of [z.string] (lines 11, 17 and
    schemas/xeroSchema.js 21), so a missing string reports zod's own
    "Invalid input: expected string, received undefined".  Which issues
    are reported only decides whether [parse] throws: [validate] never
    sends them (see [Controller.validation_crash]).

    The email format of [z.email()] is zod's own regular expression, a
    library detail: it is the parameter [email_format] of the section.
    Strings are ASCII: [length] counts characters, [.trim()] is
    [Js.trim]. *)

From S2P Require Import Prelude JsValue.

Module AuthSchema.

(** A zod issue: the path of the key, the message and zod's issue code. *)
Record issue := mkIssue { iss_path : string; iss_message : string; iss_code : string }.

(** ** Strings *)

Definition lower_char (c : Ascii.ascii) : Ascii.ascii :=
  let n := Ascii.nat_of_ascii c in
  if (65 <=? n) && (n <=? 90) then Ascii.ascii_of_nat (n + 32) else c.

(** [s.toLowerCase()] on ASCII. *)
Fixpoint to_lower (s : string) : string :=
  match s with
  | String c s' => String (lower_char c) (to_lower s')
  | EmptyString => EmptyString
  end.

(** [/^[\+]?[0-9\s\-\(\)]+$/] *)
Definition phone_char (c : Ascii.ascii) : bool :=
  let n := Ascii.nat_of_ascii c in
  ((48 <=? n) && (n <=? 57)) || Js.is_space c || (n =? 45) || (n =? 40) || (n =? 41).

Fixpoint all_phone_chars (s : string) : bool :=
  match s with
  | String c s' => phone_char c && all_phone_chars s'
  | EmptyString => true
  end.

Definition phone_regex (s : string) : bool :=
  match s with
  | String c s' =>
      if (Ascii.nat_of_ascii c =? 43)%nat
      then negb (String.eqb s' "") && all_phone_chars s'
      else all_phone_chars s
  | EmptyString => false
  end.

(** ** zod string schemas *)

Inductive str_step :=
| SEmail (message : string)           (** [z.email(message)] *)
| STrim                               (** [.trim()] *)
| SLower                              (** [.toLowerCase()] *)
| SMin (n : nat) (message : string)   (** [.min(n, message)] *)
| SMax (n : nat) (message : string)   (** [.max(n, message)] *)
| SRegex (re : string -> bool) (message : string).  (** [.regex(re, message)] *)

(** The result of parsing one key: aborted (a type error), dirty (check
    issues, with the value reached) or clean. *)
Inductive outcome :=
| Aborted (issues : list issue)
| Dirty (issues : list issue) (value : jsval)
| Clean (value : jsval).

Definition type_name (v : jsval) : string :=
  match v with
  | JUndef => "undefined" | JNull => "null" | JBool _ => "boolean"
  | JNum _ => "number" | JStr _ => "string" | JArr _ => "array" | JObj _ => "object"
  end.

Section Schemas.
Context (email_format : string -> bool).

(** The steps of a string schema, in order, on a string. *)
Fixpoint run_steps (path : string) (steps : list str_step) (s : string)
    : list issue * string :=
  match steps with
  | [] => ([], s)
  | st :: steps' =>
      let '(is1, s1) :=
        match st with
        | SEmail m => (if email_format s then [] else [mkIssue path m "invalid_format"], s)
        | STrim => ([], Js.trim s)
        | SLower => ([], to_lower s)
        | SMin n m => (if (n <=? String.length s)%nat then [] else [mkIssue path m "too_small"], s)
        | SMax n m => (if (String.length s <=? n)%nat then [] else [mkIssue path m "too_big"], s)
        | SRegex re m => (if re s then [] else [mkIssue path m "invalid_format"], s)
        end in
      let '(is2, s2) := run_steps path steps' s1 in
      (is1 ++ is2, s2)
  end.

(** [z.string(...)...steps] (and [z.email(message)...steps], whose
    first step is the format): a value that is not a string, [undefined]
    included, is a type failure. *)
Definition parse_string (path : string) (steps : list str_step) (v : jsval) : outcome :=
  match v with
  | JStr s =>
      match run_steps path steps s with
      | ([], s') => Clean (JStr s')
      | (issues, s') => Dirty issues (JStr s')
      end
  | other =>
      Aborted [mkIssue path ("Invalid input: expected string, received " ++ type_name other) "invalid_type"]
  end.

(** [.optional()]: [undefined] passes. *)
Definition optional (p : jsval -> outcome) (v : jsval) : outcome :=
  match v with JUndef => Clean JUndef | _ => p v end.

(** [a.or(b)] *)
Definition union (path : string) (p q : jsval -> outcome) (v : jsval) : outcome :=
  match p v, q v with
  | Clean x, _ => Clean x
  | _, Clean y => Clean y
  | Dirty iss x, _ => Dirty iss x
  | _, Dirty iss y => Dirty iss y
  | _, _ => Aborted [mkIssue path "Invalid input" "invalid_union"]
  end.

(** [z.literal("")] *)
Definition literal_empty (path : string) (v : jsval) : outcome :=
  match v with
  | JStr EmptyString => Clean v
  | _ => let dq := String (Ascii.ascii_of_nat 34) EmptyString in
         Aborted [mkIssue path ("Invalid input: expected " ++ dq ++ dq) "invalid_value"]
  end.

(** The string schemas of authSchema.js. *)
Definition emailSchema (path : string) : jsval -> outcome :=
  parse_string path
    [SEmail "Invalid email format"; STrim; SLower;
     SMin 1 "Email address is required"; SMax 50 "Email address is too long"].

Definition passwordSchema (path : string) : jsval -> outcome :=
  parse_string path
    [STrim; SMin 6 "Password must be at least 6 characters long";
     SMax 100 "Password is too long"].

Definition nameSchema (path : string) : jsval -> outcome :=
  parse_string path
    [STrim; SMin 1 "Name is required"; SMax 255 "Name is too long"].

Definition phoneSchema (path : string) : jsval -> outcome :=
  union path (optional (parse_string path
                     [STrim; SMax 20 "Phone number is too long";
                      SRegex phone_regex "Invalid phone number format"]))
        (literal_empty path).

(** A zod object: its keys and their schemas. *)
Definition shape : Type := list (string * (string -> jsval -> outcome)).

Definition loginSchema : shape :=
  [("email", emailSchema); ("password", passwordSchema)].

Definition registrationShape : shape :=
  [("email", emailSchema); ("password", passwordSchema);
   ("confirmPassword", passwordSchema); ("name", nameSchema); ("phone", phoneSchema)].

(** The keys of an object schema, in order: whether one aborted, the
    issues, and the output object.  A missing key reads [undefined]; an
    output [undefined] is kept out of the object. *)
Fixpoint parse_shape (sh : shape) (input : jsval)
    : bool * list issue * list (string * jsval) :=
  match sh with
  | [] => (false, [], [])
  | (k, p) :: sh' =>
      let '(ab, issues, out) := parse_shape sh' input in
      match p k (Js.opt_get input k) with
      | Aborted iss => (true, iss ++ issues, out)
      | Dirty iss v => (ab, iss ++ issues, out)
      | Clean v => (ab, issues, if Js.is_undef v then out else (k, v) :: out)
      end
  end.

(** [schema.parse(input)] for an object schema with an optional
    [.refine(check, {message, path})]: the issues (a [ZodError]) or the
    output.  A non-object input is a type failure. *)
Definition parse_object (sh : shape) (refine : option ((list (string * jsval) -> bool) * issue))
    (input : jsval) : list issue + list (string * jsval) :=
  match input with
  | JObj _ =>
      let '(aborted, issues, out) := parse_shape sh input in
      let refined :=
        match refine with
        | Some (check, iss) => if aborted then [] else if check out then [] else [iss]
        | None => []
        end in
      match issues ++ refined with
      | [] => inr out
      | all => inl all
      end
  | other => inl [mkIssue "" ("Invalid input: expected object, received " ++ type_name other) "invalid_type"]
  end.

(** [data.password === data.confirmPassword] *)
Definition passwords_match (out : list (string * jsval)) : bool :=
  match Js.field "password" out, Js.field "confirmPassword" out with
  | Some (JStr a), Some (JStr b) => String.eqb a b
  | None, None => true
  | _, _ => false
  end.

Definition parse_login (input : jsval) : list issue + list (string * jsval) :=
  parse_object loginSchema None input.

Definition parse_registration (input : jsval) : list issue + list (string * jsval) :=
  parse_object registrationShape
    (Some (passwords_match, mkIssue "confirmPassword" "Passwords must match" "custom")) input.

End Schemas.

(** ** Lemmas *)

Section SchemaLemmas.
Context (email_format : string -> bool).

(** The output of an object schema has only the keys it names. *)
Lemma parse_shape_field sh input k :
  k ∉ sh.*1 -> Js.field k (parse_shape sh input).2 = None.
Proof.
  induction sh as [|[k' p] sh IH]; simpl; [done|]. intros Hk.
  apply not_elem_of_cons in Hk as [Hne Hk].
  destruct (parse_shape sh input) as [[ab iss] out]. simpl in IH.
  destruct (p k' (Js.opt_get input k')); simpl; try (by apply IH).
  destruct (Js.is_undef value); simpl; [by apply IH|].
  apply String.eqb_neq in Hne as ->. by apply IH.
Qed.

Lemma parse_object_field sh refine input out k :
  parse_object sh refine input = inr out -> k ∉ sh.*1 -> Js.field k out = None.
Proof.
  unfold parse_object. destruct input; try discriminate.
  pose proof (parse_shape_field sh (JObj fields) k) as Hf.
  destruct (parse_shape sh (JObj fields)) as [[ab iss] o].
  destruct (_ ++ _); [|discriminate]. intros [= <-]. exact Hf.
Qed.

(** A body the registration schema accepts has no [role]. *)
Lemma parse_registration_no_role body out :
  parse_registration email_format body = inr out -> Js.field "role" out = None.
Proof.
  intros Hp. apply (parse_object_field _ _ _ _ _ Hp).
  apply (bool_decide_unpack _). vm_compute. exact I.
Qed.

End SchemaLemmas.

End AuthSchema.
