(* ===== verification/Users.v ===== *)
(** * The users table: models/userModel.js, services/userService.js,
      controllers/userController.js

    [UserModel] runs parameterised queries on [users].  A row has the
    columns the code names; a value bound to [?] is stored as the SQL
    value of the JavaScript value ([undefined] becomes [NULL], which is
    how [null] is written here).  [LIMIT 1] without [ORDER BY] returns the
    first matching row in primary-key order.

    Two engine conversions are parameters of the section, not modelled:
    [str_to_id], how MySQL compares a string parameter with the integer
    column [userid] (["5"] and ["5abc"] both compare as 5), and the
    case and trailing-space insensitivity of the default collation, for
    which string equality stands (the schemas lower-case and trim emails
    before they reach the queries). *)

From S2P Require Import Prelude JsValue.
From stdpp Require Import sorting.

Module Users.

Record user_row := mkUser {
  userid : nat;
  u_name : jsval;
  u_email : jsval;
  u_password : jsval;
  u_phone : jsval;
  u_role : jsval;
  u_enteredby : jsval;
  u_active : bool
}.

Record table := mkTable {
  urows : list user_row;
  next_uid : nat
}.

(** The SQL value of a bound parameter. *)
Definition sql_value (v : jsval) : jsval :=
  match v with JUndef => JNull | _ => v end.

(** [col = ?] on strings and numbers; [NULL] equals nothing. *)
Definition sql_eq (a b : jsval) : bool :=
  match a, b with
  | JStr x, JStr y => String.eqb x y
  | JNum x, JNum y => Z.eqb x y
  | _, _ => false
  end.

(** The columns [SELECT userid, name, email, phone, role, active]
    returns. *)
Definition public_row (r : user_row) : jsval :=
  JObj [("userid", JNum (Z.of_nat (userid r))); ("name", u_name r); ("email", u_email r);
        ("phone", u_phone r); ("role", u_role r);
        ("active", JNum (if u_active r then 1 else 0))].

(** [SELECT *] *)
Definition full_row (r : user_row) : jsval :=
  JObj [("userid", JNum (Z.of_nat (userid r))); ("name", u_name r); ("email", u_email r);
        ("password", u_password r); ("phone", u_phone r); ("role", u_role r);
        ("enteredby", u_enteredby r);
        ("active", JNum (if u_active r then 1 else 0))].

(** The order of [ORDER BY userid DESC]. *)
Definition id_desc (a b : user_row) : Prop := userid b <= userid a.

#[export] Instance id_desc_dec : RelDecision id_desc.
Proof. intros a b. unfold id_desc. apply _. Defined.

Section Queries.
Context (str_to_id : string -> option nat).

(** [WHERE userid = ?] *)
Definition id_matches (param : jsval) (r : user_row) : bool :=
  match param with
  | JNum n => Z.eqb (Z.of_nat (userid r)) n
  | JStr s => match str_to_id s with Some n => Nat.eqb (userid r) n | None => false end
  | _ => false
  end.

(** The first row, in primary-key order, that passes [p]. *)
Definition first_row (p : user_row -> bool) (t : table) : option user_row :=
  snd <$> list_find (fun r => p r) (urows t).

(** [UserModel.findByEmail(email)]:
    [SELECT * FROM users WHERE email = ? AND active = 1 LIMIT 1]. *)
Definition findByEmail (email : jsval) (t : table) : option jsval :=
  full_row <$> first_row (fun r => u_active r && sql_eq (u_email r) email) t.

(** [UserModel.findById(userId)]: [SELECT userid, name, email, phone,
    role, active FROM users WHERE userid = ? LIMIT 1]; inactive users
    included. *)
Definition findById (userId : jsval) (t : table) : option jsval :=
  public_row <$> first_row (id_matches userId) t.

(** [UserModel.create(userData)]: the [INSERT] and its [insertId]. *)
Definition create (userData : jsval) (t : table) : nat * table :=
  let g := Js.opt_get userData in
  let r := mkUser (next_uid t) (sql_value (g "name")) (sql_value (g "email"))
                  (sql_value (g "password")) (sql_value (g "phone"))
                  (sql_value (g "role")) (sql_value (g "enteredBy")) true in
  (next_uid t, mkTable (urows t ++ [r]) (S (next_uid t))).

(** [UserModel.getAll()]: [ORDER BY userid DESC]. *)
Definition getAll (t : table) : list jsval :=
  public_row <$> merge_sort id_desc (urows t).

(** The text of [UserModel.update]'s statement for the keys of [data]. *)
Definition update_sql (ks : list string) : string :=
  "UPDATE users SET " +:+ String.concat ", " ((fun k => k +:+ " = ?") <$> ks) +:+
  ", editeddate = NOW() WHERE userid = ?".

(** Its parameters: the values, then the id. *)
Definition update_values (data : list (string * jsval)) (userId : jsval) : list jsval :=
  (snd <$> data) ++ [userId].

(** [UserModel.softDelete(userId)] *)
Definition softDelete (userId : jsval) (t : table) : table :=
  mkTable ((fun r => if id_matches userId r
                     then mkUser (userid r) (u_name r) (u_email r) (u_password r)
                                 (u_phone r) (u_role r) (u_enteredby r) false
                     else r) <$> urows t)
          (next_uid t).

(** [UserService.listUsers], [UserService.getUser] *)
Definition listUsers (t : table) : list jsval := getAll t.
Definition getUser (userId : jsval) (t : table) : option jsval := findById userId t.

(** [getUsers]: [res.json({ users })], status 200. *)
Definition getUsers_handler (t : table) : Z * jsval :=
  (200%Z, JObj [("users", JArr (listUsers t))]).

(** [getUser]: [res.json({ user })] with [req.params.id]; [rows[0]] is
    [undefined] when no row matches. *)
Definition getUser_handler (id : jsval) (t : table) : Z * jsval :=
  (200%Z, JObj [("user", default JUndef (getUser id t))]).

End Queries.

(** ** The invariant: active emails are unique *)

(** The values [col = ?] can match: strings and numbers. *)
Definition keyed (v : jsval) : option jsval :=
  match v with JStr _ | JNum _ => Some v | _ => None end.

Definition active_emails (t : table) : list jsval :=
  omap (fun r => if u_active r then keyed (u_email r) else None) (urows t).

(** No two active rows have the same (matchable) email, the property
    [findByEmail]'s [LIMIT 1] relies on. *)
Definition emails_unique (t : table) : Prop := NoDup (active_emails t).

(** ** Lemmas *)

Lemma sql_eq_keyed a b v :
  keyed a = Some v -> sql_eq b a = true -> b = a.
Proof.
  destruct a, b; simpl; try discriminate; intros _ E.
  - by apply Z.eqb_eq in E as ->.
  - by apply String.eqb_eq in E as ->.
Qed.

Lemma sql_eq_refl_keyed a v : keyed a = Some v -> sql_eq a a = true.
Proof. destruct a; simpl; try discriminate; intros _; [apply Z.eqb_refl|apply String.eqb_refl]. Qed.

Lemma keyed_sql_value v : keyed (sql_value v) = keyed v.
Proof. by destruct v. Qed.

(** The row [create] appends. *)
Definition created_row (userData : jsval) (t : table) : user_row :=
  let g := Js.opt_get userData in
  mkUser (next_uid t) (sql_value (g "name")) (sql_value (g "email"))
         (sql_value (g "password")) (sql_value (g "phone"))
         (sql_value (g "role")) (sql_value (g "enteredBy")) true.

Lemma create_spec userData t :
  create userData t =
    (next_uid t, mkTable (urows t ++ [created_row userData t]) (S (next_uid t))).
Proof. reflexivity. Qed.

(** After [create], [findByEmail] finds the new row when no active row
    had its email. *)
Lemma findByEmail_create userData t e :
  findByEmail e t = None -> Js.opt_get userData "email" = e -> keyed e = Some e ->
  findByEmail e (snd (create userData t)) = Some (full_row (created_row userData t)).
Proof.
  unfold findByEmail, first_row. intros Hnone He Hk.
  destruct (list_find _ (urows t)) eqn:E; [discriminate|]. simpl.
  rewrite (list_find_app_r _ _ _ E). simpl. rewrite He.
  replace (sql_value e) with e by (by destruct e).
  rewrite (sql_eq_refl_keyed e e Hk). simpl.
  unfold created_row. rewrite He. by replace (sql_value e) with e by (by destruct e).
Qed.

(** [create] keeps emails unique when no active row had the new email. *)
Lemma emails_unique_create userData t :
  findByEmail (Js.opt_get userData "email") t = None ->
  emails_unique t -> emails_unique (snd (create userData t)).
Proof.
  unfold emails_unique, active_emails, findByEmail, first_row. simpl.
  intros Hnone Hnd. rewrite omap_app. simpl. rewrite keyed_sql_value.
  destruct (keyed (Js.opt_get userData "email")) as [v|] eqn:Hk; simpl; [|by rewrite app_nil_r].
  apply NoDup_app. split; [done|]. split; [|apply NoDup_singleton].
  intros x Hx ->%list_elem_of_singleton.
  destruct (list_find _ (urows t)) eqn:E; [discriminate|].
  apply list_find_None in E. rewrite Forall_forall in E.
  apply list_elem_of_omap in Hx as [r [Hr Hx]].
  destruct (u_active r) eqn:Ha; [|discriminate].
  apply (E r Hr). rewrite Ha. simpl.
  assert (v = Js.opt_get userData "email") as ->
    by (destruct (Js.opt_get userData "email"); simpl in Hk; congruence).
  destruct (u_email r) eqn:Hu; simpl in Hx; try discriminate; injection Hx as <-;
    simpl; by rewrite ?Z.eqb_refl, ?String.eqb_refl.
Qed.

End Users.
