(* ===== verification/Auth.v ===== *)
(** * Authentication: utils/tokenUtils.js, services/authService.js,
      controllers/authController.js, middlewares/authMiddleware.js

    [POST /api/auth/register] and [POST /api/auth/login]
    (routes/authRoutes.js) validate the body with [registrationSchema] or
    [loginSchema] ([AuthSchema]) and call the controller, which calls the
    service and answers 201/200 or 400/401.  Every other route of
    [/api/user] and [/api/xero] first runs [authenticateToken], which takes
    the second word of the [Authorization] header and verifies it as a JWT.

    bcryptjs, jsonwebtoken and [crypto.randomBytes] are libraries: the
    class [AuthLib] states what the code uses of them.  Random draws
    ([bcrypt.genSalt], [randomBytes]) are numbered by a counter of the
    world, so that a run is a function of its world.  The one law the
    theorems use is that [bcrypt.compare] accepts a password against its
    own hash. *)

From S2P Require Import Prelude JsValue Users AuthSchema Envelope.

Module Auth.
Local Open Scope xero_scope.

(** What [jwt.verify] answers: the payload, or the error it throws
    ([TokenExpiredError] or another [JsonWebTokenError]). *)
Inductive verdict := VerOk (payload : jsval) | VerExpired | VerInvalid.

Class AuthLib := {
  (** [bcrypt.genSalt(10)] as the [n]-th random draw *)
  gen_salt : nat -> string;
  (** [bcrypt.hash(password, salt)] *)
  bcrypt_hash : string -> string -> string;
  (** [bcrypt.compare(password, hash)] *)
  bcrypt_compare : string -> string -> bool;
  (** [crypto.randomBytes(16).toString("hex")] as the [n]-th draw *)
  random_hex : nat -> string;
  (** [jwt.sign(payload, JWT_SECRET, {expiresIn, algorithm: "HS512",
      audience, issuer})] *)
  jwt_sign : jsval -> string;
  (** [jwt.verify(token, JWT_SECRET, {...})] at a time in milliseconds *)
  jwt_verify : string -> Z -> verdict;
  compare_hash : forall p s, bcrypt_compare p (bcrypt_hash p s) = true
}.

Record world := mkWorld {
  users : Users.table;
  clock : Z;          (** [Date.now()] *)
  draws : nat         (** random draws so far *)
}.

(** A thrown [Error] and its [message]. *)
Inductive error := ErrMessage (message : string).

Abbreviation M := (St world error).

(** [typeof v] *)
Definition js_typeof (v : jsval) : string :=
  match v with
  | JUndef => "undefined" | JNull => "object" | JBool _ => "boolean"
  | JNum _ => "number" | JStr _ => "string" | JArr _ | JObj _ => "object"
  end.

(** The separator of [str.split(" ")]. *)
Definition is_blank (c : Ascii.ascii) : bool := Nat.eqb (Ascii.nat_of_ascii c) 32.

Definition split_space (s : string) : list string := Js.split is_blank s.

(** A string without the separator [" "]. *)
Definition no_space (s : string) : bool :=
  forallb (fun c => negb (is_blank c)) (String.list_ascii_of_string s).

Section Service.
Context `{AuthLib}.

Definition draw : M nat :=
  w <- st_get ;;
  st_put (mkWorld (users w) (clock w) (S (draws w))) ;;; st_ret (draws w).

(** [bcrypt.hash(password, salt)]: bcryptjs throws on a non-string. *)
Definition hash (password : jsval) (salt : string) : M string :=
  match password with
  | JStr p => st_ret (bcrypt_hash p salt)
  | other => st_throw (ErrMessage ("Illegal arguments: " +:+ js_typeof other +:+ ", string"))
  end.

(** [bcrypt.compare(password, hash)] *)
Definition compare (password stored : jsval) : M bool :=
  match password, stored with
  | JStr p, JStr h => st_ret (bcrypt_compare p h)
  | _, _ => st_throw (ErrMessage ("Illegal arguments: " +:+ js_typeof password +:+ ", " +:+
                                  js_typeof stored))
  end.

(** [generateAuthToken(payload)] *)
Definition generateAuthToken (payload : list (string * jsval)) : M string :=
  w <- st_get ;;
  n <- draw ;;
  let enhanced := Js.set_field "jti" (JStr (random_hex n))
                    (Js.set_field "iat" (JNum (clock w / 1000)) payload) in
  st_ret (jwt_sign (JObj enhanced)).

(** [verifyAuthToken(token)] *)
Definition verifyAuthToken (token : string) (w : world) : verdict :=
  jwt_verify token (clock w).

(** [const {...} = userData]: a TypeError on [undefined] and [null]. *)
Definition destructure (v : jsval) (first : string) (name : string) : M (string -> jsval) :=
  if Js.is_nullish v
  then st_throw (ErrMessage ("Cannot destructure property '" +:+ first +:+ "' of '" +:+
                             name +:+ "' as it is " +:+ Js.to_string v +:+ "."))
  else st_ret (Js.opt_get v).

(** [authService.registerUser(userData)] *)
Definition registerUser (userData : jsval) : M jsval :=
  g <- destructure userData "name" "userData" ;;
  let role := if Js.is_undef (g "role") then JStr "admin" else g "role" in
  w <- st_get ;;
  match Users.findByEmail (g "email") (users w) with
  | Some _ => st_throw (ErrMessage "Email already registered")
  | None =>
      n <- draw ;;
      hashed <- hash (g "password") (gen_salt n) ;;
      w' <- st_get ;;
      let '(userId, t') :=
        Users.create (JObj [("name", g "name"); ("email", g "email");
                            ("password", JStr hashed); ("phone", g "phone");
                            ("role", role)]) (users w') in
      st_put (mkWorld t' (clock w') (draws w')) ;;;
      st_ret (JObj [("userid", JNum (Z.of_nat userId)); ("name", g "name");
                    ("email", g "email"); ("phone", g "phone")])
  end.

(** [authService.loginUser(email, password)] *)
Definition loginUser (email password : jsval) : M jsval :=
  w <- st_get ;;
  match Users.findByEmail email (users w) with
  | None => st_throw (ErrMessage "Invalid email or password")
  | Some user =>
      let u := Js.opt_get user in
      valid <- compare password (u "password") ;;
      if negb valid then st_throw (ErrMessage "Invalid email or password")
      else
        token <- generateAuthToken [("userId", u "userid"); ("userName", u "name");
                                   ("email", u "email"); ("role", u "role")] ;;
        st_ret (JObj [("token", JStr token);
                      ("user", JObj [("userid", u "userid"); ("name", u "name");
                                     ("email", u "email"); ("phone", u "phone")])])
  end.

(** The controllers: a status and the payload of [res.json]. *)
Definition response : Type := (Z * jsval)%type.

(** [authController.registerUser(req, res)] *)
Definition registerUser_handler (body : jsval) : St world error response :=
  st_catch
    (user <- registerUser body ;;
     let u := Js.opt_get user in
     st_ret (201%Z, JObj [("message", JStr "User registered successfully");
                          ("user", JObj [("id", u "id"); ("email", u "email");
                                         ("name", u "name")])]))
    (fun '(ErrMessage m) =>
       st_ret (400%Z, JObj [("success", JBool false); ("message", JStr "Registration failed");
                            ("error", JStr m)])).

(** [authController.loginUser(req, res)] *)
Definition loginUser_handler (body : jsval) : St world error response :=
  st_catch
    (g <- destructure body "email" "req.body" ;;
     result <- loginUser (g "email") (g "password") ;;
     let r := Js.opt_get result in
     let u := Js.opt_get (r "user") in
     st_ret (200%Z, JObj [("message", JStr "Login successful"); ("token", r "token");
                          ("user", JObj [("id", u "id"); ("email", u "email");
                                         ("name", u "name")])]))
    (fun '(ErrMessage m) =>
       st_ret (401%Z, JObj [("success", JBool false);
                            ("message", JStr "Authentication failed"); ("error", JStr m)])).

(** What [authenticateToken] does: call [next()] with [req.user], or
    answer. *)
Inductive auth_result := AuthNext (user : jsval) | AuthRespond (r : response).

(** [req.headers.authorization?.split(" ")[1]] *)
Definition bearer_token (authorization : option string) : option string :=
  authorization ≫= fun h => split_space h !! 1.

(** [authenticateToken(req, res, next)] *)
Definition authenticateToken (authorization : option string) (w : world) : auth_result :=
  match bearer_token authorization with
  | None | Some EmptyString =>
      AuthRespond (401%Z, JObj [("success", JBool false);
                                ("message", JStr "Access token required")])
  | Some token =>
      match verifyAuthToken token w with
      | VerOk decoded => AuthNext decoded
      | VerExpired =>
          AuthRespond (401%Z, JObj [("success", JBool false);
                                    ("message", JStr "Access token expired");
                                    ("code", JStr "TOKEN_EXPIRED")])
      | VerInvalid =>
          AuthRespond (403%Z, JObj [("success", JBool false);
                                    ("message", JStr "Invalid access token");
                                    ("code", JStr "INVALID_TOKEN")])
      end
  end.

End Service.

(** ** Concrete inputs for the witnesses

    A toy library: the hash of a password is the password, the JWT
    ["good"] verifies, ["old"] has expired. *)
#[local] Instance demo_auth : AuthLib := {|
  gen_salt := fun _ => "$2a$10$salt"%string;
  bcrypt_hash := fun p _ => p;
  bcrypt_compare := fun p h => String.eqb p h;
  random_hex := fun _ => "0f"%string;
  jwt_sign := fun _ => "good"%string;
  jwt_verify := fun t _ =>
    if String.eqb t "good" then VerOk (JObj []) else
    if String.eqb t "old" then VerExpired else VerInvalid;
  compare_hash := fun p _ => String.eqb_refl p
|}.

Definition demo_auth_world : world := mkWorld (Users.mkTable [] 1) 1700000000000 0.

Definition demo_signup : jsval :=
  JObj [("name", JStr "Ann"); ("email", JStr "ann@example.com");
        ("password", JStr "secret1"); ("confirmPassword", JStr "secret1");
        ("phone", JStr "0400 000 000"); ("role", JStr "viewer")].

Definition demo_signed_up : world := snd (registerUser demo_signup demo_auth_world).

(** ** Lemmas *)

Lemma split_space_acc_no_space cur s :
  no_space s = true -> Js.split_acc is_blank cur s = [cur +:+ s].
Proof. apply split_acc_no_sep. Qed.

Lemma split_space_acc_app cur a b :
  no_space a = true ->
  Js.split_acc is_blank cur (a +:+ " " +:+ b) = (cur +:+ a) :: Js.split_acc is_blank "" b.
Proof. intros Ha. by apply split_acc_app. Qed.

(** ["Bearer <token>"] gives the token, whatever the first word. *)
Lemma bearer_token_spec scheme token :
  no_space scheme = true -> no_space token = true ->
  bearer_token (Some (scheme +:+ " " +:+ token)) = Some token.
Proof.
  intros Hs Ht. unfold bearer_token, split_space, Js.split. simpl.
  rewrite split_space_acc_app, split_space_acc_no_space by done. reflexivity.
Qed.

Section ServiceLemmas.
Context `{AuthLib}.

(** The role [registerUser] stores. *)
Definition stored_role (data : jsval) : jsval :=
  if Js.is_undef (Js.opt_get data "role") then JStr "admin" else Js.opt_get data "role".

(** The object [registerUser] passes to [User.create]. *)
Definition create_arg (data : jsval) (hashed : string) : jsval :=
  let g := Js.opt_get data in
  JObj [("name", g "name"); ("email", g "email"); ("password", JStr hashed);
        ("phone", g "phone"); ("role", stored_role data)].

Definition registered (data : jsval) (t : Users.table) : jsval :=
  let g := Js.opt_get data in
  JObj [("userid", JNum (Z.of_nat (Users.next_uid t))); ("name", g "name");
        ("email", g "email"); ("phone", g "phone")].

(** [registerUser] either fails and leaves the users table as it was, or
    inserts one row. *)
Lemma registerUser_cases data w :
  (users (snd (registerUser data w)) = users w /\
   exists e, fst (registerUser data w) = inl e) \/
  (exists hashed,
     Users.findByEmail (Js.opt_get data "email") (users w) = None /\
     registerUser data w =
       (inr (registered data (users w)),
        mkWorld (snd (Users.create (create_arg data hashed) (users w))) (clock w)
                (S (draws w)))).
Proof.
  unfold registerUser, destructure, draw, hash. st_simpl.
  destruct (Js.is_nullish data); simpl; [left; split; [done|by eexists]|].
  destruct (Users.findByEmail _ _) eqn:Hf; simpl; [left; split; [done|by eexists]|].
  destruct (Js.opt_get data "password") eqn:Hp; simpl; try (left; split; [done|by eexists]).
  right. eexists. split; [done|]. reflexivity.
Qed.

Lemma registerUser_run data w p :
  Js.is_nullish data = false ->
  Users.findByEmail (Js.opt_get data "email") (users w) = None ->
  Js.opt_get data "password" = JStr p ->
  registerUser data w =
    (inr (registered data (users w)),
     mkWorld (snd (Users.create (create_arg data (bcrypt_hash p (gen_salt (draws w))))
                                (users w))) (clock w) (S (draws w))).
Proof.
  intros Hd Hf Hp. unfold registerUser, destructure, draw, hash. st_simpl.
  rewrite Hd. simpl. rewrite Hf. simpl. rewrite Hp. reflexivity.
Qed.

Lemma loginUser_run email pw w user h :
  Users.findByEmail email (users w) = Some user ->
  Js.opt_get user "password" = JStr h -> bcrypt_compare pw h = true ->
  let u := Js.opt_get user in
  loginUser email (JStr pw) w =
    (inr (JObj [("token", JStr (jwt_sign (JObj
                 [("userId", u "userid"); ("userName", u "name"); ("email", u "email");
                  ("role", u "role"); ("iat", JNum (clock w / 1000));
                  ("jti", JStr (random_hex (draws w)))])));
                ("user", JObj [("userid", u "userid"); ("name", u "name");
                               ("email", u "email"); ("phone", u "phone")])]),
     mkWorld (users w) (clock w) (S (draws w))).
Proof.
  intros Hf Hp Hc u. unfold loginUser, compare, generateAuthToken, draw. st_simpl.
  rewrite Hf. simpl. rewrite Hp. simpl. rewrite Hc. reflexivity.
Qed.

(** A successful login returns [{token, user}] with a string token. *)
Lemma loginUser_ok email pw w r w' :
  loginUser email pw w = (inr r, w') ->
  exists tok user, r = JObj [("token", JStr tok); ("user", user)].
Proof.
  unfold loginUser, compare, generateAuthToken, draw. st_simpl.
  repeat case_match; intros; simplify_eq; eauto.
Qed.

(** ** Theorems *)

(** C28. Every account created through [POST /api/auth/register] is an
    administrator: the registration schema strips any [role] from the
    body, so [registerUser]'s default [role = "admin"] always applies,
    and the row it inserts is an active admin. *)
Theorem registration_role_admin email_format body out w r w' :
  AuthSchema.parse_registration email_format body = inr out ->
  registerUser (JObj out) w = (inr r, w') ->
  exists row,
    Users.urows (users w') = Users.urows (users w) ++ [row] /\
    Users.u_role row = JStr "admin" /\ Users.u_active row = true.
Proof.
  intros Hp Hrun.
  pose proof (AuthSchema.parse_registration_no_role email_format body out Hp) as Hrole.
  destruct (registerUser_cases (JObj out) w) as [[_ [e He]] | [hashed [_ Hr]]].
  - rewrite Hrun in He. discriminate.
  - rewrite Hrun in Hr. injection Hr as _ Hw. subst w'. eexists. split; [reflexivity|].
    simpl. unfold stored_role, Js.opt_get. rewrite Hrole. by split.
Qed.

(** [registerUser] keeps the active emails unique: it inserts only
    after [findByEmail] found no active row with the email, and it leaves
    the table unchanged when it fails. *)
Theorem registerUser_keeps_emails_unique data w :
  Users.emails_unique (users w) ->
  Users.emails_unique (users (snd (registerUser data w))).
Proof.
  intros Hu. destruct (registerUser_cases data w) as [[-> _] | [hashed [Hn ->]]]; [done|].
  exact (Users.emails_unique_create (create_arg data hashed) (users w) Hn Hu).
Qed.

(** C29. Register, then log in: when no active user has the email, a
    registration with a string email and password succeeds, and logging
    in with the same email and password then succeeds and returns a JWT
    signed over the new row's id, name, email and role, with [iat] the
    current second and a fresh [jti], and the row's public fields. *)
Theorem register_then_login data email pw w :
  Js.opt_get data "email" = JStr email -> Js.opt_get data "password" = JStr pw ->
  Users.findByEmail (JStr email) (users w) = None ->
  let id := JNum (Z.of_nat (Users.next_uid (users w))) in
  let g := Js.opt_get data in
  exists w1 w2,
    registerUser data w = (inr (registered data (users w)), w1) /\
    loginUser (JStr email) (JStr pw) w1 =
      (inr (JObj [("token", JStr (jwt_sign (JObj
                   [("userId", id); ("userName", Users.sql_value (g "name"));
                    ("email", JStr email); ("role", Users.sql_value (stored_role data));
                    ("iat", JNum (clock w / 1000)); ("jti", JStr (random_hex (S (draws w))))])));
                  ("user", JObj [("userid", id); ("name", Users.sql_value (g "name"));
                                 ("email", JStr email);
                                 ("phone", Users.sql_value (g "phone"))])]), w2).
Proof.
  intros He Hp Hn id g.
  assert (Hd : Js.is_nullish data = false) by (destruct data; simpl in He; done).
  rewrite <- He in Hn.
  rewrite (registerUser_run data w pw Hd Hn Hp). do 2 eexists. split; [reflexivity|].
  rewrite He in Hn.
  set (hashed := bcrypt_hash pw (gen_salt (draws w))).
  rewrite (loginUser_run (JStr email) pw
             (mkWorld (snd (Users.create (create_arg data hashed) (users w)))
                      (clock w) (S (draws w))) _ hashed
             (Users.findByEmail_create (create_arg data hashed) (users w) _ Hn
                (eq_trans eq_refl He) eq_refl) eq_refl (compare_hash _ _)).
  simpl. rewrite He. reflexivity.
Qed.

(** The client never learns its user id from a login: the
    controller answers [user: {id: result.user.id, ...}] but the service
    returns the key [userid], so [id] is [undefined] and the envelope
    carries [data: {token, user: {email, name}}] with the message at the
    top level. *)
Theorem login_envelope_without_id production body w tok uid name email phone w' :
  Js.is_nullish body = false ->
  loginUser (Js.opt_get body "email") (Js.opt_get body "password") w =
    (inr (JObj [("token", JStr tok);
                ("user", JObj [("userid", uid); ("name", JStr name); ("email", JStr email);
                               ("phone", phone)])]), w') ->
  exists payload,
    loginUser_handler body w = (inr (200%Z, payload), w') /\
    Envelope.send production 200 payload =
      JObj [("success", JBool true); ("statusCode", JNum 200);
            ("data", JObj [("token", JStr tok);
                           ("user", JObj [("email", JStr email); ("name", JStr name)])]);
            ("message", JStr "Login successful"); ("error", JNull)].
Proof.
  intros Hd Hl. eexists. split.
  - unfold loginUser_handler, destructure, st_catch. st_simpl. rewrite Hd. simpl.
    unfold st_bind in *. rewrite Hl. reflexivity.
  - reflexivity.
Qed.

(** [authenticateToken] on ["<scheme> <token>"] (any first word,
    not only ["Bearer"]) calls [next()] with the decoded payload when the
    JWT verifies, answers 401 [TOKEN_EXPIRED] when it has expired and 403
    [INVALID_TOKEN] otherwise; without an [Authorization] header it
    answers 401 ["Access token required"]. *)
Theorem authenticateToken_spec scheme token w :
  no_space scheme = true -> no_space token = true -> token <> ""%string ->
  authenticateToken (Some (scheme +:+ " " +:+ token)) w =
    match jwt_verify token (clock w) with
    | VerOk p => AuthNext p
    | VerExpired =>
        AuthRespond (401%Z, JObj [("success", JBool false);
                                  ("message", JStr "Access token expired");
                                  ("code", JStr "TOKEN_EXPIRED")])
    | VerInvalid =>
        AuthRespond (403%Z, JObj [("success", JBool false);
                                  ("message", JStr "Invalid access token");
                                  ("code", JStr "INVALID_TOKEN")])
    end /\
  authenticateToken None w =
    AuthRespond (401%Z, JObj [("success", JBool false);
                              ("message", JStr "Access token required")]).
Proof.
  intros Hs Ht Hne. split; [|reflexivity].
  unfold authenticateToken. rewrite bearer_token_spec by done.
  destruct token as [|c t]; [done|]. reflexivity.
Qed.

End ServiceLemmas.

(** ** Witnesses *)

Section Witnesses.
Local Open Scope string_scope.

Lemma registration_role_admin_witness :
  let out := [("email", JStr "ann@example.com"); ("password", JStr "secret1");
              ("confirmPassword", JStr "secret1"); ("name", JStr "Ann");
              ("phone", JStr "0400 000 000")] in
  AuthSchema.parse_registration (fun _ => true) demo_signup = inr out /\
  exists row,
    Users.urows (users (snd (registerUser (JObj out) demo_auth_world))) =
      (Users.urows (users demo_auth_world) ++ [row])%list /\
    Users.u_role row = JStr "admin" /\ Users.u_active row = true.
Proof.
  intros out. assert (Hp : AuthSchema.parse_registration (fun _ => true) demo_signup = inr out)
    by (vm_compute; reflexivity).
  split; [exact Hp|].
  exact (@registration_role_admin demo_auth (fun _ => true) demo_signup out demo_auth_world
           (registered (JObj out) (users demo_auth_world))
           (snd (@registerUser demo_auth (JObj out) demo_auth_world)) Hp
           ltac:(vm_compute; reflexivity)).
Defined.

Lemma register_then_login_witness :
  exists w1 w2,
    registerUser demo_signup demo_auth_world =
      (inr (registered demo_signup (users demo_auth_world)), w1) /\
    loginUser (JStr "ann@example.com") (JStr "secret1") w1 =
      (inr (JObj [("token", JStr (jwt_sign (JObj
                   [("userId", JNum 1); ("userName", JStr "Ann");
                    ("email", JStr "ann@example.com"); ("role", JStr "viewer");
                    ("iat", JNum 1700000000); ("jti", JStr (random_hex 1))])));
                  ("user", JObj [("userid", JNum 1); ("name", JStr "Ann");
                                 ("email", JStr "ann@example.com");
                                 ("phone", JStr "0400 000 000")])]), w2).
Proof.
  exact (@register_then_login demo_auth demo_signup "ann@example.com" "secret1"
           demo_auth_world eq_refl eq_refl eq_refl).
Defined.

Lemma registerUser_keeps_emails_unique_witness :
  Users.emails_unique (users demo_auth_world) /\ Users.emails_unique (users demo_signed_up).
Proof.
  assert (H0 : Users.emails_unique (users demo_auth_world)) by constructor.
  split; [exact H0|].
  exact (@registerUser_keeps_emails_unique demo_auth demo_signup demo_auth_world H0).
Defined.

Lemma login_envelope_without_id_witness :
  exists payload,
    loginUser_handler (JObj [("email", JStr "ann@example.com"); ("password", JStr "secret1")])
      demo_signed_up =
      (inr (200%Z, payload),
       snd (loginUser (JStr "ann@example.com") (JStr "secret1") demo_signed_up)) /\
    Envelope.send true 200 payload =
      JObj [("success", JBool true); ("statusCode", JNum 200);
            ("data", JObj [("token", JStr "good");
                           ("user", JObj [("email", JStr "ann@example.com");
                                          ("name", JStr "Ann")])]);
            ("message", JStr "Login successful"); ("error", JNull)].
Proof.
  exact (@login_envelope_without_id demo_auth true
           (JObj [("email", JStr "ann@example.com"); ("password", JStr "secret1")])
           demo_signed_up "good" (JNum 1) "Ann" "ann@example.com" (JStr "0400 000 000")
           _ eq_refl eq_refl).
Defined.

Lemma authenticateToken_spec_witness :
  authenticateToken (Some ("Bearer" +:+ " " +:+ "good")) demo_auth_world = AuthNext (JObj []) /\
  authenticateToken (Some ("Bearer" +:+ " " +:+ "old")) demo_auth_world =
    AuthRespond (401%Z, JObj [("success", JBool false); ("message", JStr "Access token expired");
                              ("code", JStr "TOKEN_EXPIRED")]).
Proof.
  split.
  - exact (proj1 (@authenticateToken_spec demo_auth "Bearer" "good" demo_auth_world
                    eq_refl eq_refl ltac:(discriminate))).
  - exact (proj1 (@authenticateToken_spec demo_auth "Bearer" "old" demo_auth_world
                    eq_refl eq_refl ltac:(discriminate))).
Defined.

End Witnesses.

End Auth.
