(* ===== verification/Controller.v ===== *)
(** * Routes, validation and controllers of the Xero API

    routes/xeroRoutes.js wires, after authentication,
    - [GET /invoices]: [validateQuery(PaginationQuerySchema)],
      [validateXeroToken], [getXeroInvoices];
    - [GET /contacts]: the same with [getXeroContacts];
    - [GET /accounts]: [validateXeroToken], [getXeroAccounts] (no query
      validation);
    - [GET /tax-rates]: [validateXeroToken], [getXeroTaxRates].

    [PaginationQuerySchema] (schemas/xeroSchema.js) is a zod object:
    [where], [order], [searchTerm], [contact_name] optional strings;
    [page], [pageSize] optional strings matching [^\d+$], transformed by
    [Number].  zod checks every key, collects every issue, and drops the
    keys the schema does not name.  [validate] (middlewares/validateSchema.js)
    replaces [req.query] by the parsed value; on issues its [catch] reads
    [error.errors], which the [ZodError] of zod 4 (the version
    schemas/authSchema.js needs for [z.email]) does not have: the
    [.map] of [undefined] throws a TypeError out of the [catch], Express
    hands it to [errorHandler] (middlewares/responseHandler.js,
    [Envelope]), and the answer is 500 with the TypeError's message, so
    the 400 "Validation failed" answer is never sent.
    [validateXeroToken] (middlewares/validateXeroToken.js) answers 400
    ["Xero not connected. ..."] when no row is active.  The controllers
    (controllers/xeroController.js) build the service's [params], call it
    and answer [res.json(data)] (status 200) or 500 [{error: err.message}].

    A response is a status and a body; [Envelope.send] gives what the
    client receives.  [msg_of] is the [message] of each error the service
    throws (the SDK's and the engine's texts, not in the repository);
    [stack] is the host's stack text of the TypeError, which
    [errorHandler] includes outside production. *)

From S2P Require Import Prelude JsValue TokenStore Provider XeroService Envelope.

Module Controller.
Local Open Scope xero_scope.
Import Provider XeroService.

(** ** zod *)

(** A zod issue: its [path.join(".")] and its [message]. *)
Record issue := mkIssue { iss_field : string; iss_message : string }.

(** The [typeof]-like name zod reports in "expected string, received ...". *)
Definition type_name (v : jsval) : string :=
  match v with
  | JUndef => "undefined" | JNull => "null" | JBool _ => "boolean"
  | JNum _ => "number" | JStr _ => "string" | JArr _ => "array" | JObj _ => "object"
  end.

Definition is_digit (c : Ascii.ascii) : bool :=
  (48 <=? Ascii.nat_of_ascii c)%nat && (Ascii.nat_of_ascii c <=? 57)%nat.

Fixpoint digits_acc (s : string) (acc : Z) : option Z :=
  match s with
  | EmptyString => Some acc
  | String c s' =>
      if is_digit c
      then digits_acc s' (acc * 10 + Z.of_nat (Ascii.nat_of_ascii c - 48))%Z
      else None
  end.

(** [.regex(/^\d+$/).transform(Number)]: [None] when the regex fails. *)
Definition digits_value (s : string) : option Z :=
  match s with EmptyString => None | _ => digits_acc s 0 end.

(** The two kinds of field of the schema. *)
Inductive field_kind :=
| FString                          (** [z.string().optional()] *)
| FDigits (regex_message : string). (** [z.string().regex(..).transform(Number).optional()] *)

Definition PaginationQuerySchema : list (string * field_kind) :=
  [("where", FString); ("order", FString);
   ("page", FDigits "Page must be a positive integer");
   ("pageSize", FDigits "Page size must be a positive integer");
   ("searchTerm", FString); ("contact_name", FString)].

(** One key: its issues and its output entry. *)
Definition parse_field (k : string) (kind : field_kind) (v : option jsval)
    : list issue * option (string * jsval) :=
  match v with
  | None | Some JUndef => ([], None)
  | Some (JStr s) =>
      match kind with
      | FString => ([], Some (k, JStr s))
      | FDigits msg =>
          match digits_value s with
          | Some n => ([], Some (k, JNum n))
          | None => ([mkIssue k msg], None)
          end
      end
  | Some other => ([mkIssue k ("Invalid input: expected string, received " ++ type_name other)], None)
  end.

Fixpoint parse_fields (schema : list (string * field_kind)) (input : list (string * jsval))
    : list issue * list (string * jsval) :=
  match schema with
  | [] => ([], [])
  | (k, kind) :: schema' =>
      let '(is1, o) := parse_field k kind (Js.field k input) in
      let '(is2, out) := parse_fields schema' input in
      (is1 ++ is2, match o with Some kv => kv :: out | None => out end)
  end.

(** [schema.parse(input)]: the issues (a thrown [ZodError]) or the output. *)
Definition parse (schema : list (string * field_kind)) (input : list (string * jsval))
    : list issue + list (string * jsval) :=
  match parse_fields schema input with
  | ([], out) => inr out
  | (issues, _) => inl issues
  end.

(** ** Responses *)

Definition response : Type := (Z * jsval)%type.

(** The TypeError that [error.errors.map(...)] throws in the [catch] of
    [validate]: zod 4's [ZodError] keeps its issues in [issues]. *)
Definition errors_map_error (stack : string) : jsval :=
  JObj [("name", JStr "TypeError");
        ("message", JStr "Cannot read properties of undefined (reading 'map')");
        ("stack", JStr stack)].

(** [errorHandler]'s answer to it ([Envelope.errorHandler], its default
    branch; [validation_crash_handled] below). *)
Definition validation_crash (production : bool) (stack : string) : response :=
  let fs := [("message", JStr "Cannot read properties of undefined (reading 'map')");
             ("code", JStr "INTERNAL_ERROR")] in
  (500%Z, JObj (if production then fs else fs ++ [("stack", JStr stack)])).

Definition not_connected : response :=
  (400%Z, JObj [("error", JStr "Xero not connected. Admin must complete authentication.")]).

(** [page ? parseInt(page, 10) : undefined] after validation, where [page]
    is a number: [parseInt(String(n), 10)] is [n] for the non-negative
    integers the schema produces (below 10^21). *)
Definition parseInt10 (v : jsval) : jsval :=
  match v with JNum n => JNum n | _ => JUndef end.

Definition or_undefined (v : jsval) : jsval := Js.or v JUndef.

Definition int_or_undefined (v : jsval) : jsval :=
  if Js.truthy v then parseInt10 v else JUndef.

(** The [params] objects the controllers build from [req.query]. *)
Definition invoice_params (q : list (string * jsval)) : list (string * jsval) :=
  Js.drop_undefined_loop
    [("where", or_undefined (param q "where")); ("order", or_undefined (param q "order"));
     ("page", int_or_undefined (param q "page"));
     ("pageSize", int_or_undefined (param q "pageSize"));
     ("searchTerm", or_undefined (param q "searchTerm"))].

Definition contact_params (q : list (string * jsval)) : list (string * jsval) :=
  Js.drop_undefined_loop
    [("where", or_undefined (param q "where")); ("order", or_undefined (param q "order"));
     ("page", int_or_undefined (param q "page"));
     ("pageSize", int_or_undefined (param q "pageSize"));
     ("searchTerm", or_undefined (param q "searchTerm"));
     ("contact_name", or_undefined (param q "contact_name"))].

Definition account_params (q : list (string * jsval)) : list (string * jsval) :=
  [("where", or_undefined (param q "where")); ("order", or_undefined (param q "order"))].

Definition tax_rate_params (q : list (string * jsval)) : list (string * jsval) :=
  Js.drop_undefined_loop
    [("where", or_undefined (param q "where")); ("order", or_undefined (param q "order"))].

Section Routes.
Context `{XeroApi}.
Context (client_id client_secret : string).
Context (msg_of : XeroService.error -> string).
Context (production : bool) (stack : string).

(** The controller's [try { res.json(await service(...)) } catch (err) {
    res.status(500).json({ error: err.message }) }]. *)
Definition controller (run : (XeroService.error + jsval) * world) : response * world :=
  match run with
  | (inr data, w) => ((200%Z, data), w)
  | (inl e, w) => ((500%Z, JObj [("error", JStr (msg_of e))]), w)
  end.

(** [validateXeroToken] then the controller. *)
Definition validateXeroToken (k : TokenStore.token_row -> M jsval) (w : world)
    : response * world :=
  match XeroService.getActiveToken w with
  | (inr (Some token), w') => controller (k token w')
  | (inr None, w') => (not_connected, w')
  | (inl _, w') =>
      ((401%Z, JObj [("error", JStr "Xero token invalid. Admin must reconnect.")]), w')
  end.

(** [validateQuery(schema)] then the rest of the chain. *)
Definition validateQuery (schema : list (string * field_kind))
    (next : list (string * jsval) -> world -> response * world)
    (query : list (string * jsval)) (w : world) : response * world :=
  match parse schema query with
  | inl _ => (validation_crash production stack, w)
  | inr q => next q w
  end.

Definition route_invoices (query : list (string * jsval)) (w : world) : response * world :=
  validateQuery PaginationQuerySchema
    (fun q => validateXeroToken (getInvoices client_id client_secret (invoice_params q)))
    query w.

Definition route_contacts (query : list (string * jsval)) (w : world) : response * world :=
  validateQuery PaginationQuerySchema
    (fun q => validateXeroToken (getContacts client_id client_secret (contact_params q)))
    query w.

Definition route_accounts (query : list (string * jsval)) (w : world) : response * world :=
  validateXeroToken (getAccounts client_id client_secret (account_params query)) w.

Definition route_tax_rates (query : list (string * jsval)) (w : world) : response * world :=
  validateXeroToken (getTaxRates client_id client_secret (tax_rate_params query)) w.

(** [initiateXeroAuth(req, res)] for the authenticated [req.user]:
    [consent] is what [xero.buildConsentUrl()] resolves to ([inr]) or
    the message it rejects with ([inl]). *)
Definition initiateXeroAuth (consent : string + string) (user : jsval) : response :=
  if negb (Js.strict_eq (Js.opt_get user "role") (JStr "admin")) then
    (403%Z, JObj [("message", JStr "Admin only authorization.")])
  else
    match consent with
    | inr url => (200%Z, JObj [("url", JStr url)])
    | inl m => (500%Z, JObj [("error", JStr m)])
    end.

(** [handleXeroCallback(req, res)]: [req.body] has passed
    [XeroCallbackSchema], so [code] is read from an object; the callback
    URL holds [String(code)]. *)
Definition handleXeroCallback (body : jsval) (w : world) : response * world :=
  match XeroService.handleCallback (Js.to_string (Js.opt_get body "code")) w with
  | (inr _, w') => ((200%Z, JObj [("message", JStr "Xero connected successfully")]), w')
  | (inl e, w') => ((500%Z, JObj [("error", JStr (msg_of e))]), w')
  end.

End Routes.

(** A world with an empty table. *)
Definition empty_world : world := mkWorld TokenStore.empty_table None 1000 [].

(** ** Lemmas and theorems *)

Section RouteLemmas.
Context `{XeroApi}.
Context (client_id client_secret : string).
Context (msg_of : XeroService.error -> string).
Context (production : bool) (stack : string).

(** [validation_crash] is what [errorHandler] answers to the TypeError. *)
Lemma validation_crash_handled :
  Envelope.errorHandler production (errors_map_error stack) =
    Some (JNum (fst (validation_crash production stack)), snd (validation_crash production stack)).
Proof. by destruct production. Qed.

Lemma getActiveToken_run w :
  XeroService.getActiveToken w =
    (inr (TokenStore.getActiveToken (db w)), add_event EvSelectActive w).
Proof. reflexivity. Qed.

(** C8. spec.md 7, 8.5: on a valid query, "not connected" (no active
    row: status 400, the not-connected message) and "refresh failed" (the
    active row expired and the provider rejects its refresh token: status
    500 with the refresh error's message) are distinct answers. *)
Theorem not_connected_vs_refresh_failure query q w :
  parse PaginationQuerySchema query = inr q ->
  (TokenStore.getActiveToken (db w) = None ->
     fst (route_invoices client_id client_secret msg_of production stack query w) = not_connected) /\
  (forall token,
     TokenStore.getActiveToken (db w) = Some token ->
     (TokenStore.expires_at token <= now w)%Z ->
     xero_refresh client_id client_secret (TokenStore.refresh_token token) = None ->
     fst (route_invoices client_id client_secret msg_of production stack query w) =
       (500%Z, JObj [("error", JStr (msg_of ErrRefreshFailed))])).
Proof.
  intros Hq. unfold route_invoices, validateQuery, validateXeroToken.
  rewrite Hq, getActiveToken_run. split.
  - intros Hn. by rewrite Hn.
  - intros token Ht Hle Hr. rewrite Ht. unfold getInvoices.
    erewrite st_bind_err; [reflexivity|].
    apply ensureValidToken_refresh_rejected_run; assumption.
Qed.

Lemma parse_page_zero s n :
  digits_value s = Some n ->
  parse PaginationQuerySchema [("page", JStr "0"); ("pageSize", JStr s)] =
    inr [("page", JNum 0); ("pageSize", JNum n)].
Proof. intros Hs. unfold parse. simpl. rewrite Hs. reflexivity. Qed.

Lemma invoice_params_page_zero n :
  n <> 0%Z -> invoice_params [("page", JNum 0); ("pageSize", JNum n)] = [("pageSize", JNum n)].
Proof.
  intros Hn. unfold invoice_params, int_or_undefined. simpl.
  rewrite (proj2 (Z.eqb_neq n 0) Hn). reflexivity.
Qed.

(** spec.md 3 says paginated mode is selected by the presence of
    [page] and [pageSize]; the code selects it by their truthiness: a
    request with [page=0] and a valid non-zero [pageSize] passes
    validation, and the controller drops [page] (0 is falsy), so the
    answer is the bare list of invoices, not the paginated object. *)
Theorem page_zero_gives_bare_list s n token w bfs :
  digits_value s = Some n -> n <> 0%Z ->
  TokenStore.getActiveToken (db w) = Some token ->
  (now w < TokenStore.expires_at token)%Z ->
  xero_call OpGetInvoices
    (bind_args (signature OpGetInvoices)
       (invoices_args (TokenStore.tenant_id token) [("pageSize", JNum n)]))
    (Some (TokenStore.access_token token)) = Some (JObj bfs) ->
  fst (route_invoices client_id client_secret msg_of production stack
         [("page", JStr "0"); ("pageSize", JStr s)] w) =
    (200%Z, default JUndef (Js.field "invoices" bfs)).
Proof.
  intros Hs Hn Ht Hlt Hc. unfold route_invoices, validateQuery.
  rewrite (parse_page_zero s n Hs), invoice_params_page_zero by done.
  unfold validateXeroToken. rewrite getActiveToken_run, Ht.
  unfold getInvoices.
  erewrite st_bind_ok; [|by apply ensureValidToken_fresh_run].
  erewrite st_bind_ok; [|apply call_ok; exact Hc].
  rewrite shape_obj. reflexivity.
Qed.

Lemma parse_fields_issue schema input k kind i :
  In (k, kind) schema -> In i (fst (parse_field k kind (Js.field k input))) ->
  In i (fst (parse_fields schema input)).
Proof.
  induction schema as [|[k' kind'] schema IH]; simpl; [done|].
  destruct (parse_field k' kind' (Js.field k' input)) as [is1 o] eqn:E1.
  destruct (parse_fields schema input) as [is2 out] eqn:E2. simpl in *.
  intros [Heq|Hin] Hi; apply in_or_app; [left|right].
  - injection Heq as -> ->. by rewrite E1 in Hi.
  - by apply IH.
Qed.

(** A [page] that is not a string of digits makes zod report a "Page
    must be a positive integer" issue, and [validateQuery] then answers
    with [errorHandler]'s 500 for the TypeError of [error.errors.map],
    before any query or provider call: the world is unchanged. *)
Theorem invalid_page_rejected query s w :
  Js.field "page" query = Some (JStr s) -> digits_value s = None ->
  (exists issues, parse PaginationQuerySchema query = inl issues /\
                  In (mkIssue "page" "Page must be a positive integer") issues) /\
  route_invoices client_id client_secret msg_of production stack query w =
    (validation_crash production stack, w).
Proof.
  intros Hp Hs.
  assert (Hin : In (mkIssue "page" "Page must be a positive integer")
                 (fst (parse_fields PaginationQuerySchema query))).
  { apply (parse_fields_issue _ _ "page" (FDigits "Page must be a positive integer"));
      [simpl; tauto|].
    rewrite Hp. simpl. rewrite Hs. left; reflexivity. }
  unfold route_invoices, validateQuery, parse.
  destruct (parse_fields PaginationQuerySchema query) as [[|i iss] out]; simpl in Hin;
    [done|].
  split; [|reflexivity]. exists (i :: iss). split; [reflexivity|exact Hin].
Qed.
End RouteLemmas.


(** ** Witnesses *)

Section Witnesses.
Local Open Scope string_scope.

Lemma not_connected_vs_refresh_failure_witness :
  parse PaginationQuerySchema [("where", JStr "Type==ACCPAY")] =
    inr [("where", JStr "Type==ACCPAY")] /\
  fst (@route_invoices XeroService.demo_api "id" "secret" (fun _ => "failed") true ""
         [("where", JStr "Type==ACCPAY")] empty_world) = not_connected /\
  fst (@route_invoices XeroService.demo_api "id" "secret" (fun _ => "failed") true ""
         [("where", JStr "Type==ACCPAY")] (XeroService.demo_world 500 "r-bad")) =
    (500%Z, JObj [("error", JStr "failed")]).
Proof.
  assert (Hq : parse PaginationQuerySchema [("where", JStr "Type==ACCPAY")] =
               inr [("where", JStr "Type==ACCPAY")]) by reflexivity.
  destruct (@not_connected_vs_refresh_failure XeroService.demo_api "id" "secret"
              (fun _ => "failed") true "" _ _ empty_world Hq) as [Hn _].
  destruct (@not_connected_vs_refresh_failure XeroService.demo_api "id" "secret"
              (fun _ => "failed") true "" _ _ (XeroService.demo_world 500 "r-bad") Hq) as [_ Hr].
  split; [exact Hq|]. split; [exact (Hn eq_refl)|].
  exact (Hr (XeroService.demo_row 500 "r-bad") eq_refl ltac:(simpl; lia) eq_refl).
Defined.

Lemma page_zero_gives_bare_list_witness :
  fst (@route_invoices XeroService.demo_api "id" "secret" (fun _ => "failed") true ""
         [("page", JStr "0"); ("pageSize", JStr "10")] (XeroService.demo_world 5000 "r-ok")) =
    (200%Z, JArr [JStr "INV-1"]).
Proof.
  exact (@page_zero_gives_bare_list XeroService.demo_api "id" "secret" (fun _ => "failed") true ""
           "10" 10 (XeroService.demo_row 5000 "r-ok") (XeroService.demo_world 5000 "r-ok") _
           eq_refl ltac:(discriminate) eq_refl ltac:(reflexivity) eq_refl).
Defined.

Lemma invalid_page_rejected_witness :
  (exists issues, parse PaginationQuerySchema [("page", JStr "abc")] = inl issues /\
                  In (mkIssue "page" "Page must be a positive integer") issues) /\
  @route_invoices XeroService.demo_api "id" "secret" (fun _ => "failed") true ""
    [("page", JStr "abc")] empty_world = (validation_crash true "", empty_world).
Proof.
  exact (@invalid_page_rejected XeroService.demo_api "id" "secret" (fun _ => "failed") true ""
           [("page", JStr "abc")] "abc" empty_world eq_refl eq_refl).
Defined.

End Witnesses.

End Controller.
