(* ===== verification/Validate.v ===== *)
(** * Request validation: middlewares/validateSchema.js

    [validate(schema, target)] parses [req[target]] with a zod schema;
    when it parses, it replaces [req[target]] by the parsed value and
    calls [next()].  When zod throws its [ZodError], the [catch] maps
    [error.errors], which zod 4's [ZodError] does not have (its issues
    are [error.issues]; zod 4 is the version schemas/authSchema.js needs
    for [z.email]): the TypeError of [undefined.map] is thrown out of the
    [catch], and Express passes it to the error handlers, so the 400
    "Validation failed" answer is never sent; neither is the 500 of the
    [catch], which only non-zod errors reach, and a schema's [parse]
    throws only [ZodError]s.  [thrown] is what the application answers
    to that TypeError ([Controller.validation_crash], the answer of
    [errorHandler]).  [validateBody], [validateQuery] and
    [validateParams] fix the target.  [validateMultiple(schemas)] parses
    [body], [query] and [params] in this order; the first target that
    fails throws the same TypeError from its inner [catch], which the
    outer [catch] passes to [next(error)], so the later targets are not
    parsed and [errors] stays empty.

    The routes that use [validateBody] are composed here with their
    handlers: [POST /api/auth/login] ([loginSchema], [Auth]),
    [POST /api/auth/register] ([registrationSchema]) and
    [POST /api/xero/callback] ([XeroCallbackSchema] of
    schemas/xeroSchema.js, [Controller]).  The rate limiters before the
    auth handlers are [App]'s. *)

From S2P Require Import Prelude JsValue TokenStore Provider XeroService Envelope AuthSchema Auth Controller.

Module Validate.
Local Open Scope xero_scope.
Import AuthSchema.

(** [schema.parse(value)]: the issues of the [ZodError] it throws, or
    the parsed object. *)
Definition parser : Type := jsval -> list issue + list (string * jsval).

(** A request: its [body], [query] and [params], by name. *)
Definition request : Type := list (string * jsval).

Definition target_of (req : request) (target : string) : jsval := Js.opt_get (JObj req) target.

(** [validate(schema, target)(req, res, next)]: [thrown] is the answer
    to the TypeError its [catch] throws, [next] continues with the
    request. *)
Definition validate {R} (schema : parser) (target : string) (thrown : R)
    (next : request -> R) (req : request) : R :=
  match schema (target_of req target) with
  | inl _ => thrown
  | inr out => next (Js.set_field target (JObj out) req)
  end.

Definition validateBody {R} (schema : parser) := @validate R schema "body".
Definition validateQuery {R} (schema : parser) := @validate R schema "query".
Definition validateParams {R} (schema : parser) := @validate R schema "params".

(** ** validateMultiple *)

(** The [schemas] argument; [None] is an absent (falsy) schema. *)
Record schemas := mkSchemas { sch_body : option parser; sch_query : option parser; sch_params : option parser }.

(** One [if (schemas.target) { try { req.target = parse(...) } catch ... }]:
    [None] when its [catch] throws. *)
Definition validate_part (target : string) (schema : option parser) (req : request) : option request :=
  match schema with
  | None => Some req
  | Some p =>
      match p (target_of req target) with
      | inl _ => None
      | inr out => Some (Js.set_field target (JObj out) req)
      end
  end.

Definition validateMultiple {R} (s : schemas) (thrown : R) (next : request -> R)
    (req : request) : R :=
  match validate_part "body" (sch_body s) req with
  | Some req =>
      match validate_part "query" (sch_query s) req with
      | Some req =>
          match validate_part "params" (sch_params s) req with
          | Some req => next req
          | None => thrown
          end
      | None => thrown
      end
  | None => thrown
  end.

(** ** schemas/xeroSchema.js: XeroCallbackSchema *)

(** [z.object({ code: z.string({ required_error: ... }) })]: a string
    schema without steps (zod 4 ignores [required_error]). *)
Definition XeroCallbackSchema : parser :=
  parse_object [("code", fun path => parse_string (fun _ => true) path [])] None.

End Validate.

(** ** The routes that validate their body *)

Section AuthRoutes.
Import Validate Auth.
Context `{AuthLib} (email_format : string -> bool) (production : bool) (stack : string).

(** [router.post("/login", loginLimiter, validateBody(loginSchema), loginUser)]
    after the limiter. *)
Definition login_route (body : jsval) : St world error response :=
  validateBody (AuthSchema.parse_login email_format) (st_ret (Controller.validation_crash production stack))
    (fun req => loginUser_handler (target_of req "body")) [("body", body)].

(** [router.post("/register", registerLimiter, validateBody(registrationSchema), registerUser)]
    after the limiter. *)
Definition register_route (body : jsval) : St world error response :=
  validateBody (AuthSchema.parse_registration email_format) (st_ret (Controller.validation_crash production stack))
    (fun req => registerUser_handler (target_of req "body")) [("body", body)].

End AuthRoutes.

Section CallbackRoute.
Import Provider Validate Controller.
Context `{XeroApi} (client_id client_secret : string) (msg_of : XeroService.error -> string).
Context (production : bool) (stack : string).

(** [router.post("/callback", validateBody(XeroCallbackSchema), handleXeroCallback)]
    after [authenticateToken]. *)
Definition callback_route (body : jsval) (w : XeroService.world) : Controller.response * XeroService.world :=
  validateBody XeroCallbackSchema (Controller.validation_crash production stack, w)
    (fun req => handleXeroCallback msg_of (target_of req "body") w) [("body", body)].

End CallbackRoute.

(** ** What reaches the handlers *)

Section CallbackLemmas.
Import Provider Validate Controller AuthSchema.
Context `{XeroApi} (msg_of : XeroService.error -> string) (production : bool) (stack : string).

(** [POST /api/xero/callback] exchanges a code only when the body is an
    object whose [code] is a string, and then passes [handleXeroCallback]
    the body [{code}] without its other keys; any other body (no code, a
    code that is not a string, a body that is not an object) makes zod
    throw, and the answer is [errorHandler]'s 500 for the TypeError of
    [validate]'s [catch], with the world unchanged. *)
Theorem callback_route_spec body w :
  callback_route msg_of production stack body w =
    match body, Js.opt_get body "code" with
    | JObj _, JStr s => handleXeroCallback msg_of (JObj [("code", JStr s)]) w
    | _, _ => (validation_crash production stack, w)
    end.
Proof.
  unfold callback_route, validateBody, validate, XeroCallbackSchema, parse_object, target_of.
  destruct body as [| | | | |xs|fs]; try reflexivity. simpl.
  destruct (Js.field "code" fs) as [[]|]; reflexivity.
Qed.

End CallbackLemmas.

Section MultipleLemmas.
Import Validate.

(** Whether a target's schema throws on the request. *)
Definition part_fails (target : string) (schema : option parser) (req : request) : bool :=
  match schema with
  | Some p => match p (target_of req target) with inl _ => true | inr _ => false end
  | None => false
  end.

Lemma target_of_set req t t' v : t' <> t -> target_of (Js.set_field t v req) t' = target_of req t'.
Proof. intros Hne. unfold target_of, Js.opt_get. by rewrite set_field_other. Qed.

(** A part fails exactly when its schema throws, and otherwise leaves
    the other targets. *)
Lemma validate_part_fails t schema req :
  part_fails t schema req = match validate_part t schema req with None => true | Some _ => false end.
Proof. unfold validate_part, part_fails. destruct schema as [p|]; [destruct (p _)|]; done. Qed.

Lemma validate_part_other t schema req req' :
  validate_part t schema req = Some req' -> forall t', t' <> t -> target_of req' t' = target_of req t'.
Proof.
  unfold validate_part. destruct schema as [p|]; [|by intros [= <-]].
  destruct (p (target_of req t)); [done|]. intros [= <-] t' Ht. by apply target_of_set.
Qed.

(** [validateMultiple] calls [next] exactly when no target's schema
    throws, each target parsed on the request as the code has it then
    (the parsed [body] does not change what [query] and [params] read);
    otherwise it answers the error handlers' [thrown], whichever target
    failed, and sends no "Validation failed" list. *)
Theorem validateMultiple_spec {R} (s : schemas) (thrown : R) next req :
  let fails := part_fails "body" (sch_body s) req || part_fails "query" (sch_query s) req ||
               part_fails "params" (sch_params s) req in
  (fails = true -> validateMultiple s thrown next req = thrown) /\
  (fails = false -> exists req', validateMultiple s thrown next req = next req').
Proof.
  unfold validateMultiple. rewrite (validate_part_fails "body").
  destruct (validate_part "body" (sch_body s) req) as [r1|] eqn:E1; [|simpl; split; [done|discriminate]].
  assert (Hq : part_fails "query" (sch_query s) req = part_fails "query" (sch_query s) r1)
    by (unfold part_fails; by rewrite (validate_part_other _ _ _ _ E1)).
  rewrite Hq, (validate_part_fails "query"). simpl.
  destruct (validate_part "query" (sch_query s) r1) as [r2|] eqn:E2; [|simpl; split; [done|discriminate]].
  assert (Hp : part_fails "params" (sch_params s) req = part_fails "params" (sch_params s) r2)
    by (unfold part_fails; by rewrite (validate_part_other _ _ _ _ E2), (validate_part_other _ _ _ _ E1)).
  rewrite Hp, (validate_part_fails "params"). simpl.
  destruct (validate_part "params" (sch_params s) r2) as [r3|]; split; try done.
  intros _. by exists r3.
Qed.

End MultipleLemmas.
