(* ===== verification/ServiceCopy.v ===== *)
(** * The earlier service: services/xeroService copy.js

    An older version of services/xeroService.js is kept beside it; no
    module requires it.  Its operations read the active token themselves
    ([ensureValidToken()] takes no argument) and throw "Xero not
    connected." when there is none.  It does not import [client_id] and
    [client_secret] from config/xeroConfig.js (line 2), so evaluating the
    arguments of [refreshWithRefreshToken(client_id, client_secret, ...)]
    throws a ReferenceError: its refresh path never reaches the provider.
    Its [getAccounts] and [getTaxRates] call the SDK operations of their
    names with the SDK's parameter order.

    The model reuses the world and the operations of [XeroService]; its
    errors add the two the copy throws itself. *)

From S2P Require Import Prelude JsValue TokenStore Provider XeroService.

Module ServiceCopy.
Local Open Scope xero_scope.
Import Provider XeroService.

Inductive copy_error :=
| CErr (e : error)                  (** an error of the shared operations *)
| CNotConnected                     (** [new Error("Xero not connected.")] *)
| CReferenceError (name : string).  (** reading an undeclared identifier *)

Abbreviation CM := (St world copy_error).

(** The shared operations, with their errors. *)
Definition lift {A} (m : M A) : CM A :=
  fun w => match m w with
           | (inl e, w') => (inl (CErr e), w')
           | (inr a, w') => (inr a, w')
           end.

(** Reading [client_id] or [client_secret], which the module never
    declares. *)
Definition undeclared (name : string) : CM string := st_throw (CReferenceError name).

(** The positional arguments of the copy's [getAccounts] and
    [getTaxRates]. *)
Definition copy_accounts_args (tenantId : option string) (params : list (string * jsval))
    : list jsval :=
  [tenant_js tenantId; JUndef; param params "where"; param params "order"].

Definition copy_taxRates_args (tenantId : option string) (params : list (string * jsval))
    : list jsval :=
  [tenant_js tenantId; param params "where"; param params "order"].

Section Copy.
Context `{XeroApi}.

(** [const token = await XeroTokenModel.getActiveToken();
     if (!token) throw new Error("Xero not connected.");] *)
Definition active_or_throw : CM TokenStore.token_row :=
  o <- lift getActiveToken ;;
  match o with Some t => st_ret t | None => st_throw CNotConnected end.

(** [newXero.refreshWithRefreshToken(client_id, client_secret, rt)]: the
    arguments are evaluated first. *)
Definition refresh_copy (rt : string) : CM token_response :=
  cid <- undeclared "client_id" ;;
  csec <- undeclared "client_secret" ;;
  lift (refreshWithRefreshToken cid csec rt).

(** [(await XeroTokenModel.getActiveToken()).tenant_id] *)
Definition reread_tenant : CM (option string) :=
  o <- lift getActiveToken ;; t <- lift (require o) ;; st_ret (TokenStore.tenant_id t).

(** [ensureValidToken2()] *)
Definition ensureValidToken2 : CM (option string) :=
  token <- active_or_throw ;;
  w <- st_get ;;
  (if (TokenStore.expires_at token <=? now w)%Z then
     newToken <- refresh_copy (TokenStore.refresh_token token) ;;
     t <- lift date_now ;;
     lift (updateToken (rs_access newToken) (rs_refresh newToken)
                       (t + rs_expires_in newToken * 1000)%Z)
   else st_ret tt) ;;;
  reread_tenant.

(** [ensureValidToken()] *)
Definition ensureValidToken : CM (option string) :=
  token <- active_or_throw ;;
  w <- st_get ;;
  lift (setTokenSet (ts_of_row token)) ;;;
  (if (TokenStore.expires_at token <=? now w)%Z then
     newToken <- refresh_copy (TokenStore.refresh_token token) ;;
     t <- lift date_now ;;
     lift (updateToken (rs_access newToken) (rs_refresh newToken)
                       (t + rs_expires_in newToken * 1000)%Z) ;;;
     t' <- lift date_now ;;
     lift (setTokenSet (mkTokenSet (rs_access newToken) (rs_refresh newToken)
                                   (t' + rs_expires_in newToken * 1000)%Z))
   else st_ret tt) ;;;
  reread_tenant.

Definition getInvoices (params : list (string * jsval)) : CM jsval :=
  tenantId <- ensureValidToken ;;
  body <- lift (call OpGetInvoices (invoices_args tenantId params)) ;;
  lift (shape "invoices" "Invoices synced successfully" params body).

Definition getContacts (params : list (string * jsval)) : CM jsval :=
  tenantId <- ensureValidToken ;;
  body <- lift (call OpGetContacts (contacts_args tenantId params)) ;;
  lift (shape "contacts" "Contacts synced successfully" params body).

Definition getAccounts (params : list (string * jsval)) : CM jsval :=
  tenantId <- ensureValidToken ;;
  body <- lift (call OpGetAccounts (copy_accounts_args tenantId params)) ;;
  lift (read body "accounts").

Definition getTaxRates (params : list (string * jsval)) : CM jsval :=
  tenantId <- ensureValidToken ;;
  body <- lift (call OpGetTaxRates (copy_taxRates_args tenantId params)) ;;
  lift (read body "taxRates").

End Copy.

(** ** Lemmas *)

Section CopyLemmas.
Context `{XeroApi}.
Context (client_id client_secret : string).

Ltac run_copy :=
  unfold ensureValidToken, active_or_throw, refresh_copy, undeclared, reread_tenant, lift;
  run_service.

(** On an expired token the copy loads it into the session, then throws
    a ReferenceError: no refresh call is made and the table is not
    written. *)
Lemma copy_expired_reference_error t w :
  TokenStore.getActiveToken (db w) = Some t ->
  (TokenStore.expires_at t <= now w)%Z ->
  ensureValidToken w =
    (inl (CReferenceError "client_id"),
     after_set (ts_of_row t) (add_event EvSelectActive w)).
Proof.
  intros Ht Hle. run_copy. rewrite Ht. simpl.
  destruct (Z.leb_spec (TokenStore.expires_at t) (now w)); [reflexivity|lia].
Qed.

(** On a fresh active token the copy and the live service agree: the
    same tenant, the same table, the same session. *)
Lemma copy_fresh_agrees t w :
  TokenStore.getActiveToken (db w) = Some t ->
  (now w < TokenStore.expires_at t)%Z ->
  fst (ensureValidToken w) = inr (TokenStore.tenant_id t) /\
  fst (XeroService.ensureValidToken client_id client_secret t w) =
    inr (TokenStore.tenant_id t) /\
  db (snd (ensureValidToken w)) =
    db (snd (XeroService.ensureValidToken client_id client_secret t w)) /\
  session (snd (ensureValidToken w)) =
    session (snd (XeroService.ensureValidToken client_id client_secret t w)).
Proof.
  intros Ht Hlt. rewrite ensureValidToken_fresh_run by done. run_copy. rewrite Ht. simpl.
  destruct (Z.leb_spec (TokenStore.expires_at t) (now w)); [lia|]. simpl.
  rewrite Ht. simpl. by split_and!.
Qed.

(** The copy's [getAccounts] and [getTaxRates] bind [where] and [order]
    to the SDK parameters of those names. *)
Lemma copy_args_bind t params :
  bind_args (signature OpGetAccounts) (copy_accounts_args t params) =
    [("xeroTenantId", tenant_js t); ("ifModifiedSince", JUndef);
     ("where", param params "where"); ("order", param params "order")] /\
  bind_args (signature OpGetTaxRates) (copy_taxRates_args t params) =
    [("xeroTenantId", tenant_js t); ("where", param params "where");
     ("order", param params "order")].
Proof. split; reflexivity. Qed.

End CopyLemmas.

End ServiceCopy.
