(* ===== verification/TrustProxy.v ===== *)
(** * The proxy diagnostics: utils/trustProxyDetector.js

    [analyzeTrustProxy(req)] reads the proxy headers of a request and the
    application's ["trust proxy"] setting, recommends a setting and says
    whether the current one is right.  [createTrustProxyDebugger] and
    [createIPInfoEndpoint] answer the analysis as JSON; app.js has both
    routes commented out.

    [req.ip], [req.ips] and the socket address are computed by Express and
    Node: they are inputs.  A header is a string or absent.  [===] on the
    values involved (numbers, booleans, strings, [undefined]) is
    [Js.strict_eq]. *)

From S2P Require Import Prelude JsValue.
From stdpp Require Import pretty.

Module TrustProxy.

(** What the code reads of the request. *)
Record request := mkRequest {
  x_forwarded_for : option string;
  x_real_ip : option string;
  x_forwarded_proto : option string;
  x_forwarded_host : option string;
  connection_remote : option string;   (** [req.connection?.remoteAddress] *)
  socket_remote : option string;       (** [req.socket?.remoteAddress] *)
  trust_setting : jsval;               (** [req.app.get("trust proxy")] *)
  req_ip : jsval;
  req_ips : jsval
}.

Record recommendation := mkRec {
  rec_value : jsval;
  rec_code : string;
  rec_explanation : string;
  rec_confidence : string
}.

Record analysis := mkAnalysis {
  has_proxy : bool;
  proxy_count : Z;
  ip_chain : list string;
  detected_real_ip : jsval;
  recommended : recommendation;
  is_configured : bool;
  is_correct : bool
}.

(** A header as [if (h)] sees it. *)
Definition present (h : option string) : option string :=
  match h with Some s => if String.eqb s "" then None else Some s | None => None end.

Definition is_comma (c : Ascii.ascii) : bool := Nat.eqb (Ascii.nat_of_ascii c) 44.

(** The double quote character. *)
Definition dq : string := String (Ascii.ascii_of_nat 34) EmptyString.

(** The [code] of a recommendation: [app.set("trust proxy", v);]. *)
Definition trust_code (v : string) : string :=
  "app.set(" +:+ dq +:+ "trust proxy" +:+ dq +:+ ", " +:+ v +:+ ");".

(** The recommendation for [n] addresses in [X-Forwarded-For]. *)
Definition forwarded_recommendation (n : Z) : recommendation :=
  if Z.eqb n 1 then
    mkRec (JNum 1) (trust_code "1")
      "Single proxy detected (likely Nginx, ALB, or similar). This is the most common configuration."
      "high"
  else if Z.eqb n 2 then
    mkRec (JNum 2) (trust_code "2")
      "Two proxies detected (likely CDN + Load Balancer, e.g., CloudFlare + Nginx)."
      "high"
  else if (3 <=? n)%Z then
    mkRec (JNum n) (trust_code (pretty n))
      (pretty n +:+ " proxies detected. This might indicate multiple proxy layers (CDN + WAF + Load Balancer).")
      "medium"
  else mkRec JNull "" "" "low".

(** [analyzeTrustProxy(req)] *)
Definition analyzeTrustProxy (req : request) : analysis :=
  let current := trust_setting req in
  let '(hasProxy, count, chain, realIP, rec) :=
    match present (x_forwarded_for req), present (x_real_ip req) with
    | Some ff, _ =>
        let ips := Js.trim <$> Js.split is_comma ff in
        let n := Z.of_nat (length ips) in
        (true, n, ips, default JUndef (JStr <$> head ips), forwarded_recommendation n)
    | None, Some rip =>
        (true, 1%Z, [], JStr rip,
         mkRec (JNum 1) (trust_code "1")
           "Single proxy detected using X-Real-IP header (common with Nginx)." "high")
    | None, None =>
        (false, 0%Z, [], JNull,
         mkRec (JBool false) "// Do NOT set trust proxy"
           "No proxy detected. Your app is directly exposed to the internet. Do not enable trust proxy as it would allow IP spoofing."
           "high")
    end in
  let configured := negb (Js.strict_eq current JUndef) && negb (Js.strict_eq current (JBool false)) in
  let correct :=
    if Js.strict_eq (rec_value rec) (JBool false) then negb configured
    else Js.strict_eq current (rec_value rec) || Js.strict_eq current (JBool true) in
  mkAnalysis hasProxy count chain realIP rec configured correct.

(** ** Lemmas *)

Lemma split_acc_nonempty p cur s : Js.split_acc p cur s <> [].
Proof.
  revert cur. induction s as [|c s IH]; intros cur; simpl; [done|].
  destruct (p c); [done|apply IH].
Qed.

Lemma forwarded_recommendation_confidence n :
  (1 <= n)%Z -> rec_confidence (forwarded_recommendation n) <> "low"%string.
Proof.
  intros Hn. unfold forwarded_recommendation.
  destruct (Z.eqb_spec n 1); [discriminate|]. destruct (Z.eqb_spec n 2); [discriminate|].
  destruct (Z.leb_spec 3 n); [discriminate|lia].
Qed.

Lemma forwarded_recommendation_value n :
  (1 <= n)%Z -> rec_value (forwarded_recommendation n) = JNum n.
Proof.
  intros Hn. unfold forwarded_recommendation.
  destruct (Z.eqb_spec n 1) as [->|]; [done|]. destruct (Z.eqb_spec n 2) as [->|]; [done|].
  destruct (Z.leb_spec 3 n); [done|lia].
Qed.

Lemma split_length_pos p s : (1 <= length (Js.split p s))%nat.
Proof.
  pose proof (split_acc_nonempty p EmptyString s). unfold Js.split.
  destruct (Js.split_acc p EmptyString s); [done|simpl; lia].
Qed.

(** [X-Forwarded-For] always yields at least one address, so the
    fallback recommendation ([null], confidence "low") is never made. *)
Lemma forwarded_count_pos req ff :
  present (x_forwarded_for req) = Some ff ->
  (1 <= proxy_count (analyzeTrustProxy req))%Z /\
  rec_confidence (recommended (analyzeTrustProxy req)) <> "low"%string.
Proof.
  intros Hf. unfold analyzeTrustProxy. rewrite Hf. simpl.
  pose proof (split_acc_nonempty is_comma EmptyString ff) as Hne.
  unfold Js.split. destruct (Js.split_acc is_comma EmptyString ff) as [|x l]; [done|].
  simpl. split; [lia|]. apply forwarded_recommendation_confidence. lia.
Qed.

(** With [app.set("trust proxy", 1)] (app.js line 16), the analysis
    reports the setting correct exactly when it recommends 1: one
    address in [X-Forwarded-For], or none and an [X-Real-IP]. *)
Lemma trust_one_correct req :
  trust_setting req = JNum 1 ->
  is_correct (analyzeTrustProxy req) =
    match present (x_forwarded_for req), present (x_real_ip req) with
    | Some ff, _ => Nat.eqb (length (Js.split is_comma ff)) 1
    | None, Some _ => true
    | None, None => false
    end.
Proof.
  intros Ht. unfold analyzeTrustProxy. rewrite Ht.
  destruct (present (x_forwarded_for req)) as [ff|]; [|by destruct (present (x_real_ip req))].
  cbv zeta. rewrite length_fmap.
  pose proof (split_length_pos is_comma ff) as Hpos.
  rewrite forwarded_recommendation_value by lia. cbn [Js.strict_eq orb negb andb rec_value is_correct].
  destruct (Z.eqb_spec 1 (Z.of_nat (length (Js.split is_comma ff)))),
    (Nat.eqb_spec (length (Js.split is_comma ff)) 1); try reflexivity; lia.
Qed.

End TrustProxy.
