(* ===== verification/App.v ===== *)
(** * The application: app.js, routes/*.js, middlewares/rateLimiter.js,
      index.js

    - Rate limiting: [createRateLimiter] builds an express-rate-limit
      configuration; six limiters are created.  The library's default
      store is a fixed window per key: the first request of a key opens a
      window of [windowMs]; every request increments the key's count;
      a request is refused (429, the configured [message]) when the count
      exceeds [limit]; with [skipSuccessfulRequests] a response with
      status below 400 gives its hit back.  That library behaviour is
      [limiter_request] and [limiter_response] below, over a [gmap] from
      keys to [(hits, resetTime)].
    - The pipeline: the middlewares app.js installs, in order, and the
      routers of routes/index.js, authRoutes.js, userRoutes.js and
      xeroRoutes.js.  [pipeline method path] is the list of stages a
      request passes, in order, as Express matches them (paths without
      case sensitivity, a trailing slash ignored).
    - Start-up: [checkDatabaseConnection(retries = 5, delay = 5000)]
      tries [pool.getConnection()] up to [retries] times, sleeping
      [delay] between attempts; [startServer] listens only when it
      succeeds. *)

From S2P Require Import Prelude JsValue AuthSchema.
From stdpp Require Import gmap.

Module App.

(** ** Rate limiting *)

(** The options [createRateLimiter] takes. *)
Record limiter_options := mkOptions {
  o_windowMs : Z;
  o_limit : Z;
  o_message : string;
  o_keyPrefix : option string;
  o_skipSuccess : bool;
  o_skipFailed : bool
}.

(** The configuration it hands to [rateLimit]. *)
Record limiter_config := mkConfig {
  windowMs : Z;
  limit : Z;
  message : jsval;
  standardHeaders : bool;
  legacyHeaders : bool;
  skipSuccessfulRequests : bool;
  skipFailedRequests : bool;
  key_prefix : option string
}.

Definition createRateLimiter (o : limiter_options) : limiter_config :=
  mkConfig (o_windowMs o) (o_limit o)
           (JObj [("success", JBool false); ("message", JStr (o_message o))])
           true false (o_skipSuccess o) (o_skipFailed o) (o_keyPrefix o).

(** [keyGenerator]: [`${keyPrefix}:${ipKeyGenerator(req, res)}`], or the
    library's key when there is no prefix. *)
Definition limiter_key (c : limiter_config) (ip_key : string) : string :=
  match key_prefix c with
  | Some p => p +:+ ":" +:+ ip_key
  | None => ip_key
  end.

Definition publicLimiter : limiter_config :=
  createRateLimiter (mkOptions (1 * 60 * 1000) 30
    "Too many requests. Please wait a moment and try again" (Some "public") false false).

Definition apiLimiter : limiter_config :=
  createRateLimiter (mkOptions (15 * 60 * 1000) 100
    "You've made too many requests. Please wait a few minutes and try again."
    (Some "api") false false).

Definition loginLimiter : limiter_config :=
  createRateLimiter (mkOptions (10 * 60 * 1000) 5
    "Too many login attempts, please try again after 10 minutes." (Some "login") true false).

Definition registerLimiter : limiter_config :=
  createRateLimiter (mkOptions (15 * 60 * 1000) 5
    "Too many registration attempts, please try again after 15 minutes."
    (Some "register") true false).

Definition forgotPasswordLimiter : limiter_config :=
  createRateLimiter (mkOptions (60 * 60 * 1000) 3
    "Too many password reset requests, please try again after an hour."
    (Some "forgot-password") false false).

Definition resetPasswordLimiter : limiter_config :=
  createRateLimiter (mkOptions (15 * 60 * 1000) 3
    "Too many password reset attempts, please try again after 15 minutes."
    (Some "reset-password") true false).

(** The library's memory store: hits and window end per key. *)
Definition store : Type := gmap string (Z * Z).

(** A request of client [ip_key] at time [now]: its key, whether it
    passes, and the store after the hit. *)
Definition limiter_request (c : limiter_config) (st : store) (now : Z) (ip_key : string)
    : bool * store :=
  let k := limiter_key c ip_key in
  let '(hits, reset) :=
    match st !! k with
    | Some (h, r) => if (now <? r)%Z then (h + 1, r)%Z else (1%Z, (now + windowMs c)%Z)
    | None => (1%Z, (now + windowMs c)%Z)
    end in
  ((hits <=? limit c)%Z, <[k := (hits, reset)]> st).

(** After the response: the hit is given back when it is skipped. *)
Definition limiter_response (c : limiter_config) (st : store) (ip_key : string) (status : Z)
    : store :=
  let k := limiter_key c ip_key in
  let skip := (skipSuccessfulRequests c && (status <? 400)%Z) ||
              (skipFailedRequests c && (400 <=? status)%Z) in
  if skip then
    match st !! k with Some (h, r) => <[k := ((h - 1)%Z, r)]> st | None => st end
  else st.

(** One request through the limiter: refused (429) or answered with
    [status]. *)
Definition limiter_round (c : limiter_config) (st : store) (now : Z) (ip_key : string)
    (status : Z) : bool * store :=
  let '(ok, st1) := limiter_request c st now ip_key in
  (ok, limiter_response c st1 ip_key (if ok then status else 429%Z)).

(** A sequence of requests of one client: time and the status the route
    would answer; the number of them that passed and failed. *)
Fixpoint limiter_run (c : limiter_config) (st : store) (ip_key : string)
    (reqs : list (Z * Z)) : Z * store :=
  match reqs with
  | [] => (0%Z, st)
  | (now, status) :: reqs' =>
      let '(ok, st1) := limiter_round c st now ip_key status in
      let '(n, st2) := limiter_run c st1 ip_key reqs' in
      ((if ok && (400 <=? status)%Z then 1 else 0) + n, st2)%Z
  end.

(** ** The pipeline *)

(** The stages a request can pass, named as in the code. *)
Inductive stage :=
| Cors | JsonParser | UrlEncoded | CookieParser | Helmet | Morgan
| Formatter                          (** [responseFormatter] *)
| Limit (name : string)              (** a limiter of rateLimiter.js *)
| Authenticate                       (** [authenticateToken] *)
| ValidateBody (schema : string)
| ValidateQuery (schema : string)
| ValidateXeroToken
| Handler (name : string)
| NotFound.                          (** [notFoundHandler] *)

#[export] Instance stage_eq_dec : EqDecision stage.
Proof. solve_decision. Defined.

(** The middlewares app.js installs for every request, in order. *)
Definition app_prefix : list stage :=
  [Cors; JsonParser; UrlEncoded; CookieParser; Helmet; Morgan; Formatter;
   Limit "publicLimiter"].

Definition is_slash (c : Ascii.ascii) : bool := Nat.eqb (Ascii.nat_of_ascii c) 47.

(** The segments of a path, lower-cased (Express routes are not case
    sensitive); a trailing slash is ignored (routes are not strict). *)
Definition segments (path : string) : list string :=
  let parts := AuthSchema.to_lower <$> Js.split is_slash path in
  let parts := match parts with EmptyString :: ps => ps | ps => ps end in
  match rev parts with EmptyString :: ps => rev ps | _ => parts end.

(** [router.get] also answers [HEAD]. *)
Definition is_get (method : string) : bool :=
  String.eqb method "GET" || String.eqb method "HEAD".

(** A route of a router: its method test, its path and its stages. *)
Definition route (method_ok : bool) (segs : list string) (path : string) (st : list stage)
    : option (list stage) :=
  match segs with
  | [s] => if method_ok && String.eqb s path then Some st else None
  | _ => None
  end.

(** The first route that matches. *)
Fixpoint first_match (rs : list (option (list stage))) : option (list stage) :=
  match rs with
  | [] => None
  | Some st :: _ => Some st
  | None :: rs' => first_match rs'
  end.

(** routes/authRoutes.js *)
Definition auth_routes (method : string) (segs : list string) : option (list stage) :=
  let post := String.eqb method "POST" in
  first_match
    [route post segs "login" [Limit "loginLimiter"; ValidateBody "loginSchema"; Handler "loginUser"];
     route post segs "register"
       [Limit "registerLimiter"; ValidateBody "registrationSchema"; Handler "registerUser"]].

(** routes/userRoutes.js, after its [router.use(authenticateToken)] *)
Definition user_routes (method : string) (segs : list string) : option (list stage) :=
  if negb (is_get method) then None else
  match segs with
  | [] => Some [Handler "getUsers"]
  | [_] => Some [Handler "getUser"]
  | _ => None
  end.

(** routes/xeroRoutes.js, after its [router.use(authenticateToken)] *)
Definition xero_routes (method : string) (segs : list string) : option (list stage) :=
  let get := is_get method in
  first_match
    [route get segs "auth" [Handler "initiateXeroAuth"];
     route (String.eqb method "POST") segs "callback"
       [ValidateBody "XeroCallbackSchema"; Handler "handleXeroCallback"];
     route get segs "invoices"
       [ValidateQuery "PaginationQuerySchema"; ValidateXeroToken; Handler "getXeroInvoices"];
     route get segs "contacts"
       [ValidateQuery "PaginationQuerySchema"; ValidateXeroToken; Handler "getXeroContacts"];
     route get segs "accounts" [ValidateXeroToken; Handler "getXeroAccounts"];
     route get segs "tax-rates" [ValidateXeroToken; Handler "getXeroTaxRates"]].

(** A router's stages: its own middleware, then the matched route, or
    [notFoundHandler] when none matches. *)
Definition mounted (pre : list stage) (r : option (list stage)) : list stage :=
  pre ++ default [NotFound] r.

(** routes/index.js under [/api] *)
Definition api_routes (method : string) (segs : list string) : list stage :=
  match segs with
  | r :: rest =>
      if String.eqb r "auth" then mounted [] (auth_routes method rest)
      else if String.eqb r "user" then mounted [Authenticate] (user_routes method rest)
      else if String.eqb r "xero" then mounted [Authenticate] (xero_routes method rest)
      else [NotFound]
  | [] => [NotFound]
  end.

(** The stages a request passes, in order, as long as each calls
    [next()]. *)
Definition pipeline (method path : string) : list stage :=
  app_prefix ++
  match segments path with
  | [] => if is_get method then [Handler "root"] else [NotFound]
  | s :: rest => if String.eqb s "api" then Limit "apiLimiter" :: api_routes method rest
                 else [NotFound]
  end.

(** The handlers that read [req.user]. *)
Definition authenticated_handlers : list string :=
  ["getUsers"; "getUser"; "initiateXeroAuth"; "handleXeroCallback"; "getXeroInvoices";
   "getXeroContacts"; "getXeroAccounts"; "getXeroTaxRates"].

(** ** Start-up *)

Inductive boot_event :=
| EvConnect               (** [await pool.getConnection()] *)
| EvSleep (ms : Z)        (** [await new Promise(r => setTimeout(r, delay))] *)
| EvListen                (** [app.listen(PORT)] *)
| EvExit (code : Z).      (** [process.exit(code)] *)

(** The loop of [checkDatabaseConnection] from attempt [i], with
    [n] attempts left; [connects i] is whether the [i]-th
    [getConnection()] resolves. *)
Fixpoint check_loop (connects : nat -> bool) (retries : nat) (delay : Z) (n i : nat)
    : bool * list boot_event :=
  match n with
  | O => (false, [])
  | S n' =>
      if connects i then (true, [EvConnect])
      else
        let '(r, evs) := check_loop connects retries delay n' (S i) in
        (r, EvConnect :: (if (i <? retries - 1)%nat then [EvSleep delay] else []) ++ evs)
  end.

(** [checkDatabaseConnection(retries, delay)] *)
Definition checkDatabaseConnection (connects : nat -> bool) (retries : nat) (delay : Z)
    : bool * list boot_event :=
  check_loop connects retries delay retries 0.

(** [startServer()] *)
Definition startServer (connects : nat -> bool) : list boot_event :=
  let '(ok, evs) := checkDatabaseConnection connects 5 5000 in
  evs ++ (if ok then [EvListen] else [EvExit 1]).

Definition is_connect (e : boot_event) : bool :=
  match e with EvConnect => true | _ => false end.

Definition attempts (evs : list boot_event) : nat := length (filter (fun e => is_connect e) evs).

Fixpoint slept (evs : list boot_event) : Z :=
  match evs with
  | [] => 0
  | EvSleep ms :: evs' => ms + slept evs'
  | _ :: evs' => slept evs'
  end.

(** ** Lemmas *)

Section LimiterLemmas.
Context (c : limiter_config) (ip : string).
Hypothesis no_skip_failed : skipFailedRequests c = false.

(** One request inside the key's window: it passes when the count stays
    within the limit, and the count grows unless the hit is given back. *)
Lemma limiter_round_window st now status h r :
  st !! limiter_key c ip = Some (h, r) -> (now < r)%Z ->
  fst (limiter_round c st now ip status) = (h + 1 <=? limit c)%Z /\
  snd (limiter_round c st now ip status) !! limiter_key c ip =
    Some ((if (h + 1 <=? limit c)%Z && skipSuccessfulRequests c && (status <? 400)%Z
           then h else h + 1)%Z, r).
Proof.
  intros Hst Hnow. unfold limiter_round, limiter_request, limiter_response.
  rewrite Hst. destruct (Z.ltb_spec now r); [|lia]. cbn -[lookup insert].
  rewrite no_skip_failed, (lookup_insert_eq st). split; [reflexivity|].
  destruct (h + 1 <=? limit c)%Z, (skipSuccessfulRequests c), (status <? 400)%Z;
    cbn -[lookup insert];
    first [ apply (lookup_insert_eq st)
          | rewrite (lookup_insert_eq (<[limiter_key c ip := ((h + 1)%Z, r)]> st));
            do 2 f_equal; lia ].
Qed.

(** The first request of a key opens its window. *)
Lemma limiter_round_fresh st now status :
  st !! limiter_key c ip = None ->
  fst (limiter_round c st now ip status) = (1 <=? limit c)%Z /\
  snd (limiter_round c st now ip status) !! limiter_key c ip =
    Some ((if (1 <=? limit c)%Z && skipSuccessfulRequests c && (status <? 400)%Z
           then 0 else 1)%Z, (now + windowMs c)%Z).
Proof.
  intros Hst. unfold limiter_round, limiter_request, limiter_response.
  rewrite Hst. cbn -[lookup insert].
  rewrite no_skip_failed, (lookup_insert_eq st). split; [reflexivity|].
  destruct (1 <=? limit c)%Z, (skipSuccessfulRequests c), (status <? 400)%Z;
    cbn -[lookup insert];
    first [ apply (lookup_insert_eq st)
          | rewrite (lookup_insert_eq (<[limiter_key c ip := (1%Z, (now + windowMs c)%Z)]> st));
            do 2 f_equal; lia ].
Qed.

(** Inside one window, the requests that pass and fail are at most the
    room the count leaves under the limit. *)
Lemma limiter_run_window reqs st h r :
  st !! limiter_key c ip = Some (h, r) ->
  Forall (fun q => (fst q < r)%Z) reqs ->
  (fst (limiter_run c st ip reqs) <= Z.max 0 (limit c - h))%Z.
Proof.
  revert st h. induction reqs as [|[now status] reqs IH]; intros st h Hst Hall; simpl; [lia|].
  apply Forall_cons in Hall as [Hnow Hall]. simpl in Hnow.
  destruct (limiter_round_window st now status h r Hst Hnow) as [Hok Hst'].
  destruct (limiter_round c st now ip status) as [ok st1]. simpl in Hok, Hst'. subst ok.
  destruct (limiter_run c st1 ip reqs) as [n st2] eqn:E.
  specialize (IH st1 _ Hst' Hall). rewrite E in IH. simpl in IH |- *.
  destruct (Z.leb_spec (h + 1) (limit c)), (skipSuccessfulRequests c),
    (Z.ltb_spec status 400), (Z.leb_spec 400 status); simpl in IH |- *; lia.
Qed.

End LimiterLemmas.

Section PipelineLemmas.

Lemma no_handler_in_prefix h : Handler h ∉ app_prefix.
Proof. intros H. unfold app_prefix in H. elem_cases H. Qed.

Lemma first_match_handler rs st h :
  first_match rs = Some st -> Handler h ∈ st ->
  exists st', Some st' ∈ rs /\ Handler h ∈ st'.
Proof.
  induction rs as [|[st0|] rs IH]; simpl; [done| |].
  - intros [= <-] Hin. exists st0. split; [left|done].
  - intros Hf Hin. destruct (IH Hf Hin) as [st' [Hr Hh]]. exists st'. split; [by right|done].
Qed.

Lemma route_some b segs path st st' : route b segs path st = Some st' -> st' = st.
Proof. unfold route. destruct segs as [|x [|]]; try discriminate. by case_match; intros [=]. Qed.

(** The handlers of the public routers. *)
Lemma auth_routes_handlers method segs st h :
  auth_routes method segs = Some st -> Handler h ∈ st ->
  h = "loginUser" \/ h = "registerUser".
Proof.
  unfold auth_routes. intros Hr Hin.
  destruct (first_match_handler _ _ _ Hr Hin) as [st' [Hst Hh]].
  elem_cases Hst; symmetry in Hst; apply route_some in Hst as ->; elem_cases Hh; injection Hh; auto.
Qed.

(** A handler after [authenticateToken] in a mounted router. *)
Lemma split_after_auth r h :
  Handler h ∈ app_prefix ++ Limit "apiLimiter" :: mounted [Authenticate] r ->
  exists l1 l2 l3,
    app_prefix ++ Limit "apiLimiter" :: mounted [Authenticate] r =
      l1 ++ [Authenticate] ++ l2 ++ [Handler h] ++ l3 /\ Formatter ∈ l1.
Proof.
  intros Hin. apply elem_of_app in Hin as [Hin|Hin]; [by apply no_handler_in_prefix in Hin|].
  apply elem_of_cons in Hin as [Hin|Hin]; [discriminate|].
  unfold mounted in Hin. apply elem_of_cons in Hin as [Hin|Hin]; [discriminate|].
  apply list_elem_of_split in Hin as (l2 & l3 & E).
  exists (app_prefix ++ [Limit "apiLimiter"]), l2, l3. split.
  - unfold mounted. simpl. rewrite E. reflexivity.
  - apply elem_of_app. left. unfold app_prefix. set_solver.
Qed.

Lemma public_handlers_unauthenticated h :
  h = "root" \/ h = "loginUser" \/ h = "registerUser" -> h ∉ authenticated_handlers.
Proof.
  intros [-> | [-> | ->]]; apply (bool_decide_unpack _); vm_compute; exact I.
Qed.

(** A path under [/api] whose first segment has no slash. *)
Lemma split_api_path r s :
  Js.no_sep is_slash r = true ->
  Js.split is_slash ("/api/" +:+ r +:+ "/" +:+ s) = "" :: "api" :: r :: Js.split_acc is_slash "" s.
Proof.
  intros Hr. unfold Js.split. rewrite !string_app_cons, !string_app_nil_l.
  simpl Js.split_acc. rewrite split_acc_app by done. reflexivity.
Qed.

(** Dropping a trailing empty segment keeps the first two. *)
Lemma drop_trailing_two (a b : string) rest :
  b <> ""%string ->
  exists rest', (match rev (a :: b :: rest) with EmptyString :: ps => rev ps | _ => a :: b :: rest end)
                = a :: b :: rest'.
Proof.
  intros Hb. change (a :: b :: rest) with ([a; b] ++ rest). rewrite rev_app_distr.
  destruct (rev rest) as [|x xs] eqn:E; simpl.
  - destruct b; [done|]. by exists rest.
  - destruct x; [|by exists rest].
    exists (rev xs). by rewrite rev_app_distr.
Qed.

(** A path under [/api/<r>/] for a router [r] that routes/index.js does
    not mount ends in [notFoundHandler]. *)
Lemma pipeline_unmounted method r s :
  Js.no_sep is_slash r = true ->
  AuthSchema.to_lower r ∉ ["auth"; "user"; "xero"; ""]%string ->
  pipeline method ("/api/" +:+ r +:+ "/" +:+ s) = app_prefix ++ [Limit "apiLimiter"; NotFound].
Proof.
  intros Hr Hl. unfold pipeline, segments. rewrite split_api_path by done.
  cbn [fmap list_fmap]. change (AuthSchema.to_lower "") with ""%string.
  change (AuthSchema.to_lower "api") with "api"%string. cbv iota.
  destruct (drop_trailing_two "api" (AuthSchema.to_lower r)
              (AuthSchema.to_lower <$> Js.split_acc is_slash "" s)) as [rest' ->].
  { intros E. apply Hl. rewrite E. set_solver. }
  cbn [String.eqb Ascii.eqb Bool.eqb]. f_equal. f_equal. unfold api_routes.
  destruct (String.eqb_spec (AuthSchema.to_lower r) "auth") as [E|_];
    [exfalso; apply Hl; rewrite E; set_solver|].
  destruct (String.eqb_spec (AuthSchema.to_lower r) "user") as [E|_];
    [exfalso; apply Hl; rewrite E; set_solver|].
  destruct (String.eqb_spec (AuthSchema.to_lower r) "xero") as [E|_];
    [exfalso; apply Hl; rewrite E; set_solver|].
  reflexivity.
Qed.

End PipelineLemmas.

Section BootLemmas.
Context (connects : nat -> bool) (retries : nat) (delay : Z).

Lemma attempts_app l1 l2 : attempts (l1 ++ l2) = (attempts l1 + attempts l2)%nat.
Proof. unfold attempts. by rewrite filter_app, length_app. Qed.

Lemma slept_app l1 l2 : slept (l1 ++ l2) = (slept l1 + slept l2)%Z.
Proof. induction l1 as [|[] l1 IH]; simpl; rewrite ?IH; lia. Qed.

Lemma check_loop_attempts n i :
  (attempts (snd (check_loop connects retries delay n i)) <= n)%nat.
Proof.
  revert i. induction n as [|n IH]; intros i; simpl; [unfold attempts; simpl; lia|].
  destruct (connects i); simpl; [unfold attempts; simpl; lia|].
  specialize (IH (S i)). destruct (check_loop _ _ _ n (S i)) as [r evs]. simpl in *.
  unfold attempts in *. rewrite filter_cons. simpl. rewrite filter_app, length_app.
  destruct (i <? retries - 1)%nat; simpl; lia.
Qed.

(** A sleep follows only the attempts before the last one. *)
Lemma check_loop_slept n i :
  (0 <= delay)%Z ->
  (slept (snd (check_loop connects retries delay n i)) <= delay * Z.of_nat (retries - 1 - i))%Z.
Proof.
  intros Hd. revert i. induction n as [|n IH]; intros i; simpl; [nia|].
  destruct (connects i); simpl; [nia|].
  specialize (IH (S i)). destruct (check_loop _ _ _ n (S i)) as [r evs]. simpl in *.
  rewrite slept_app. destruct (Nat.ltb_spec i (retries - 1)); simpl; nia.
Qed.

Lemma check_loop_result n i :
  fst (check_loop connects retries delay n i) = true <->
  exists j, (i <= j < i + n)%nat /\ connects j = true.
Proof.
  revert i. induction n as [|n IH]; intros i; simpl.
  - split; [discriminate|]. intros [j [? _]]. lia.
  - destruct (connects i) eqn:Hc; simpl.
    + split; [intros _; exists i; split; [lia|done]|done].
    + specialize (IH (S i)). destruct (check_loop _ _ _ n (S i)) as [r evs]. simpl in *.
      rewrite IH. split; intros [j [Hj Hcj]].
      * exists j. split; [lia|done].
      * exists j. split; [|done]. destruct (Nat.eq_dec j i) as [->|]; [congruence|lia].
Qed.

Lemma check_loop_no_listen n i : EvListen ∉ snd (check_loop connects retries delay n i).
Proof.
  revert i. induction n as [|n IH]; intros i; simpl; [set_solver|].
  destruct (connects i); simpl; [set_solver|].
  specialize (IH (S i)). destruct (check_loop _ _ _ n (S i)) as [r evs]. simpl in *.
  intros Hin. apply elem_of_cons in Hin as [Hin|Hin]; [discriminate|].
  apply elem_of_app in Hin as [Hin|Hin]; [|done].
  destruct (i <? retries - 1)%nat; elem_cases Hin.
Qed.

End BootLemmas.

(** ** Theorems *)

(** C33. The login limiter lets through at most 5 failed login attempts
    of one client in a 10-minute window: every attempt counts, a refused
    attempt counts too, and only successful logins give their hit back
    ([skipSuccess: true]). *)
Theorem login_failures_bounded st ip t0 status0 reqs :
  st !! limiter_key loginLimiter ip = None ->
  Forall (fun q => (fst q < t0 + windowMs loginLimiter)%Z) reqs ->
  (fst (limiter_run loginLimiter st ip ((t0, status0) :: reqs)) <= 5)%Z.
Proof.
  intros Hst Hall.
  destruct (limiter_round_fresh loginLimiter ip eq_refl st t0 status0 Hst) as [Hok Hst1].
  cbn [limiter_run].
  destruct (limiter_round loginLimiter st t0 ip status0) as [ok st1]. simpl in Hok, Hst1. subst ok.
  pose proof (limiter_run_window loginLimiter ip eq_refl reqs st1 _ _ Hst1 Hall) as Hb.
  destruct (limiter_run loginLimiter st1 ip reqs) as [n st2]. simpl in *.
  destruct (Z.ltb_spec status0 400), (Z.leb_spec 400 status0); simpl in *; lia.
Qed.

(** C34. Every handler that reads [req.user] (the user routes and all
    Xero routes) runs after [authenticateToken], and every handler runs
    after [responseFormatter]: whatever the method and path, if such a
    handler is in the request's pipeline, [authenticateToken] comes
    before it and the formatter before that. *)
Theorem protected_handlers_authenticated method path h :
  Handler h ∈ pipeline method path -> h ∈ authenticated_handlers ->
  exists l1 l2 l3,
    pipeline method path = l1 ++ [Authenticate] ++ l2 ++ [Handler h] ++ l3 /\ Formatter ∈ l1.
Proof.
  intros Hin Hauth. unfold pipeline in *.
  destruct (segments path) as [|s rest].
  - exfalso. apply elem_of_app in Hin as [Hin|Hin]; [by apply no_handler_in_prefix in Hin|].
    destruct (is_get method); elem_cases Hin.
    injection Hin as ->. by apply (public_handlers_unauthenticated "root"); [left|].
  - destruct (String.eqb s "api");
      [|exfalso; apply elem_of_app in Hin as [Hin|Hin];
        [by apply no_handler_in_prefix in Hin|elem_cases Hin]].
    unfold api_routes in *. destruct rest as [|r segs].
    + exfalso. apply elem_of_app in Hin as [Hin|Hin]; [by apply no_handler_in_prefix in Hin|].
      elem_cases Hin.
    + destruct (String.eqb r "auth").
      * exfalso. apply elem_of_app in Hin as [Hin|Hin]; [by apply no_handler_in_prefix in Hin|].
        apply elem_of_cons in Hin as [Hin|Hin]; [discriminate|].
        unfold mounted in Hin. simpl in Hin.
        destruct (auth_routes method segs) as [st|] eqn:Ha; simpl in Hin; [|elem_cases Hin].
        apply (public_handlers_unauthenticated h); [|done].
        right. by apply (auth_routes_handlers method segs st).
      * destruct (String.eqb r "user"); [by apply split_after_auth|].
        destruct (String.eqb r "xero"); [by apply split_after_auth|].
        exfalso. apply elem_of_app in Hin as [Hin|Hin]; [by apply no_handler_in_prefix in Hin|].
        elem_cases Hin.
Qed.

(** C35. Start-up terminates within bounds: [startServer] makes at most
    5 connection attempts, sleeps at most 4 times 5 seconds, and starts
    listening exactly when one of the 5 attempts connects (otherwise it
    exits with code 1). *)
Theorem startServer_bounded connects :
  (attempts (startServer connects) <= 5)%nat /\
  (slept (startServer connects) <= 20000)%Z /\
  (EvListen ∈ startServer connects <-> exists i, (i < 5)%nat /\ connects i = true).
Proof.
  unfold startServer, checkDatabaseConnection.
  pose proof (check_loop_attempts connects 5 5000 5 0) as Ha.
  pose proof (check_loop_slept connects 5 5000 5 0 ltac:(lia)) as Hs.
  pose proof (check_loop_result connects 5 5000 5 0) as Hr.
  pose proof (check_loop_no_listen connects 5 5000 5 0) as Hn.
  destruct (check_loop connects 5 5000 5 0) as [ok evs]. simpl in *.
  rewrite attempts_app, slept_app. split_and!.
  - destruct ok; unfold attempts in *; simpl; lia.
  - destruct ok; simpl; lia.
  - rewrite elem_of_app. split.
    + intros [Hin|Hin]; [done|]. destruct ok; [|elem_cases Hin].
      destruct (proj1 Hr eq_refl) as [j [Hj Hc]]. exists j. split; [lia|done].
    + intros [j [Hj Hc]]. right. destruct ok; [by left|].
      assert (false = true) by (apply Hr; exists j; split; [lia|done]). discriminate.
Qed.

(** ** Witnesses *)

Section Witnesses.
Local Open Scope string_scope.

Lemma login_failures_bounded_witness :
  let reqs := [(1000, 401); (2000, 401); (3000, 200); (4000, 401); (5000, 401);
               (6000, 401); (7000, 401); (8000, 401)]%Z in
  (∅ : store) !! limiter_key loginLimiter "198.51.100.7" = None /\
  Forall (fun q => (fst q < 0 + windowMs loginLimiter)%Z) reqs /\
  (fst (limiter_run loginLimiter ∅ "198.51.100.7" ((0, 401)%Z :: reqs)) <= 5)%Z /\
  fst (limiter_run loginLimiter ∅ "198.51.100.7" ((0, 401)%Z :: reqs)) = 5%Z.
Proof.
  intros reqs.
  assert (Hnone : (∅ : store) !! limiter_key loginLimiter "198.51.100.7" = None)
    by reflexivity.
  assert (Hall : Forall (fun q => (fst q < 0 + windowMs loginLimiter)%Z) reqs)
    by (repeat constructor; simpl; lia).
  split; [exact Hnone|]. split; [exact Hall|]. split.
  - exact (login_failures_bounded ∅ "198.51.100.7" 0 401 reqs Hnone Hall).
  - vm_compute. reflexivity.
Defined.

Lemma protected_handlers_authenticated_witness :
  Handler "getXeroInvoices" ∈ pipeline "GET" "/api/xero/invoices" /\
  "getXeroInvoices" ∈ authenticated_handlers /\
  exists l1 l2 l3,
    pipeline "GET" "/api/xero/invoices" =
      (l1 ++ [Authenticate] ++ l2 ++ [Handler "getXeroInvoices"] ++ l3)%list /\
    Formatter ∈ l1.
Proof.
  assert (Hin : Handler "getXeroInvoices" ∈ pipeline "GET" "/api/xero/invoices")
    by (apply (bool_decide_unpack _); vm_compute; exact I).
  assert (Ha : "getXeroInvoices" ∈ authenticated_handlers)
    by (apply (bool_decide_unpack _); vm_compute; exact I).
  split; [exact Hin|]. split; [exact Ha|].
  exact (protected_handlers_authenticated "GET" "/api/xero/invoices" _ Hin Ha).
Defined.

End Witnesses.

End App.
