(* ===== verification/ClientApi.v ===== *)
(** * The frontend's HTTP layer: src/client/src/utils/api.js and
      services/{xeroService,authService,paymentBatchService,
      manualPaymentService}.js

    [api] is an axios instance whose request interceptor adds
    [Authorization: Bearer <token>] when the [token] cookie is set.  A
    call is a [request] (method, URL, query parameters, body) and a
    handler of what axios gives back: [inr data] for a 2xx answer
    ([response.data]), [inl data] for any other status (the error's
    [error.response.data]).  A service function's result is [inr] its
    value or [inl] the message of the [Error] it throws.

    axios drops [undefined] and [null] query parameters and writes
    numbers in decimal; the calls here pass no arrays or objects as
    parameters except [paymentBatchService.get]'s spread [filters], whose
    values are kept only when they are strings, numbers or booleans.
    [authService.login] uses [fetch]: its [response.ok] is a 2xx status. *)

From S2P Require Import Prelude JsValue.
From stdpp Require Import pretty.

Module ClientApi.
Local Open Scope xero_scope.

Record request := mkReq {
  r_method : string;
  r_url : string;
  r_params : list (string * string);
  r_body : jsval;
  r_auth : option string
}.

(** What axios answers: [error.response.data] or [response.data]. *)
Definition answer : Type := (jsval + jsval)%type.

Definition axios_answer (status : Z) (body : jsval) : answer :=
  if (200 <=? status)%Z && (status <? 300)%Z then inr body else inl body.

(** A query parameter as axios writes it. *)
Definition param_string (v : jsval) : option string :=
  match v with
  | JUndef | JNull | JArr _ | JObj _ => None
  | JStr s => Some s
  | JNum n => Some (pretty n)
  | JBool b => Some (if b then "true" else "false")
  end.

Definition params (ps : list (string * jsval)) : list (string * string) :=
  omap (fun '(k, v) => (fun s => (k, s)) <$> param_string v) ps.

(** The request interceptor: [if (token) config.headers.Authorization =
    `Bearer ${token}`]. *)
Definition intercept (token : option string) (r : request) : request :=
  match token with
  | Some t => if String.eqb t "" then r
              else mkReq (r_method r) (r_url r) (r_params r) (r_body r) (Some ("Bearer " +:+ t))
  | None => r
  end.

Definition get (url : string) (ps : list (string * jsval)) : request :=
  mkReq "GET" url (params ps) JUndef None.

Definition post (url : string) (body : jsval) : request := mkReq "POST" url [] body None.

(** The TypeError of reading [k] of [undefined] or [null]. *)
Definition type_error (x : jsval) (k : string) : string :=
  "Cannot read properties of " +:+ Js.to_string x +:+ " (reading '" +:+ k +:+ "')".

(** A property read [x.k] or [x[k]], which throws on [undefined] and
    [null]. *)
Definition read (x : jsval) (k : string) : string + jsval :=
  if Js.is_nullish x then inl (type_error x k) else inr (Js.own_value x k).

(** [xs.find((x) => x.k === v)]: the first element whose [k] is [v]; a
    [null] or [undefined] element throws when the search reaches it. *)
Fixpoint find_by (k : string) (v : jsval) (xs : list jsval) : string + option jsval :=
  match xs with
  | [] => inr None
  | x :: xs' =>
      if Js.is_nullish x then inl (type_error x k)
      else if Js.strict_eq (Js.own_value x k) v then inr (Some x) else find_by k v xs'
  end.

(** [xs.filter((x) => x.k !== v)] *)
Fixpoint reject_by (k : string) (v : jsval) (xs : list jsval) : string + list jsval :=
  match xs with
  | [] => inr []
  | x :: xs' =>
      if Js.is_nullish x then inl (type_error x k)
      else rest <-? reject_by k v xs' ;;
           inr (if Js.strict_eq (Js.own_value x k) v then rest else x :: rest)
  end.

Lemma read_defined x k : Js.own_value x k <> JUndef -> read x k = inr (Js.own_value x k).
Proof. unfold read. by destruct x. Qed.

Lemma read_num x k a : Js.own_value x k = JNum a -> read x k = inr (JNum a).
Proof. intros Hv. rewrite read_defined; [by rewrite Hv|congruence]. Qed.

(** [x?.k] and [x?.[k]] *)
Definition opt_read (x : jsval) (k : string) : jsval :=
  if Js.is_nullish x then JUndef else Js.own_value x k.

(** [new Error(x)] converts its argument with [String(x)]. *)
Definition error_of (x : jsval) : string :=
  match x with JStr s => s | v => Js.to_string v end.

(** [new Error(x)] with [x] the first truthy of [error.response?.data?.message]
    and the fallback. *)
Definition error_message (data : jsval) (fallback : string) : string :=
  error_of (Js.or (opt_read data "message") (JStr fallback)).

(** The handler shared by the calls that return [response.data] and throw
    [new Error(error.response?.data?.message || fallback)]. *)
Definition plain (fallback : string) (a : answer) : string + jsval :=
  match a with
  | inr data => inr data
  | inl data => inl (error_message data fallback)
  end.

(** ** services/xeroService.js *)

Definition default_pagination : jsval :=
  JObj [("page", JNum 1); ("pageSize", JNum 10); ("pageCount", JNum 0); ("itemCount", JNum 0)].

(** A destructured parameter with a default: the default replaces
    [undefined]. *)
Definition with_default (v d : jsval) : jsval := if Js.is_undef v then d else v.

(** [`Type=="${type}"`] and [`Status=="${status}"`]. *)
Definition condition (field : string) (v : jsval) : list string :=
  if Js.truthy v then [field +:+ "==" +:+ String (Ascii.ascii_of_nat 34) EmptyString +:+
                       Js.to_string v +:+ String (Ascii.ascii_of_nat 34) EmptyString]
  else [].

(** [params.where = whereConditions.join(" AND ")] when there are
    conditions. *)
Definition where_param (conds : list string) : list (string * jsval) :=
  match conds with
  | [] => []
  | _ => [("where", JStr (String.concat " AND " conds))]
  end.

Definition fetchInvoices_request (filters : jsval) : request :=
  let g := Js.opt_get filters in
  get "/api/xero/invoices"
    ([("page", with_default (g "page") (JNum 1)); ("pageSize", with_default (g "pageSize") (JNum 10));
      ("searchTerm", g "searchTerm")] ++
     where_param (condition "Type" (g "type") ++ condition "Status" (g "status"))).

(** The result object of [fetchInvoices] and [fetchContacts]. *)
Definition paged_result (data : jsval) : string + jsval :=
  d <-? read data "data" ;;
  p <-? read data "pagination" ;;
  s <-? read data "success" ;;
  m <-? read data "message" ;;
  inr (JObj [("data", Js.or d (JArr [])); ("pagination", Js.or p default_pagination);
             ("success", s); ("message", m)]).

(** [xeroService.fetchInvoices(filters)]: on failure it rethrows the
    axios error, whose message is axios's. *)
Definition fetchInvoices_handle (status : Z) (a : answer) : string + jsval :=
  match a with
  | inr data => paged_result data
  | inl _ => inl ("Request failed with status code " +:+ pretty status)
  end.

Definition fetchAvailableInvoices_request (filters : jsval) : request :=
  let g := Js.opt_get filters in
  get "/api/xero/invoices/available"
    ([("searchTerm", g "searchTerm")] ++
     where_param (condition "Type" (g "type") ++ condition "Status" (g "status") ++
                  (if Js.truthy (with_default (g "isAmountDueNull") (JBool false)) then []
                   else ["AmountDue!=0"]))).

(** The result object of [fetchAvailableInvoices]; failures are
    rethrown as for [fetchInvoices]. *)
Definition available_result (status : Z) (a : answer) : string + jsval :=
  match a with
  | inr data =>
      d <-? read data "data" ;;
      n <-? read data "totalCount" ;;
      s <-? read data "success" ;;
      m <-? read data "message" ;;
      inr (JObj [("data", Js.or d (JArr [])); ("itemCount", Js.or n (JNum 0));
                 ("success", s); ("message", m)])
  | inl _ => inl ("Request failed with status code " +:+ pretty status)
  end.

Definition fetchContacts_request (filters : jsval) : request :=
  let g := Js.opt_get filters in
  get "/api/xero/contacts"
    [("page", with_default (g "page") (JNum 1)); ("pageSize", with_default (g "pageSize") (JNum 10));
     ("where", g "where"); ("searchTerm", g "searchTerm")].

Definition fetchContacts_handle (a : answer) : string + jsval :=
  match a with
  | inr data => paged_result data
  | inl data => inl (error_message data "Failed to fetch contacts")
  end.

Definition fetchAccounts_request (filters : jsval) : request :=
  let g := Js.opt_get filters in
  get "/api/xero/accounts" [("where", g "where"); ("order", g "order")].

Definition fetchTaxRates_request (filters : jsval) : request :=
  let g := Js.opt_get filters in
  get "/api/xero/tax-rates" [("where", g "where"); ("order", g "order")].

(** The result object of [fetchAccounts] and [fetchTaxRates]. *)
Definition list_result (fallback : string) (a : answer) : string + jsval :=
  match a with
  | inr data =>
      match read data "data", read data "success", read data "message" with
      | inr d, inr s, inr m => inr (JObj [("data", Js.or d (JArr [])); ("success", s); ("message", m)])
      | inl e, _, _ | _, inl e, _ | _, _, inl e => inl e
      end
  | inl data => inl (error_message data fallback)
  end.

(** The four calls that return [response.data]. *)
Definition sync_request : request := get "/api/xero/auth" [].
Definition handleCallback_request (code state : jsval) : request :=
  post "/api/xero/callback" (JObj [("code", code); ("state", state)]).
Definition getSyncStatus_request : request := get "/api/xero/sync/status" [].
Definition getConnectionStatus_request : request := get "/api/xero/connection" [].

(** ** services/authService.js

    The browser state the service reads and writes: the [token] cookie
    and [localStorage]. *)

Record browser := mkBrowser {
  cookie : option string;
  storage : list (string * string)
}.

(** [Cookies.set("token", token, ...)]: js-cookie writes [String(token)]. *)
Definition setToken (token : jsval) (b : browser) : browser :=
  mkBrowser (Some (Js.to_string token)) (storage b).

Definition removeToken (b : browser) : browser := mkBrowser None (storage b).

(** [authService.login(credentials)]: a [fetch] of [/api/auth/login]
    without the interceptor.  [status] and [data] are the answer's status
    and parsed body; [response.ok] is a 2xx status. *)
Definition login_request (credentials : jsval) : request := post "/api/auth/login" credentials.

Definition login_handle (status : Z) (data : jsval) (b : browser) : (string + jsval) * browser :=
  if (200 <=? status)%Z && (status <? 300)%Z then
    match (d <-? read data "data" ;; read d "token") with
    | inl e => (inl e, b)
    | inr token => (inr data, setToken token b)
    end
  else
    match (errs <-? read data "errors" ;; read errs "0") with
    | inl e => (inl e, b)
    | inr first =>
        (inl (error_of (Js.or (opt_read first "message")
                          (Js.or (opt_read data "message") (JStr "Login failed")))), b)
    end.

(** [decoded.exp * 1000 < Date.now()]: a missing [exp] gives [NaN] and
    the comparison is false.  Payloads are JSON; [exp] other than a
    number or absent is outside the model and compares as absent. *)
Definition expired (decoded : jsval) (now : Z) : bool :=
  match Js.opt_get decoded "exp" with
  | JNum e => (e * 1000 <? now)%Z
  | _ => false
  end.

Section Decode.
(** [jwtDecode(token)]: the payload, or [None] when it throws. *)
Context (jwtDecode : string -> option jsval).

(** [authService.isAuthenticated()] at time [now] (milliseconds). *)
Definition isAuthenticated (now : Z) (b : browser) : bool * browser :=
  match cookie b with
  | None => (false, b)
  | Some token =>
      if String.eqb token "" then (false, b) else
      match jwtDecode token with
      | None => (false, removeToken b)
      | Some decoded =>
          let d := Js.opt_get decoded in
          if negb (Js.truthy (d "userId")) || negb (Js.truthy (d "iat")) ||
             negb (Js.truthy (d "jti")) || expired decoded now
          then (false, removeToken b)
          else (true, b)
      end
  end.

(** [authService.getUserInfo()] *)
Definition getUserInfo (b : browser) : jsval :=
  match cookie b with
  | None => JNull
  | Some token =>
      if String.eqb token "" then JNull else
      match jwtDecode token with
      | None => JNull
      | Some decoded =>
          JObj [("userId", Js.opt_get decoded "userId"); ("userName", Js.opt_get decoded "userName");
                ("email", Js.opt_get decoded "email")]
      end
  end.

End Decode.

(** [authService.logout()] *)
Definition logout (b : browser) : browser := mkBrowser None [].

(** ** services/paymentBatchService.js *)

(** [{ page, limit: size, ...filters }]: the spread's keys replace or
    follow [page] and [limit]; spreading [undefined] adds nothing. *)
Definition spread (base : list (string * jsval)) (filters : jsval) : list (string * jsval) :=
  match filters with
  | JObj fs => fold_left (fun acc '(k, v) => Js.set_field k v acc) fs base
  | _ => base
  end.

Definition batch_get_request (page size filters : jsval) : request :=
  get "/api/payment-batch" (spread [("page", page); ("limit", size)] filters).

Definition batch_create_request (body : jsval) : request := post "/api/payment-batch" body.

Definition batch_getById_request (batchId : jsval) : request :=
  get ("/api/payment-batch/" +:+ Js.to_string batchId) [].

Definition batch_approve_request (batchId approvalData : jsval) : request :=
  post ("/api/payment-batch/" +:+ Js.to_string batchId +:+ "/approve")
       (with_default approvalData (JObj [])).

Definition batch_delete_request (batchId reason : jsval) : request :=
  mkReq "DELETE" ("/api/payment-batch/" +:+ Js.to_string batchId) []
        (JObj [("reason", reason)]) None.

(** ** services/manualPaymentService.js *)

Definition manual_get_request (page size sortBy orderBy : jsval) : request :=
  get "/api/payments/manual" [("page", page); ("limit", size); ("sortBy", sortBy); ("orderBy", orderBy)].

Definition manual_create_request (body : jsval) : request := post "/api/payments/manual" body.

Definition manual_getById_request (id : jsval) : request :=
  get ("/api/payments/manual/" +:+ Js.to_string id) [].

(** [manualPaymentService.create(body)]: an answer with [success ===
    false] is returned as a value, any other failure is thrown. *)
Definition manual_create_handle (a : answer) : string + jsval :=
  match a with
  | inr data => inr data
  | inl data =>
      let first := opt_read (opt_read (opt_read data "errors") "0") "message" in
      if Js.truthy data && Js.strict_eq (Js.own_value data "success") (JBool false) then
        inr (JObj [("success", JBool false);
                   ("error", Js.or first (Js.or (Js.own_value data "message")
                                                (JStr "Failed to create manual payment")));
                   ("errors", Js.or (Js.own_value data "errors") (JArr []))])
      else inl (error_of (Js.or first (Js.or (opt_read data "message")
                                               (JStr "Failed to create manual payment"))))
  end.

End ClientApi.
