(* ===== verification/Json.v ===== *)
(** * JSON.stringify

    The client compares values by [JSON.stringify] (the approval page
    compares its filters so).  [stringify] is the host's function on the
    values of [JsValue]: [undefined] has no JSON text, and an object's
    keys in their order (integer-like keys, which JavaScript orders
    first, do not occur in the compared values).  Strings are quoted with
    JSON's escapes: a backslash before the quotation mark, the backslash
    and the letters b, f, n, r, t of the five named control characters,
    and a backslash, u and four lower-case hexadecimal digits for the
    other control characters.
    [unquote] reads a JSON string literal back; the roundtrip
    [unquote_esc] shows that quoting is injective, and that no quoted
    string is a prefix of another. *)

From S2P Require Import Prelude JsValue.
From stdpp Require Import pretty.
From Stdlib Require Import Ascii.

Module Json.
Local Open Scope xero_scope.

Definition dq : ascii := "034"%char.
Definition bs : ascii := "092"%char.

Definition hex_digit (n : nat) : ascii :=
  ascii_of_nat (if (n <? 10)%nat then 48 + n else 87 + n)%nat.

(** The escape of one character in a JSON string literal. *)
Definition esc_char (c : ascii) : string :=
  let n := nat_of_ascii c in
  if Ascii.eqb c dq then String bs (String dq EmptyString)
  else if Ascii.eqb c bs then String bs (String bs EmptyString)
  else if (n =? 8)%nat then String bs (String "b" EmptyString)
  else if (n =? 12)%nat then String bs (String "f" EmptyString)
  else if (n =? 10)%nat then String bs (String "n" EmptyString)
  else if (n =? 13)%nat then String bs (String "r" EmptyString)
  else if (n =? 9)%nat then String bs (String "t" EmptyString)
  else if (n <? 32)%nat then
    String bs (String "u" (String "0" (String "0" (String (hex_digit (n / 16))
      (String (hex_digit (n mod 16)) EmptyString)))))
  else String c EmptyString.

Fixpoint esc_string (s : string) : string :=
  match s with
  | EmptyString => EmptyString
  | String c s' => esc_char c +:+ esc_string s'
  end.

(** [JSON.stringify(s)] on a string. *)
Definition quote (s : string) : string := String dq (esc_string s +:+ String dq EmptyString).

(** [JSON.stringify(v)]; [None] is [undefined]. *)
Fixpoint stringify (v : jsval) : option string :=
  match v with
  | JUndef => None
  | JNull => Some "null"
  | JBool b => Some (if b then "true" else "false")
  | JNum n => Some (pretty n)
  | JStr s => Some (quote s)
  | JArr xs =>
      Some ("[" +:+
            (fix go (first : bool) (xs : list jsval) : string :=
               match xs with
               | [] => ""
               | x :: xs' => (if first then "" else ",") +:+ default "null" (stringify x) +:+ go false xs'
               end) true xs +:+ "]")
  | JObj fs =>
      Some ("{" +:+
            (fix go (first : bool) (fs : list (string * jsval)) : string :=
               match fs with
               | [] => ""
               | (k, x) :: fs' =>
                   match stringify x with
                   | None => go first fs'
                   | Some sx => (if first then "" else ",") +:+ quote k +:+ ":" +:+ sx +:+ go false fs'
                   end
               end) true fs +:+ "}")
  end%string.

(** ** Reading a string literal back *)

Definition hex_value (c : ascii) : option nat :=
  let n := nat_of_ascii c in
  if (48 <=? n) && (n <=? 57) then Some (n - 48)
  else if (97 <=? n) && (n <=? 102) then Some (n - 87) else None.

Definition cons_fst (c : ascii) (o : option (string * string)) : option (string * string) :=
  match o with Some (s, r) => Some (String c s, r) | None => None end.

(** The body of a string literal up to its closing quote, and what
    follows it. *)
Fixpoint unquote (l : string) : option (string * string) :=
  match l with
  | EmptyString => None
  | String c l' =>
      if Ascii.eqb c dq then Some (EmptyString, l')
      else if Ascii.eqb c bs then
        match l' with
        | String e l'' =>
            if Ascii.eqb e dq then cons_fst dq (unquote l'')
            else if Ascii.eqb e bs then cons_fst bs (unquote l'')
            else if Ascii.eqb e "b" then cons_fst (ascii_of_nat 8) (unquote l'')
            else if Ascii.eqb e "f" then cons_fst (ascii_of_nat 12) (unquote l'')
            else if Ascii.eqb e "n" then cons_fst (ascii_of_nat 10) (unquote l'')
            else if Ascii.eqb e "r" then cons_fst (ascii_of_nat 13) (unquote l'')
            else if Ascii.eqb e "t" then cons_fst (ascii_of_nat 9) (unquote l'')
            else if Ascii.eqb e "u" then
              match l'' with
              | String h1 (String h2 (String h3 (String h4 l3))) =>
                  match hex_value h1, hex_value h2, hex_value h3, hex_value h4 with
                  | Some a, Some b, Some c0, Some d =>
                      cons_fst (ascii_of_nat (4096 * a + 256 * b + 16 * c0 + d)) (unquote l3)
                  | _, _, _, _ => None
                  end
              | _ => None
              end
            else None
        | EmptyString => None
        end
      else cons_fst c (unquote l')
  end.

Lemma unquote_esc_char c rest : unquote (esc_char c +:+ rest) = cons_fst c (unquote rest).
Proof. destruct c as [[] [] [] [] [] [] [] []]; reflexivity. Qed.

Lemma unquote_esc s r : unquote (esc_string s +:+ String dq r) = Some (s, r).
Proof.
  induction s as [|c s IH]; [reflexivity|].
  simpl. rewrite string_app_assoc, unquote_esc_char, IH. reflexivity.
Qed.

(** Quoting is injective, and a quoted string is never a proper prefix
    of another. *)
Lemma esc_dq_inj s s' r r' :
  esc_string s +:+ String dq r = esc_string s' +:+ String dq r' -> s = s' /\ r = r'.
Proof. intros H. pose proof (f_equal unquote H) as E. rewrite !unquote_esc in E. by injection E. Qed.

Lemma quote_app_inj s s' r r' : quote s +:+ r = quote s' +:+ r' -> s = s' /\ r = r'.
Proof.
  unfold quote. rewrite !string_app_cons. intros H. injection H as H.
  rewrite !string_app_assoc, !string_app_cons, !string_app_nil_l in H. by apply esc_dq_inj.
Qed.

Lemma string_app_inj_l p a b : p +:+ a = p +:+ b -> a = b.
Proof. induction p as [|c p IH]; simpl; [done|]. intros H. injection H. apply IH. Qed.

End Json.
