(* ===== verification/ClientState.v ===== *)
(** * The frontend's Xero connection state: context/XeroContext.jsx,
      hooks/useXeroSyncRedirect.jsx and pages/XeroCallbackRedirect.jsx

    [XeroProvider] keeps React state ([isSyncing], [isSynced],
    [lastSyncTime], [error], [connectionData], [isInitializing]) and an
    interval ref.  Each of its operations is modelled as a function of the
    answer of the service call it awaits (an [inl] message when the
    service throws) and of the current time, from the state before to the
    state after, with the effects it performs in order: toasts,
    navigation, [window.location.href], timers and [localStorage]
    writes.

    [new Date(x).getTime()] is an input [date_ms] ([None] is [NaN]).
    A state update [setX(v)] is applied in place: the awaits of these
    functions make each update visible before the next read. *)

From S2P Require Import Prelude JsValue ClientApi.
From stdpp Require Import pretty.

(** What the browser is asked to do. *)
Inductive effect :=
| Toast (success : bool) (msg : string)
| SetHref (url : string)                       (** [window.location.href = url] *)
| Navigate (url : string) (xeroStatus : option string)
| StoreItem (key value : string)               (** [localStorage.setItem] *)
| RemoveItem (key : string)
| Interval (ms : Z) (callback : string)        (** [setInterval(callback, ms)] *)
| Timeout (ms : Z) (callback : string)         (** [setTimeout(callback, ms)] *)
| ClearInterval.

(** [Date.now()] (a number) or [new Date()] (a Date) at time [t]. *)
Inductive stamp := NoStamp | NumStamp (t : Z) | DateStamp (t : Z).

Module XeroContext.
Local Open Scope xero_scope.
Import ClientApi.

Record ctx := mkCtx {
  isSyncing : bool;
  isSynced : bool;
  lastSyncTime : stamp;
  error : jsval;
  connectionData : jsval;
  isInitializing : bool;
  interval : bool;                 (** [intervalRef.current] set *)
  effects : list effect
}.

Definition initial : ctx := mkCtx false false NoStamp JNull JNull true false [].

Definition set_synced (b : bool) (c : ctx) : ctx :=
  mkCtx (isSyncing c) b (lastSyncTime c) (error c) (connectionData c) (isInitializing c)
        (interval c) (effects c).
Definition set_syncing (b : bool) (c : ctx) : ctx :=
  mkCtx b (isSynced c) (lastSyncTime c) (error c) (connectionData c) (isInitializing c)
        (interval c) (effects c).
Definition set_time (t : stamp) (c : ctx) : ctx :=
  mkCtx (isSyncing c) (isSynced c) t (error c) (connectionData c) (isInitializing c)
        (interval c) (effects c).
Definition set_error (e : jsval) (c : ctx) : ctx :=
  mkCtx (isSyncing c) (isSynced c) (lastSyncTime c) e (connectionData c) (isInitializing c)
        (interval c) (effects c).
Definition set_data (d : jsval) (c : ctx) : ctx :=
  mkCtx (isSyncing c) (isSynced c) (lastSyncTime c) (error c) d (isInitializing c)
        (interval c) (effects c).
Definition set_interval (b : bool) (c : ctx) : ctx :=
  mkCtx (isSyncing c) (isSynced c) (lastSyncTime c) (error c) (connectionData c)
        (isInitializing c) b (effects c).
Definition perform (e : effect) (c : ctx) : ctx :=
  mkCtx (isSyncing c) (isSynced c) (lastSyncTime c) (error c) (connectionData c)
        (isInitializing c) (interval c) (effects c ++ [e]).

(** [checkConnectionStatus()] after [xeroService.getConnectionStatus()]
    answered [res]: what it returns ([null] on failure) and the state.  A
    [result] that is [undefined] or [null] makes [result.success] throw,
    which the same [catch] handles. *)
Definition checkConnectionStatus (res : string + jsval) (now : Z) (c : ctx) : jsval * ctx :=
  let fail := (JNull, set_error (JStr "Failed to check connection status")
                        (set_data JNull (set_synced false c))) in
  match res with
  | inl _ => fail
  | inr result =>
      match read result "success" with
      | inl _ => fail
      | inr s =>
          let d := Js.own_value result "data" in
          if Js.truthy (Js.and s d) then
            (result, set_error JNull (set_data d (set_time (NumStamp now)
               (set_synced (Js.truthy (Js.or (Js.opt_get d "isConnected") (JBool false))) c))))
          else (result, set_data JNull (set_synced false c))
      end
  end.

Definition one_minute : Z := 60 * 1000.
Definition five_minutes : Z := 5 * 60 * 1000.
Definition ten_minutes : Z := 10 * 60 * 1000.

(** The interval [setupSmartInterval] installs after the check returned
    [result]: its period and its callback. *)
Definition smart_interval (date_ms : jsval -> option Z) (result : jsval) (now : Z)
    : Z * string :=
  let expiresAt := opt_read (opt_read result "data") "expiresAt" in
  if Js.truthy (Js.and (opt_read result "success") expiresAt) then
    match date_ms expiresAt with
    | None => (five_minutes, "checkConnectionStatus")     (** the thrown "Invalid expiresAt" *)
    | Some expiry =>
        let timeUntilExpiry := (expiry - now)%Z in
        if (0 <? timeUntilExpiry)%Z then
          (Z.max (Z.min (timeUntilExpiry - five_minutes) ten_minutes) one_minute,
           "setupSmartInterval")
        else (one_minute, "checkConnectionStatus")
    end
  else (five_minutes, "checkConnectionStatus").

(** [setupSmartInterval()] *)
Definition setupSmartInterval (date_ms : jsval -> option Z) (res : string + jsval) (now : Z)
    (c : ctx) : ctx :=
  let '(result, c) := checkConnectionStatus res now c in
  let c := if interval c then perform ClearInterval c else c in
  let '(ms, cb) := smart_interval date_ms result now in
  set_interval true (perform (Interval ms cb) c).

(** [`${n} ${unit}${n > 1 ? "s" : ""} remaining`] *)
Definition plural (n : Z) (unit : string) : string :=
  pretty n +:+ " " +:+ unit +:+ (if (1 <? n)%Z then "s" else "") +:+ " remaining".

(** [getTimeRemaining()]: [null] without an expiry.  An unparsable
    expiry makes every comparison with [NaN] false and reaches the last
    branch. *)
Definition getTimeRemaining (date_ms : jsval -> option Z) (now : Z) (c : ctx) : jsval :=
  let expiresAt := opt_read (connectionData c) "expiresAt" in
  if negb (Js.truthy expiresAt) then JNull else
  match date_ms expiresAt with
  | None => JStr "NaN minute remaining"
  | Some expiry =>
      let t := expiry - now in
      if (t <=? 0)%Z then JStr "Expired" else
      let minutes := t / one_minute in
      let hours := minutes / 60 in
      let days := hours / 24 in
      if (0 <? days)%Z then JStr (plural days "day")
      else if (0 <? hours)%Z then JStr (plural hours "hour")
      else JStr (plural minutes "minute")
  end%Z.

(** [handleXeroAuth(authUrl)] on page [pathname] *)
Definition handleXeroAuth (pathname authUrl : string) (c : ctx) : ctx :=
  perform (SetHref authUrl) (perform (StoreItem "xero_return_url" pathname) c).

(** [sync()] after [xeroService.sync()] answered [res], at time [now] on
    page [pathname]: what it returns or rethrows, and the state after its
    [finally]. *)
Definition sync (pathname : string) (res : string + jsval) (now : Z) (c : ctx)
    : (string + jsval) * ctx :=
  let c := set_error JNull (set_syncing true c) in
  let '(r, c) :=
    match res with
    | inl msg =>
        let m := if String.eqb msg "" then "Failed to sync with Xero" else msg in
        (inl msg, perform (Toast false m) (set_error (JStr m) c))
    | inr result =>
        match read result "success" with
        | inl te => (inl te, perform (Toast false te) (set_error (JStr te) c))
        | inr s =>
            let g := Js.own_value result in
            if negb (Js.truthy s) && Js.truthy (g "requiresAuth") && Js.truthy (g "authUrl") then
              (inr result, handleXeroAuth pathname (Js.to_string (g "authUrl")) c)
            else if Js.truthy s then
              (inr result, perform (Timeout 1000 "setupSmartInterval")
                 (perform (Toast true (error_of (Js.or (g "message")
                                                  (JStr "Successfully synced with Xero"))))
                    (set_time (DateStamp now) (set_synced true c))))
            else
              let m := error_of (Js.or (g "message") (JStr "Sync failed")) in
              (inr result, perform (Toast false m) (set_error (JStr m) c))
        end
    end in
  (r, set_syncing false c).

(** ** The provider's effects *)

Definition set_initializing (b : bool) (c : ctx) : ctx :=
  mkCtx (isSyncing c) (isSynced c) (lastSyncTime c) (error c) (connectionData c) b
        (interval c) (effects c).

(** [urlParams.has("code") || urlParams.has("state")] of
    [window.location.search]. *)
Definition has_auth_params (params : list (string * string)) : bool :=
  existsb (fun kv => String.eqb kv.1 "code" || String.eqb kv.1 "state") params.

(** [initializeConnection()], the mount effect, when
    [getConnectionStatus()] answered [res] at [now]: returning from
    Xero's consent (an authorization code or state in the URL), it first
    waits a second. *)
Definition initializeConnection (params : list (string * string)) (res : string + jsval) (now : Z)
    (c : ctx) : ctx :=
  let c := set_initializing true c in
  let c := if has_auth_params params then perform (Timeout 1000 "resolve") c else c in
  set_initializing false (snd (checkConnectionStatus res now c)).

(** [handleURLChange()], the [popstate] listener: a check two seconds
    later when the URL carries authorization parameters. *)
Definition handleURLChange (params : list (string * string)) (c : ctx) : ctx :=
  if has_auth_params params then perform (Timeout 2000 "checkConnectionStatus") c else c.

(** [forceRefresh()] *)
Definition forceRefresh (res : string + jsval) (now : Z) (c : ctx) : ctx :=
  set_initializing false (snd (checkConnectionStatus res now (set_initializing true c))).

(** The effect on [[setupSmartInterval, isInitializing]]: the cleanup of
    its previous run clears the interval of [intervalRef] (the ref keeps
    its id), then, once initialized, [setupSmartInterval()]. *)
Definition smart_effect (date_ms : jsval -> option Z) (first_run : bool) (res : string + jsval)
    (now : Z) (c : ctx) : ctx :=
  let c := if negb first_run && interval c then perform ClearInterval c else c in
  if negb (isInitializing c) then setupSmartInterval date_ms res now c else c.

(** [useXeroContext()] of context/xeroUtils.jsx: the provider's value,
    or the error it throws outside a [XeroProvider]. *)
Definition useXeroContext (provided : option ctx) : string + ctx :=
  match provided with
  | Some c => inr c
  | None => inl "useXeroContext must be used within XeroProvider"
  end.

End XeroContext.

(** ** hooks/useXeroSyncRedirect.jsx

    The hook has its own state, with neither [connectionData] nor an
    interval; its [sync] schedules a check instead of the smart interval
    and leaves a non-success answer without a message. *)

Module SyncRedirect.
Import ClientApi.

Record hook := mkHook {
  h_isSyncing : bool;
  h_isSynced : bool;
  h_lastSyncTime : stamp;
  h_error : jsval;
  h_effects : list effect
}.

Definition h_perform (e : effect) (h : hook) : hook :=
  mkHook (h_isSyncing h) (h_isSynced h) (h_lastSyncTime h) (h_error h) (h_effects h ++ [e]).

(** [checkConnectionStatus()] *)
Definition checkConnectionStatus (res : string + jsval) (now : Z) (h : hook) : hook :=
  match res with
  | inr result =>
      match read result "success" with
      | inr s =>
          let d := Js.own_value result "data" in
          if Js.truthy (Js.and s d) then
            mkHook (h_isSyncing h) (Js.truthy (Js.or (Js.opt_get d "isConnected") (JBool false)))
                   (NumStamp now) (h_error h) (h_effects h)
          else mkHook (h_isSyncing h) false (h_lastSyncTime h) (h_error h) (h_effects h)
      | inl _ => mkHook (h_isSyncing h) false (h_lastSyncTime h) (h_error h) (h_effects h)
      end
  | inl _ => mkHook (h_isSyncing h) false (h_lastSyncTime h) (h_error h) (h_effects h)
  end.

(** [sync()] after [xeroService.sync()] answered [res]. *)
Definition sync (pathname : string) (res : string + jsval) (now : Z) (h : hook)
    : (string + jsval) * hook :=
  let h := mkHook true (h_isSynced h) (h_lastSyncTime h) JNull (h_effects h) in
  let fail msg h :=
    let m := if String.eqb msg "" then "Failed to sync with Xero" else msg in
    h_perform (Toast false m) (mkHook (h_isSyncing h) (h_isSynced h) (h_lastSyncTime h) (JStr m)
                                      (h_effects h)) in
  let '(r, h) :=
    match res with
    | inl msg => (inl msg, fail msg h)
    | inr result =>
        match read result "success" with
        | inl te => (inl te, fail te h)
        | inr s =>
            let g := Js.own_value result in
            if negb (Js.truthy s) && Js.truthy (g "requiresAuth") && Js.truthy (g "authUrl") then
              (inr result, h_perform (SetHref (Js.to_string (g "authUrl")))
                             (h_perform (StoreItem "xero_return_url" pathname) h))
            else if Js.truthy s then
              (inr result, h_perform (Timeout 1000 "checkConnectionStatus")
                 (h_perform (Toast true (error_of (Js.or (g "message")
                                                   (JStr "Successfully synced with Xero"))))
                    (mkHook (h_isSyncing h) true (DateStamp now) (h_error h) (h_effects h))))
            else (inr result, h)
        end
    end in
  (r, mkHook false (h_isSynced h) (h_lastSyncTime h) (h_error h) (h_effects h)).

End SyncRedirect.

(** ** pages/XeroCallbackRedirect.jsx

    The page's effect reads [code], [state] and [error] from the query
    string ([searchParams.get] gives [null] for an absent one).  Its
    [redirectWithDelay] reads [status] from the render whose effect is
    running: [captured] below. *)

Module CallbackPage.
Import ClientApi.

Record page := mkPage {
  status : string;
  processed : bool;                 (** [processedRef.current] *)
  storage : list (string * string);
  page_effects : list effect
}.

Definition p_perform (e : effect) (p : page) : page :=
  mkPage (status p) (processed p) (storage p) (page_effects p ++ [e]).
Definition set_status (s : string) (p : page) : page :=
  mkPage s (processed p) (storage p) (page_effects p).

Definition param_truthy (o : option string) : bool :=
  match o with Some s => negb (String.eqb s "") | None => false end.

(** [localStorage.getItem("xero_return_url") || "/"], then
    [localStorage.removeItem("xero_return_url")]. *)
Definition take_return_url (p : page) : string * page :=
  let url := match list_find (fun kv => kv.1 = "xero_return_url") (storage p) with
             | Some (_, (_, v)) => if String.eqb v "" then "/" else v
             | None => "/"
             end in
  (url, mkPage (status p) (processed p)
               (filter (fun kv => kv.1 <> "xero_return_url") (storage p))
               (page_effects p ++ [RemoveItem "xero_return_url"])).

(** [redirectWithDelay()], as the closure of the render showing
    [captured] has it. *)
Definition redirectWithDelay (captured : string) (p : page) : page :=
  let '(url, p) := take_return_url p in
  p_perform (Navigate url (Some (if String.eqb captured "success" then "connected" else "failed")))
            (p_perform (Timeout 2000 "navigate") p).

(** The paths of [handleCallback()] up to their [redirectWithDelay()]:
    [res] is the answer of [xeroService.handleCallback(code, state)],
    [conn] that of the context's [checkConnectionStatus()] it then
    awaits. *)
Definition callback_body (code err : option string)
    (res conn : string + jsval) (now : Z) (p : page) (c : XeroContext.ctx)
    : page * XeroContext.ctx :=
  if param_truthy err then
    (set_status "error" (p_perform (Toast false ("Xero authentication failed: " +:+ default "" err)) p),
     c)
  else if negb (param_truthy code) then
    (p_perform (Toast false "Authorization code missing from Xero response") (set_status "error" p), c)
  else
    let p := set_status "connecting" p in
    let failed msg p :=
      set_status "error" (p_perform (Toast false (if String.eqb msg "" then "Failed to connect to Xero"
                                                  else msg)) p) in
    match res with
    | inl msg => (failed msg p, c)
    | inr result =>
        match read result "success" with
        | inl te => (failed te p, c)
        | inr s =>
            if Js.truthy s then
              (set_status "success" (p_perform (Toast true "Successfully connected to Xero!") p),
               snd (XeroContext.checkConnectionStatus conn now c))
            else (failed (error_of (Js.or (Js.own_value result "message")
                                          (JStr "Connection failed"))) p, c)
        end
    end.

(** [handleCallback()]: every path, the early returns and the [finally],
    ends with [redirectWithDelay()]. *)
Definition handleCallback (captured : string) (code err : option string)
    (res conn : string + jsval) (now : Z) (p : page) (c : XeroContext.ctx)
    : page * XeroContext.ctx :=
  let '(p, c) := callback_body code err res conn now p c in
  (redirectWithDelay captured p, c).

(** The effect, run after a render showing [captured]. *)
Definition callback_effect (captured : string) (code state err : option string)
    (res conn : string + jsval) (now : Z) (p : page) (c : XeroContext.ctx)
    : page * XeroContext.ctx :=
  if negb (param_truthy code) && negb (param_truthy state) && negb (param_truthy err) then
    let '(url, p) := take_return_url p in (p_perform (Navigate url None) p, c)
  else if processed p then (p, c)
  else handleCallback captured code err res conn now
         (mkPage (status p) true (storage p) (page_effects p)) c.

Definition initial_page (storage : list (string * string)) : page :=
  mkPage "processing" false storage [].

(** [getStatusContent()]: title, description and color of a status. *)
Record status_content := mkContent { title : string; description : string; color : string }.

Definition getStatusContent (status : string) : status_content :=
  if String.eqb status "processing" then
    mkContent "Processing..." "Validating your Xero authorization" "blue-600"
  else if String.eqb status "connecting" then
    mkContent "Connecting to Xero..." "Setting up your Xero integration" "blue-600"
  else if String.eqb status "success" then
    mkContent "Success!" "Connected to Xero successfully. Redirecting..." "green-600"
  else if String.eqb status "error" then
    mkContent "Connection Failed" "There was an error connecting to Xero. Redirecting..." "red-600"
  else mkContent "Processing..." "Please wait..." "gray-600".

(** What the page draws: the [RefreshCw] icon's color and whether it
    spins, the title and the description. *)
Record view := mkView { icon_color : string; spinning : bool; heading : string; text : string }.

Definition render (p : page) : view :=
  let c := getStatusContent (status p) in
  mkView (color c) (String.eqb (status p) "processing" || String.eqb (status p) "connecting")
         (title c) (description c).

End CallbackPage.

(** ** The callback page after a successful exchange *)

(** When the backend accepts the code, the page shows "Success!" and
    "Connected to Xero successfully. Redirecting...", while the
    navigation it schedules, built by the closure of the first render,
    tells the next page that the connection failed. *)
Theorem callback_success_shown_failed_reported code result s conn now p c :
  CallbackPage.param_truthy code = true -> ClientApi.read result "success" = inr s -> Js.truthy s = true ->
  let p' := fst (CallbackPage.handleCallback "processing" code None (inr result) conn now p c) in
  CallbackPage.render p' =
    CallbackPage.mkView "green-600" false "Success!" "Connected to Xero successfully. Redirecting..." /\
  exists url, last (CallbackPage.page_effects p') = Some (Navigate url (Some "failed")).
Proof.
  intros Hc Hr Hs. unfold CallbackPage.handleCallback, CallbackPage.callback_body.
  rewrite Hc, Hr, Hs. simpl. split; [reflexivity|].
  eexists. unfold CallbackPage.p_perform. simpl. by rewrite last_app.
Qed.

(** A code accepted by the backend. *)
Lemma callback_success_shown_failed_reported_witness :
  CallbackPage.render
    (fst (CallbackPage.handleCallback "processing" (Some "4/abc") None (inr (JObj [("success", JBool true)]))
            (inr (JObj [])) 0 (CallbackPage.initial_page []) XeroContext.initial)) =
    CallbackPage.mkView "green-600" false "Success!" "Connected to Xero successfully. Redirecting...".
Proof.
  exact (proj1 (callback_success_shown_failed_reported (Some "4/abc") (JObj [("success", JBool true)]) (JBool true)
                  (inr (JObj [])) 0 (CallbackPage.initial_page []) XeroContext.initial eq_refl eq_refl eq_refl)).
Defined.

(** ** The provider keeps polling the connection *)

Section ProviderLemmas.
Import XeroContext.
Context (date_ms : jsval -> option Z).

(** Every interval [setupSmartInterval] installs has a period between
    one and ten minutes. *)
Lemma smart_interval_bounds result now :
  (one_minute <= fst (smart_interval date_ms result now) <= ten_minutes)%Z.
Proof. unfold smart_interval, one_minute, five_minutes, ten_minutes. repeat case_match; simpl; lia. Qed.

(** A connection check changes neither the effects, the interval nor
    [isInitializing]. *)
Lemma checkConnectionStatus_keeps res now c result c' :
  checkConnectionStatus res now c = (result, c') ->
  effects c' = effects c /\ interval c' = interval c /\ isInitializing c' = isInitializing c.
Proof. unfold checkConnectionStatus. intros E. repeat case_match; by simplify_eq. Qed.

Lemma setupSmartInterval_installs res now c :
  let c' := setupSmartInterval date_ms res now c in
  interval c' = true /\ isInitializing c' = isInitializing c /\
  exists ms cb, last (effects c') = Some (Interval ms cb) /\ (one_minute <= ms <= ten_minutes)%Z.
Proof.
  unfold setupSmartInterval. destruct (checkConnectionStatus res now c) as [result c1] eqn:E.
  pose proof (smart_interval_bounds result now) as Hb.
  destruct (smart_interval date_ms result now) as [ms cb]. simpl.
  destruct (checkConnectionStatus_keeps _ _ _ _ _ E) as (_ & _ & Hi).
  split_and!; [done| |exists ms, cb; split; [by rewrite last_app|done]].
  by destruct (interval c1).
Qed.

(** The provider's first effects, whatever the connection checks
    answer and whether the URL carries Xero's authorization parameters:
    [initializeConnection] ends initialized, so the smart effect then
    installs one polling interval, of a period between one and ten
    minutes, without clearing any. *)
Theorem provider_mount_polls params res now res' now' :
  let c := smart_effect date_ms true res' now' (initializeConnection params res now initial) in
  isInitializing c = false /\ interval c = true /\ ClearInterval ∉ effects c /\
  exists ms cb, last (effects c) = Some (Interval ms cb) /\ (one_minute <= ms <= ten_minutes)%Z.
Proof.
  assert (Hm : ClearInterval ∉ effects (initializeConnection params res now initial) /\
               isInitializing (initializeConnection params res now initial) = false /\
               interval (initializeConnection params res now initial) = false).
  { unfold initializeConnection, checkConnectionStatus.
    destruct (has_auth_params params); repeat case_match; simpl; split_and!; set_solver. }
  destruct Hm as (Hc & Hi & Hv).
  remember (initializeConnection params res now initial) as c0 eqn:Ec0. clear Ec0.
  unfold smart_effect. simpl. rewrite Hi. simpl.
  pose proof (setupSmartInterval_installs res' now' c0) as (Hint & Hin & ms & cb & Hl & Hb).
  split_and!; [by rewrite Hin|done| |eauto].
  unfold setupSmartInterval.
  destruct (checkConnectionStatus _ _ _) as [result c1] eqn:E.
  destruct (checkConnectionStatus_keeps _ _ _ _ _ E) as (He & Hv1 & _).
  rewrite Hv1, Hv. destruct (smart_interval date_ms result now'). simpl.
  rewrite He. set_solver.
Qed.

End ProviderLemmas.
