(* ===== verification/Routes.v ===== *)
(** * The route guards and the login page

    components/ProtectedRoute.jsx and components/PublicRoute.jsx decide,
    from [authService.isAuthenticated()] ([ClientApi]), whether a page is
    drawn or the browser is sent elsewhere; ProtectedRoute also checks
    the session every 30 seconds.  pages/LoginPage.jsx keeps the form's
    [formData] and [loading] and, on submission, calls
    [authService.login] (the request [login_request], the answer handled
    by [login_handle]) and shows a toast and navigates.  [jwtDecode] is
    the library's, a parameter of the sections. *)

From S2P Require Import Prelude JsValue ClientApi ClientState.

Module Guards.
Local Open Scope xero_scope.
Import ClientApi.

(** What a guard renders: its children, or [<Navigate to=... replace />]. *)
Inductive outcome := Render | Redirect (to : string).

Section Guards.
Context (jwtDecode : string -> option jsval).

(** [ProtectedRoute]'s render. *)
Definition protectedRoute (now : Z) (b : browser) : outcome * browser :=
  let '(ok, b) := isAuthenticated jwtDecode now b in (if ok then Render else Redirect "/login", b).

(** [PublicRoute]'s render. *)
Definition publicRoute (now : Z) (b : browser) : outcome * browser :=
  let '(ok, b) := isAuthenticated jwtDecode now b in (if ok then Redirect "/" else Render, b).

(** The callback of the interval [ProtectedRoute] sets when it mounts:
    the browser after it and its effects. *)
Definition session_check (now : Z) (b : browser) : browser * list effect :=
  let '(ok, b) := isAuthenticated jwtDecode now b in
  if ok then (b, [])
  else (logout b, [Toast false "Session expired or unauthorized access"; SetHref "/login"]).

End Guards.

(** The effect of [ProtectedRoute] on mount. *)
Definition protected_mount : effect := Interval 30000 "checkSession".

End Guards.

Module LoginPage.
Local Open Scope xero_scope.
Import ClientApi.

Record page := mkPage { formData : jsval; loading : bool; effects : list effect }.

Definition initial : page := mkPage (JObj [("email", JStr ""); ("password", JStr "")]) false [].

Definition emit (e : effect) (p : page) : page := mkPage (formData p) (loading p) (effects p ++ [e]).

(** [handleChange(e)] with [e.target.name] and [e.target.value]. *)
Definition handleChange (name : string) (value : jsval) (p : page) : page :=
  mkPage (JObj (Js.set_field name value (Js.spread (formData p)))) (loading p) (effects p).

(** [handleSubmit(e)], where the request [login_request (formData p)]
    was answered [(status, data)] ([inl] a network failure, which
    [fetch] throws): the page after the [finally] and the browser. *)
Definition handleSubmit (answer : string + (Z * jsval)) (b : browser) (p : page) : page * browser :=
  let '(r, b) := match answer with
                 | inr (status, data) => login_handle status data b
                 | inl msg => (inl msg, b)
                 end in
  let p := match r with
           | inr _ => emit (Navigate "/" None) (emit (Toast true "Login successful!") p)
           | inl msg => emit (Toast false (if String.eqb msg "" then "Login failed" else msg)) p
           end in
  (mkPage (formData p) false (effects p), b).

(** [handleSubmit(e)] up to its [await]: [setLoading(true)]. *)
Definition submit_start (p : page) : page := mkPage (formData p) true (effects p).

(** What the page draws: the two inputs and the submit button, disabled
    with "Signing in..." while [loading]. *)
Record view := mkView { email_value : jsval; password_value : jsval; button_disabled : bool; button_label : string }.

Definition render (p : page) : view :=
  mkView (Js.own_value (formData p) "email") (Js.own_value (formData p) "password") (loading p)
         (if loading p then "Signing in..." else "Login").

End LoginPage.

(** While the login request is pending the button is disabled and reads
    "Signing in..."; whatever the answer, the [finally] enables it again. *)
Lemma login_button_pending answer b p :
  LoginPage.button_disabled (LoginPage.render (LoginPage.submit_start p)) = true /\
  LoginPage.button_label (LoginPage.render (LoginPage.submit_start p)) = "Signing in..." /\
  LoginPage.button_disabled (LoginPage.render (fst (LoginPage.handleSubmit answer b (LoginPage.submit_start p)))) = false.
Proof.
  split_and!; try reflexivity. unfold LoginPage.handleSubmit. by repeat case_match.
Qed.
