(* ===== verification/ClientHooks.v ===== *)
(** * The frontend's data hooks: hooks/useXero.jsx

    [useXero] keeps the lists the pages show ([data]), the server's
    [pagination] of invoices and contacts, [isLoading] and [error].  Each
    of its fetches is modelled as a function of the answer of the
    [xeroService] call it awaits ([inl] the message of the [Error] it
    throws) from the hook's state to its result and the state after its
    [finally].  [fetchAccounts] formats the answer inside its [try], so a
    malformed answer throws there and is caught.  The other fetches read
    [response.data] (and [formatInvoices] it) inside a [setData((prev) =>
    ...)] updater, and [response.pagination] inside a [setPagination]
    updater: React runs those updaters when it next renders the hook, so
    what they throw is not caught by the fetch, which resolves normally;
    it is thrown by that render ([render_error]), which React answers by
    unmounting the tree. *)

From S2P Require Import Prelude JsValue ClientApi.

Module UseXero.
Local Open Scope xero_scope.
Import ClientApi.

Record hook := mkHook {
  isLoading : bool;
  error : jsval;
  data : list (string * jsval);         (** invoices, availableInvoices, contacts, accounts, taxRates *)
  pagination : list (string * jsval);   (** invoices, contacts *)
  render_error : option string          (** what the next render throws, running a queued updater *)
}.

Definition initial_pagination : jsval :=
  JObj [("page", JNum 1); ("pageSize", JNum 10); ("pageCount", JNum 0); ("itemCount", JNum 0)].

Definition initial : hook :=
  mkHook false JNull
    [("invoices", JArr []); ("availableInvoices", JArr []); ("contacts", JArr []);
     ("accounts", JArr []); ("taxRates", JArr [])]
    [("invoices", initial_pagination); ("contacts", initial_pagination)] None.

(** [xs.map(f)] where [f] may throw: the TypeError of a receiver that is
    not an array ([name] is the variable the code calls [map] on). *)
Definition map_throw (name : string) (f : jsval -> string + jsval) (xs : jsval) : string + jsval :=
  match xs with
  | JArr items =>
      ys <-? (fix go (l : list jsval) : string + list jsval :=
                match l with
                | [] => inr []
                | x :: l' => y <-? f x ;; ys <-? go l' ;; inr (y :: ys)
                end) items ;;
      inr (JArr ys)
  | JUndef | JNull => inl (type_error xs "map")
  | _ => inl (name +:+ ".map is not a function")
  end.

(** The [formatInvoices] callback:
    [{...invoice, id: invoice.invoiceID, contactName: invoice.contact?.name
    || "No Name", contactID: invoice.contact?.contactID || "",
    isManualPayment: false}]. *)
Definition formatInvoice (invoice : jsval) : string + jsval :=
  id <-? read invoice "invoiceID" ;;
  let c := opt_read invoice "contact" in
  inr (JObj (Js.set_field "isManualPayment" (JBool false)
              (Js.set_field "contactID" (Js.or (opt_read c "contactID") (JStr ""))
                (Js.set_field "contactName" (Js.or (opt_read c "name") (JStr "No Name"))
                  (Js.set_field "id" id (Js.spread invoice)))))).

Definition formatInvoices (rawInvoices : jsval) : string + jsval :=
  map_throw "rawInvoices" formatInvoice rawInvoices.

(** [account.bankAccountNumber ? account.bankAccountNumber.slice(-4) : ""]
    inside the template literal. *)
Definition last_four (v : jsval) : string + string :=
  if negb (Js.truthy v) then inr "" else
  match v with
  | JStr s => inr (String.string_of_list_ascii
                     (Js.slice (-4) (Z.of_nat (String.length s)) (String.list_ascii_of_string s)))
  | JArr xs => inr (Js.to_string (JArr (Js.slice (-4) (Z.of_nat (length xs)) xs)))
  | _ => inl "account.bankAccountNumber.slice is not a function"
  end.

(** The [formatAccounts] callback. *)
Definition formatAccount (account : jsval) : string + jsval :=
  id <-? read account "accountID" ;;
  name <-? read account "name" ;;
  four <-? last_four (Js.own_value account "bankAccountNumber") ;;
  inr (JObj (Js.set_field "isBankAccount"
               (JBool (Js.strict_eq (Js.own_value account "type") (JStr "BANK")))
              (Js.set_field "displayName" (JStr (Js.to_string name +:+ " - " +:+ four))
                (Js.set_field "id" id (Js.spread account))))).

Definition formatAccounts (rawAccounts : jsval) : string + jsval :=
  map_throw "rawAccounts" formatAccount rawAccounts.

Definition set_data (k : string) (v : jsval) (h : hook) : hook :=
  mkHook (isLoading h) (error h) (Js.set_field k v (data h)) (pagination h) (render_error h).
Definition set_pagination (k : string) (v : jsval) (h : hook) : hook :=
  mkHook (isLoading h) (error h) (data h) (Js.set_field k v (pagination h)) (render_error h).
Definition set_error (e : jsval) (h : hook) : hook :=
  mkHook (isLoading h) e (data h) (pagination h) (render_error h).
Definition set_loading (b : bool) (h : hook) : hook :=
  mkHook b (error h) (data h) (pagination h) (render_error h).

(** An updater that throws [e] when the next render runs it; the first
    one to throw is the render's error. *)
Definition set_crash (e : string) (h : hook) : hook :=
  mkHook (isLoading h) (error h) (data h) (pagination h)
         (match render_error h with Some e0 => Some e0 | None => Some e end).

(** [setData((prev) => ({...prev, [k]: v()}))] and
    [setPagination((prev) => ({...prev, [k]: v()}))], where [v] is what
    the updater computes when it runs. *)
Definition queue_data (k : string) (v : string + jsval) (h : hook) : hook :=
  match v with inr x => set_data k x h | inl e => set_crash e h end.
Definition queue_pagination (k : string) (v : string + jsval) (h : hook) : hook :=
  match v with inr x => set_pagination k x h | inl e => set_crash e h end.

(** The [catch] of the fetches: [setError(err.message || fallback)]. *)
Definition failed (fallback msg : string) (h : hook) : hook :=
  set_error (JStr (if String.eqb msg "" then fallback else msg)) h.

(** [pagination.invoices] or [pagination.contacts] of the render that
    called the fetch. *)
Definition page_of (k : string) (h : hook) : jsval := default JUndef (Js.field k (pagination h)).

(** [setIsLoading(true); setError(null)]: the start of a fetch, before
    its [await]. *)
Definition begin_fetch (h : hook) : hook := set_error JNull (set_loading true h).

(** The rest of [fetchInvoices(filters)] once [xeroService.fetchInvoices]
    answered [res], on the hook [h] as it is then; [h0] is the render
    that called it. *)
Definition invoices_done (res : string + jsval) (h0 h : hook) : jsval * hook :=
  let '(r, h) :=
    match res with
    | inr response =>
        (response,
         queue_pagination "invoices" (read response "pagination")
           (queue_data "invoices" (d <-? read response "data" ;; formatInvoices d) h))
    | inl msg => (JObj [("data", JArr []); ("pagination", page_of "invoices" h0)],
                  failed "Failed to fetch invoices" msg h)
    end in
  (r, set_loading false h).

(** [fetchInvoices(filters)] after [xeroService.fetchInvoices] answered
    [res]. *)
Definition fetchInvoices (res : string + jsval) (h0 : hook) : jsval * hook :=
  invoices_done res h0 (begin_fetch h0).

(** [fetchAvailableInvoices(filters)] *)
Definition fetchAvailableInvoices (res : string + jsval) (h0 : hook) : jsval * hook :=
  let h := set_error JNull (set_loading true h0) in
  let '(r, h) :=
    match res with
    | inr response =>
        (response, queue_data "availableInvoices" (d <-? read response "data" ;; formatInvoices d) h)
    | inl msg => (JObj [("data", JArr []); ("pagination", page_of "invoices" h0)],
                  failed "Failed to fetch invoices" msg h)
    end in
  (r, set_loading false h).

(** The rest of [fetchContacts(filters)] once [xeroService.fetchContacts]
    answered [res], on the hook [h] as it is then; [h0] is the render
    that called it. *)
Definition contacts_done (res : string + jsval) (h0 h : hook) : jsval * hook :=
  let '(r, h) :=
    match res with
    | inr response =>
        (response, queue_pagination "contacts" (read response "pagination")
                     (queue_data "contacts" (read response "data") h))
    | inl msg => (JObj [("data", JArr []); ("pagination", page_of "contacts" h0)],
                  failed "Failed to fetch contacts" msg h)
    end in
  (r, set_loading false h).

(** [fetchContacts(filters)] *)
Definition fetchContacts (res : string + jsval) (h0 : hook) : jsval * hook :=
  contacts_done res h0 (begin_fetch h0).

(** The rest of [fetchAccounts(filters)]:
    [{...response, data: formattedAccounts}]. *)
Definition accounts_done (res : string + jsval) (h : hook) : jsval * hook :=
  let '(r, h) :=
    match (response <-? res ;; d <-? read response "data" ;; f <-? formatAccounts d ;;
           inr (response, f)) with
    | inr (response, f) =>
        (JObj (Js.set_field "data" f (Js.spread response)), set_data "accounts" f h)
    | inl msg => (JObj [("data", JArr [])], failed "Failed to fetch accounts" msg h)
    end in
  (r, set_loading false h).

(** [fetchAccounts(filters)] *)
Definition fetchAccounts (res : string + jsval) (h0 : hook) : jsval * hook :=
  accounts_done res (begin_fetch h0).

(** The rest of [fetchTaxRates(filters)]. *)
Definition taxRates_done (res : string + jsval) (h : hook) : jsval * hook :=
  let '(r, h) :=
    match res with
    | inr response => (response, queue_data "taxRates" (read response "data") h)
    | inl msg => (JObj [("data", JArr [])], failed "Failed to fetch tax rates" msg h)
    end in
  (r, set_loading false h).

(** [fetchTaxRates(filters)] *)
Definition fetchTaxRates (res : string + jsval) (h0 : hook) : jsval * hook :=
  taxRates_done res (begin_fetch h0).

End UseXero.
