(* ===== verification/Tables.v ===== *)
(** * The frontend's tables: components/table/ClientPaginatedTable.jsx
      and components/table/PaginatedTable.jsx

    Both tables draw their page links with the same [getPageNumbers]
    loop: page 1, the last page and the pages within [delta] of the
    current one, with one ["..."] for each run of pages left out.
    [ClientPaginatedTable] keeps its own state (current page, page size,
    search term) over the rows it receives and slices them;
    [PaginatedTable] draws the server's [pagination] and asks its parent
    for a page through [onPageChange].

    Page numbers and sizes are JavaScript numbers that the code keeps
    integral ([Math.ceil], the option values of the page-size select):
    they are [Z] here. *)

From S2P Require Import Prelude JsValue AuthSchema.
From Stdlib Require Import Sorting.Sorted.

Module Tables.
Local Open Scope Z_scope.

(** ** [getPageNumbers] *)

(** An entry of [pages]: a page number or the string ["..."]. *)
Inductive page_item := PNum (n : Z) | PEllipsis.

#[export] Instance page_item_eq_dec : EqDecision page_item.
Proof. solve_decision. Defined.

(** [i === 1 || i === total || (i >= current - delta && i <= current + delta)] *)
Definition keep (current total delta i : Z) : bool :=
  (i =? 1) || (i =? total) || ((current - delta <=? i) && (i <=? current + delta)).

(** One iteration of the loop body. *)
Definition push_page (current total delta : Z) (pages : list page_item) (i : Z)
    : list page_item :=
  if keep current total delta i then pages ++ [PNum i]
  else if bool_decide (last pages = Some PEllipsis) then pages
  else pages ++ [PEllipsis].

(** [1, 2, ..., n]: the values of [i] in [for (let i = 1; i <= total; i++)]. *)
Definition range1 (n : nat) : list Z := map (fun k => Z.of_nat (S k)) (seq 0 n).

Definition getPageNumbers (current total delta : Z) : list page_item :=
  fold_left (push_page current total delta) (range1 (Z.to_nat total)) [].

(** The page numbers of a list of entries, and its ellipses. *)
Definition nums (pages : list page_item) : list Z :=
  omap (fun it => match it with PNum n => Some n | PEllipsis => None end) pages.

Definition ellipses (pages : list page_item) : nat :=
  length (filter (fun it => it = PEllipsis) pages).

(** The pages [i] where a run of left-out pages starts. *)
Definition run_start (current total delta i : Z) : bool :=
  keep current total delta (i - 1) && negb (keep current total delta i).

(** The pages [lo, lo + 1, ..., lo + len - 1]. *)
Definition window (lo : Z) (len : nat) : list Z := map (fun k => lo + Z.of_nat k) (seq 0 len).

(** ** ClientPaginatedTable

    The component's props that matter here are fixed for a table:
    [searchable], [searchKeys] and [pageSizeOptions]; its state is
    [currentPage], [pageSize], [searchTerm] and the [data] it renders. *)

(** [Math.ceil(n / d)] for [d > 0]. *)
Definition ceil_div (n d : Z) : Z := - ((- n) / d).

Record table := mkTable {
  currentPage : Z;
  pageSize : Z;
  searchTerm : string;
  data : list jsval
}.

(** The user's and the parent's actions.  [EvData] is a new [data] prop
    (a render with the previous page), [EvDataEffect] the
    [useEffect(() => setCurrentPage(1), [data])] that follows it. *)
Inductive event :=
| EvPage (n : Z)           (** a page link: [handlePageChange(pageNum)] *)
| EvPageSize (size : Z)    (** [handlePageSizeChange] with an option's value *)
| EvSearch (term : string) (** [handleSearchChange] *)
| EvPrev | EvNext
| EvData (rows : list jsval)
| EvDataEffect.

Section ClientTable.
Context (searchable : bool) (searchKeys : list string).

(** [searchKeys.some(key => ...)] for one item. *)
Definition matches (term : string) (item : jsval) : bool :=
  existsb (fun key =>
             let v := Js.own_value item key in
             if Js.is_nullish v then false
             else Js.includes (AuthSchema.to_lower term) (AuthSchema.to_lower (Js.to_string v))) searchKeys.

(** [filteredData] *)
Definition filteredData (t : table) : list jsval :=
  if String.eqb (searchTerm t) "" || negb searchable || bool_decide (searchKeys = [])
  then data t
  else filter (fun item => matches (searchTerm t) item = true) (data t).

(** [pagination.pageCount] *)
Definition pageCount (t : table) : Z :=
  ceil_div (Z.of_nat (length (filteredData t))) (pageSize t).

(** [paginatedData] *)
Definition paginatedData (t : table) : list jsval :=
  let startIndex := (currentPage t - 1) * pageSize t in
  Js.slice startIndex (startIndex + pageSize t) (filteredData t).

Definition set_page (n : Z) (t : table) : table :=
  mkTable n (pageSize t) (searchTerm t) (data t).

(** [handlePageChange(newPage)] *)
Definition handlePageChange (n : Z) (t : table) : table :=
  if (1 <=? n) && (n <=? pageCount t) then set_page n t else t.

Definition handle (e : event) (t : table) : table :=
  match e with
  | EvPage n => handlePageChange n t
  | EvPageSize size => mkTable 1 size (searchTerm t) (data t)
  | EvSearch term => mkTable 1 (pageSize t) term (data t)
  | EvPrev => if 1 <? currentPage t then handlePageChange (currentPage t - 1) t else t
  | EvNext => if currentPage t <? pageCount t then handlePageChange (currentPage t + 1) t else t
  | EvData rows => mkTable (currentPage t) (pageSize t) (searchTerm t) rows
  | EvDataEffect => set_page 1 t
  end.

(** The "Showing a to b of n" line. *)
Definition showing (t : table) : Z * Z * Z :=
  let n := Z.of_nat (length (filteredData t)) in
  ((currentPage t - 1) * pageSize t + 1, Z.min (currentPage t * pageSize t) n, n).

(** What every settled table satisfies: a positive page size and a
    current page that is 1 or one of the pages. *)
Definition table_wf (t : table) : Prop :=
  0 < pageSize t /\ 1 <= currentPage t /\ (currentPage t = 1 \/ currentPage t <= pageCount t).

(** The page links of the table. *)
Definition client_page_numbers (t : table) : list page_item :=
  getPageNumbers (currentPage t) (pageCount t) 2.

End ClientTable.

(** The tables a user sees: from the first render, through their actions
    (a page size among the options), and through new [data] props, each
    followed by its effect. *)
Inductive settled (searchable : bool) (searchKeys : list string) (options : list Z)
    : table -> Prop :=
| settled_init size rows :
    0 < size -> settled searchable searchKeys options (mkTable 1 size "" rows)
| settled_user t e :
    settled searchable searchKeys options t ->
    (forall s, e = EvPageSize s -> s ∈ options) ->
    (forall rows, e <> EvData rows) -> e <> EvDataEffect ->
    settled searchable searchKeys options (handle searchable searchKeys e t)
| settled_data t rows :
    settled searchable searchKeys options t ->
    settled searchable searchKeys options
      (handle searchable searchKeys EvDataEffect (handle searchable searchKeys (EvData rows) t)).

(** ** PaginatedTable

    The server's [pagination] ([page], [pageSize], [pageCount],
    [itemCount]) is a prop, possibly absent; the handlers return the
    calls they make to the parent's [onPageChange] and
    [onPageSizeChange]. *)

Record pagination := mkPagination { pg_page : Z; pg_pageSize : Z; pg_pageCount : Z; pg_itemCount : Z }.

Inductive call := OnPageChange (page : Z) | OnPageSizeChange (size : Z).

(** [handlePreviousPage]: [pagination?.page > 1 && !loading]. *)
Definition handlePreviousPage (p : option pagination) (loading : bool) : list call :=
  match p with
  | Some p => if (1 <? pg_page p) && negb loading then [OnPageChange (pg_page p - 1)] else []
  | None => []
  end.

Definition handleNextPage (p : option pagination) (loading : bool) : list call :=
  match p with
  | Some p => if (pg_page p <? pg_pageCount p) && negb loading then [OnPageChange (pg_page p + 1)]
              else []
  | None => []
  end.

Definition handleFirstPage (p : option pagination) (loading : bool) : list call :=
  match p with
  | Some p => if (1 <? pg_page p) && negb loading then [OnPageChange 1] else []
  | None => []
  end.

Definition handleLastPage (p : option pagination) (loading : bool) : list call :=
  match p with
  | Some p => if (pg_page p <? pg_pageCount p) && negb loading then [OnPageChange (pg_pageCount p)]
              else []
  | None => []
  end.

(** [handlePageSizeChange(newSize)], with or without [onPageSizeChange]. *)
Definition handlePageSizeChange (has_handler : bool) (newSize : Z) : list call :=
  if has_handler then [OnPageSizeChange newSize; OnPageChange 1] else [].

(** A page link: [!loading && onPageChange(pageNum)]. *)
Definition click_page (loading : bool) (n : Z) : list call :=
  if loading then [] else [OnPageChange n].

(** [getPageNumbers] of PaginatedTable. *)
Definition table_page_numbers (p : option pagination) (compactMode : bool) : list page_item :=
  match p with
  | None => []
  | Some p => getPageNumbers (pg_page p) (pg_pageCount p) (if compactMode then 1 else 2)
  end.

(** The "Showing a to b of n" line of PaginatedTable. *)
Definition table_showing (p : pagination) : Z * Z * Z :=
  (Z.min ((pg_page p - 1) * pg_pageSize p + 1) (pg_itemCount p),
   Z.min (pg_page p * pg_pageSize p) (pg_itemCount p), pg_itemCount p).

(** ** Lemmas on [getPageNumbers] *)

Section PageNumbers.
Context (current total delta : Z).

Lemma range1_S n : range1 (S n) = range1 n ++ [Z.of_nat (S n)].
Proof. unfold range1. by rewrite seq_S, map_app. Qed.

Lemma nums_app l1 l2 : nums (l1 ++ l2) = nums l1 ++ nums l2.
Proof. unfold nums. by rewrite omap_app. Qed.

Lemma ellipses_app l1 l2 : ellipses (l1 ++ l2) = (ellipses l1 + ellipses l2)%nat.
Proof. unfold ellipses. by rewrite filter_app, length_app. Qed.

Lemma ellipses_num n : ellipses [PNum n] = O.
Proof. unfold ellipses. by rewrite filter_cons_False. Qed.

Lemma ellipses_ell : ellipses [PEllipsis] = 1%nat.
Proof. unfold ellipses. by rewrite filter_cons_True. Qed.

Lemma keep_one : keep current total delta 1 = true.
Proof. unfold Tables.keep. by rewrite Z.eqb_refl. Qed.

(** The loop invariant: the numbers pushed are the kept pages, one
    ellipsis per run start, and the last entry is the last page seen or
    an ellipsis. *)
Lemma pages_loop n :
  let out := fold_left (push_page current total delta) (range1 n) [] in
  nums out = filter (keep current total delta) (range1 n) /\
  ellipses out = length (filter (run_start current total delta) (range1 n)) /\
  last out = match n with
             | O => None
             | S _ => Some (if keep current total delta (Z.of_nat n) then PNum (Z.of_nat n)
                            else PEllipsis)
             end.
Proof.
  induction n as [|n IH]; [done|]. cbv zeta in *.
  rewrite range1_S, fold_left_app. cbn [fold_left].
  set (out := fold_left (push_page current total delta) (range1 n) []) in *.
  destruct IH as (Hn & He & Hl). rewrite !filter_app, !length_app.
  set (m := Z.of_nat (S n)). assert (Hm : m - 1 = Z.of_nat n) by lia.
  assert (Hprev : n <> O -> last out = Some PEllipsis <-> keep current total delta (Z.of_nat n) = false).
  { intros Hn0. rewrite Hl. destruct n; [done|]. by destruct (keep _ _ _ _); split. }
  assert (Hrs : run_start current total delta m =
                keep current total delta (Z.of_nat n) && negb (keep current total delta m)).
  { unfold run_start. by rewrite Hm. }
  assert (H1 : n = O -> keep current total delta m = true).
  { intros ->. apply keep_one. }
  unfold push_page. destruct (keep current total delta m) eqn:Hk.
  - rewrite nums_app, ellipses_app, Hn, He, last_snoc.
    rewrite filter_cons_True, filter_nil by (by rewrite Hk).
    rewrite filter_cons_False, filter_nil by (rewrite Hrs, andb_false_r; by intros ?).
    rewrite ellipses_num. cbn. split_and!; [done|lia|done].
  - destruct n as [|n']; [discriminate (H1 eq_refl)|].
    rewrite filter_cons_False, filter_nil by (rewrite Hk; by intros ?).
    case_bool_decide as HE.
    + apply Hprev in HE; [|done].
      rewrite filter_cons_False, filter_nil by (rewrite Hrs, HE; by intros ?).
      rewrite app_nil_r. split_and!; [done|rewrite He; simpl; lia|]. by rewrite Hl, HE.
    + assert (HE' : keep current total delta (Z.of_nat (S n')) = true).
      { destruct (keep _ _ _ (Z.of_nat (S n'))) eqn:E; [done|]. exfalso. apply HE, (proj2 (Hprev ltac:(done))). done. }
      rewrite nums_app, ellipses_app, Hn, He, last_snoc.
      rewrite filter_cons_True, filter_nil by (rewrite Hrs, HE'; done).
      rewrite ellipses_ell. cbn. rewrite app_nil_r. split_and!; [done|lia|done].
Qed.

End PageNumbers.

Lemma length_nums_ellipses l : length l = (length (nums l) + ellipses l)%nat.
Proof.
  induction l as [|[n|] l IH]; [done| |].
  - unfold ellipses in *. rewrite filter_cons_False by done. simpl. lia.
  - unfold ellipses in *. rewrite filter_cons_True by done. simpl. lia.
Qed.

Lemma elem_of_range1 i n : i ∈ range1 n <-> 1 <= i <= Z.of_nat n.
Proof.
  unfold range1. rewrite list_elem_of_fmap. split.
  - intros (k & -> & Hk). apply list_elem_of_In, in_seq in Hk. lia.
  - intros Hi. exists (Z.to_nat (i - 1)). split; [lia|].
    apply list_elem_of_In, in_seq. lia.
Qed.

Lemma NoDup_range1 n : NoDup (range1 n).
Proof.
  unfold range1. apply NoDup_fmap_2; [intros x y ?; lia|]. apply NoDup_seq.
Qed.

Lemma elem_of_window i lo len : i ∈ window lo len <-> lo <= i < lo + Z.of_nat len.
Proof.
  unfold window. rewrite list_elem_of_fmap. split.
  - intros (k & -> & Hk). apply list_elem_of_In, in_seq in Hk. lia.
  - intros Hi. exists (Z.to_nat (i - lo)). split; [lia|].
    apply list_elem_of_In, in_seq. lia.
Qed.

Lemma length_window lo len : length (window lo len) = len.
Proof. unfold window. by rewrite length_map, length_seq. Qed.

(** A duplicate-free list inside another is no longer. *)
Lemma NoDup_sub_length (l l' : list Z) : NoDup l -> (forall x, x ∈ l -> x ∈ l') ->
  (length l <= length l')%nat.
Proof.
  intros Hl Hsub. apply NoDup_incl_length; [by apply NoDup_ListNoDup|].
  intros x Hx. apply list_elem_of_In, Hsub, list_elem_of_In, Hx.
Qed.


Section Counting.
Context (current total delta : Z) (Hdelta : 0 <= delta).

(** At most [2 * delta + 3] pages are kept: 1, the last one and the
    window around the current page. *)
Lemma kept_count n :
  (length (filter (keep current total delta) (range1 n)) <= Z.to_nat (2 * delta + 3))%nat.
Proof.
  etrans; [apply (NoDup_sub_length _ ([1; total] ++ window (current - delta)
                                              (Z.to_nat (2 * delta + 1))))|].
  - apply NoDup_filter, NoDup_range1.
  - intros x Hx. apply list_elem_of_filter in Hx as [Hk _].
    cut (x = 1 \/ x = total \/ current - delta <= x <= current + delta).
    { intros [->|[->|Hw]]; apply elem_of_app; [left; set_solver|left; set_solver|].
      right. apply elem_of_window. lia. }
    unfold keep in Hk.
    destruct (Z.eqb_spec x 1), (Z.eqb_spec x total), (Z.leb_spec (current - delta) x),
      (Z.leb_spec x (current + delta)); simpl in Hk; try discriminate; lia.
  - rewrite length_app, length_window. simpl. lia.
Qed.

(** At most two runs of pages are left out: after page 1 and after the
    window. *)
Lemma run_count :
  (length (filter (run_start current total delta) (range1 (Z.to_nat total))) <= 2)%nat.
Proof.
  clear Hdelta. etrans; [apply (NoDup_sub_length _ [2; current + delta + 1])|simpl; lia].
  - apply NoDup_filter, NoDup_range1.
  - intros x Hx. apply list_elem_of_filter in Hx as [Hr Hx]. apply elem_of_range1 in Hx.
    cut (x = 2 \/ x = current + delta + 1); [intros [->| ->]; set_solver|].
    unfold run_start, keep in Hr.
    destruct (Z.eqb_spec (x - 1) 1), (Z.eqb_spec (x - 1) total),
      (Z.leb_spec (current - delta) (x - 1)), (Z.leb_spec (x - 1) (current + delta)),
      (Z.eqb_spec x 1), (Z.eqb_spec x total), (Z.leb_spec (current - delta) x),
      (Z.leb_spec x (current + delta)); simpl in Hr; try discriminate; lia.
Qed.

End Counting.

Lemma elem_of_nums n l : n ∈ nums l <-> PNum n ∈ l.
Proof.
  unfold nums. rewrite list_elem_of_omap. split.
  - by intros ([m|] & Hin & [= ->]).
  - intros Hin. by exists (PNum n).
Qed.

Lemma StronglySorted_filter (P : Z -> Prop) `{!forall x, Decision (P x)} (l : list Z) :
  StronglySorted Z.lt l -> StronglySorted Z.lt (filter P l).
Proof.
  induction 1 as [|x l Hl IH Hx]; [constructor|]. rewrite filter_cons.
  case_decide; [|done]. constructor; [done|].
  apply Forall_forall. intros y Hy. apply list_elem_of_filter in Hy as [_ Hy].
  rewrite Forall_forall in Hx. by apply Hx.
Qed.

Lemma StronglySorted_range1 n : StronglySorted Z.lt (range1 n).
Proof.
  unfold range1. generalize 0%nat as s. induction n as [|n IH]; intros s; [constructor|].
  simpl. constructor; [apply IH|]. apply Forall_forall. intros y Hy.
  apply list_elem_of_fmap in Hy as (k & -> & Hk). apply list_elem_of_In, in_seq in Hk. lia.
Qed.

(** The page-number entries of [getPageNumbers]: exactly the kept pages,
    in increasing order, with at most two ellipses, ending with the last
    page. *)
Lemma getPageNumbers_spec current total delta :
  nums (getPageNumbers current total delta) =
    filter (keep current total delta) (range1 (Z.to_nat total)) /\
  (ellipses (getPageNumbers current total delta) <= 2)%nat /\
  (1 <= total -> last (getPageNumbers current total delta) = Some (PNum total)).
Proof.
  pose proof (pages_loop current total delta (Z.to_nat total)) as H. cbv zeta in H.
  destruct H as (Hn & He & Hl). unfold getPageNumbers. split_and!; [done|rewrite He; apply run_count|].
  intros Ht. rewrite Hl. destruct (Z.to_nat total) eqn:E; [lia|].
  rewrite <- E, Z2Nat.id by lia. unfold keep. by rewrite (Z.eqb_refl total), orb_true_r.
Qed.




(** ** Lemmas on ClientPaginatedTable *)

Lemma ceil_div_spec n d p :
  0 < d -> 0 < n -> p <= ceil_div n d -> (p - 1) * d < n.
Proof.
  intros Hd Hn Hp. unfold ceil_div in Hp.
  pose proof (Z.div_mod (- n) d ltac:(lia)). pose proof (Z.mod_pos_bound (- n) d Hd). nia.
Qed.

Lemma ceil_div_pos n d : 0 < d -> 0 < n -> 1 <= ceil_div n d.
Proof.
  intros Hd Hn. unfold ceil_div.
  pose proof (Z.div_mod (- n) d ltac:(lia)). pose proof (Z.mod_pos_bound (- n) d Hd). nia.
Qed.

Lemma length_slice {A} (a k : Z) (xs : list A) :
  0 <= a -> 0 <= k -> a <= Z.of_nat (length xs) ->
  Z.of_nat (length (Js.slice a (a + k) xs)) = Z.min k (Z.of_nat (length xs) - a).
Proof.
  intros Ha Hk Hl. unfold Js.slice, Js.rel_index.
  destruct (Z.ltb_spec a 0), (Z.ltb_spec (a + k) 0); try lia.
  rewrite length_firstn, length_skipn. lia.
Qed.

Section TableLemmas.
Context (searchable : bool) (searchKeys : list string).

Lemma handlePageChange_wf n t :
  table_wf searchable searchKeys t -> table_wf searchable searchKeys (handlePageChange searchable searchKeys n t).
Proof.
  intros (Hs & Hp & Hc). unfold handlePageChange.
  destruct (Z.leb_spec 1 n), (Z.leb_spec n (pageCount searchable searchKeys t)); simpl;
    split_and!; auto.
Qed.

(** The settled tables are well formed. *)
Lemma settled_table_wf options t :
  Forall (fun s => 0 < s) options -> settled searchable searchKeys options t ->
  table_wf searchable searchKeys t.
Proof.
  intros Hopt Hset. induction Hset as [size rows Hsize|t e Hset IH He Hd Hf|t rows Hset IH].
  - unfold table_wf. simpl. lia.
  - destruct e as [n|size|term| | |rows|]; simpl.
    + by apply handlePageChange_wf.
    + rewrite Forall_forall in Hopt. specialize (Hopt size (He size eq_refl)).
      unfold table_wf. simpl. lia.
    + destruct IH as (? & _). unfold table_wf. simpl. lia.
    + case_match; [by apply handlePageChange_wf|done].
    + case_match; [by apply handlePageChange_wf|done].
    + by destruct (Hd rows).
    + done.
  - destruct IH as (? & _). unfold table_wf. simpl. lia.
Qed.

(** On a well-formed table with rows, the "Showing a to b of n" line
    names exactly the rows of the current page. *)
Lemma showing_paginated t :
  table_wf searchable searchKeys t -> filteredData searchable searchKeys t <> [] ->
  let '(a, b, n) := showing searchable searchKeys t in
  1 <= a <= b /\ b <= n /\
  Z.of_nat (length (paginatedData searchable searchKeys t)) = b - a + 1.
Proof.
  intros (Hs & Hp & Hc) Hne. unfold showing, paginatedData.
  set (n := Z.of_nat (length (filteredData searchable searchKeys t))).
  assert (Hn : 0 < n).
  { subst n. destruct (filteredData searchable searchKeys t); [done|simpl; lia]. }
  assert (Hlt : (currentPage t - 1) * pageSize t < n).
  { destruct Hc as [-> | Hc]; [lia|]. by apply (ceil_div_spec n (pageSize t)). }
  rewrite length_slice by nia. fold n. split_and!; nia.
Qed.

End TableLemmas.


(** ** Theorems *)

(** [getPageNumbers] draws at most [2 * delta + 5] entries (9 links
    for the tables' [delta = 2], 7 in compact mode): in increasing
    order, exactly the pages between 1 and [total] that are the first,
    the last or within [delta] of the current one, with one ellipsis per
    gap, and the last page last. *)
Theorem getPageNumbers_bounds current total delta :
  0 <= delta ->
  let pages := getPageNumbers current total delta in
  (length pages <= Z.to_nat (2 * delta + 5))%nat /\
  StronglySorted Z.lt (nums pages) /\
  (forall n, PNum n ∈ pages <-> 1 <= n <= total /\ keep current total delta n = true) /\
  (1 <= total -> last pages = Some (PNum total)).
Proof.
  intros Hd pages. destruct (getPageNumbers_spec current total delta) as (Hn & He & Hl).
  fold pages in Hn, He, Hl. split_and!.
  - rewrite length_nums_ellipses, Hn. pose proof (kept_count current total delta Hd (Z.to_nat total)). lia.
  - rewrite Hn. apply StronglySorted_filter, StronglySorted_range1.
  - intros n. rewrite <- elem_of_nums, Hn, list_elem_of_filter, elem_of_range1. split.
    + intros [Hk Hr]. split; [lia|by apply Is_true_eq_true].
    + intros [Hr Hk]. split; [by apply Is_true_eq_left|lia].
  - exact Hl.
Qed.

(** Every table the user can reach in ClientPaginatedTable (from
    its first render, through page links, previous/next, a page size of
    the select, searches, and new data once its effect has run) has a
    current page that is 1 or one of its pages, and when it has rows its
    "Showing a to b of n" line counts exactly the rows it displays. *)
Theorem client_table_settled searchable searchKeys options t :
  Forall (fun s => 0 < s) options ->
  settled searchable searchKeys options t ->
  table_wf searchable searchKeys t /\
  (filteredData searchable searchKeys t <> [] ->
   let '(a, b, n) := showing searchable searchKeys t in
   1 <= a <= b /\ b <= n /\
   Z.of_nat (length (paginatedData searchable searchKeys t)) = b - a + 1).
Proof.
  intros Hopt Hset. pose proof (settled_table_wf _ _ _ _ Hopt Hset) as Hwf.
  split; [done|]. intros Hne. by apply showing_paginated.
Qed.


(** A new [data] prop is first rendered with the previous page: after
    page 3 of 25 rows, 5 new rows are drawn as "Showing 21 to 5 of 5"
    with no row, until the effect resets the page. *)
Lemma data_render_stale_page :
  let t := mkTable 3 10 "" (repeat (JObj []) 25) in
  let t' := handle false [] (EvData (repeat (JObj []) 5)) t in
  showing false [] t' = (21, 5, 5) /\ paginatedData false [] t' = [] /\
  showing false [] (handle false [] EvDataEffect t') = (1, 5, 5).
Proof. split_and!; reflexivity. Qed.

(** ** Witnesses *)

Section Witnesses.

Lemma getPageNumbers_bounds_witness :
  0 <= 2 /\
  let pages := getPageNumbers 7 20 2 in
  (length pages <= Z.to_nat (2 * 2 + 5))%nat /\
  StronglySorted Z.lt (nums pages) /\
  (forall n, PNum n ∈ pages <-> 1 <= n <= 20 /\ keep 7 20 2 n = true) /\
  (1 <= 20 -> last pages = Some (PNum 20)).
Proof. split; [lia|]. apply getPageNumbers_bounds. lia. Defined.

Lemma client_table_settled_witness :
  let options := [10; 25; 50; 100] in
  let t := handle true ["name"] EvNext (mkTable 1 10 "" (repeat (JObj []) 25)) in
  Forall (fun s => 0 < s) options /\ settled true ["name"] options t /\
  (table_wf true ["name"] t /\
   (filteredData true ["name"] t <> [] ->
    let '(a, b, n) := showing true ["name"] t in
    1 <= a <= b /\ b <= n /\
    Z.of_nat (length (paginatedData true ["name"] t)) = b - a + 1)).
Proof.
  intros options t.
  assert (Ho : Forall (fun s => 0 < s) options) by (repeat constructor; lia).
  assert (Hs : settled true ["name"] options t).
  { apply settled_user; [by apply settled_init; lia|intros ? [=]|intros ? [=]|done]. }
  split; [exact Ho|]. split; [exact Hs|]. exact (client_table_settled _ _ _ _ Ho Hs).
Defined.

End Witnesses.

End Tables.
