(* ===== verification/TableViews.v ===== *)
(** * What the two tables draw

    The renders of components/table/ClientPaginatedTable.jsx and
    components/table/PaginatedTable.jsx, over the state and the handlers
    of [Tables]: the search bar and its counts, the rows handed to
    [TableData] with the empty message, and the footer (the "Showing a
    to b of n" line, the page controls with their disabled states and
    the active link, the page-size select). *)

From S2P Require Import Prelude JsValue Tables.

Module TableViews.
Import Tables.
Local Open Scope Z_scope.

(** [No results found for "term"] *)
Definition no_results (term : string) : string :=
  let dq := String (Ascii.ascii_of_nat 34) EmptyString in
  "No results found for " +:+ dq +:+ term +:+ dq.

(** A page link and whether it is active ([pageNum === pagination.page]). *)
Definition link (page : Z) (p : page_item) : page_item * bool :=
  (p, match p with PNum n => Z.eqb n page | PEllipsis => false end).

(** ** ClientPaginatedTable *)

Inductive count_info :=
| AllItems (n : nat)                                (** [{data.length} items] *)
| FilteredItems (shown total : nat) (filtered : bool). (** [{filteredData.length} of {data.length} items (filtered)] *)

Record controls := mkControls { prev_disabled : bool; links : list (page_item * bool); next_disabled : bool }.

Record table_footer := mkFooter {
  f_showing : option (Z * Z * Z * option nat);   (** [showInfo]: a, b, n and [(filtered from {data.length})] *)
  f_controls : option controls;                 (** when [pagination.pageCount > 1] *)
  f_size : string;                              (** [String(pageSize)] *)
  f_options : list Z
}.

Record client_view := mkClientView {
  search_bar : option (option count_info);     (** [searchable && searchKeys.length > 0], then [showInfo] *)
  rows : list jsval;
  empty_message : string;
  footer : option table_footer                    (** [!loading && filteredData.length > 0] *)
}.

Section ClientView.
Context (searchable : bool) (searchKeys : list string) (showInfo loading : bool)
        (emptyMessage : string) (pageSizeOptions : list Z).

Definition client_render (t : table) : client_view :=
  let filtered := filteredData searchable searchKeys t in
  let nf := length filtered in
  let nd := length (data t) in
  let term_set := negb (String.eqb (searchTerm t) "") in
  let pc := pageCount searchable searchKeys t in
  let page := currentPage t in
  mkClientView
    (if searchable && negb (bool_decide (searchKeys = [])) then
       Some (if showInfo then
               Some (if term_set then FilteredItems nf nd (negb (Nat.eqb nf nd)) else AllItems nd)
             else None)
     else None)
    (paginatedData searchable searchKeys t)
    (if term_set && Nat.eqb nf 0%nat then no_results (searchTerm t) else emptyMessage)
    (if negb loading && negb (Nat.eqb nf 0%nat) then
       Some (mkFooter
               (if showInfo then
                  let '(a, b, n) := showing searchable searchKeys t in
                  Some (a, b, n, if term_set && negb (Nat.eqb nd nf) then Some nd else None)
                else None)
               (if 1 <? pc then
                  Some (mkControls (page <=? 1) (map (link page) (client_page_numbers searchable searchKeys t))
                                   (pc <=? page))
                else None)
               (Js.to_string (JNum (pageSize t))) pageSizeOptions)
     else None).

End ClientView.

(** ** PaginatedTable *)

Record server_controls := mkServerControls {
  first_button : option bool;                   (** [showFirstLast && pageCount > 5]: disabled *)
  s_prev_disabled : bool;
  s_links : list (page_item * bool * bool);     (** active, disabled *)
  s_next_disabled : bool;
  last_button : option bool
}.

Record server_view := mkServerView {
  s_info : option (option (Z * Z * Z));         (** [showPageInfo && pagination]: "Loading..." or the line *)
  s_controls : option server_controls;          (** [pagination && pagination.pageCount > 1] *)
  s_size : option (string * bool)               (** [showPageSizeSelector && onPageSizeChange]: value, disabled *)
}.

Section ServerView.
Context (showFirstLast showPageInfo showPageSizeSelector compactMode has_size_handler loading : bool).

Definition server_render (p : option pagination) : server_view :=
  mkServerView
    (match p with
     | Some p => if showPageInfo then Some (if loading then None else Some (table_showing p)) else None
     | None => None
     end)
    (match p with
     | Some p =>
         if 1 <? pg_pageCount p then
           let edge := if showFirstLast && (5 <? pg_pageCount p) then Some else fun _ => None in
           Some (mkServerControls (edge (loading || (pg_page p <=? 1)))
                                  (loading || (pg_page p <=? 1))
                                  (map (fun q => let '(q, a) := link (pg_page p) q in (q, a, loading))
                                       (table_page_numbers (Some p) compactMode))
                                  (loading || (pg_pageCount p <=? pg_page p))
                                  (edge (loading || (pg_pageCount p <=? pg_page p))))
         else None
     | None => None
     end)
    (if showPageSizeSelector && has_size_handler
     then Some (Js.to_string (match p with
                              | Some p => if Z.eqb (pg_pageSize p) 0 then JNum 10 else JNum (pg_pageSize p)
                              | None => JNum 10
                              end), loading)
     else None).

End ServerView.

End TableViews.

(** ** The active page link *)

Section ActiveLink.
Import Tables TableViews.
Local Open Scope Z_scope.

Lemma links_inactive page l : PNum page ∉ l -> List.filter snd (map (link page) l) = [].
Proof.
  induction l as [|[n|] l IH]; intros Hn; [done| |].
  - rewrite not_elem_of_cons in Hn. destruct Hn as [Hn Hl]. simpl.
    destruct (Z.eqb_spec n page) as [->|]; [by destruct Hn|]. by apply IH.
  - rewrite not_elem_of_cons in Hn. destruct Hn as [_ Hl]. simpl. by apply IH.
Qed.

Lemma links_active page l :
  NoDup (nums l) -> PNum page ∈ l -> List.filter snd (map (link page) l) = [(PNum page, true)].
Proof.
  induction l as [|[n|] l IH]; intros Hnd Hin; [by apply not_elem_of_nil in Hin| |].
  - unfold nums in Hnd. simpl in Hnd. apply NoDup_cons in Hnd as [Hn Hnd]. cbn [map List.filter].
    destruct (Z.eqb_spec n page) as [->|Hne].
    + replace (link page (PNum page)) with (PNum page, true) by (unfold link; by rewrite Z.eqb_refl).
      simpl. f_equal. apply links_inactive. intros H. apply Hn. exact (proj2 (elem_of_nums _ _) H).
    + replace (link page (PNum n)) with (PNum n, false) by (unfold link; by rewrite (proj2 (Z.eqb_neq _ _) Hne)).
      simpl.
      apply IH; [exact Hnd|]. apply elem_of_cons in Hin as [Hin|Hin]; [congruence|exact Hin].
  - simpl. apply IH; [exact Hnd|]. apply elem_of_cons in Hin as [Hin|Hin]; [discriminate|exact Hin].
Qed.

(** On a table the user reached, the page links of the footer have
    exactly one active link, the current page's. *)
Theorem client_active_link searchable searchKeys showInfo loading emptyMessage options t f c :
  Forall (fun s => 0 < s) options -> settled searchable searchKeys options t ->
  footer (client_render searchable searchKeys showInfo loading emptyMessage options t) = Some f ->
  f_controls f = Some c ->
  List.filter snd (links c) = [(PNum (currentPage t), true)].
Proof.
  intros Hopt Hset. pose proof (settled_table_wf _ _ _ _ Hopt Hset) as (_ & Hp & Hc).
  unfold client_render. simpl. destruct (_ && _); [|discriminate]. intros [= <-]. simpl.
  destruct (Z.ltb_spec 1 (pageCount searchable searchKeys t)) as [Hlt|]; [|discriminate]. intros [= <-]. simpl.
  unfold client_page_numbers. apply links_active.
  - destruct (getPageNumbers_spec (currentPage t) (pageCount searchable searchKeys t) 2) as [-> _].
    apply NoDup_filter, NoDup_range1.
  - apply elem_of_nums.
    destruct (getPageNumbers_spec (currentPage t) (pageCount searchable searchKeys t) 2) as [-> _].
    apply list_elem_of_filter. split.
    + unfold keep. apply Is_true_eq_left. rewrite !orb_true_iff, andb_true_iff, !Z.leb_le. right. lia.
    + apply elem_of_range1. rewrite Z2Nat.id by lia. lia.
Qed.

End ActiveLink.

(** The first render of a table of 25 rows, 10 per page. *)
Lemma client_active_link_witness :
  let t := Tables.mkTable 1 10 "" (repeat (JNum 0) 25) in
  exists f c,
    TableViews.footer (TableViews.client_render false [] true false "No data found." [10%Z; 25%Z] t) = Some f /\
    TableViews.f_controls f = Some c /\
    List.filter snd (TableViews.links c) = [(Tables.PNum 1, true)].
Proof.
  intros t. eexists _, _. split; [reflexivity|]. split; [reflexivity|].
  refine (client_active_link false [] true false "No data found." [10%Z; 25%Z] t _ _ _ _ eq_refl eq_refl).
  - repeat constructor; lia.
  - apply Tables.settled_init. lia.
Defined.
