(* ===== verification/JsNumber.v ===== *)
(** * JavaScript's arithmetic on numbers, as an interface

    The values of [JsValue] hold integers.  The client computes amounts
    with decimals ([quantity * unitAmount], [effectiveRate / 100],
    [toFixed(2)], [parseFloat]), in the host's double-precision
    arithmetic.  That arithmetic is not modelled: it is the [Class]
    [JsArith] of the operations the code applies, and the components that
    compute amounts are sections over an instance.  [JsArithOk] states
    what the theorems may assume of it: it agrees with the integers on
    integers.  [int_arith] is an instance on the integers, which shows the
    laws consistent. *)

From S2P Require Import Prelude JsValue.

Class JsArith := {
  num_add : jsval -> jsval -> jsval;    (** [a + b] on two numbers *)
  num_mul : jsval -> jsval -> jsval;    (** [a * b] *)
  num_div : jsval -> jsval -> jsval;    (** [a / b] *)
  to_number : jsval -> jsval;           (** [Number(v)] *)
  parse_float : jsval -> jsval;         (** [parseFloat(v)] *)
  to_fixed : jsval -> nat -> string     (** [x.toFixed(d)] *)
}.

Class JsArithOk `{JsArith} : Prop := {
  num_add_int a b : num_add (JNum a) (JNum b) = JNum (a + b);
  num_mul_int a b : num_mul (JNum a) (JNum b) = JNum (a * b);
  to_number_int a : to_number (JNum a) = JNum a;
  parse_float_int a : parse_float (JNum a) = JNum a
}.

(** [a || 0] on a number is the number. *)
Lemma or_num_zero a : Js.or (JNum a) (JNum 0) = JNum a.
Proof. unfold Js.or. simpl. by destruct (Z.eqb_spec a 0) as [->|]. Qed.

(** ** The integer instance *)

Definition int_op (f : Z -> Z -> Z) (a b : jsval) : jsval :=
  match a, b with JNum x, JNum y => JNum (f x y) | _, _ => JUndef end.

#[local] Instance int_arith : JsArith := {
  num_add := int_op Z.add;
  num_mul := int_op Z.mul;
  num_div := int_op Z.div;
  to_number v := match v with JNum _ => v | _ => JUndef end;
  parse_float v := match v with JNum _ => v | _ => JUndef end;
  to_fixed v _ := Js.to_string v
}.

#[local] Instance int_arith_ok : JsArithOk (H := int_arith).
Proof. split; reflexivity. Qed.
