(* ===== verification/Utils.v ===== *)
(** * The frontend's pure helpers: src/client/src/utils/index.js

    [getUserInitials] (the avatar of the navigation bar),
    [getStatusVariant] (the badge of a batch row in utils/columnData.jsx),
    [getApplicableTaxRates] (the tax rates CreatePaymentForm offers for a
    line's account), [truncateBankAccountNumber] (the masked account
    number of PaymentSummary) and the date formatters.

    Strings are ASCII, so [toUpperCase] and [toLowerCase] change the
    letters [a-z] and [A-Z] only.  A [Date] is represented by the fields
    its getters return in the local time zone ([getMonth] counts from 0);
    how [new Date(dateString)] parses its argument is the host's and is
    not modelled, nor are [formatCurrency] and [formatDate], which are
    calls of [Intl.NumberFormat] and [toLocaleDateString]. *)

From S2P Require Import Prelude JsValue ClientApi.
From stdpp Require Import pretty.
From Stdlib Require Import Ascii.

Module Utils.
Local Open Scope xero_scope.
Import ClientApi.

(** [toUpperCase] and [toLowerCase] on one character. *)
Definition upper_char (c : Ascii.ascii) : Ascii.ascii :=
  let n := Ascii.nat_of_ascii c in
  if (97 <=? n)%nat && (n <=? 122)%nat then Ascii.ascii_of_nat (n - 32) else c.

Definition lower_char (c : Ascii.ascii) : Ascii.ascii :=
  let n := Ascii.nat_of_ascii c in
  if (65 <=? n)%nat && (n <=? 90)%nat then Ascii.ascii_of_nat (n + 32) else c.

Definition toUpperCase (s : string) : string := String.string_of_list_ascii (map upper_char (String.list_ascii_of_string s)).
Definition toLowerCase (s : string) : string := String.string_of_list_ascii (map lower_char (String.list_ascii_of_string s)).

(** [getUserInitials(userName)]: ["AA"] for a missing or non-string
    name, else the first two characters of the trimmed name in upper
    case. *)
Definition getUserInitials (userName : jsval) : string :=
  match userName with
  | JStr s =>
      if String.eqb s "" then "AA"
      else toUpperCase (String.string_of_list_ascii (Js.slice 0 2 (String.list_ascii_of_string (Js.trim s))))
  | _ => "AA"
  end.

(** [getStatusVariant(status)]: the [switch] on [status?.toUpperCase()];
    a status that is neither nullish nor a string has no [toUpperCase]. *)
Definition getStatusVariant (status : jsval) : string + string :=
  match status with
  | JUndef | JNull => inr "secondary"
  | JStr s =>
      let u := toUpperCase s in
      inr (if String.eqb u "PENDING" then "warning"
           else if String.eqb u "PAID" || String.eqb u "COMPLETED" then "success"
           else if String.eqb u "OVERDUE" then "destructive"
           else "secondary")
  | _ => inl "status?.toUpperCase is not a function"
  end.

(** The [filter] callback of [getApplicableTaxRates], on a tax rate that
    is not nullish, for the lower-cased account tax type [kind]. *)
Definition applies (kind : string) (taxRate : jsval) : bool :=
  let f := Js.own_value taxRate in
  let report := f "reportTaxType" in
  if String.eqb kind "input" then
    Js.truthy (f "canApplyToExpenses") || Js.strict_eq report (JStr "INPUT")
    || Js.strict_eq report (JStr "PURCHASESINPUT")
  else if String.eqb kind "output" then
    Js.truthy (f "canApplyToRevenue") || Js.strict_eq report (JStr "OUTPUT")
    || Js.strict_eq report (JStr "SALESOUTPUT")
  else if String.eqb kind "none" then
    Js.strict_eq (f "taxType") (JStr "NONE") || Js.strict_eq (f "effectiveRate") (JNum 0)
  else
    Js.truthy (f "canApplyToExpenses") || Js.truthy (f "canApplyToAssets")
    || Js.strict_eq (f "effectiveRate") (JNum 0).

(** The first property the callback reads, where a nullish tax rate
    throws. *)
Definition first_read (kind : string) : string :=
  if String.eqb kind "none" then "taxType" else "canApplyToExpenses".

Fixpoint filter_rates (kind : string) (ts : list jsval) : string + list jsval :=
  match ts with
  | [] => inr []
  | t :: ts' =>
      if Js.is_nullish t then inl (type_error t (first_read kind))
      else rest <-? filter_rates kind ts' ;; inr (if applies kind t then t :: rest else rest)
  end.

(** [accountTaxType.toLowerCase()], evaluated by the callback. *)
Definition lower_kind (accountTaxType : jsval) : string + string :=
  match accountTaxType with
  | JStr s => inr (toLowerCase s)
  | _ => inl "accountTaxType.toLowerCase is not a function"
  end.

(** [getApplicableTaxRates(allTaxRates, accountTaxType)]: the guard
    [!accountTaxType || !allTaxRates.length], then the filter. *)
Definition getApplicableTaxRates (allTaxRates accountTaxType : jsval) : string + list jsval :=
  if negb (Js.truthy accountTaxType) then inr [] else
  match allTaxRates with
  | JUndef | JNull => inl (type_error allTaxRates "length")
  | JArr [] => inr []
  | JArr ts => kind <-? lower_kind accountTaxType ;; filter_rates kind ts
  | JStr s => if String.eqb s "" then inr [] else inl "allTaxRates.filter is not a function"
  | _ => inr []
  end.

(** [truncateBankAccountNumber(accountNumber)]: numbers of at most four
    characters are returned as they are; a longer one becomes
    [max(3, length - 4)] stars and its last four characters. *)
Definition truncateBankAccountNumber (accountNumber : jsval) : string + jsval :=
  if negb (Js.truthy accountNumber) then inr accountNumber else
  match accountNumber with
  | JStr s =>
      let n := String.length s in
      if (n <=? 4)%nat then inr accountNumber else
      let lastFour := Js.slice (-4) (Z.of_nat n) (String.list_ascii_of_string s) in
      let masked := repeat "*"%char (Nat.max 3 (n - 4)) in
      inr (JStr (String.string_of_list_ascii (masked ++ lastFour)))
  | JArr xs =>
      let n := length xs in
      if (n <=? 4)%nat then inr accountNumber else
      let lastFour := Js.slice (-4) (Z.of_nat n) xs in
      let masked := repeat "*"%char (Nat.max 3 (n - 4)) in
      inr (JStr (String.string_of_list_ascii masked +:+ Js.to_string (JArr lastFour)))
  | _ => inl "accountNumber.slice is not a function"
  end.

(** ** Dates *)

(** The local-time fields of a [Date]. *)
Record date := mkDate {
  getFullYear : Z;
  getMonth : Z;      (** 0 to 11 *)
  getDate : Z;
  getHours : Z;
  getMinutes : Z;
  getSeconds : Z
}.

(** [String(v).padStart(2, "0")] and [v.toString().padStart(2, "0")]. *)
Definition padStart (width : nat) (s : string) : string :=
  String.string_of_list_ascii (repeat "0"%char (width - String.length s)) +:+ s.

Definition pad2 (v : Z) : string := padStart 2 (pretty v).

(** [formatDateTime]: ["dd-mm-yyyy hh:mm:ss"]. *)
Definition formatDateTime (d : date) : string :=
  pad2 (getDate d) +:+ "-" +:+ pad2 (getMonth d + 1) +:+ "-" +:+ pretty (getFullYear d)
  +:+ " " +:+ pad2 (getHours d) +:+ ":" +:+ pad2 (getMinutes d) +:+ ":" +:+ pad2 (getSeconds d).

(** [formatDateString]: ["dd-mm-yyyy"]. *)
Definition formatDateString (d : date) : string :=
  pad2 (getDate d) +:+ "-" +:+ pad2 (getMonth d + 1) +:+ "-" +:+ pretty (getFullYear d).

(** [getTodayDateString]: ["yyyy-mm-dd"], the value format of an
    [<input type="date">]. *)
Definition getTodayDateString (today : date) : string :=
  pretty (getFullYear today) +:+ "-" +:+ pad2 (getMonth today + 1) +:+ "-" +:+ pad2 (getDate today).

(** [getTodayDateTimeString]: ["yyyy-mm-ddThh:mm"], the value format of
    an [<input type="datetime-local">]. *)
Definition getTodayDateTimeString (today : date) : string :=
  pretty (getFullYear today) +:+ "-" +:+ pad2 (getMonth today + 1) +:+ "-" +:+ pad2 (getDate today)
  +:+ "T" +:+ pad2 (getHours today) +:+ ":" +:+ pad2 (getMinutes today).

(** The variants of the [Badge] of utils/columnData.jsx's status column
    that [getStatusVariant] is written for. *)
Definition badge_variants : list string := ["warning"; "success"; "destructive"; "secondary"].

(** ** Lemmas *)

Lemma chars_length (s : string) : length (String.list_ascii_of_string s) = String.length s.
Proof. induction s; simpl; auto. Qed.

Lemma chars_of_chars (l : list Ascii.ascii) :
  String.list_ascii_of_string (String.string_of_list_ascii l) = l.
Proof. apply String.list_ascii_of_string_of_list_ascii. Qed.

(** [xs.slice(-k)] keeps the last [k] elements. *)
Lemma slice_last {A} (k : nat) (xs : list A) :
  (0 < k <= length xs)%nat ->
  Js.slice (- Z.of_nat k) (Z.of_nat (length xs)) xs = skipn (length xs - k) xs.
Proof.
  intros Hk. unfold Js.slice, Js.rel_index.
  destruct (Z.ltb_spec (- Z.of_nat k) 0) as [Hneg|Hpos];
    destruct (Z.ltb_spec (Z.of_nat (length xs)) 0); try lia.
  - replace (Z.to_nat (Z.max (Z.of_nat (length xs) + - Z.of_nat k) 0)) with (length xs - k)%nat by lia.
    rewrite Nat2Z.id, Nat.min_id, firstn_all2; [done|]. rewrite length_skipn. lia.
Qed.

(** [toUpperCase] leaves no lower-case letter. *)
Lemma upper_char_not_lower c :
  ~ (97 <= Ascii.nat_of_ascii (upper_char c) <= 122)%nat.
Proof.
  unfold upper_char. destruct (97 <=? _)%nat eqn:E1, (_ <=? 122)%nat eqn:E2; simpl;
    apply Nat.leb_le in E1 || apply Nat.leb_gt in E1;
    apply Nat.leb_le in E2 || apply Nat.leb_gt in E2; try lia.
  rewrite Ascii.nat_ascii_embedding; lia.
Qed.

Lemma truthy_long (s : string) : (0 < String.length s)%nat -> Js.truthy (JStr s) = true.
Proof. destruct s; simpl; [lia|done]. Qed.

(** A number of more than four characters is masked. *)
Lemma truncate_long (s : string) :
  let n := String.length s in
  (4 < n)%nat ->
  truncateBankAccountNumber (JStr s) =
    inr (JStr (String.string_of_list_ascii
                 (repeat "*"%char (Nat.max 3 (n - 4)) ++ skipn (n - 4) (String.list_ascii_of_string s)))).
Proof.
  intros n Hn. subst n. unfold truncateBankAccountNumber.
  rewrite truthy_long by lia. simpl negb. cbv iota.
  replace (String.length s <=? 4)%nat with false by (symmetry; apply Nat.leb_gt; lia).
  change (-4)%Z with (- Z.of_nat 4)%Z. rewrite <- !chars_length, slice_last; [done|].
  rewrite chars_length; lia.
Qed.

(** [getStatusVariant] is total on what [row.status] holds in the
    table: a missing status or a string gets one of the four [Badge]
    variants (case-insensitively), and only a status of another type
    throws. *)
Theorem getStatusVariant_type (status : jsval) :
  match getStatusVariant status with
  | inr v => v ∈ badge_variants
  | inl _ => Js.is_nullish status = false /\ forall s, status <> JStr s
  end.
Proof.
  unfold badge_variants.
  destruct status; simpl; try (split; [done|congruence]); try set_solver.
  repeat case_match; set_solver.
Qed.

(** [truncateBankAccountNumber] on an account number of more than
    four characters shows its last four characters after at least three
    stars, [max(7, length)] characters in all, and nothing else of it: two
    numbers of one length that end alike are displayed alike. *)
Theorem truncateBankAccountNumber_masks (s1 s2 : string) :
  let n := String.length s1 in
  (4 < n)%nat -> String.length s2 = n ->
  skipn (n - 4) (String.list_ascii_of_string s2) = skipn (n - 4) (String.list_ascii_of_string s1) ->
  truncateBankAccountNumber (JStr s1) = truncateBankAccountNumber (JStr s2) /\
  exists t k, truncateBankAccountNumber (JStr s1) = inr (JStr t) /\
    String.list_ascii_of_string t = repeat "*"%char k ++ skipn (n - 4) (String.list_ascii_of_string s1) /\
    (3 <= k)%nat /\ (k + 4 = Nat.max 7 n)%nat.
Proof.
  intros n Hn Hlen Hlast.
  rewrite !truncate_long by lia. rewrite Hlen, Hlast. split; [done|].
  eexists _, _. split; [reflexivity|]. rewrite chars_of_chars. split; [done|lia].
Qed.

Lemma filter_rates_ok kind ts :
  Forall (fun t => Js.is_nullish t = false) ts ->
  filter_rates kind ts = inr (List.filter (applies kind) ts).
Proof.
  induction 1 as [|t ts Ht _ IH]; simpl; [done|].
  rewrite Ht, IH. simpl. by destruct (applies kind t).
Qed.

(** [getApplicableTaxRates] on a list of tax rates (none of them
    [null] or [undefined]) and an account tax type given as a non-empty
    string offers exactly the rates its callback accepts for the tax
    type in lower case, in their order: the expense rates for
    ["INPUT"], the revenue rates for ["OUTPUT"], the rates of type
    ["NONE"] or of rate 0 for ["NONE"], and the expense, asset and
    zero rates for any other type. *)
Theorem getApplicableTaxRates_spec (ts : list jsval) (k : string) :
  k <> "" -> Forall (fun t => Js.is_nullish t = false) ts ->
  getApplicableTaxRates (JArr ts) (JStr k) = inr (List.filter (applies (toLowerCase k)) ts).
Proof.
  intros Hk Hts. unfold getApplicableTaxRates.
  replace (Js.truthy (JStr k)) with true by (destruct k; done).
  destruct ts; [done|]. simpl lower_kind. cbv beta iota. by apply filter_rates_ok.
Qed.

(** A name of white space only passes the guard and has no initials. *)
Lemma getUserInitials_blank : getUserInitials (JStr "   ") = "".
Proof. reflexivity. Qed.

Lemma truncateBankAccountNumber_masks_witness :
  truncateBankAccountNumber (JStr "12345678") = truncateBankAccountNumber (JStr "99995678") /\
  exists t k, truncateBankAccountNumber (JStr "12345678") = inr (JStr t) /\
    String.list_ascii_of_string t =
      repeat "*"%char k ++ skipn (8 - 4) (String.list_ascii_of_string "12345678") /\
    (3 <= k)%nat /\ (k + 4 = Nat.max 7 8)%nat.
Proof.
  apply (truncateBankAccountNumber_masks "12345678" "99995678"); [simpl; lia|reflexivity|reflexivity].
Defined.

End Utils.
