(* ===== verification/Router.v ===== *)
(** * The client's routes and its sidebar

    router/routes.jsx declares the routes App.jsx gives [useRoutes]:
    [/login] inside [PublicRoute], the pages under [/] inside
    [ProtectedRoute] and the [Layout] (whose sidebar is
    components/AppSidebar.jsx), and [*] for [NotFoundPage].  React
    Router compares paths segment by segment, without case, and ignores
    trailing slashes; the table has no dynamic segment.  The guards are
    [Routes.Guards]; the sidebar's sync button calls the context's
    [sync] ([ClientState]). *)

From S2P Require Import Prelude JsValue ClientApi ClientState Routes Utils.
From Stdlib Require Import Ascii.

Module Router.
Local Open Scope xero_scope.
Import ClientApi.

Inductive page :=
| DashboardPage | RequestApproval | ApprovalPage | SupplierBillsPage | ManualPaymentsPage
| XeroCallbackRedirect | LoginPage | NotFoundPage.

(** The element around a page: [PublicRoute], [ProtectedRoute] with the
    [Layout], or none. *)
Inductive guard := Public | Protected | Unguarded.

(** [routes]: the segments of each path, its guard and its page, in
    the order of the table. *)
Definition routes : list (list string * guard * page) :=
  [(["login"], Public, LoginPage);
   ([], Protected, DashboardPage);
   (["dashboard"], Protected, DashboardPage);
   (["request-approval"], Protected, RequestApproval);
   (["approval-authorization"], Protected, ApprovalPage);
   (["bills"], Protected, SupplierBillsPage);
   (["manual-payments"], Protected, ManualPaymentsPage);
   (["xero"; "callback"], Protected, XeroCallbackRedirect)].

Definition is_slash (c : ascii) : bool := Ascii.eqb c "/".

Fixpoint drop_empty (xs : list string) : list string :=
  match xs with
  | EmptyString :: xs' => drop_empty xs'
  | _ => xs
  end.

(** The segments of a pathname, lower-cased, after its leading slash
    and without its trailing slashes; [None] when an inner segment is
    empty, which no route of the table matches. *)
Definition path_segments (path : string) : option (list string) :=
  match Js.split is_slash path with
  | EmptyString :: rest =>
      let rest := rev (drop_empty (rev rest)) in
      if forallb (fun s => negb (String.eqb s "")) rest then Some (map Utils.toLowerCase rest) else None
  | _ => None
  end.

(** The route [useRoutes(routes)] renders for a pathname. *)
Definition match_routes (path : string) : guard * page :=
  match path_segments path with
  | Some segs =>
      match List.find (fun r => bool_decide (r.1.1 = segs)) routes with
      | Some (_, g, p) => (g, p)
      | None => (Unguarded, NotFoundPage)
      end
  | None => (Unguarded, NotFoundPage)
  end.

(** What the browser shows: a page, inside the [Layout] or not, or a
    [<Navigate>] to another path. *)
Inductive screen := Shows (p : page) (in_layout : bool) | Redirects (to : string).

Section Render.
Context (jwtDecode : string -> option jsval).

Definition render (now : Z) (b : browser) (path : string) : screen * browser :=
  match match_routes path with
  | (Public, p) =>
      let '(o, b) := Guards.publicRoute jwtDecode now b in
      (match o with Guards.Render => Shows p false | Guards.Redirect to => Redirects to end, b)
  | (Protected, p) =>
      let '(o, b) := Guards.protectedRoute jwtDecode now b in
      (match o with Guards.Render => Shows p true | Guards.Redirect to => Redirects to end, b)
  | (Unguarded, p) => (Shows p false, b)
  end.

End Render.

End Router.

(** ** components/AppSidebar.jsx *)

Module AppSidebar.
Local Open Scope xero_scope.
Import ClientApi.

Record nav_item := mkItem { title : string; url : string }.

(** [navigation] *)
Definition navigation : list nav_item :=
  [mkItem "Dashboard" "/"; mkItem "Request to Approval" "/request-approval";
   mkItem "Approval & Authorization" "/approval-authorization";
   mkItem "Payment Advice" "/payment-advice"; mkItem "Xero Bills" "/bills"].

(** [isActive={location.pathname === item.url}] *)
Definition isActive (pathname : string) (item : nav_item) : bool := String.eqb pathname (url item).

(** [handleLogout()]: the browser after [authService.logout()] and the
    navigation. *)
Definition handleLogout (b : browser) : browser * list effect := (logout b, [Navigate "/login" None]).

(** [handleSync()]: the context after [sync()]; what it throws is logged. *)
Definition handleSync (pathname : string) (res : string + jsval) (now : Z) (c : XeroContext.ctx)
    : XeroContext.ctx :=
  snd (XeroContext.sync pathname res now c).

Inductive sync_icon := RefreshCw | Check.

Record sync_button := mkButton {
  text : string; icon : sync_icon; variant : string; disabled : bool; iconClass : string
}.

(** [getSyncButtonContent()] *)
Definition getSyncButtonContent (isSyncing isSynced : bool) : sync_button :=
  if isSyncing then mkButton "Syncing..." RefreshCw "outline" true "animate-spin"
  else if isSynced then mkButton "Xero Synced" Check "outline" true ""
  else mkButton "Sync with Xero" RefreshCw "outline" false "".

(** [userInfo?.userName?.charAt(0)?.toUpperCase() || "U"]; [charAt] of
    a value other than a string throws. *)
Definition avatar_letter (userInfo : jsval) : string + string :=
  match Js.opt_get userInfo "userName" with
  | JUndef | JNull => inr "U"
  | JStr EmptyString => inr "U"
  | JStr (String c _) => inr (String (Utils.upper_char c) EmptyString)
  | _ => inl "userInfo?.userName?.charAt is not a function"
  end.

(** [userInfo?.userName || "User"] and [userInfo?.email || ""] *)
Definition user_name (userInfo : jsval) : jsval := Js.or (Js.opt_get userInfo "userName") (JStr "User").
Definition user_email (userInfo : jsval) : jsval := Js.or (Js.opt_get userInfo "email") (JStr "").

End AppSidebar.

(** ** Where the sidebar leads *)

Section SidebarLinks.
Import ClientApi Router.
Context (jwtDecode : string -> option jsval).

(** Signed in, the links of the sidebar show their pages inside the
    [Layout], except "Payment Advice", whose path [/payment-advice] no
    route declares: it shows [NotFoundPage], without the layout and its
    sidebar.  No link leads to [/manual-payments]. *)
Theorem sidebar_links now b :
  fst (isAuthenticated jwtDecode now b) = true ->
  map (fun item => fst (render jwtDecode now b (AppSidebar.url item))) AppSidebar.navigation =
    [Shows DashboardPage true; Shows RequestApproval true; Shows ApprovalPage true;
     Shows NotFoundPage false; Shows SupplierBillsPage true] /\
  Forall (fun item => snd (match_routes (AppSidebar.url item)) <> ManualPaymentsPage) AppSidebar.navigation.
Proof.
  intros Hok. split; [|repeat constructor; discriminate].
  unfold render, Guards.protectedRoute. destruct (isAuthenticated jwtDecode now b) as [ok b'].
  simpl in Hok. subst ok. reflexivity.
Qed.

(** Signed out (or with an expired or unreadable token), every path
    under [/] sends the browser to [/login], the callback of Xero's
    consent [/xero/callback] included; signed in, [/login] sends it to [/]. *)
Theorem guards_redirect now b path :
  match fst (match_routes path) with
  | Protected => fst (isAuthenticated jwtDecode now b) = false -> fst (render jwtDecode now b path) = Redirects "/login"
  | Public => fst (isAuthenticated jwtDecode now b) = true -> fst (render jwtDecode now b path) = Redirects "/"
  | Unguarded => fst (render jwtDecode now b path) = Shows NotFoundPage false
  end.
Proof.
  unfold render, Guards.protectedRoute, Guards.publicRoute.
  destruct (match_routes path) as [[| |] p] eqn:E; simpl;
    try (destruct (isAuthenticated jwtDecode now b) as [[] b']; simpl; congruence).
  unfold match_routes in E. destruct (path_segments path); [|by simplify_eq].
  destruct (List.find _ routes) as [[[segs g] p']|] eqn:F; [|by simplify_eq].
  apply List.find_some in F as [Hin _]. simplify_eq.
  repeat destruct Hin as [Hin|Hin]; simplify_eq. by destruct Hin.
Qed.

End SidebarLinks.
