(* ===== verification/PaymentForm.v ===== *)
(** * The manual-payment form: schemas/manualPaymentValidation.js,
      utils/formData.js, utils/data.js and
      components/manual-payment/CreatePaymentForm.jsx

    [manualPaymentValidation(formData)] returns an object of error
    messages keyed by field ([lines.<i>.<field>] for the line items); the
    form submits only when it has no key.  It is modelled as a function
    from the form value to [inr] that object (as an ordered association
    list) or [inl] the message of the TypeError it throws on a malformed
    form.  The comparisons [x <= 0] convert their operand with
    JavaScript's ToNumber: the form's inputs hold the strings of
    [<input type="number">], so the string grammar of numeric literals is
    modelled, up to the sign of the value it denotes (an exponent is
    assumed not to underflow to zero).  The module [Form] models the
    handlers of CreatePaymentForm that change the form's contact, fields,
    line list and submission; the module [LineItems] models the handlers
    that compute amounts and taxes ([handleLineItemChange], the tax
    select, [calculateLineAmount], [calculateTotalAmount]) over the
    host's arithmetic [JsArith], and proves that every line's tax stays
    one its account allows. *)

From S2P Require Import Prelude JsValue ClientApi JsNumber Utils.
From stdpp Require Import pretty.
From Stdlib Require Import Ascii.

(** ** ToNumber, up to the sign of the result *)

Module Num.

Definition in_range (lo hi : nat) (c : ascii) : bool :=
  let n := nat_of_ascii c in (lo <=? n)%nat && (n <=? hi)%nat.

Definition is_digit := in_range 48 57.
Definition is_octal := in_range 48 55.
Definition is_binary := in_range 48 49.
Definition is_hex (c : ascii) : bool := is_digit c || in_range 97 102 c || in_range 65 70 c.
Definition is_zero (c : ascii) : bool := Ascii.eqb c "0".

(** The longest prefix of characters satisfying [p], and the rest. *)
Fixpoint span (p : ascii -> bool) (l : list ascii) : list ascii * list ascii :=
  match l with
  | c :: l' => if p c then let '(a, b) := span p l' in (c :: a, b) else ([], l)
  | [] => ([], [])
  end.

(** An optional exponent [(e|E)[+-]digits] and nothing after it. *)
Definition exponent_ok (l : list ascii) : bool :=
  match l with
  | [] => true
  | e :: r =>
      (Ascii.eqb e "e" || Ascii.eqb e "E") &&
      let r' := match r with
                | s :: r'' => if Ascii.eqb s "+" || Ascii.eqb s "-" then r'' else r
                | [] => []
                end in
      let '(d, rest) := span is_digit r' in
      negb (length d =? 0)%nat && (length rest =? 0)%nat
  end.

(** An unsigned decimal literal [digits[.digits][exponent]] or
    [.digits[exponent]]: [Some true] when it denotes zero, [None] when it
    is not one. *)
Definition unsigned_decimal (l : list ascii) : option bool :=
  let '(d1, r1) := span is_digit l in
  let '(d2, r2) := match r1 with
                   | c :: r => if Ascii.eqb c "." then span is_digit r else ([], r1)
                   | [] => ([], [])
                   end in
  if ((length (d1 ++ d2) =? 0)%nat || negb (exponent_ok r2)) then None
  else Some (forallb is_zero (d1 ++ d2)).

(** [0x], [0o] and [0b] literals. *)
Definition non_decimal (l : list ascii) : option bool :=
  match l with
  | z :: x :: r =>
      let p := if Ascii.eqb x "x" || Ascii.eqb x "X" then Some is_hex
               else if Ascii.eqb x "o" || Ascii.eqb x "O" then Some is_octal
               else if Ascii.eqb x "b" || Ascii.eqb x "B" then Some is_binary
               else None in
      match p with
      | Some p =>
          let '(d, rest) := span p r in
          if is_zero z && negb (length d =? 0)%nat && (length rest =? 0)%nat
          then Some (forallb is_zero d) else None
      | None => None
      end
  | _ => None
  end.

Definition unsigned_sign (l : list ascii) : option comparison :=
  if String.eqb (String.string_of_list_ascii l) "Infinity" then Some Gt
  else (fun z : bool => if z then Eq else Gt) <$> unsigned_decimal l.

(** The sign of [Number(s)]; [None] is [NaN]. *)
Definition string_sign (s : string) : option comparison :=
  let l := String.list_ascii_of_string (Js.trim s) in
  match l with
  | [] => Some Eq
  | c :: r =>
      if Ascii.eqb c "+" then unsigned_sign r
      else if Ascii.eqb c "-" then CompOpp <$> unsigned_sign r
      else match non_decimal l with
           | Some z => Some (if z then Eq else Gt)
           | None => unsigned_sign l
           end
  end.

(** The sign of [ToNumber(v)]: [null] is 0, [undefined] is [NaN], an
    array or object is converted through its string. *)
Definition number_sign (v : jsval) : option comparison :=
  match v with
  | JUndef => None
  | JNull => Some Eq
  | JBool b => Some (if b then Gt else Eq)
  | JNum n => Some (Z.compare n 0)
  | JStr s => string_sign s
  | JArr _ | JObj _ => string_sign (Js.to_string v)
  end.

(** [v <= 0]: false on [NaN]. *)
Definition le_zero (v : jsval) : bool :=
  match number_sign v with Some Lt | Some Eq => true | _ => false end.

(** The value of a string of decimal digits. *)
Definition digits_value (l : list ascii) : Z :=
  fold_left (fun acc c => acc * 10 + Z.of_nat (nat_of_ascii c - 48))%Z l 0%Z.

(** [Number(s)] of an integer string ([""] is 0); [None] for [NaN] and
    for the strings of non-integers, which the model's integer numbers do
    not represent. *)
Definition int_value (s : string) : option Z :=
  match String.list_ascii_of_string (Js.trim s) with
  | [] => Some 0%Z
  | c :: r =>
      let '(sg, r) := if Ascii.eqb c "-" then ((-1)%Z, r)
                      else if Ascii.eqb c "+" then (1%Z, r) else (1%Z, c :: r) in
      let '(d, rest) := span is_digit r in
      if (length d =? 0)%nat || negb (length rest =? 0)%nat then None
      else Some (sg * digits_value d)%Z
  end.

(** [ToNumber(v)], on the integers. *)
Definition to_int (v : jsval) : option Z :=
  match v with
  | JUndef => None
  | JNull => Some 0%Z
  | JBool b => Some (if b then 1 else 0)%Z
  | JNum n => Some n
  | JStr s => int_value s
  | JArr _ | JObj _ => int_value (Js.to_string v)
  end.

(** [a <= b] and [a < b]: two strings compare by their characters, any
    other operands as numbers, and [NaN] compares false. *)
Definition le (a b : jsval) : bool :=
  match a, b with
  | JStr x, JStr y => match String.compare x y with Gt => false | _ => true end
  | _, _ => match to_int a, to_int b with Some x, Some y => (x <=? y)%Z | _, _ => false end
  end.

Definition lt (a b : jsval) : bool :=
  match a, b with
  | JStr x, JStr y => match String.compare x y with Lt => true | _ => false end
  | _, _ => match to_int a, to_int b with Some x, Some y => (x <? y)%Z | _, _ => false end
  end.

(** [v - 1]; [undefined] stands for the [NaN] of a value that is not a
    number. *)
Definition minus_one (v : jsval) : jsval :=
  match to_int v with Some n => JNum (n - 1) | None => JUndef end.

End Num.

(** ** The validation *)

Module Validation.
Local Open Scope xero_scope.
Import ClientApi.

(** [v.trim()] ([optional = false]) or [v?.trim()] on the value [v] of
    the expression [name]. *)
Definition call_trim (name : string) (optional : bool) (v : jsval) : string + jsval :=
  match v with
  | JStr s => inr (JStr (Js.trim s))
  | JUndef | JNull => if optional then inr JUndef else inl (type_error v "trim")
  | _ => inl (name +:+ (if optional then "?.trim" else ".trim") +:+ " is not a function")
  end.

Definition is_upper := Num.in_range 65 90.

(** [/^[A-Z]{3}$/.test(v)], which tests [String(v)]. *)
Definition currency_ok (v : jsval) : bool :=
  let l := String.list_ascii_of_string (Js.to_string v) in
  (length l =? 3)%nat && forallb is_upper l.

(** [["Exclusive", "Inclusive", "NoTax"].includes(v)] *)
Definition taxIncl_ok (v : jsval) : bool :=
  existsb (Js.strict_eq v) [JStr "Exclusive"; JStr "Inclusive"; JStr "NoTax"].

Definition set_error (k msg : string) (errors : list (string * jsval)) : list (string * jsval) :=
  Js.set_field k (JStr msg) errors.

(** [if (!x || x <= 0)] *)
Definition not_positive (v : jsval) : bool := negb (Js.truthy v) || Num.le_zero v.

(** The [forEach] callback on line [index]. *)
Definition line_errors (index : nat) (line : jsval) (errors : list (string * jsval))
    : string + list (string * jsval) :=
  let key f := "lines." +:+ pretty index +:+ "." +:+ f in
  d <-? read line "description" ;; d <-? call_trim "line.description" true d ;;
  let errors := if Js.truthy d then errors
                else set_error (key "description") "Line description is required" errors in
  a <-? read line "accountID" ;; a <-? call_trim "line.accountID" true a ;;
  let errors := if Js.truthy a then errors
                else set_error (key "accountID") "Account code is required" errors in
  let errors := if not_positive (Js.own_value line "quantity")
                then set_error (key "quantity") "Quantity must be greater than 0" errors
                else errors in
  inr (if not_positive (Js.own_value line "unit_amount")
       then set_error (key "unit_amount") "Unit amount must be greater than 0" errors
       else errors).

Fixpoint lines_errors (index : nat) (lines : list jsval) (errors : list (string * jsval))
    : string + list (string * jsval) :=
  match lines with
  | [] => inr errors
  | line :: lines' => errors <-? line_errors index line errors ;; lines_errors (S index) lines' errors
  end.

(** [manualPaymentValidation(formData)] *)
Definition manualPaymentValidation (formData : jsval) : string + list (string * jsval) :=
  d <-? read formData "description" ;; d <-? call_trim "formData.description" true d ;;
  let errors := if Js.truthy d then [] else set_error "description" "Description is required" [] in
  c <-? read formData "contact_name" ;; c <-? call_trim "formData.contact_name" false c ;;
  let errors := if Js.truthy c then errors
                else set_error "contact_name" "Contact name is required" errors in
  let errors := if currency_ok (Js.own_value formData "currency_code") then errors
                else set_error "currency_code" "Please enter a valid 3-letter currency code" errors in
  let errors := if taxIncl_ok (Js.own_value formData "taxIncl") then errors
                else set_error "taxIncl" "Please select a valid tax treatment" errors in
  match Js.own_value formData "lines" with
  | JArr lines =>
      errors <-? lines_errors 0 lines errors ;;
      inr (if (length lines =? 0)%nat
           then set_error "lines" "At least one line item is required" errors else errors)
  | (JUndef | JNull) as v => inl (type_error v "forEach")
  | _ => inl "formData.lines.forEach is not a function"
  end.

(** ** utils/formData.js and utils/data.js *)

Definition defaultMPayLineItem : jsval :=
  JObj [("description", JStr ""); ("accountID", JNull); ("quantity", JNum 1);
        ("unit_amount", JNum 0); ("line_amount", JNum 0); ("tax_type", JStr "");
        ("tax_rate", JNum 0); ("tax_name", JStr "")].

(** [manualPaymentFormData]; [today] is
    [new Date().toISOString().split("T")[0]], evaluated once, when the
    module is loaded. *)
Definition manualPaymentFormData (today : string) : jsval :=
  JObj [("payment_reference", JStr ""); ("description", JStr "");
        ("payment_date", JStr today); ("contact_id", JNull); ("contact_name", JStr "");
        ("bankAccountNumber", JStr ""); ("currency_code", JStr "SGD");
        ("payment_method", JStr "BANK_TRANSFER"); ("bankid", JNull);
        ("taxIncl", JStr "Exclusive"); ("status", JStr "DRAFTED");
        ("lines", JArr [JObj (Js.spread defaultMPayLineItem)])].

Definition bankAccounts : list jsval :=
  [JObj [("bankid", JNum 1); ("description", JStr "Primary bank account")];
   JObj [("bankid", JNum 2); ("description", JStr "Cash account")]].

Definition payMethods : list jsval :=
  [JObj [("value", JStr "BANK_TRANSFER"); ("label", JStr "Bank Transfer")];
   JObj [("value", JStr "CASH"); ("label", JStr "Cash")]].

Definition taxTypeOptions : list jsval :=
  [JObj [("value", JStr "Exclusive"); ("label", JStr "Exclusive")];
   JObj [("value", JStr "Inclusive"); ("label", JStr "Inclusive")];
   JObj [("value", JStr "NoTax"); ("label", JStr "No Tax")]].

(** ** What the validation accepts *)

(** A field the form holds as a string, or leaves empty. *)
Definition str_or_nullish (v : jsval) : bool :=
  match v with JStr _ | JUndef | JNull => true | _ => false end.

(** A string with a character that is not white space. *)
Definition nonblank (v : jsval) : bool :=
  match v with JStr s => negb (String.eqb (Js.trim s) "") | _ => false end.

(** A quantity or unit amount that passes [!x || x <= 0]: a positive
    number, or a truthy value that is not a number at all. *)
Definition accepted (v : jsval) : bool :=
  match Num.number_sign v with Some Gt => true | None => Js.truthy v | _ => false end.

(** A line item the validation can read. *)
Definition line_typed (line : jsval) : bool :=
  negb (Js.is_nullish line) && str_or_nullish (Js.own_value line "description")
  && str_or_nullish (Js.own_value line "accountID").

Definition line_valid (line : jsval) : bool :=
  nonblank (Js.own_value line "description") && nonblank (Js.own_value line "accountID")
  && accepted (Js.own_value line "quantity") && accepted (Js.own_value line "unit_amount").

Lemma read_obj fs k : read (JObj fs) k = inr (Js.own_value (JObj fs) k).
Proof. done. Qed.

Lemma set_error_nonempty k msg errors : set_error k msg errors <> [].
Proof. unfold set_error. destruct errors as [|[k' v'] ?]; simpl; [done|]. by case_match. Qed.

Lemma guard_nil (b : bool) k msg errors :
  (if b then errors else set_error k msg errors) = [] <-> b = true /\ errors = [].
Proof. destruct b; [naive_solver|]. split; [intros H; by apply set_error_nonempty in H|naive_solver]. Qed.

Lemma call_trim_optional name v :
  str_or_nullish v = true -> exists t, call_trim name true v = inr t /\ Js.truthy t = nonblank v.
Proof. destruct v; simpl; try done; eauto. Qed.

Lemma string_sign_gt_nonempty s : Num.string_sign s = Some Gt -> s <> "".
Proof. by intros H ->. Qed.

Lemma not_positive_accepted v : not_positive v = negb (accepted v).
Proof.
  unfold not_positive, accepted, Num.le_zero.
  destruct (Num.number_sign v) as [[| |]|] eqn:E; rewrite ?orb_true_r, ?orb_false_r; try done.
  destruct v; simpl in *; try done.
  - destruct b; simpl; congruence.
  - destruct n; simpl in *; congruence.
  - destruct s; [vm_compute in E; congruence|done].
Qed.

Lemma line_errors_ok index line errors :
  line_typed line = true ->
  exists errors', line_errors index line errors = inr errors' /\
    (errors' = [] <-> line_valid line = true /\ errors = []).
Proof.
  unfold line_typed, line_valid, line_errors.
  intros [[Hn Hd]%andb_prop Ha]%andb_prop. apply negb_true_iff in Hn.
  unfold read. rewrite Hn. simpl ex_bind.
  destruct (call_trim_optional "line.description" _ Hd) as (d & -> & Htd).
  destruct (call_trim_optional "line.accountID" _ Ha) as (a & -> & Hta).
  simpl. eexists; split; [reflexivity|].
  rewrite !not_positive_accepted, Htd, Hta.
  destruct (accepted (Js.own_value line "unit_amount")), (accepted (Js.own_value line "quantity"));
    simpl; rewrite ?guard_nil, ?andb_true_iff; try (split; [intros H; by apply set_error_nonempty in H|]);
    naive_solver.
Qed.

Lemma lines_errors_ok index lines errors :
  Forall (fun l => line_typed l = true) lines ->
  exists errors', lines_errors index lines errors = inr errors' /\
    (errors' = [] <-> Forall (fun l => line_valid l = true) lines /\ errors = []).
Proof.
  intros Hl. revert index errors. induction Hl as [|l ls Hl _ IH]; intros index errors; simpl.
  - eexists; split; [reflexivity|]. rewrite Forall_nil. naive_solver.
  - destruct (line_errors_ok index l errors Hl) as (e1 & -> & He1). simpl.
    destruct (IH (S index) e1) as (e2 & -> & He2).
    eexists; split; [reflexivity|]. rewrite He2, He1, Forall_cons. naive_solver.
Qed.

(** C16. On a form whose description is a string or empty, whose contact
    name is a string and whose line items are objects with string or
    empty descriptions and account codes, [manualPaymentValidation]
    does not throw, and it reports no error exactly when the description
    and contact name are not blank, the currency code is three capital
    letters, the tax treatment is one of the three options, there is a
    line item, and every line item has a description and an account code
    that are not blank and a quantity and unit amount that pass
    [!x || x <= 0]. *)
Theorem manualPaymentValidation_spec (fields : list (string * jsval)) (lines : list jsval) :
  let fd := JObj fields in
  Js.own_value fd "lines" = JArr lines ->
  str_or_nullish (Js.own_value fd "description") = true ->
  (exists name, Js.own_value fd "contact_name" = JStr name) ->
  Forall (fun l => line_typed l = true) lines ->
  exists errors, manualPaymentValidation fd = inr errors /\
    (errors = [] <->
       nonblank (Js.own_value fd "description") = true /\
       nonblank (Js.own_value fd "contact_name") = true /\
       currency_ok (Js.own_value fd "currency_code") = true /\
       taxIncl_ok (Js.own_value fd "taxIncl") = true /\
       lines <> [] /\ Forall (fun l => line_valid l = true) lines).
Proof.
  intros fd Hlines Hd [name Hc] Hl. subst fd. unfold manualPaymentValidation.
  rewrite !read_obj, ex_bind_inr.
  destruct (call_trim_optional "formData.description" _ Hd) as (d & -> & Htd).
  cbn [ex_bind]. rewrite Hc. cbn [ex_bind call_trim]. rewrite Hlines.
  match goal with |- context [lines_errors 0 lines ?errs] =>
    destruct (lines_errors_ok 0 lines errs Hl) as (e & -> & He) end.
  simpl ex_bind. eexists; split; [reflexivity|].
  assert (Js.truthy (JStr (Js.trim name)) = nonblank (JStr name)) as Htc by done.
  rewrite <- Htc, <- Htd.
  destruct lines as [|l ls]; simpl.
  - split; [intros H; by apply set_error_nonempty in H|naive_solver].
  - rewrite He, !guard_nil. naive_solver.
Qed.

(** The form as it opens reports exactly five errors, in this
    order: the description, the contact name, and the first line's
    description, account code and unit amount (its default quantity 1
    passes); the default currency ["SGD"] and tax treatment
    ["Exclusive"] pass. *)
Theorem default_form_errors (today : string) :
  manualPaymentValidation (manualPaymentFormData today) =
    inr [("description", JStr "Description is required");
         ("contact_name", JStr "Contact name is required");
         ("lines.0.description", JStr "Line description is required");
         ("lines.0.accountID", JStr "Account code is required");
         ("lines.0.unit_amount", JStr "Unit amount must be greater than 0")].
Proof. reflexivity. Qed.

(** Every tax treatment the form's select offers passes the validation. *)
Lemma taxTypeOptions_valid :
  Forall (fun o => taxIncl_ok (Js.own_value o "value") = true) taxTypeOptions.
Proof. repeat constructor. Qed.

(** A form without [lines] throws at [formData.lines.forEach] before the
    check [!formData.lines?.length] that would report the missing line
    items. *)
Lemma validation_lines_missing (fields : list (string * jsval)) :
  Js.own_value (JObj fields) "lines" = JUndef ->
  str_or_nullish (Js.own_value (JObj fields) "description") = true ->
  (exists name, Js.own_value (JObj fields) "contact_name" = JStr name) ->
  manualPaymentValidation (JObj fields) = inl "Cannot read properties of undefined (reading 'forEach')".
Proof.
  intros Hlines Hd [name Hc]. unfold manualPaymentValidation.
  rewrite !read_obj, ex_bind_inr.
  destruct (call_trim_optional "formData.description" _ Hd) as (d & -> & _).
  cbn [ex_bind]. rewrite Hc. cbn [ex_bind call_trim]. by rewrite Hlines.
Qed.

(** A valid form: a supplier payment of two units at 10.50. *)
Definition sample_line : jsval :=
  JObj [("description", JStr "Office chairs"); ("accountID", JStr "a1b2");
        ("quantity", JStr "2"); ("unit_amount", JStr "10.50")].

Definition sample_fields : list (string * jsval) :=
  [("description", JStr "Furniture"); ("contact_name", JStr "ACME Ltd");
   ("currency_code", JStr "SGD"); ("taxIncl", JStr "NoTax"); ("lines", JArr [sample_line])].

Lemma manualPaymentValidation_spec_witness :
  exists errors, manualPaymentValidation (JObj sample_fields) = inr errors /\
    (errors = [] <->
       nonblank (Js.own_value (JObj sample_fields) "description") = true /\
       nonblank (Js.own_value (JObj sample_fields) "contact_name") = true /\
       currency_ok (Js.own_value (JObj sample_fields) "currency_code") = true /\
       taxIncl_ok (Js.own_value (JObj sample_fields) "taxIncl") = true /\
       [sample_line] <> [] /\ Forall (fun l => line_valid l = true) [sample_line]).
Proof.
  apply (manualPaymentValidation_spec sample_fields [sample_line]).
  - reflexivity.
  - reflexivity.
  - exists "ACME Ltd". reflexivity.
  - repeat constructor.
Defined.

End Validation.

(** ** components/manual-payment/CreatePaymentForm.jsx *)

(** The form's state and its event handlers.  React re-renders between
    two user events, so a handler reads the state the previous events
    left: each handler is a function of that state.  A handler that
    throws leaves the state as it found it when it throws before its
    first update, which is the case of every throw modelled here. *)
Module Form.
Local Open Scope xero_scope.
Import ClientApi Validation.

Inductive toast :=
| Loading (msg : string)
| Dismiss
| Success (msg : string)
| Failure (msg : string).

Record form := mkForm {
  formData : jsval;
  errors : list (string * jsval);
  isSubmitting : bool;
  contactSearchTerm : jsval;
  showContactDropdown : bool;
  selectedContact : jsval;
  toasts : list toast
}.

Section Handlers.
(** The date part of [new Date().toISOString()] when the module
    utils/formData.js was loaded, and the host's [parseFloat]. *)
Variable today : string.
Variable parseFloat : jsval -> jsval.

Definition initial : form :=
  mkForm (manualPaymentFormData today) [] false (JStr "") false JNull [].

(** [{...o, k: v}] *)
Definition with_field (k : string) (v : jsval) (o : jsval) : jsval :=
  JObj (Js.set_field k v (Js.spread o)).

Definition set_formData (d : jsval) (f : form) : form :=
  mkForm d (errors f) (isSubmitting f) (contactSearchTerm f) (showContactDropdown f)
         (selectedContact f) (toasts f).
Definition set_errors (e : list (string * jsval)) (f : form) : form :=
  mkForm (formData f) e (isSubmitting f) (contactSearchTerm f) (showContactDropdown f)
         (selectedContact f) (toasts f).
Definition set_submitting (b : bool) (f : form) : form :=
  mkForm (formData f) (errors f) b (contactSearchTerm f) (showContactDropdown f)
         (selectedContact f) (toasts f).
Definition set_contact (term selected : jsval) (f : form) : form :=
  mkForm (formData f) (errors f) (isSubmitting f) term false selected (toasts f).
Definition set_term (term : jsval) (f : form) : form :=
  mkForm (formData f) (errors f) (isSubmitting f) term (showContactDropdown f)
         (selectedContact f) (toasts f).
Definition set_selected (selected : jsval) (f : form) : form :=
  mkForm (formData f) (errors f) (isSubmitting f) (contactSearchTerm f) (showContactDropdown f)
         selected (toasts f).
Definition push (t : toast) (f : form) : form :=
  mkForm (formData f) (errors f) (isSubmitting f) (contactSearchTerm f) (showContactDropdown f)
         (selectedContact f) (toasts f ++ [t]).

(** [if (errors[k]) setErrors((prev) => ({...prev, [k]: ""}))] *)
Definition clear_error (k : string) (f : form) : form :=
  if Js.truthy (default JUndef (Js.field k (errors f)))
  then set_errors (Js.set_field k (JStr "") (errors f)) f else f.

(** [handleContactSelect(contact)] *)
Definition handleContactSelect (contact : jsval) (f : form) : string + form :=
  details <-? read contact "bankAccountDetails" ;;
  let bank := Js.or details (Js.or (opt_read (Js.own_value contact "batchPayments") "bankAccountNumber")
                                   (JStr "")) in
  let name := Js.own_value contact "name" in
  let d := with_field "bankAccountNumber" bank
             (with_field "contact_name" name
                (with_field "contact_id" (Js.own_value contact "contactID") (formData f))) in
  inr (clear_error "contact_name" (set_formData d (set_contact name contact f))).

(** [handleContactInputChange(value)] *)
Definition handleContactInputChange (value : jsval) (f : form) : form :=
  let f := set_term value f in
  let sel := selectedContact f in
  let f :=
    if Js.truthy sel && negb (Js.strict_eq value (Js.own_value sel "name")) then
      set_formData (with_field "bankAccountNumber" (JStr "")
                      (with_field "contact_name" value
                         (with_field "contact_id" JNull (formData f))))
                   (set_selected JNull f)
    else if negb (Js.truthy sel) then set_formData (with_field "contact_name" value (formData f)) f
    else f in
  clear_error "contact_name" f.

(** [handleInputChange(field, value)] *)
Definition handleInputChange (field : string) (value : jsval) (f : form) : form :=
  clear_error field (set_formData (with_field field value (formData f)) f).

(** [[...xs]]: arrays and strings are iterable. *)
Definition iterate (xs : jsval) : option (list jsval) :=
  match xs with
  | JArr ls => Some ls
  | JStr s => Some (map (fun c => JStr (String c EmptyString)) (String.list_ascii_of_string s))
  | _ => None
  end.

(** [addLineItem()]: [[...prev.lines, { ...defaultMPayLineItem }]]. *)
Definition addLineItem (f : form) : string + form :=
  match iterate (Js.own_value (formData f) "lines") with
  | Some ls => inr (set_formData (with_field "lines" (JArr (ls ++ [JObj (Js.spread defaultMPayLineItem)]))
                                              (formData f)) f)
  | None => inl "prev.lines is not iterable"
  end.

(** The elements of [l] whose position is not [index]. *)
Fixpoint drop_index (index : Z) (i : Z) (l : list jsval) : list jsval :=
  match l with
  | [] => []
  | x :: l' => if Z.eqb i index then drop_index index (i + 1) l' else x :: drop_index index (i + 1) l'
  end.

(** [removeLineItem(index)]: only while there is more than one line. *)
Definition removeLineItem (index : Z) (f : form) : string + form :=
  match Js.own_value (formData f) "lines" with
  | JArr ls =>
      if (1 <? length ls)%nat
      then inr (set_formData (with_field "lines" (JArr (drop_index index 0 ls)) (formData f)) f)
      else inr f
  | JStr str => if (1 <? String.length str)%nat then inl "formData.lines.filter is not a function"
                else inr f
  | JUndef | JNull => inl (type_error (Js.own_value (formData f) "lines") "length")
  | _ => inr f
  end.

(** The body [handleSubmit] sends: every line with its numbers passed
    through [parseFloat]. *)
Definition submitData (d : jsval) : string + jsval :=
  match Js.own_value d "lines" with
  | JArr ls =>
      inr (with_field "lines"
             (JArr (map (fun line =>
                let g k := parseFloat (Js.own_value line k) in
                with_field "tax_rate" (g "tax_rate")
                  (with_field "line_amount" (g "line_amount")
                     (with_field "unit_amount" (g "unit_amount")
                        (with_field "quantity" (g "quantity") line)))) ls)) d)
  | JUndef | JNull => inl (type_error (Js.own_value d "lines") "map")
  | _ => inl "formData.lines.map is not a function"
  end.

(** The validation gate of [handleSubmit]: [inl] the errors it shows and
    returns with, [inr] the body it submits. *)
Definition submit_gate (f : form) : string + (list (string * jsval) + jsval) :=
  errs <-? manualPaymentValidation (formData f) ;;
  match errs with
  | [] => body <-? submitData (formData f) ;; inr (inr body)
  | _ => inr (inl errs)
  end.

(** [handleSubmit(e)], where [onSubmit(submitData)] answered [result]
    ([inl] the message of what it threw): the body it submitted, if any,
    and the state after the [finally]. *)
Definition handleSubmit (result : string + jsval) (f : form) : string + (option jsval * form) :=
  g <-? submit_gate f ;;
  match g with
  | inl errs => inr (None, set_errors errs f)
  | inr body =>
      let f := push (Loading "Creating manual payment...") (set_submitting true f) in
      let fail msg f := push (Failure (if String.eqb msg "" then "Failed to create payment" else msg))
                          (push Dismiss f) in
      let f :=
        match result with
        | inr r =>
            let f := push Dismiss f in
            match read r "success" with
            | inr s =>
                if Js.truthy s then
                  push (Success "Payment created successfully!")
                    (set_selected JNull (set_term (JStr "")
                      (set_errors [] (set_formData (manualPaymentFormData today) f))))
                else f
            | inl msg => fail msg f
            end
        | inl msg => fail msg f
        end in
      inr (Some body, set_submitting false f)
  end.

End Handlers.

(** ** The form keeps a line item *)

Lemma field_map_keys (g : string -> jsval) k ks :
  Js.field k (map (fun k' => (k', g k')) ks) = if bool_decide (k ∈ ks) then Some (g k) else None.
Proof.
  induction ks as [|k' ks IH]; simpl; [done|].
  destruct (String.eqb_spec k k') as [->|Hne].
  - by rewrite bool_decide_true by set_solver.
  - rewrite IH. do 2 case_bool_decide; set_solver.
Qed.

Lemma own_value_spread fs k : Js.own_value (JObj (Js.spread (JObj fs))) k = Js.own_value (JObj fs) k.
Proof.
  simpl. unfold Js.spread. simpl Js.own_keys. cbv iota.
  rewrite field_map_keys. case_bool_decide as Hk; [done|].
  by rewrite (proj2 (field_None k fs) Hk).
Qed.

Lemma own_value_with_field_same k v fs : Js.own_value (with_field k v (JObj fs)) k = v.
Proof. unfold with_field. cbn [Js.own_value]. by rewrite set_field_same. Qed.

Lemma own_value_with_field_other k k' v fs :
  k' <> k -> Js.own_value (with_field k v (JObj fs)) k' = Js.own_value (JObj fs) k'.
Proof.
  intros Hne. unfold with_field. rewrite <- (own_value_spread fs k'). cbn [Js.own_value].
  by rewrite set_field_other.
Qed.

(** The form data is an object with a non-empty array of line items. *)
Definition lines_ok (d : jsval) : Prop :=
  exists fs ls, d = JObj fs /\ Js.own_value d "lines" = JArr ls /\ ls <> [].

Definition has_lines (f : form) : Prop := lines_ok (formData f).

Lemma lines_ok_with_field k v d : k <> "lines" -> lines_ok d -> lines_ok (with_field k v d).
Proof.
  intros Hk (fs & ls & -> & Hl & Hne). do 2 eexists; split_and!; [reflexivity| |exact Hne].
  change (Js.own_value (with_field k v (JObj fs)) "lines" = JArr ls).
  rewrite own_value_with_field_other by congruence. exact Hl.
Qed.

Lemma lines_ok_set_lines ls d : ls <> [] -> lines_ok d -> lines_ok (with_field "lines" (JArr ls) d).
Proof.
  intros Hne (fs & ls' & -> & _ & _). do 2 eexists; split_and!; [reflexivity| |exact Hne].
  apply own_value_with_field_same.
Qed.

Lemma drop_index_past index i l : (index < i)%Z -> drop_index index i l = l.
Proof.
  revert i. induction l as [|x l IH]; intros i Hi; simpl; [done|].
  rewrite (proj2 (Z.eqb_neq i index)) by lia. by rewrite IH by lia.
Qed.

(** [filter((_, i) => i !== index)] removes at most one line. *)
Lemma drop_index_length index i l : (length l <= S (length (drop_index index i l)))%nat.
Proof.
  revert i. induction l as [|x l IH]; intros i; simpl; [lia|].
  destruct (Z.eqb_spec i index) as [->|]; simpl.
  - rewrite drop_index_past by lia. lia.
  - specialize (IH (i + 1)%Z). lia.
Qed.

#[local] Hint Resolve lines_ok_with_field lines_ok_set_lines : xero.

Ltac form_lines :=
  unfold has_lines, clear_error in *; repeat (case_match; simpl in *); simplify_eq/=;
  repeat (apply lines_ok_with_field; [done|]); eauto with xero.

Section Invariant.
Variable today : string.
Variable parseFloat : jsval -> jsval.

Lemma handleContactSelect_lines contact f f' :
  has_lines f -> handleContactSelect contact f = inr f' -> has_lines f'.
Proof. unfold handleContactSelect, read. intros. form_lines. Qed.

Lemma handleContactInputChange_lines value f : has_lines f -> has_lines (handleContactInputChange value f).
Proof. unfold handleContactInputChange. intros. form_lines. Qed.

Lemma handleInputChange_lines field value f :
  field <> "lines" -> has_lines f -> has_lines (handleInputChange field value f).
Proof. unfold handleInputChange. intros. form_lines. Qed.

Lemma addLineItem_lines f f' : has_lines f -> addLineItem f = inr f' -> has_lines f'.
Proof.
  unfold addLineItem. intros. form_lines. apply lines_ok_set_lines; [|done].
  by destruct l.
Qed.

Lemma removeLineItem_lines index f f' : has_lines f -> removeLineItem index f = inr f' -> has_lines f'.
Proof.
  unfold removeLineItem. intros. form_lines. apply lines_ok_set_lines; [|done].
  match goal with H : (1 <? length ?l)%nat = true |- drop_index _ _ ?l <> [] =>
    apply Nat.ltb_lt in H; pose proof (drop_index_length index 0 l) end.
  intros Hd. rewrite Hd in *. simpl in *. lia.
Qed.

Lemma handleSubmit_lines result f body f' :
  has_lines f -> handleSubmit today parseFloat result f = inr (body, f') -> has_lines f'.
Proof.
  unfold handleSubmit, has_lines. intros Hl H.
  destruct (submit_gate parseFloat f) as [|[errs|b]]; simpl in H; [discriminate| |].
  - by injection H as <- <-.
  - injection H as <- <-. destruct result as [msg|r]; simpl; [done|].
    destruct (read r "success") as [msg|v]; simpl; [done|].
    destruct (Js.truthy v); simpl; [|done].
    eexists _, _; split_and!; [reflexivity|reflexivity|done].
Qed.

End Invariant.

Lemma set_error_lines k msg e : k <> "lines" -> Js.field "lines" (set_error k msg e) = Js.field "lines" e.
Proof. intros Hk. unfold set_error. by apply set_field_other. Qed.

Lemma lines_key_ne x : "lines." +:+ x <> "lines".
Proof. intros H. rewrite !string_app_cons in H. discriminate H. Qed.

Ltac unbind H := repeat (apply ex_bind_inr_inv in H as (? & ? & H)).

Ltac lines_keys :=
  repeat first [ rewrite set_error_lines by (apply lines_key_ne || discriminate) | case_match ].

Lemma line_errors_lines index line e e' :
  line_errors index line e = inr e' -> Js.field "lines" e' = Js.field "lines" e.
Proof. unfold line_errors. intros H. unbind H. injection H as <-. lines_keys; done. Qed.

Lemma lines_errors_lines index lines e e' :
  lines_errors index lines e = inr e' -> Js.field "lines" e' = Js.field "lines" e.
Proof.
  revert index e. induction lines as [|l ls IH]; intros index e H; simpl in H.
  - by injection H as <-.
  - unbind H. rewrite (IH _ _ H). by eapply line_errors_lines.
Qed.

(** On the form's data, the validation never reports the missing line
    items. *)
Lemma validation_no_lines_error d errs :
  lines_ok d -> manualPaymentValidation d = inr errs -> Js.field "lines" errs = None.
Proof.
  intros (fs & ls & -> & Hl & Hne) H. unfold manualPaymentValidation in H.
  unbind H. rewrite Hl in H. unbind H.
  destruct ls as [|l ls]; [done|]. injection H as <-. simpl.
  match goal with H : lines_errors _ _ _ = inr _ |- _ => rewrite (lines_errors_lines _ _ _ _ H) end.
  lines_keys; done.
Qed.

End Form.

(** ** The line items' amounts and taxes

    The handlers of CreatePaymentForm that compute: [handleLineItemChange],
    the tax [Select] of a line, [calculateLineAmount] and
    [calculateTotalAmount], over the host's arithmetic ([JsArith]) and the
    [accounts] and [taxRates] of [useXero]. *)
Module LineItems.
Local Open Scope xero_scope.
Import ClientApi Validation Form Utils.

Section Amounts.
Context {arith : JsArith}.
(** The [accounts] and [taxRates] ([allTaxRates]) of [useXero]. *)
Variable accounts allTaxRates : list jsval.

(** [accounts.find((acc) => acc.accountID === id)] *)
Definition find_account (id : jsval) (accs : list jsval) : string + option jsval :=
  find_by "accountID" id accs.

(** [allTaxRates.filter((rate) => rate.status === "ACTIVE")] *)
Fixpoint active_rates (ts : list jsval) : string + list jsval :=
  match ts with
  | [] => inr []
  | t :: ts' =>
      if Js.is_nullish t then inl (type_error t "status")
      else rest <-? active_rates ts' ;;
           inr (if Js.strict_eq (Js.own_value t "status") (JStr "ACTIVE") then t :: rest else rest)
  end.

(** The rates the tax [Select] of [line] lists, as the render computes
    them: [activeTaxRates] first, then the line's account and
    [getApplicableTaxRates] for its tax type. *)
Definition applicableTaxRates (line : jsval) : string + list jsval :=
  active <-? active_rates allTaxRates ;;
  acc <-? find_account (Js.own_value line "accountID") accounts ;;
  match acc with
  | Some a => getApplicableTaxRates (JArr active) (Js.own_value a "taxType")
  | None => inr []
  end.

(** The tax [Select] is [disabled={isLoading || !line.accountID}]. *)
Definition tax_select_enabled (isLoading : bool) (line : jsval) : bool :=
  negb isLoading && Js.truthy (Js.own_value line "accountID").

(** [calculateLineAmount(quantity, unitAmount)] *)
Definition calculateLineAmount (quantity unitAmount : jsval) : jsval :=
  parse_float (JStr (to_fixed (num_mul quantity unitAmount) 2)).

(** The [reduce] callback of [calculateTotalAmount]. *)
Definition line_reducer (total line : jsval) : string + jsval :=
  la <-? read line "line_amount" ;;
  let lineAmount := Js.or la (JNum 0) in
  r <-? read line "tax_rate" ;;
  let taxAmount := num_mul lineAmount (Js.or r (JNum 0)) in
  inr (num_add (num_add total lineAmount) taxAmount).

Fixpoint reduce_lines (total : jsval) (ls : list jsval) : string + jsval :=
  match ls with
  | [] => inr total
  | l :: ls' => t <-? line_reducer total l ;; reduce_lines t ls'
  end.

(** [calculateTotalAmount()] on the form data [d]. *)
Definition calculateTotalAmount (d : jsval) : string + string :=
  match Js.own_value d "lines" with
  | JArr ls => t <-? reduce_lines (JNum 0) ls ;; inr (to_fixed t 2)
  | JUndef | JNull => inl (type_error (Js.own_value d "lines") "reduce")
  | _ => inl "formData.lines.reduce is not a function"
  end.

(** [updatedLines[index] = v] on the copy of the lines: past the end the
    array grows, and the positions in between are holes, read as
    [undefined]. *)
Definition set_index (index : nat) (v : jsval) (l : list jsval) : list jsval :=
  if (index <? length l)%nat then <[index := v]> l
  else l ++ replicate (index - length l) JUndef ++ [v].

Definition line_key (index : nat) (field : string) : string :=
  "lines." +:+ pretty index +:+ "." +:+ field.

(** The new line of [handleLineItemChange(index, field, value)]. *)
Definition changed_line (field : string) (value line : jsval) : string + jsval :=
  let line := with_field field value line in
  line <-? (if String.eqb field "accountID" then
              acc <-? find_account value accounts ;;
              match acc with
              | Some a => inr (with_field "tax_name" (JStr "")
                                 (with_field "tax_rate" (JNum 0)
                                    (with_field "tax_type" (Js.own_value a "taxType") line)))
              | None => inr line
              end
            else inr line) ;;
  if String.eqb field "quantity" || String.eqb field "unit_amount" then
    let quantity := if String.eqb field "quantity" then Js.or (parse_float value) (JNum 0)
                    else Js.own_value line "quantity" in
    let unitAmount := if String.eqb field "unit_amount" then Js.or (parse_float value) (JNum 0)
                      else Js.own_value line "unit_amount" in
    inr (with_field "line_amount" (calculateLineAmount quantity unitAmount) line)
  else inr line.

(** [handleLineItemChange(index, field, value)] *)
Definition handleLineItemChange (index : nat) (field : string) (value : jsval) (f : form)
    : string + form :=
  match iterate (Js.own_value (formData f) "lines") with
  | Some ls =>
      line <-? changed_line field value (default JUndef (ls !! index)) ;;
      let f := set_formData (with_field "lines" (JArr (set_index index line ls)) (formData f)) f in
      inr (clear_error (line_key index field) f)
  | None => inl "formData.lines is not iterable"
  end.

(** The [onValueChange(taxTypeValue)] of the tax [Select] of line
    [index]. *)
Definition selectTaxRate (index : nat) (taxTypeValue : string) (f : form) : string + form :=
  match iterate (Js.own_value (formData f) "lines") with
  | Some ls =>
      let line := default JUndef (ls !! index) in
      rates <-? applicableTaxRates line ;;
      let ls :=
        if String.eqb taxTypeValue "0" then
          set_index index (with_field "tax_name" (JStr "") (with_field "tax_rate" (JNum 0) line)) ls
        else
          match List.find (fun r => Js.strict_eq (Js.own_value r "taxType") (JStr taxTypeValue)) rates with
          | Some r =>
              set_index index
                (with_field "tax_name" (Js.own_value r "taxType")
                   (with_field "tax_rate" (num_div (Js.own_value r "effectiveRate") (JNum 100)) line)) ls
          | None => ls
          end in
      let f := set_formData (with_field "lines" (JArr ls) (formData f)) f in
      inr (clear_error (line_key index "tax_rate") f)
  | None => inl "formData.lines is not iterable"
  end.

End Amounts.

(** ** Every line's tax is one the line may have *)

Section TaxInvariant.
Context {arith : JsArith}.
Variable accounts allTaxRates : list jsval.

(** A line is an object whose tax is "No Tax" (name [""], rate [0]) or a
    rate the tax [Select] lists for the line's account, with its
    [effectiveRate / 100]. *)
Definition tax_consistent (line : jsval) : Prop :=
  (exists fs, line = JObj fs) /\
  ((Js.own_value line "tax_name" = JStr "" /\ Js.own_value line "tax_rate" = JNum 0) \/
   exists rs r, applicableTaxRates accounts allTaxRates line = inr rs /\ r ∈ rs /\
     Js.own_value line "tax_name" = Js.own_value r "taxType" /\
     Js.own_value line "tax_rate" = num_div (Js.own_value r "effectiveRate") (JNum 100)).

(** The form data is an object whose lines all have a consistent tax. *)
Definition tax_data (d : jsval) : Prop :=
  exists fs ls, d = JObj fs /\ Js.own_value d "lines" = JArr ls /\ Forall tax_consistent ls.

Definition tax_ok (f : form) : Prop := tax_data (formData f).

Lemma own_value_with_field_obj k v o k' :
  (exists fs, o = JObj fs) ->
  Js.own_value (with_field k v o) k' = if String.eqb k' k then v else Js.own_value o k'.
Proof.
  intros [fs ->]. destruct (String.eqb_spec k' k) as [->|].
  - apply own_value_with_field_same.
  - by apply own_value_with_field_other.
Qed.

Lemma with_field_obj k v o : exists fs, with_field k v o = JObj fs.
Proof. by eexists. Qed.

Lemma no_tax_consistent line :
  (exists fs, line = JObj fs) ->
  tax_consistent (with_field "tax_name" (JStr "") (with_field "tax_rate" (JNum 0) line)).
Proof.
  intros Hl. split; [apply with_field_obj|left].
  rewrite !own_value_with_field_obj by auto using with_field_obj. done.
Qed.

Lemma applicable_with_field k v line :
  k <> "accountID" -> (exists fs, line = JObj fs) ->
  applicableTaxRates accounts allTaxRates (with_field k v line) = applicableTaxRates accounts allTaxRates line.
Proof.
  intros Hk Hl. unfold applicableTaxRates. rewrite own_value_with_field_obj by done.
  by destruct (String.eqb_spec "accountID" k).
Qed.

(** A change of a field the tax does not depend on keeps it. *)
Lemma tax_consistent_with_field k v line :
  k <> "tax_name" -> k <> "tax_rate" -> k <> "accountID" ->
  tax_consistent line -> tax_consistent (with_field k v line).
Proof.
  intros H1 H2 H3 [Hl Ht]. split; [apply with_field_obj|].
  rewrite applicable_with_field, !own_value_with_field_obj by done.
  repeat match goal with |- context [String.eqb ?a ?b] =>
    destruct (String.eqb_spec a b); [congruence|] end.
  exact Ht.
Qed.

Lemma Forall_set_index (P : jsval -> Prop) index v l :
  (index < length l)%nat -> Forall P l -> P v -> Forall P (set_index index v l).
Proof.
  intros Hi Hl Hv. unfold set_index. rewrite (proj2 (Nat.ltb_lt _ _) Hi).
  by apply Forall_insert.
Qed.

Lemma Forall_drop_index (P : jsval -> Prop) index i l :
  Forall P l -> Forall P (drop_index index i l).
Proof.
  intros Hl. revert i. induction Hl as [|x l Hx Hl IH]; intros i; simpl; [done|].
  case_match; auto.
Qed.

Lemma find_account_found s accs :
  Forall (fun a => Js.is_nullish a = false) accs ->
  (exists a, a ∈ accs /\ Js.own_value a "accountID" = JStr s) ->
  exists a, find_account (JStr s) accs = inr (Some a).
Proof.
  intros Hn (a & Ha & Hid). unfold find_account.
  induction Hn as [|b accs Hb Hn IH]; [by apply elem_of_nil in Ha|].
  simpl. rewrite Hb. destruct (Js.strict_eq _ _) eqn:E; [by eexists|].
  apply elem_of_cons in Ha as [->|Ha]; [|by apply IH].
  rewrite Hid in E. simpl in E. by rewrite String.eqb_refl in E.
Qed.

Lemma own_value_with_field_eq k v o : Js.own_value (with_field k v o) k = v.
Proof. unfold with_field. cbn [Js.own_value]. by rewrite set_field_same. Qed.

Lemma tax_data_with_field k v d : k <> "lines" -> tax_data d -> tax_data (with_field k v d).
Proof.
  intros Hk (fs & ls & -> & Hl & Hf). do 2 eexists; split_and!; [reflexivity| |exact Hf].
  rewrite own_value_with_field_obj by eauto. by destruct (String.eqb_spec "lines" k).
Qed.

Lemma tax_data_set_lines ls d :
  Forall tax_consistent ls -> (exists fs, d = JObj fs) -> tax_data (with_field "lines" (JArr ls) d).
Proof. intros Hf _. do 2 eexists; split_and!; [reflexivity|apply own_value_with_field_eq|exact Hf]. Qed.

Lemma default_line_consistent : tax_consistent (JObj (Js.spread defaultMPayLineItem)).
Proof. split; [by eexists|left; split; reflexivity]. Qed.

Lemma tax_data_initial today : tax_data (manualPaymentFormData today).
Proof.
  do 2 eexists; split_and!; [reflexivity|reflexivity|].
  repeat constructor. apply default_line_consistent.
Qed.

Lemma clear_error_formData k f : formData (clear_error k f) = formData f.
Proof. unfold clear_error. by case_match. Qed.

Ltac tax_fields :=
  unfold tax_ok, clear_error in *; repeat (case_match; simpl in *); simplify_eq/=;
  repeat (apply tax_data_with_field; [done|]); eauto.

Lemma handleContactSelect_tax contact f f' :
  tax_ok f -> handleContactSelect contact f = inr f' -> tax_ok f'.
Proof. unfold handleContactSelect, read. intros. tax_fields. Qed.

Lemma handleContactInputChange_tax value f : tax_ok f -> tax_ok (handleContactInputChange value f).
Proof. unfold handleContactInputChange. intros. tax_fields. Qed.

Lemma handleInputChange_tax field value f :
  field <> "lines" -> tax_ok f -> tax_ok (handleInputChange field value f).
Proof. unfold handleInputChange. intros. tax_fields. Qed.

Lemma addLineItem_tax f f' : tax_ok f -> addLineItem f = inr f' -> tax_ok f'.
Proof.
  unfold addLineItem, tax_ok. intros (fs & ls & Hd & Hl & Hf) H. rewrite Hl in H.
  injection H as <-. apply tax_data_set_lines; [|by eexists].
  apply Forall_app; split; [done|]. repeat constructor. apply default_line_consistent.
Qed.

Lemma removeLineItem_tax index f f' : tax_ok f -> removeLineItem index f = inr f' -> tax_ok f'.
Proof.
  unfold removeLineItem, tax_ok. intros (fs & ls & Hd & Hl & Hf) H. rewrite Hl in H.
  repeat case_match; injection H as <-;
    first [by exists fs, ls | apply tax_data_set_lines; [by apply Forall_drop_index|by eexists]].
Qed.

Lemma handleSubmit_tax today parseFloat result f body f' :
  tax_ok f -> handleSubmit today parseFloat result f = inr (body, f') -> tax_ok f'.
Proof.
  unfold handleSubmit, tax_ok. intros Ht H.
  destruct (submit_gate parseFloat f) as [|[errs|b]]; simpl in H; [discriminate| |].
  - by injection H as <- <-.
  - injection H as <- <-. destruct result as [msg|r]; simpl; [done|].
    destruct (read r "success") as [msg|v]; simpl; [done|].
    destruct (Js.truthy v); simpl; [apply tax_data_initial|done].
Qed.

Lemma changed_line_tax field value line line' :
  Forall (fun a => Js.is_nullish a = false) accounts ->
  field <> "tax_name" -> field <> "tax_rate" ->
  (field = "accountID" -> exists s, value = JStr s /\
     exists a, a ∈ accounts /\ Js.own_value a "accountID" = JStr s) ->
  tax_consistent line -> changed_line accounts field value line = inr line' -> tax_consistent line'.
Proof.
  intros Hn H1 H2 Hacc Hl H. unfold changed_line in H.
  destruct (String.eqb_spec field "accountID") as [->|Hf].
  - destruct (Hacc eq_refl) as (s & -> & Ha).
    destruct (find_account_found s accounts Hn Ha) as [a Hfind].
    simpl in H. rewrite Hfind in H. simpl in H. injection H as <-.
    apply no_tax_consistent, with_field_obj.
  - cbn [ex_bind] in H.
    assert (tax_consistent (with_field field value line)) by auto using tax_consistent_with_field.
    destruct (_ || _); injection H as <-; [|done].
    by apply tax_consistent_with_field.
Qed.

Lemma handleLineItemChange_tax index field value f f' ls :
  Forall (fun a => Js.is_nullish a = false) accounts ->
  field <> "tax_name" -> field <> "tax_rate" ->
  (field = "accountID" -> exists s, value = JStr s /\
     exists a, a ∈ accounts /\ Js.own_value a "accountID" = JStr s) ->
  tax_ok f -> Js.own_value (formData f) "lines" = JArr ls -> (index < length ls)%nat ->
  handleLineItemChange accounts index field value f = inr f' -> tax_ok f'.
Proof.
  intros Hn H1 H2 Hacc (fs & ls' & Hd & Hl & Hf) Hls Hi H.
  rewrite Hls in Hl. injection Hl as <-. unfold handleLineItemChange in H. rewrite Hls in H.
  destruct (lookup_lt_is_Some_2 ls index Hi) as [line Hline]. cbn [iterate] in H.
  rewrite Hline in H. cbn [default] in H.
  apply ex_bind_inr_inv in H as (line' & Hc & H). injection H as <-.
  unfold tax_ok. rewrite clear_error_formData. simpl.
  apply tax_data_set_lines; [|by eexists].
  apply Forall_set_index; [done|done|]. eapply changed_line_tax; eauto. by eapply Forall_lookup_1.
Qed.

Lemma selectTaxRate_tax index v f f' ls :
  tax_ok f -> Js.own_value (formData f) "lines" = JArr ls -> (index < length ls)%nat ->
  selectTaxRate accounts allTaxRates index v f = inr f' -> tax_ok f'.
Proof.
  intros (fs & ls' & Hd & Hl & Hf) Hls Hi H.
  rewrite Hls in Hl. injection Hl as <-. unfold selectTaxRate in H. rewrite Hls in H.
  destruct (lookup_lt_is_Some_2 ls index Hi) as [line Hline]. cbn [iterate] in H.
  rewrite Hline in H. cbn [default] in H.
  pose proof (Forall_lookup_1 _ _ _ _ Hf Hline) as [Hobj Hc].
  apply ex_bind_inr_inv in H as (rates & Hr & H). injection H as <-.
  unfold tax_ok. rewrite clear_error_formData. simpl.
  apply tax_data_set_lines; [|by eexists].
  destruct (String.eqb v "0"); [apply Forall_set_index; auto using no_tax_consistent|].
  destruct (List.find _ rates) as [r|] eqn:Hfind; [|done].
  apply find_some in Hfind as [Hin _].
  apply Forall_set_index; [done|done|]. split; [apply with_field_obj|right].
  exists rates, r. rewrite !applicable_with_field, !own_value_with_field_obj by auto using with_field_obj.
  split_and!; [done|by apply list_elem_of_In|done|done].
Qed.

(** C24. Every line of the manual-payment form carries a tax the page
    lets it have: "No Tax" (name [""], rate [0]) or a rate the line's tax
    [Select] lists for its account, with [effectiveRate / 100] as its
    rate.  The initial form is so, and every handler keeps it, the line
    handlers called as the page calls them: on a line that exists, with
    [handleLineItemChange] given the description, account, quantity or
    unit amount, and an account id taken from [accounts]. *)
Theorem form_line_taxes_consistent (today : string) (parseFloat : jsval -> jsval) :
  Forall (fun a => Js.is_nullish a = false) accounts ->
  tax_ok (initial today) /\
  (forall f, tax_ok f ->
     (forall contact f', handleContactSelect contact f = inr f' -> tax_ok f') /\
     (forall value, tax_ok (handleContactInputChange value f)) /\
     (forall field value, field <> "lines" -> tax_ok (handleInputChange field value f)) /\
     (forall f', addLineItem f = inr f' -> tax_ok f') /\
     (forall index f', removeLineItem index f = inr f' -> tax_ok f') /\
     (forall result body f', handleSubmit today parseFloat result f = inr (body, f') -> tax_ok f') /\
     (forall ls index field value f',
        Js.own_value (formData f) "lines" = JArr ls -> (index < length ls)%nat ->
        field ∈ ["description"; "accountID"; "quantity"; "unit_amount"] ->
        (field = "accountID" -> exists s, value = JStr s /\
           exists a, a ∈ accounts /\ Js.own_value a "accountID" = JStr s) ->
        handleLineItemChange accounts index field value f = inr f' -> tax_ok f') /\
     (forall ls index v f',
        Js.own_value (formData f) "lines" = JArr ls -> (index < length ls)%nat ->
        selectTaxRate accounts allTaxRates index v f = inr f' -> tax_ok f')).
Proof.
  intros Hn. split; [apply tax_data_initial|]. intros f Hf. split_and!; intros.
  - by eapply handleContactSelect_tax.
  - by apply handleContactInputChange_tax.
  - by apply handleInputChange_tax.
  - by eapply addLineItem_tax.
  - by eapply removeLineItem_tax.
  - by eapply handleSubmit_tax.
  - eapply handleLineItemChange_tax; eauto; set_solver.
  - by eapply selectTaxRate_tax.
Qed.

End TaxInvariant.

(** ** The form keeps a line item *)

Section LineInvariant.
Context {arith : JsArith}.
Variable accounts allTaxRates : list jsval.

Lemma set_index_nonempty index v l : set_index index v l <> [].
Proof.
  unfold set_index. destruct (Nat.ltb_spec index (length l)).
  - intros Hn. apply (f_equal length) in Hn. rewrite length_insert in Hn. simpl in Hn. lia.
  - intros Hn. apply (f_equal length) in Hn. rewrite !length_app in Hn. simpl in Hn. lia.
Qed.

Lemma set_lines_has_lines ls k f :
  ls <> [] -> has_lines f ->
  has_lines (clear_error k (set_formData (with_field "lines" (JArr ls) (formData f)) f)).
Proof.
  intros Hne Hf. unfold has_lines. rewrite clear_error_formData. simpl.
  by apply lines_ok_set_lines.
Qed.

Lemma handleLineItemChange_lines index field value f f' :
  has_lines f -> handleLineItemChange accounts index field value f = inr f' -> has_lines f'.
Proof.
  unfold handleLineItemChange. intros Hf H.
  destruct (iterate _) as [ls|]; [|discriminate].
  apply ex_bind_inr_inv in H as (line & _ & H). injection H as <-.
  apply set_lines_has_lines; [apply set_index_nonempty|done].
Qed.

Lemma selectTaxRate_lines index v f f' :
  has_lines f -> selectTaxRate accounts allTaxRates index v f = inr f' -> has_lines f'.
Proof.
  unfold selectTaxRate. intros Hf H. pose proof Hf as (fs & ls0 & Hd & Hl & Hne).
  rewrite Hl in H. cbn [iterate] in H.
  apply ex_bind_inr_inv in H as (rates & _ & H). injection H as <-.
  apply set_lines_has_lines; [|done].
  destruct (String.eqb v "0"); [apply set_index_nonempty|].
  destruct (List.find _ rates); [apply set_index_nonempty|done].
Qed.

(** C17. The form always holds an object with at least one line item:
    the initial form does, and every handler the page wires keeps it
    ([handleInputChange] is called with the fields of the payment, never
    [lines]; [removeLineItem] removes a line only when there are two or
    more; [handleLineItemChange] and the tax [Select] write one line by
    index, so the array never shrinks, at any index; a submission either
    keeps the data or resets it to the initial form).  So [manualPaymentValidation] never reports "At least one line
    item is required" on the form's data. *)
Theorem form_keeps_a_line (today : string) (parseFloat : jsval -> jsval) :
  has_lines (initial today) /\
  (forall f, has_lines f ->
     (forall contact f', handleContactSelect contact f = inr f' -> has_lines f') /\
     (forall value, has_lines (handleContactInputChange value f)) /\
     (forall field value, field <> "lines" -> has_lines (handleInputChange field value f)) /\
     (forall f', addLineItem f = inr f' -> has_lines f') /\
     (forall index f', removeLineItem index f = inr f' -> has_lines f') /\
     (forall result body f', handleSubmit today parseFloat result f = inr (body, f') -> has_lines f') /\
     (forall index field value f',
        handleLineItemChange accounts index field value f = inr f' -> has_lines f') /\
     (forall index v f', selectTaxRate accounts allTaxRates index v f = inr f' -> has_lines f') /\
     (forall errs, manualPaymentValidation (formData f) = inr errs -> Js.field "lines" errs = None)).
Proof.
  split; [eexists _, _; split_and!; [reflexivity|reflexivity|done]|].
  intros f Hf. split_and!; intros.
  - by eapply handleContactSelect_lines.
  - by apply handleContactInputChange_lines.
  - by apply handleInputChange_lines.
  - by eapply addLineItem_lines.
  - by eapply removeLineItem_lines.
  - by eapply handleSubmit_lines.
  - by eapply handleLineItemChange_lines.
  - by eapply selectTaxRate_lines.
  - by eapply validation_no_lines_error.
Qed.

End LineInvariant.

(** ** The total *)

Section Total.
Context {arith : JsArith}.

(** [line.line_amount || 0] and [line.tax_rate || 0], as the reducer
    reads them. *)
Definition line_amount_of (line : jsval) : jsval :=
  Js.or (Js.own_value line "line_amount") (JNum 0).
Definition line_rate_of (line : jsval) : jsval :=
  Js.or (Js.own_value line "tax_rate") (JNum 0).

(** The sum of [amount + amount * rate] over the lines, in their order,
    in the host's arithmetic. *)
Definition reference_total (ls : list jsval) (t : jsval) : jsval :=
  fold_left (fun t line => num_add (num_add t (line_amount_of line))
                                   (num_mul (line_amount_of line) (line_rate_of line))) ls t.

Lemma reduce_lines_fold t ls :
  Forall (fun line => exists lfs, line = JObj lfs) ls ->
  reduce_lines t ls = inr (reference_total ls t).
Proof.
  intros Hf. revert t. induction Hf as [|line ls [lfs ->] Hf IH]; intros t; [done|].
  cbn [reduce_lines]. unfold line_reducer. rewrite !read_obj. cbn [ex_bind]. apply IH.
Qed.

Lemma calculateTotalAmount_taxIncl v fs :
  calculateTotalAmount (with_field "taxIncl" v (JObj fs)) = calculateTotalAmount (JObj fs).
Proof. unfold calculateTotalAmount. by rewrite own_value_with_field_other by done. Qed.

(** C18. In any host arithmetic, the total the form shows is
    [(Σ a + a × r).toFixed(2)] over the lines' amounts [a] and tax rates
    [r] (each [|| 0]; a rate is the [effectiveRate / 100] the tax
    [Select] stored): the tax of every line is added to its amount, and
    the total is the same whatever the payment's [taxIncl] is, also when
    it is "Inclusive" (the amounts already hold the tax) or "NoTax". *)
Theorem calculateTotalAmount_adds_tax fs ls :
  Js.own_value (JObj fs) "lines" = JArr ls ->
  Forall (fun line => exists lfs, line = JObj lfs) ls ->
  calculateTotalAmount (JObj fs) = inr (to_fixed (reference_total ls (JNum 0)) 2) /\
  (forall v, calculateTotalAmount (with_field "taxIncl" v (JObj fs)) =
             calculateTotalAmount (JObj fs)).
Proof.
  intros Hl Hf. split; [|intros; apply calculateTotalAmount_taxIncl].
  unfold calculateTotalAmount. by rewrite Hl, reduce_lines_fold.
Qed.

End Total.

Definition sample_account : jsval := JObj [("accountID", JStr "A1"); ("taxType", JStr "INPUT")].

Lemma form_line_taxes_consistent_witness :
  Forall (fun a => Js.is_nullish a = false) [sample_account] /\
  tax_ok (arith := int_arith) [sample_account] [] (initial "2025-01-01").
Proof.
  split; [repeat constructor|].
  exact (proj1 (form_line_taxes_consistent (arith := int_arith) [sample_account] [] "2025-01-01"
                  (fun v => v) ltac:(repeat constructor))).
Defined.

(** A payment whose amounts include the tax, with one line of amount 100
    and rate 1 in the integer arithmetic. *)
Definition inclusive_form : jsval :=
  JObj [("taxIncl", JStr "Inclusive");
        ("lines", JArr [JObj [("line_amount", JNum 100); ("tax_rate", JNum 1)]])].

Lemma calculateTotalAmount_adds_tax_witness :
  calculateTotalAmount (arith := int_arith) inclusive_form = inr "200" /\
  calculateTotalAmount (arith := int_arith) (with_field "taxIncl" (JStr "NoTax") inclusive_form) = inr "200".
Proof.
  pose proof (calculateTotalAmount_adds_tax (arith := int_arith)
    [("taxIncl", JStr "Inclusive");
     ("lines", JArr [JObj [("line_amount", JNum 100); ("tax_rate", JNum 1)]])]
    [JObj [("line_amount", JNum 100); ("tax_rate", JNum 1)]]
    eq_refl ltac:(repeat econstructor)) as [Ht Hv].
  unfold inclusive_form. rewrite Hv, Ht. split; reflexivity.
Defined.

End LineItems.
