(* ===== verification/PaymentHooks.v ===== *)
(** * The payment hooks: hooks/useManualPayments.jsx,
      hooks/usePaymentBatch.jsx and pages/ManualPaymentsPage.jsx

    Each operation of a hook is a function of the answers of the service
    calls it awaits (the service's result: [inr] its value, [inl] the
    message of the [Error] it throws) from the hook's state to what the
    operation returns or throws, its toasts, and the state after its
    [finally].  A [useCallback] closes over the state of the render that
    created it: such an operation takes that render ([r]) apart from the
    state its updates apply to ([h]).  [new Date(x).toLocaleDateString]
    is the host's, a parameter [localeDate] of the section. *)

From S2P Require Import Prelude JsValue ClientApi ClientState ClientHooks PaymentForm.
From stdpp Require Import pretty.

(** The TypeError of destructuring a parameter that is [undefined] or
    [null]. *)
Definition destructure_error (k : string) (v : jsval) : string :=
  "Cannot destructure property '" +:+ k +:+ "' of '" +:+ Js.to_string v +:+
  "' as it is " +:+ Js.to_string v +:+ ".".

(** ** hooks/useManualPayments.jsx *)

Module ManualPayments.
Local Open Scope xero_scope.
Import ClientApi.

Record hook := mkHook {
  payments : jsval;
  totalItem : jsval;
  totalPages : jsval;
  loading : bool;
  error : jsval
}.

Definition initial : hook := mkHook (JArr []) (JNum 0) (JNum 0) false JNull.

Definition set_loading (b : bool) (h : hook) : hook :=
  mkHook (payments h) (totalItem h) (totalPages h) b (error h).
Definition set_error (e : jsval) (h : hook) : hook :=
  mkHook (payments h) (totalItem h) (totalPages h) (loading h) e.

(** The parameter [{page = 1, size = 10, sortBy = "payment_date",
    orderBy = "DESC"}] of [fetchPayments]. *)
Definition fetch_args (args : jsval) : string + (jsval * jsval * jsval * jsval) :=
  if Js.is_nullish args then inl (destructure_error "page" args)
  else inr (with_default (Js.own_value args "page") (JNum 1),
            with_default (Js.own_value args "size") (JNum 10),
            with_default (Js.own_value args "sortBy") (JStr "payment_date"),
            with_default (Js.own_value args "orderBy") (JStr "DESC")).

(** The request [fetchPayments(args)] sends. *)
Definition fetchPayments_request (args : jsval) : string + request :=
  a <-? fetch_args args ;;
  let '(page, size, sortBy, orderBy) := a in inr (manual_get_request page size sortBy orderBy).

(** [fetchPayments(args)] after [manualPaymentService.get] answered
    [res]: the destructuring of [args] happens before the [try], so it
    rejects the call. *)
Definition fetchPayments (args : jsval) (res : string + jsval) (h : hook) : (string + unit) * hook :=
  match fetch_args args with
  | inl e => (inl e, h)
  | inr _ =>
      let h := set_loading true h in
      let h := match (response <-? res ;; d <-? read response "data" ;; inr (response, d)) with
               | inr (response, d) =>
                   mkHook (Js.or d (JArr [])) (Js.or (Js.own_value response "totalItem") (JNum 0))
                          (Js.or (opt_read (Js.own_value response "pagination") "totalPages") (JNum 0))
                          (loading h) JNull
               | inl msg => set_error (JStr msg) h
               end in
      (inr tt, set_loading false h)
  end.

(** [createPayment(paymentData)] after [manualPaymentService.create]
    answered [res]; it returns a value on every path. *)
Definition createPayment (res : string + jsval) (h0 : hook) : jsval * hook :=
  let h := set_error JNull (set_loading true h0) in
  let '(r, h) :=
    match (response <-? res ;; s <-? read response "success" ;; inr (response, s)) with
    | inr (response, s) =>
        if Js.strict_eq s (JBool false) then
          let e := Js.own_value response "error" in
          (JObj [("success", JBool false); ("error", e);
                 ("errors", Js.or (Js.own_value response "errors") (JArr []))], set_error e h)
        else (JObj [("success", JBool true); ("data", Js.or (Js.own_value response "data") response)],
              set_error JNull h)
    | inl msg =>
        (JObj [("success", JBool false); ("error", JStr msg);
               ("errors", JArr [JObj [("message", JStr msg)]])], set_error (JStr msg) h)
    end in
  (r, set_loading false h).

End ManualPayments.

(** ** pages/ManualPaymentsPage.jsx *)

Module ManualPaymentsPage.
Local Open Scope xero_scope.
Import ClientApi ManualPayments.

(** [handleCreatePayment(formData)], the [onSubmit] of the form: after a
    created payment it awaits [refreshPayments()], which is
    [fetchPayments] called without its argument. *)
Definition handleCreatePayment (res refresh : string + jsval) (h0 : hook) : jsval * hook :=
  let '(result, h) := createPayment res h0 in
  if Js.truthy (Js.own_value result "success") then
    match fetchPayments JUndef refresh h with
    | (inr _, h) => (JObj [("success", JBool true); ("data", Js.own_value result "data")], h)
    | (inl msg, h) => (JObj [("success", JBool false); ("error", JStr msg)], h)
    end
  else
    (JObj [("success", JBool false);
           ("error", Js.or (Js.own_value result "error") (JStr "Failed to create manual payment"));
           ("errors", Js.own_value result "errors")], h).

(** The effect [if (isSynced) fetchPayments({page: currentPage, size:
    pageSize})], with the answer [res] of the request it sends. *)
Definition load (isSynced : bool) (currentPage pageSize : jsval) (res : string + jsval) (h : hook)
    : option request * hook :=
  let args := JObj [("page", currentPage); ("size", pageSize)] in
  if isSynced then
    match fetchPayments_request args with
    | inr r => (Some r, snd (fetchPayments args res h))
    | inl _ => (None, h)
    end
  else (None, h).

End ManualPaymentsPage.

(** ** hooks/usePaymentBatch.jsx *)

Module PaymentBatch.
Local Open Scope xero_scope.
Import ClientApi.

Record hook := mkHook {
  batches : list jsval;
  totalItem : jsval;
  totalPages : jsval;
  currentPage : jsval;
  pageSize : jsval;
  loading : bool;
  isSubmitting : bool;
  error : jsval;
  toasts : list effect
}.

Definition initial : hook := mkHook [] (JNum 0) (JNum 0) (JNum 1) (JNum 10) false false JNull [].

Definition set_loading (b : bool) (h : hook) : hook :=
  mkHook (batches h) (totalItem h) (totalPages h) (currentPage h) (pageSize h) b
         (isSubmitting h) (error h) (toasts h).
Definition set_submitting (b : bool) (h : hook) : hook :=
  mkHook (batches h) (totalItem h) (totalPages h) (currentPage h) (pageSize h) (loading h)
         b (error h) (toasts h).
Definition set_error (e : jsval) (h : hook) : hook :=
  mkHook (batches h) (totalItem h) (totalPages h) (currentPage h) (pageSize h) (loading h)
         (isSubmitting h) e (toasts h).
Definition set_page (p : jsval) (h : hook) : hook :=
  mkHook (batches h) (totalItem h) (totalPages h) p (pageSize h) (loading h)
         (isSubmitting h) (error h) (toasts h).
Definition set_size (s : jsval) (h : hook) : hook :=
  mkHook (batches h) (totalItem h) (totalPages h) (currentPage h) s (loading h)
         (isSubmitting h) (error h) (toasts h).
Definition set_batches (bs : list jsval) (h : hook) : hook :=
  mkHook bs (totalItem h) (totalPages h) (currentPage h) (pageSize h) (loading h)
         (isSubmitting h) (error h) (toasts h).
Definition set_totals (items pages : jsval) (h : hook) : hook :=
  mkHook (batches h) items pages (currentPage h) (pageSize h) (loading h)
         (isSubmitting h) (error h) (toasts h).
Definition toast (success : bool) (msg : string) (h : hook) : hook :=
  mkHook (batches h) (totalItem h) (totalPages h) (currentPage h) (pageSize h) (loading h)
         (isSubmitting h) (error h) (toasts h ++ [Toast success msg]).

(** [err.message] of what a [catch] receives: the services throw
    [Error]s, so it is their message. *)
Definition message (msg : string) : jsval := JStr msg.

Section Operations.
Variable localeDate : jsval -> jsval.

(** The [map] callback of [fetchBatches]. *)
Definition format_batch (batch : jsval) : string + jsval :=
  id <-? read batch "xoBatchId" ;;
  d <-? read batch "paymentDate" ;;
  inr (JObj (Js.set_field "paymentDate" (localeDate d)
               (Js.set_field "id" id (Js.spread batch)))).

(** The parameter [{ page, size, filters = {} } = {}] of
    [fetchBatches]. *)
Definition fetch_args (args : jsval) : string + (jsval * jsval * jsval) :=
  let args := with_default args (JObj []) in
  if Js.is_nullish args then inl (destructure_error "page" args)
  else inr (Js.own_value args "page", Js.own_value args "size",
            with_default (Js.own_value args "filters") (JObj [])).

(** [page ?? currentPage] *)
Definition coalesce (v d : jsval) : jsval := if Js.is_nullish v then d else v.

(** [fetchBatches(args)] of the render [r], after
    [paymentBatchService.get] answered [res]: the request it sends and
    the state after it.  It catches every failure of the call. *)
Definition fetchBatches (r : hook) (args : jsval) (res : string + jsval) (h0 : hook)
    : string + (request * hook) :=
  a <-? fetch_args args ;;
  let '(page, size, filters) := a in
  let req := batch_get_request (coalesce page (currentPage r)) (coalesce size (pageSize r)) filters in
  let h := set_error JNull (set_loading true h0) in
  let h :=
    match (response <-? res ;; d <-? read response "data" ;;
           f <-? UseXero.map_throw "response.data" format_batch d ;; inr (response, f)) with
    | inr (response, f) =>
        let bs := match f with JArr bs => bs | _ => [] end in
        let h := set_totals (Js.or (Js.own_value response "totalItem") (JNum 0))
                   (Js.or (opt_read (Js.own_value response "pagination") "totalPages") (JNum 0))
                   (set_batches bs h) in
        let h := if Js.is_undef page then h else set_page page h in
        if Js.is_undef size then h else set_size size h
    | inl msg => set_error (message msg) h
    end in
  inr (req, set_loading false h).

(** The state [createBatch(data)] renders while it awaits
    [paymentBatchService.create]: [setIsSubmitting(true)] and
    [setError(null)]. *)
Definition createBatch_pending (h0 : hook) : hook := set_error JNull (set_submitting true h0).

(** [createBatch(data)] after [paymentBatchService.create] answered
    [res] and the [fetchBatches({})] it awaits answered [refresh]. *)
Definition createBatch (r : hook) (res refresh : string + jsval) (h0 : hook) : (string + jsval) * hook :=
  let h := createBatch_pending h0 in
  let '(out, h) :=
    match res with
    | inr result =>
        match fetchBatches r (JObj []) refresh h with
        | inr (_, h) => (inr result, h)
        | inl e => (inl e, set_error (message e) h)
        end
    | inl msg => (inl msg, set_error (message msg) h)
    end in
  (out, set_submitting false h).

(** [getBatchById(batchId)] *)
Definition getBatchById (res : string + jsval) (h0 : hook) : (string + jsval) * hook :=
  let h := set_error JNull (set_loading true h0) in
  let h := match res with inr _ => h | inl msg => set_error (message msg) h end in
  (res, set_loading false h).

(** The [catch] of [approveBatch] and [deleteBatch]:
    [toast.error(err.message || fallback); setError(err.message)]. *)
Definition failed (fallback msg : string) (h : hook) : hook :=
  set_error (message msg) (toast false (if String.eqb msg "" then fallback else msg) h).

(** [approveBatch(batchId, approvalData)]; [today] is
    [new Date().toLocaleDateString("en-US")]. *)
Definition approveBatch (batchId today : jsval) (res : string + jsval) (h0 : hook)
    : (string + jsval) * hook :=
  let h := set_error JNull (set_submitting true h0) in
  let '(out, h) :=
    match res with
    | inr result =>
        let mark batch :=
          if Js.strict_eq (Js.own_value batch "id") batchId
          then JObj (Js.set_field "lastApprDate" today
                       (Js.set_field "isApproved" (JBool true) (Js.spread batch)))
          else batch in
        (inr result, toast true "Payment batch approved successfully!"
                       (set_batches (map mark (batches h)) h))
    | inl msg => (inl msg, failed "Failed to approve payment batch. Please try again." msg h)
    end in
  (out, set_submitting false h).

(** [deleteBatch(batchId, reason)] of the render [r], after
    [paymentBatchService.delete] answered [res] and the
    [fetchBatches({page: currentPage - 1})] it may await answered
    [refresh].  [remainingBatches] is computed from the render's
    [batches]. *)
Definition deleteBatch (r : hook) (batchId : jsval) (res refresh : string + jsval) (h0 : hook)
    : (string + jsval) * hook :=
  let h := set_error JNull (set_submitting true h0) in
  let keep batch := negb (Js.strict_eq (Js.own_value batch "id") batchId) in
  let fallback := "Failed to delete payment batch. Please try again." in
  let '(out, h) :=
    match res with
    | inr result =>
        let h := set_batches (filter keep (batches h)) h in
        let h := set_totals (Num.minus_one (totalItem h)) (totalPages h) h in
        let remaining := filter keep (batches r) in
        let step :=
          if (length remaining =? 0)%nat && Num.lt (JNum 1) (currentPage r) then
            let p := Num.minus_one (currentPage r) in
            x <-? fetchBatches r (JObj [("page", p)]) refresh (set_page p h) ;; inr (snd x)
          else inr h in
        match step with
        | inr h => (inr result, toast true "Payment batch deleted successfully!" h)
        | inl e => (inl e, failed fallback e h)
        end
    | inl msg => (inl msg, failed fallback msg h)
    end in
  (out, set_submitting false h).

(** [goToPage(page)] of the render [r]: the [fetchBatches({ page })] it
    starts, if any. *)
Definition goToPage (r : hook) (page : jsval) (res : string + jsval) (h : hook)
    : option request * hook :=
  if Num.le (JNum 1) page && Num.le page (totalPages r) && negb (Js.strict_eq page (currentPage r)) then
    match fetchBatches r (JObj [("page", page)]) res h with
    | inr (req, h) => (Some req, h)
    | inl _ => (None, h)
    end
  else (None, h).

(** [changePageSize(size)] of the render [r]. *)
Definition changePageSize (r : hook) (size : jsval) (res : string + jsval) (h : hook)
    : option request * hook :=
  if negb (Js.strict_eq size (pageSize r)) then
    match fetchBatches r (JObj [("page", JNum 1); ("size", size)]) res h with
    | inr (req, h) => (Some req, h)
    | inl _ => (None, h)
    end
  else (None, h).

End Operations.

End PaymentBatch.

(** ** Theorems *)

Section ManualPaymentTheorems.
Import ClientApi ManualPayments ManualPaymentsPage.

(** [refreshPayments()] rejects before it sends anything. *)
Lemma refresh_rejects res h :
  fetchPayments JUndef res h = (inl (destructure_error "page" JUndef), h).
Proof. done. Qed.

(** What [handleCreatePayment] answers is an object whose [success] is
    [false]. *)
Lemma handleCreatePayment_not_success (res refresh : string + jsval) (h : hook) :
  exists fs, fst (handleCreatePayment res refresh h) = JObj fs /\
    Js.own_value (JObj fs) "success" = JBool false.
Proof.
  unfold handleCreatePayment. destruct (createPayment res h) as [result h'].
  destruct (Js.truthy _); [rewrite refresh_rejects|]; eexists; split; reflexivity.
Qed.

(** [handleCreatePayment], the form's [onSubmit], never reports a
    created payment: it answers [success: false] on every path, and
    when the service did create the payment it answers the TypeError of
    [refreshPayments()], which calls [fetchPayments] without the object
    it destructures. *)
Theorem handleCreatePayment_reports_failure (res refresh : string + jsval) (h : hook) :
  Js.own_value (fst (handleCreatePayment res refresh h)) "success" = JBool false /\
  forall response, res = inr response -> Js.is_nullish response = false ->
    Js.strict_eq (Js.own_value response "success") (JBool false) = false ->
    Js.own_value (fst (handleCreatePayment res refresh h)) "error" =
      JStr "Cannot destructure property 'page' of 'undefined' as it is undefined.".
Proof.
  split.
  - destruct (handleCreatePayment_not_success res refresh h) as (fs & -> & Hs). exact Hs.
  - unfold handleCreatePayment.
    destruct (createPayment res h) as [result h'] eqn:Ecreate.
    intros response -> Hn Hs. unfold createPayment in Ecreate.
    cbn [ex_bind] in Ecreate. unfold read in Ecreate. rewrite Hn in Ecreate.
    cbn [ex_bind] in Ecreate. rewrite Hs in Ecreate. injection Ecreate as <- <-.
    reflexivity.
Qed.

Lemma handleCreatePayment_reports_failure_witness :
  Js.own_value (fst (handleCreatePayment (inr (JObj [("id", JNum 1)])) (inr JNull) initial)) "success" = JBool false /\
  Js.own_value (fst (handleCreatePayment (inr (JObj [("id", JNum 1)])) (inr JNull) initial)) "error" =
      JStr "Cannot destructure property 'page' of 'undefined' as it is undefined.".
Proof.
  destruct (handleCreatePayment_reports_failure (inr (JObj [("id", JNum 1)])) (inr JNull) initial)
    as [H1 H2].
  split; [exact H1|]. apply (H2 (JObj [("id", JNum 1)])); reflexivity.
Defined.

End ManualPaymentTheorems.

Section PaymentBatchTheorems.
Import ClientApi PaymentBatch.
Variable localeDate : jsval -> jsval.

(** No spinner of the hook is on. *)
Definition idle (h : hook) : Prop := loading h = false /\ isSubmitting h = false.

Lemma fetchBatches_settles r args res h0 req h :
  fetchBatches localeDate r args res h0 = inr (req, h) ->
  loading h = false /\ isSubmitting h = isSubmitting h0.
Proof.
  unfold fetchBatches. intros H.
  destruct (fetch_args args) as [|[[page size] filters]]; simpl in H; [discriminate|].
  injection H as <- <-. simpl. split; [done|]. repeat case_match; reflexivity.
Qed.

Lemma fetchBatches_idle r args res h0 req h :
  idle h0 -> fetchBatches localeDate r args res h0 = inr (req, h) -> idle h.
Proof. intros [_ Hs] Hf. apply fetchBatches_settles in Hf. unfold idle. naive_solver. Qed.

Ltac settle := unfold idle in *; simpl; repeat (case_match; simpl); naive_solver.

Lemma createBatch_idle r res refresh h0 : idle h0 -> idle (snd (createBatch localeDate r res refresh h0)).
Proof. unfold createBatch, createBatch_pending. intros; destruct res; settle. Qed.

Lemma getBatchById_idle res h0 : idle h0 -> idle (snd (getBatchById res h0)).
Proof. unfold getBatchById. intros; destruct res; settle. Qed.

Lemma approveBatch_idle batchId today res h0 : idle h0 -> idle (snd (approveBatch batchId today res h0)).
Proof. unfold approveBatch, failed. intros; destruct res; settle. Qed.

Lemma deleteBatch_idle r batchId res refresh h0 :
  idle h0 -> idle (snd (deleteBatch localeDate r batchId res refresh h0)).
Proof. unfold deleteBatch, failed. intros; destruct res; settle. Qed.

Lemma goToPage_idle r page res h0 : idle h0 -> idle (snd (goToPage localeDate r page res h0)).
Proof. unfold goToPage. intros; settle. Qed.

Lemma changePageSize_idle r size res h0 : idle h0 -> idle (snd (changePageSize localeDate r size res h0)).
Proof. unfold changePageSize. intros; settle. Qed.

(** C19. Every operation of [usePaymentBatch] started while no spinner
    is on settles, whatever the services answer (a value or a thrown
    error), with [loading] and [isSubmitting] both false again: each
    [setLoading(true)] and [setIsSubmitting(true)] is undone by its
    [finally], including the [fetchBatches] that [createBatch],
    [deleteBatch], [goToPage] and [changePageSize] run. *)
Theorem paymentBatch_operations_settle (r h0 : hook) :
  idle h0 ->
  (forall args res req h, fetchBatches localeDate r args res h0 = inr (req, h) -> idle h) /\
  (forall res refresh, idle (snd (createBatch localeDate r res refresh h0))) /\
  (forall res, idle (snd (getBatchById res h0))) /\
  (forall batchId today res, idle (snd (approveBatch batchId today res h0))) /\
  (forall batchId res refresh, idle (snd (deleteBatch localeDate r batchId res refresh h0))) /\
  (forall page res, idle (snd (goToPage localeDate r page res h0))) /\
  (forall size res, idle (snd (changePageSize localeDate r size res h0))).
Proof.
  intros Hi. split_and!; intros; eauto using fetchBatches_idle, createBatch_idle,
    getBatchById_idle, approveBatch_idle, deleteBatch_idle, goToPage_idle, changePageSize_idle.
Qed.

Lemma le_one_not_nullish page : Num.le (JNum 1) page = true -> Js.is_nullish page = false.
Proof. by destruct page. Qed.

(** C32. [goToPage] sends a request only for a page between 1 and the
    number of pages, other than the current one; the request asks for
    that page with the render's page size and no filters, and once its
    answer is processed the hook shows that page, unless the call failed
    (then [error] is set and the page is unchanged). *)
Theorem goToPage_in_range (r : hook) (page : jsval) (res : string + jsval) (h : hook) req h' :
  goToPage localeDate r page res h = (Some req, h') ->
  Num.le (JNum 1) page = true /\ Num.le page (totalPages r) = true /\
  Js.strict_eq page (currentPage r) = false /\
  req = batch_get_request page (pageSize r) (JObj []) /\
  currentPage h' = (if Js.strict_eq (error h') JNull then page else currentPage h).
Proof.
  unfold goToPage.
  destruct (Num.le (JNum 1) page) eqn:H1, (Num.le page (totalPages r)) eqn:H2,
    (Js.strict_eq page (currentPage r)) eqn:H3; simpl; try discriminate.
  pose proof (le_one_not_nullish page H1) as Hn.
  unfold fetchBatches, coalesce. simpl. rewrite Hn.
  assert (Js.is_undef page = false) as Hu by (destruct page; simpl in *; congruence).
  intros [= <- <-]. split_and!; try done.
  repeat (case_match; simpl in *); congruence.
Qed.

(** Deleting a batch whose id is a number, from a list of distinct ids. *)
Lemma keep_other (i j : Z) b : Js.own_value b "id" = JNum j -> i <> j ->
  negb (Js.strict_eq (Js.own_value b "id") (JNum i)) = true.
Proof. intros -> Hne. simpl. rewrite (proj2 (Z.eqb_neq j i)); [done|congruence]. Qed.

Lemma keep_same (i : Z) b : Js.own_value b "id" = JNum i ->
  negb (Js.strict_eq (Js.own_value b "id") (JNum i)) = false.
Proof. intros ->. simpl. by rewrite Z.eqb_refl. Qed.

(** C15. [deleteBatch] decides whether to go back a page from the
    batches of the render that created it.  On page [p > 1] showing two
    batches, two deletions started from the same render both see a
    batch left, so the hook stays on the now empty page [p]; the second
    deletion started after the first re-rendered moves to page [p - 1]. *)
Theorem concurrent_deletes_stay_on_empty_page (r : hook) (b1 b2 : jsval) (i1 i2 p : Z)
    (res1 res2 : jsval) (refresh1 refresh2 : string + jsval) :
  batches r = [b1; b2] -> Js.own_value b1 "id" = JNum i1 -> Js.own_value b2 "id" = JNum i2 ->
  i1 <> i2 -> currentPage r = JNum p -> (1 < p)%Z ->
  let h1 := snd (deleteBatch localeDate r (JNum i1) (inr res1) refresh1 r) in
  let h2 := snd (deleteBatch localeDate r (JNum i2) (inr res2) refresh2 h1) in
  batches h2 = [] /\ currentPage h2 = JNum p /\
  currentPage (snd (deleteBatch localeDate h1 (JNum i2) (inr res2) refresh2 h1)) = JNum (p - 1).
Proof.
  intros Hr Hb1 Hb2 Hne Hp Hlt h1 h2.
  assert (Hne' : i2 <> i1) by congruence.
  assert (batches h1 = [b2] /\ currentPage h1 = JNum p) as [Hh1 Hp1].
  { subst h1. unfold deleteBatch. cbn -[Js.own_value Js.strict_eq]. rewrite Hr.
    cbn -[Js.own_value Js.strict_eq].
    rewrite (keep_same i1 b1), (keep_other i1 i2 b2) by done. cbn -[Js.own_value Js.strict_eq].
    by rewrite Hp. }
  split_and!.
  - subst h2. unfold deleteBatch. cbn -[Js.own_value Js.strict_eq]. rewrite Hr, Hh1.
    cbn -[Js.own_value Js.strict_eq].
    rewrite (keep_other i2 i1 b1), (keep_same i2 b2) by done. done.
  - subst h2. unfold deleteBatch. cbn -[Js.own_value Js.strict_eq]. rewrite Hr, Hh1.
    cbn -[Js.own_value Js.strict_eq].
    rewrite (keep_other i2 i1 b1), (keep_same i2 b2) by done. done.
  - unfold deleteBatch. cbn -[Js.own_value Js.strict_eq]. rewrite Hh1.
    cbn -[Js.own_value Js.strict_eq]. rewrite (keep_same i2 b2) by done.
    cbn -[Js.own_value Js.strict_eq]. rewrite Hp1.
    destruct (decide False) as [[]|_]; simpl.
    replace (1 <? p)%Z with true by (symmetry; by apply Z.ltb_lt).
    by repeat (case_match; simpl).
Qed.

End PaymentBatchTheorems.

Section PaymentBatchWitnesses.
Import ClientApi PaymentBatch.

Lemma goToPage_in_range_witness :
  let r := mkHook [] (JNum 30) (JNum 3) (JNum 1) (JNum 10) false false JNull [] in
  Num.le (JNum 1) (JNum 2) = true /\ Num.le (JNum 2) (totalPages r) = true /\
  Js.strict_eq (JNum 2) (currentPage r) = false /\
  fst (goToPage (fun v => v) r (JNum 2) (inl "Network Error") r) =
    Some (batch_get_request (JNum 2) (pageSize r) (JObj [])) /\
  currentPage (snd (goToPage (fun v => v) r (JNum 2) (inl "Network Error") r)) = currentPage r.
Proof.
  intros r.
  destruct (goToPage_in_range (fun v => v) r (JNum 2) (inl "Network Error") r
              (batch_get_request (JNum 2) (JNum 10) (JObj []))
              (snd (goToPage (fun v => v) r (JNum 2) (inl "Network Error") r)))
    as (H1 & H2 & H3 & H4 & H5); [reflexivity|].
  split_and!; [exact H1|exact H2|exact H3|reflexivity|]. rewrite H5. reflexivity.
Defined.

Definition sample_batch (i : Z) : jsval := JObj [("xoBatchId", JNum i); ("id", JNum i)].

Definition page_two : hook :=
  mkHook [sample_batch 7; sample_batch 8] (JNum 12) (JNum 2) (JNum 2) (JNum 10) false false JNull [].

Lemma paymentBatch_operations_settle_witness :
  idle page_two /\
  (forall res refresh, idle (snd (createBatch (fun v => v) page_two res refresh page_two))).
Proof.
  assert (idle page_two) as Hi by (split; reflexivity).
  split; [exact Hi|].
  destruct (paymentBatch_operations_settle (fun v => v) page_two page_two Hi) as (_ & Hc & _).
  exact Hc.
Defined.

Lemma concurrent_deletes_stay_on_empty_page_witness :
  let h1 := snd (deleteBatch (fun v => v) page_two (JNum 7) (inr JNull) (inr JNull) page_two) in
  let h2 := snd (deleteBatch (fun v => v) page_two (JNum 8) (inr JNull) (inr JNull) h1) in
  batches h2 = [] /\ currentPage h2 = JNum 2 /\
  currentPage (snd (deleteBatch (fun v => v) h1 (JNum 8) (inr JNull) (inr JNull) h1)) = JNum (2 - 1).
Proof.
  apply (concurrent_deletes_stay_on_empty_page (fun v => v) page_two (sample_batch 7) (sample_batch 8)
           7 8 2 JNull JNull (inr JNull) (inr JNull)); try reflexivity; lia.
Defined.

End PaymentBatchWitnesses.
