(* ===== verification/RecentBatches.v ===== *)
(** * The recent payment batches

    components/payment-batch/RecentBatches.jsx, the card of the latest
    payment batches on the request-approval page, over its own
    [usePaymentBatch] ([PaymentHooks]): on mount and whenever [limit] or
    [refreshTrigger] change it calls [fetchBatches({page: 1, size:
    limit})], and it shows the first [limit] batches of the hook.
    components/payment-batch/PaymentBatchStatusBadge.jsx is the badge
    of each row.  [formatCurrency] ([Intl.NumberFormat]) is the host's:
    a row keeps the amount it formats. *)

From S2P Require Import Prelude JsValue ClientApi ClientState ClientHooks PaymentHooks.

(** ** components/payment-batch/PaymentBatchStatusBadge.jsx *)

Module StatusBadge.
Local Open Scope xero_scope.

Inductive icon := CheckCircle | Clock.

Record status_config := mkStatus {
  variant : string; label : string; icon_of : icon; className : string; iconClassName : string
}.

(** [getStatusConfig(approved)], with the badge's [variant] prop. *)
Definition getStatusConfig (v : string) (approved : jsval) : status_config :=
  if Js.truthy approved then
    mkStatus "success" "Approved" CheckCircle
      "bg-emerald-50 text-emerald-700 border-emerald-200 hover:bg-emerald-100" "text-emerald-600"
  else
    mkStatus v "Pending" Clock
      "bg-amber-50 text-amber-700 border-amber-200 hover:bg-amber-100" "text-amber-600".

Record size_config := mkSize { badgeClass : string; iconSize : string; gap : string }.

(** [getSizeConfig(size)] *)
Definition getSizeConfig (size : jsval) : size_config :=
  if Js.strict_eq size (JStr "sm") then mkSize "px-2 py-1 text-xs" "h-3 w-3" "gap-1"
  else if Js.strict_eq size (JStr "lg") then mkSize "px-3 py-1.5 text-sm font-medium" "h-4 w-4" "gap-1.5"
  else mkSize "px-2.5 py-1 text-xs font-medium" "h-3.5 w-3.5" "gap-1".

(** What the badge draws: the [Badge]'s variant and the arguments of
    its [cn], the icon with the arguments of its [cn] when [showIcon],
    and the label. *)
Record badge := mkBadge {
  badge_variant : string; badge_classes : list string;
  badge_icon : option (icon * list string); badge_label : string
}.

Definition render (isApproved : jsval) (v : string) (size : jsval) (showIcon : bool) (cls : string)
    : badge :=
  let config := getStatusConfig v isApproved in
  let sizeConfig := getSizeConfig size in
  mkBadge (variant config)
    [className config; badgeClass sizeConfig; "transition-all duration-200 font-medium tracking-wide";
     "inline-flex items-center"; gap sizeConfig; "shadow-sm"; cls]
    (if showIcon then Some (icon_of config, [iconSize sizeConfig; iconClassName config; "flex-shrink-0"])
     else None)
    (label config).

(** [<PaymentBatchStatusBadge isApproved={...} />]: the defaults
    [variant = "default"], [size = "default"], [showIcon = true],
    [className = ""]. *)
Definition render_default (isApproved : jsval) : badge := render isApproved "default" (JStr "default") true "".

End StatusBadge.

(** ** components/payment-batch/RecentBatches.jsx *)

Module RecentBatches.
Local Open Scope xero_scope.
Import ClientApi.

(** The state of the card: its [usePaymentBatch], [recentBatches], and
    the effects of its handlers. *)
Record state := mkState { batchHook : PaymentBatch.hook; recentBatches : list jsval; effects : list effect }.

Definition initial : state := mkState PaymentBatch.initial [] [].

(** What a row of the table shows: [#batchIdNumber], [paymentDate],
    [bankName], the amount [formatCurrency] formats, and the badge. *)
Record row := mkRow { batchIdNumber : jsval; paymentDate : jsval; bankName : jsval;
                      amountToAppr : jsval; status : StatusBadge.badge }.

Definition row_of (b : jsval) : row :=
  mkRow (Js.own_value b "batchIdNumber") (Js.own_value b "paymentDate") (Js.own_value b "bankName")
        (Js.own_value b "amountToAppr") (StatusBadge.render_default (Js.own_value b "isApproved")).

(** The three renders: the skeleton of [limit] rows while loading, the
    error card, and the table or its empty text. *)
Inductive view := Skeleton (rows : Z) | Failed (error : jsval) | NoBatches | Rows (rows : list row).

Definition render (limit : Z) (s : state) : view :=
  let h := batchHook s in
  if PaymentBatch.loading h then Skeleton limit
  else if Js.truthy (PaymentBatch.error h) then Failed (PaymentBatch.error h)
  else match recentBatches s with [] => NoBatches | bs => Rows (map row_of bs) end.

(** [handleViewAll()] *)
Definition handleViewAll (s : state) : state :=
  mkState (batchHook s) (recentBatches s) (effects s ++ [Navigate "/approval-authorization" None]).

Section Operations.
Variable localeDate : jsval -> jsval.

(** [loadRecentBatches()], whose [paymentBatchService.get] answered
    [res]: the request it sends and the state after it; what
    [fetchBatches] throws is logged. *)
Definition loadRecentBatches (limit : Z) (res : string + jsval) (s : state) : option request * state :=
  match PaymentBatch.fetchBatches localeDate (batchHook s) (JObj [("page", JNum 1); ("size", JNum limit)])
          res (batchHook s) with
  | inr (req, h) => (Some req, mkState h (recentBatches s) (effects s))
  | inl _ => (None, s)
  end.

(** The effect on [[batches, limit]]: [setRecentBatches(batches.slice(0, limit))]. *)
Definition sync_recent (limit : Z) (s : state) : state :=
  mkState (batchHook s) (Js.slice 0 limit (PaymentBatch.batches (batchHook s))) (effects s).

(** The effect on [[limit, refreshTrigger]] (on mount, or when the page
    bumps [refreshTrigger]), then the effect on [[batches, limit]] its
    answer triggers.  When [fetchBatches] keeps [batches], that effect
    does not run again, and its last run left the same slice. *)
Definition refresh (limit : Z) (res : string + jsval) (s : state) : option request * state :=
  let '(req, s) := loadRecentBatches limit res s in (req, sync_recent limit s).

End Operations.

End RecentBatches.

(** ** The card shows the first [limit] batches of the answer, or the error *)

Section RecentBatchesLemmas.
Import ClientApi RecentBatches.
Local Open Scope xero_scope.
Variable localeDate : jsval -> jsval.

(** The answer [res] as [fetchBatches] reads it: the formatted batches,
    or the message it catches. *)
Definition batches_of (res : string + jsval) : string + list jsval :=
  response <-? res ;; d <-? read response "data" ;;
  f <-? UseXero.map_throw "response.data" (PaymentBatch.format_batch localeDate) d ;;
  inr (match f with JArr bs => bs | _ => [] end).

Lemma load_spec limit res s :
  let '(req, s') := loadRecentBatches localeDate limit res s in
  req = Some (batch_get_request (JNum 1) (JNum limit) (JObj [])) /\
  PaymentBatch.loading (batchHook s') = false /\
  match batches_of res with
  | inr bs => PaymentBatch.batches (batchHook s') = bs /\ PaymentBatch.error (batchHook s') = JNull
  | inl msg => PaymentBatch.error (batchHook s') = JStr msg
  end.
Proof.
  unfold loadRecentBatches, PaymentBatch.fetchBatches, batches_of. simpl.
  destruct res as [msg|response]; [done|]. simpl.
  destruct (read response "data") as [e|d]; [done|]. simpl.
  by destruct (UseXero.map_throw _ _ d).
Qed.

(** After a refresh the card no longer loads; a caught failure with a
    non-empty message shows it. *)
Lemma refresh_failed limit res s msg :
  batches_of res = inl msg -> msg <> "" ->
  render limit (snd (refresh localeDate limit res s)) = Failed (JStr msg).
Proof.
  intros Hb Hm. pose proof (load_spec limit res s) as H. unfold refresh.
  destruct (loadRecentBatches localeDate limit res s) as [req s']. rewrite Hb in H.
  destruct H as (_ & Hl & He). unfold render, sync_recent. simpl. rewrite Hl, He. by destruct msg.
Qed.

(** A successful refresh shows the first [limit] formatted batches. *)
Lemma refresh_rows limit res s bs :
  (0 <= limit)%Z -> batches_of res = inr bs ->
  render limit (snd (refresh localeDate limit res s)) =
    match firstn (Z.to_nat limit) bs with [] => NoBatches | bs' => Rows (map row_of bs') end.
Proof.
  intros Hlim Hb. pose proof (load_spec limit res s) as H. unfold refresh.
  destruct (loadRecentBatches localeDate limit res s) as [req s']. rewrite Hb in H.
  destruct H as (_ & Hl & Hbs & He). unfold render, sync_recent. simpl.
  rewrite Hl, Hbs, slice_prefix by done. by rewrite ?He.
Qed.

(** C9. [RecentBatches], on mount or when [refreshTrigger] changes,
    asks for page 1 with [limit] batches and no filters, and after the
    answer shows at most [limit] batches: the first [limit] batches of
    the answer, formatted by [fetchBatches], with the text of an empty
    list when there are none, or, when the call failed, the message
    [fetchBatches] caught, if it is not empty. *)
Theorem recentBatches_refresh_shows limit res s :
  (0 <= limit)%Z ->
  let '(req, s') := refresh localeDate limit res s in
  req = Some (batch_get_request (JNum 1) (JNum limit) (JObj [])) /\
  length (recentBatches s') <= Z.to_nat limit /\
  match batches_of res with
  | inr bs => render limit s' = match firstn (Z.to_nat limit) bs with [] => NoBatches | bs' => Rows (map row_of bs') end
  | inl msg => msg <> "" -> render limit s' = Failed (JStr msg)
  end.
Proof.
  intros Hlim. pose proof (load_spec limit res s) as Hs.
  pose proof (refresh_failed limit res s) as Hf. pose proof (refresh_rows limit res s) as Hr.
  revert Hf Hr. unfold refresh. destruct (loadRecentBatches localeDate limit res s) as [req s'].
  simpl. intros Hf Hr. destruct Hs as (-> & _ & _). split_and!; [done| |].
  - unfold sync_recent. simpl. rewrite slice_prefix, length_take by done. lia.
  - destruct (batches_of res) as [msg|bs]; [by apply Hf|]. by apply (Hr bs).
Qed.

End RecentBatchesLemmas.

(** The card of [limit = 1] after an answer of two batches. *)
Lemma recentBatches_refresh_shows_witness :
  let b1 := JObj [("xoBatchId", JNum 1); ("paymentDate", JStr "2025-01-02")] in
  let b2 := JObj [("xoBatchId", JNum 2); ("paymentDate", JStr "2025-01-03")] in
  let res := inr (JObj [("data", JArr [b1; b2])]) in
  (0 <= 1)%Z /\
  let '(req, s') := RecentBatches.refresh (fun d => d) 1 res RecentBatches.initial in
  req = Some (ClientApi.batch_get_request (JNum 1) (JNum 1) (JObj [])) /\
  length (RecentBatches.recentBatches s') <= 1 /\
  match batches_of (fun d => d) res with
  | inr bs => RecentBatches.render 1 s' =
                match firstn 1 bs with [] => RecentBatches.NoBatches | bs' => RecentBatches.Rows (map RecentBatches.row_of bs') end
  | inl msg => msg <> "" -> RecentBatches.render 1 s' = RecentBatches.Failed (JStr msg)
  end.
Proof. intros b1 b2 res. split; [lia|]. apply (recentBatches_refresh_shows (fun d => d) 1 res). lia. Defined.
