(* ===== verification/Approval.v ===== *)
(** * The request-approval page

    pages/RequestApproval.jsx: the page where a user gathers the invoices
    and manual payments of a payment batch.  Its state ([page]) holds the
    selected invoice ids, the manual payments added on the page, the
    cache [allInvoices] of every invoice seen, the [refreshTrigger] of
    [RecentBatches], the refs [hasFetched] and [lastSyncState], and the
    effects (toasts, timers) it caused.  The invoices and
    [createPayment] come from [useXero] and [useManualPayments]
    ([ClientHooks], [PaymentHooks]); amounts are computed in the host's
    arithmetic ([JsArith]).  The component PaymentSummary, which shows the
    selection and submits the batch, is [Summary]. *)

From S2P Require Import Prelude JsValue ClientApi ClientState ClientHooks JsNumber PaymentForm.
From Stdlib Require Import Ascii.

Module RequestApproval.
Local Open Scope xero_scope.
Import ClientApi.

Record page := mkPage {
  selectedInvoiceIds : list jsval;
  manualPayments : list jsval;
  allInvoices : list (string * jsval);
  refreshTrigger : Z;
  hasFetched : bool;
  lastSyncState : bool;
  effects : list effect
}.

(** The first render, with [isSynced] of the Xero context. *)
Definition initial (isSynced : bool) : page := mkPage [] [] [] 0 false isSynced [].

Definition set_ids (ids : list jsval) (p : page) : page :=
  mkPage ids (manualPayments p) (allInvoices p) (refreshTrigger p) (hasFetched p)
         (lastSyncState p) (effects p).
Definition set_manual (ms : list jsval) (p : page) : page :=
  mkPage (selectedInvoiceIds p) ms (allInvoices p) (refreshTrigger p) (hasFetched p)
         (lastSyncState p) (effects p).
Definition set_cache (c : list (string * jsval)) (p : page) : page :=
  mkPage (selectedInvoiceIds p) (manualPayments p) c (refreshTrigger p) (hasFetched p)
         (lastSyncState p) (effects p).
Definition bump (p : page) : page :=
  mkPage (selectedInvoiceIds p) (manualPayments p) (allInvoices p) (refreshTrigger p + 1)
         (hasFetched p) (lastSyncState p) (effects p).
Definition set_hasFetched (b : bool) (p : page) : page :=
  mkPage (selectedInvoiceIds p) (manualPayments p) (allInvoices p) (refreshTrigger p) b
         (lastSyncState p) (effects p).
Definition set_lastSync (b : bool) (p : page) : page :=
  mkPage (selectedInvoiceIds p) (manualPayments p) (allInvoices p) (refreshTrigger p)
         (hasFetched p) b (effects p).
Definition emit (e : effect) (p : page) : page :=
  mkPage (selectedInvoiceIds p) (manualPayments p) (allInvoices p) (refreshTrigger p)
         (hasFetched p) (lastSyncState p) (effects p ++ [e]).

(** ** The selection *)

(** The [map] of [selectedInvoices]: the available invoice with the id,
    else the cached one ([allInvoices[id]], [undefined] when absent). *)
Fixpoint select_ids (available : list jsval) (cache : list (string * jsval)) (ids : list jsval)
    : string + list jsval :=
  match ids with
  | [] => inr []
  | id :: ids' =>
      found <-? find_by "id" id available ;;
      let v := match found with
               | Some inv => inv
               | None => default JUndef (Js.field (Js.to_string id) cache)
               end in
      rest <-? select_ids available cache ids' ;; inr (v :: rest)
  end.

(** [selectedInvoices]: the [map], then [filter(Boolean)]. *)
Definition selectedInvoices (available : list jsval) (p : page) : string + list jsval :=
  vs <-? select_ids available (allInvoices p) (selectedInvoiceIds p) ;;
  inr (List.filter Js.truthy vs).

(** [handleInvoiceSelectionChange(newSelectedIds)] *)
Definition handleInvoiceSelectionChange (ids : list jsval) (p : page) : page := set_ids ids p.

(** [handleRemoveInvoice(id)] *)
Definition handleRemoveInvoice (id : jsval) (p : page) : page :=
  set_ids (List.filter (fun x => negb (Js.strict_eq x id)) (selectedInvoiceIds p)) p.

(** [handleRemoveManualPayment(id)] *)
Definition handleRemoveManualPayment (id : jsval) (p : page) : string + page :=
  ms <-? reject_by "id" id (manualPayments p) ;; inr (set_manual ms p).

Definition handleClearAllInvoices (p : page) : page := set_ids [] p.

Definition handleClearAllManualPayments (p : page) : page := set_manual [] p.

(** [handleBatchSubmitted()]: clears the selection, bumps
    [refreshTrigger] and schedules the reload of the invoices. *)
Definition handleBatchSubmitted (p : page) : page :=
  emit (Timeout 1000 "loadAvailableInvoices") (bump (set_manual [] (set_ids [] p))).

(** ** Loading the invoices *)

Definition invoice_filters : jsval :=
  JObj [("type", JStr "ACCPAY"); ("status", JStr "AUTHORISED"); ("isAmountDueNull", JBool false)].

(** [loadAvailableInvoices()], with the answer [res] to the request
    [fetchAvailableInvoices_request invoice_filters]: [fetchAvailableInvoices]
    catches every error itself, so the [catch] of the page, and its toast
    "Failed to load invoices. Please try again.", is never reached. *)
Definition loadAvailableInvoices (res : string + jsval) (x : UseXero.hook) : UseXero.hook :=
  snd (UseXero.fetchAvailableInvoices res x).

(** The effect on [[isSynced, isInitializing, loadAvailableInvoices]]:
    the page after it and whether it called [loadAvailableInvoices]. *)
Definition sync_effect (isSynced isInitializing : bool) (p : page) : page * bool :=
  let '(p, load) :=
    if isSynced && negb isInitializing && negb (hasFetched p)
    then (set_hasFetched true p, true) else (p, false) in
  let p := if lastSyncState p && negb isSynced then set_hasFetched false p else p in
  (set_lastSync isSynced p, load).

(** The timer of [handleBatchSubmitted]: [hasFetched.current = false],
    then [loadAvailableInvoices()]. *)
Definition reload_timer (res : string + jsval) (x : UseXero.hook) (p : page) : UseXero.hook * page :=
  (loadAvailableInvoices res x, set_hasFetched false p).

(** [urlParams.has("code") || urlParams.has("state")] *)
Definition has_auth_params (params : list (string * string)) : bool :=
  existsb (fun kv => String.eqb kv.1 "code" || String.eqb kv.1 "state") params.

(** The effect that retries the connection after an authorization
    redirect. *)
Definition auth_params_effect (params : list (string * string)) (isSynced isInitializing : bool)
    (p : page) : page :=
  if has_auth_params params && negb isSynced && negb isInitializing
  then emit (Timeout 2000 "forceRefresh") p else p.

(** The effect that retries after a sync error. *)
Definition retry_effect (syncError : jsval) (isSynced isSyncing isInitializing : bool) (p : page) : page :=
  if Js.truthy syncError && negb isSynced && negb isSyncing && negb isInitializing
  then emit (Timeout 5000 "forceRefresh") p else p.

(** The [forEach] of the cache effect: [invoiceMap[invoice.id] = invoice]. *)
Fixpoint index_invoices (invs : list jsval) (m : list (string * jsval)) : string + list (string * jsval) :=
  match invs with
  | [] => inr m
  | inv :: invs' =>
      if Js.is_nullish inv then inl (type_error inv "id")
      else index_invoices invs' (Js.set_field (Js.to_string (Js.own_value inv "id")) inv m)
  end.

(** The effect on [[availableInvoices]]: [{...prev, ...invoiceMap}]. *)
Definition cache_effect (available : list jsval) (p : page) : string + page :=
  if (0 <? length available)%nat then
    m <-? index_invoices available [] ;; inr (set_cache (spread (allInvoices p) (JObj m)) p)
  else inr p.

(** ** Adding a manual payment *)

Section Payments.
Context {arith : JsArith}.
(** [Date.now()] and [new Date().toISOString()] when the payment object
    is made. *)
Variable now_ms : Z.
Variable now_iso : string.

(** [s.split("T")[0]] *)
Fixpoint before_T (s : string) : string :=
  match s with
  | EmptyString => EmptyString
  | String c s' => if Ascii.eqb c "T" then EmptyString else String c (before_T s')
  end.

(** A [reduce((sum, line) => sum + f(line), 0)]. *)
Fixpoint sum_lines (f : jsval -> string + jsval) (acc : jsval) (ls : list jsval) : string + jsval :=
  match ls with
  | [] => inr acc
  | l :: ls' => x <-? f l ;; sum_lines f (num_add acc x) ls'
  end.

(** [formData.lines?.reduce(..., 0) || 0] *)
Definition reduce_opt (f : jsval -> string + jsval) (lines : jsval) : string + jsval :=
  match lines with
  | JUndef | JNull => inr (JNum 0)
  | JArr ls => s <-? sum_lines f (JNum 0) ls ;; inr (Js.or s (JNum 0))
  | _ => inl "formData.lines?.reduce is not a function"
  end.

(** [parseFloat(line.line_amount) || 0] *)
Definition line_amount (line : jsval) : string + jsval :=
  a <-? read line "line_amount" ;; inr (Js.or (parse_float a) (JNum 0)).

(** [lineAmount * taxRate] *)
Definition line_tax (line : jsval) : string + jsval :=
  a <-? line_amount line ;;
  r <-? read line "tax_rate" ;;
  inr (num_mul a (Js.or (parse_float r) (JNum 0))).

(** [createPaymentObject(formData, result)] *)
Definition createPaymentObject (formData result : jsval) : string + jsval :=
  lines <-? read formData "lines" ;;
  subTotal <-? reduce_opt line_amount lines ;;
  totalTax <-? reduce_opt line_tax lines ;;
  let f := Js.own_value formData in
  let ref := opt_read (Js.own_value result "data") "payment_reference" in
  inr (JObj [("id", Js.or ref (JStr ("manual_" +:+ Js.to_string (JNum now_ms))));
             ("contactName", f "contact_name");
             ("contactID", f "contact_id");
             ("status", Js.or (f "status") (JStr "DRAFTED"));
             ("taxIncl", Js.or (f "taxIncl") (JBool false));
             ("subTotal", subTotal);
             ("totalTax", totalTax);
             ("total", num_add subTotal totalTax);
             ("lineItems", Js.or lines (JArr []));
             ("invoiceNumber", Js.or ref (JStr ""));
             ("reference", Js.or ref (Js.or (f "reference") (JStr "")));
             ("description", Js.or (f "description") (JStr ""));
             ("date", Js.or (f "payment_date") (JStr (before_T now_iso)));
             ("currency", Js.or (f "currency_code") (JStr "SGD"));
             ("isManualPayment", JBool true);
             ("createdAt", JStr now_iso)]).

(** [result.errors && result.errors.length > 0]: arrays and strings
    have a [length]; an object may have one of its own. *)
Definition has_errors (errs : jsval) : bool :=
  match errs with
  | JArr l => (0 <? length l)%nat
  | JStr s => (0 <? String.length s)%nat
  | JObj _ => match Js.own_value errs "length" with JNum n => (0 <? n)%Z | _ => false end
  | _ => false
  end.

(** [result.errors.forEach((error) => toast.error(error.message))]: the
    page after the toasts shown, and the error an element that is [null]
    or [undefined] throws after them. *)
Fixpoint toast_each (errs : list jsval) (p : page) : option string * page :=
  match errs with
  | [] => (None, p)
  | e :: errs' =>
      match read e "message" with
      | inl msg => (Some msg, p)
      | inr m => toast_each errs' (emit (Toast false (Js.to_string m)) p)
      end
  end.

(** [handleAddManualPayment(formData)], where [createPayment(formData)]
    returned [result] (it returns a value on every path): what it
    returns, and the page after it. *)
Definition handleAddManualPayment (result formData : jsval) (p : page) : jsval * page :=
  let caught msg p :=
    (JObj [("success", JBool false); ("error", JStr msg)],
     emit (Toast false (if String.eqb msg "" then "Failed to create manual payment. Please try again."
                        else msg)) p) in
  match read result "success" with
  | inl msg => caught msg p
  | inr s =>
      if Js.truthy s then
        match createPaymentObject formData result with
        | inr payment => (JObj [("success", JBool true); ("data", payment)],
                          set_manual (manualPayments p ++ [payment]) p)
        | inl msg => caught msg p
        end
      else
        let errorMessage := Js.or (Js.own_value result "error") (JStr "Failed to create manual payment") in
        let errs := Js.own_value result "errors" in
        let out := JObj [("success", JBool false); ("error", errorMessage); ("errors", errs)] in
        if has_errors errs then
          match errs with
          | JArr l =>
              match toast_each l p with
              | (None, p) => (out, p)
              | (Some msg, p) => caught msg p
              end
          | _ => caught "result.errors.forEach is not a function" p
          end
        else (out, emit (Toast false (Js.to_string errorMessage)) p)
  end.

End Payments.

(** ** What adding a manual payment does *)

Section AddPayment.
Context {arith : JsArith} {arith_ok : JsArithOk}.
Variable now_ms : Z.
Variable now_iso : string.

(** The lines of the form data: amount [ar.1] and tax rate [ar.2]. *)
Definition lines_amounts (ls : list jsval) (ars : list (Z * Z)) : Prop :=
  Forall2 (fun line ar => Js.own_value line "line_amount" = JNum ar.1 /\
                          Js.own_value line "tax_rate" = JNum ar.2) ls ars.

Lemma sum_lines_spec f (g : Z * Z -> Z) t ls ars :
  Forall2 (fun line ar => f line = inr (JNum (g ar))) ls ars ->
  sum_lines f (JNum t) ls = inr (JNum (t + foldr (fun ar s => g ar + s)%Z 0%Z ars)).
Proof.
  intros Hf. revert t. induction Hf as [|l ar ls ars Hl Hf IH]; intros t; simpl.
  - by rewrite Z.add_0_r.
  - rewrite Hl. cbn [ex_bind]. rewrite num_add_int, IH. do 2 f_equal. lia.
Qed.

Lemma reduce_opt_spec f (g : Z * Z -> Z) ls ars :
  Forall2 (fun line ar => f line = inr (JNum (g ar))) ls ars ->
  reduce_opt f (JArr ls) = inr (JNum (foldr (fun ar s => g ar + s)%Z 0%Z ars)).
Proof. intros Hf. simpl. rewrite (sum_lines_spec _ _ 0 _ _ Hf). simpl. by rewrite or_num_zero. Qed.

Lemma line_amount_num ls ars :
  lines_amounts ls ars -> Forall2 (fun line ar => line_amount line = inr (JNum ar.1)) ls ars.
Proof.
  intros H. eapply Forall2_impl; [exact H|]. intros l ar [Ha _]. unfold line_amount.
  rewrite (read_num _ _ _ Ha). cbn [ex_bind]. by rewrite parse_float_int, or_num_zero.
Qed.

Lemma line_tax_num ls ars :
  lines_amounts ls ars -> Forall2 (fun line ar => line_tax line = inr (JNum (ar.1 * ar.2))) ls ars.
Proof.
  intros H. eapply Forall2_impl; [exact H|]. intros l ar [Ha Hr]. unfold line_tax, line_amount.
  rewrite (read_num _ _ _ Ha). cbn [ex_bind]. rewrite parse_float_int, or_num_zero. cbn [ex_bind].
  rewrite (read_num _ _ _ Hr). cbn [ex_bind]. by rewrite parse_float_int, or_num_zero, num_mul_int.
Qed.

Lemma reference_total_split ars :
  (foldr (fun ar s => ar.1 + s) 0 ars + foldr (fun ar s => ar.1 * ar.2 + s) 0 ars)%Z =
  foldr (fun ar s => ar.1 + ar.1 * ar.2 + s)%Z 0%Z ars.
Proof. induction ars as [|ar ars IH]; simpl; lia. Qed.

Lemma truthy_defined v : Js.truthy v = true -> v <> JUndef.
Proof. by intros Ht ->. Qed.

(** When [createPayment] reports success, [handleAddManualPayment]
    appends exactly one payment object to the page's manual payments
    and returns it; its [subTotal] is the sum of the line amounts, its
    [totalTax] the sum of amount × tax rate, and its [total] their sum:
    the total the form showed ([calculateTotalAmount]). *)
Theorem handleAddManualPayment_adds_total result formData p ls ars :
  Js.truthy (Js.own_value result "success") = true ->
  Js.own_value formData "lines" = JArr ls -> lines_amounts ls ars ->
  exists payment,
    handleAddManualPayment now_ms now_iso result formData p =
      (JObj [("success", JBool true); ("data", payment)], set_manual (manualPayments p ++ [payment]) p) /\
    Js.own_value payment "subTotal" = JNum (foldr (fun ar s => ar.1 + s)%Z 0%Z ars) /\
    Js.own_value payment "totalTax" = JNum (foldr (fun ar s => ar.1 * ar.2 + s)%Z 0%Z ars) /\
    Js.own_value payment "total" = JNum (foldr (fun ar s => ar.1 + ar.1 * ar.2 + s)%Z 0%Z ars).
Proof.
  intros Hs Hl Ha. unfold handleAddManualPayment.
  rewrite (read_defined _ _ (truthy_defined _ Hs)), Hs. unfold createPaymentObject.
  rewrite (read_defined _ _ ltac:(by rewrite Hl)), Hl. cbn [ex_bind].
  rewrite (reduce_opt_spec _ _ _ _ (line_amount_num _ _ Ha)),
          (reduce_opt_spec _ _ _ _ (line_tax_num _ _ Ha)).
  cbn [ex_bind]. eexists. split_and!; [reflexivity|reflexivity|reflexivity|].
  simpl. by rewrite num_add_int, reference_total_split.
Qed.

(** The page after the effects [ts], in order. *)
Definition emits (ts : list effect) (p : page) : page := fold_left (fun p e => emit e p) ts p.

Definition error_toasts (ts : list effect) : Prop := Forall (fun e => exists m, e = Toast false m) ts.

Lemma emits_snoc ts e p : emit e (emits ts p) = emits (ts ++ [e]) p.
Proof. unfold emits. by rewrite fold_left_app. Qed.

Lemma toast_each_spec l p o p' :
  toast_each l p = (o, p') ->
  exists ts, p' = emits ts p /\ error_toasts ts /\ (o = None -> length ts = length l).
Proof.
  revert p. induction l as [|e l IH]; intros p H; simpl in H.
  - injection H as <- <-. exists []. split_and!; [done|constructor|done].
  - destruct (read e "message") as [msg|m]; [injection H as <- <-; exists []; split_and!; [done|constructor|discriminate]|].
    destruct (IH _ H) as (ts & -> & Hts & Hlen).
    exists (Toast false (Js.to_string m) :: ts). split_and!; [done|by constructor; eauto|].
    intros Ho. simpl. by rewrite Hlen.
Qed.

Lemma caught_spec ts p msg :
  error_toasts ts ->
  exists ts', emit (Toast false (if String.eqb msg "" then "Failed to create manual payment. Please try again."
                                  else msg)) (emits ts p) = emits ts' p /\ error_toasts ts' /\ ts' <> [].
Proof.
  intros Hts. eexists. rewrite emits_snoc. split_and!; [reflexivity| |by destruct ts].
  apply Forall_app; split; [done|]. repeat constructor. eauto.
Qed.

(** When [createPayment] reports a failure, the page adds no
    payment and changes nothing but its toasts: it returns
    [success: false] and shows one error toast or more (one per error
    of [result.errors], or the error message). *)
Theorem handleAddManualPayment_failure result formData p :
  Js.is_nullish result = false -> Js.truthy (Js.own_value result "success") = false ->
  exists ts,
    snd (handleAddManualPayment now_ms now_iso result formData p) = emits ts p /\
    Js.own_value (fst (handleAddManualPayment now_ms now_iso result formData p)) "success" = JBool false /\
    error_toasts ts /\ ts <> [].
Proof.
  intros Hn Hs. unfold handleAddManualPayment, read. rewrite Hn, Hs. simpl.
  destruct (has_errors _) eqn:He.
  - destruct (Js.own_value result "errors") as [| | | |s|l|fs] eqn:Eerr;
      try (destruct (caught_spec [] p "result.errors.forEach is not a function") as (ts & H1 & H2 & H3);
           [constructor|]; exists ts; by split_and!).
    destruct (toast_each l p) as [[msg|] p'] eqn:Et;
      destruct (toast_each_spec _ _ _ _ Et) as (ts & -> & Hts & Hlen).
    + destruct (caught_spec ts p msg Hts) as (ts' & H1 & H2 & H3). exists ts'. by split_and!.
    + exists ts. split_and!; [done|done|done|]. intros ->. simpl in He.
      rewrite <- Hlen in He by done. done.
  - exists [Toast false (Js.to_string (Js.or (Js.own_value result "error")
                                              (JStr "Failed to create manual payment")))].
    split_and!; [done|done|repeat constructor; eauto|done].
Qed.

End AddPayment.

(** ** The invoices are loaded once per connection *)

(** Successive runs of the effect on [[isSynced, isInitializing]], each
    with the values of that render: the page after them and the number
    of calls of [loadAvailableInvoices]. *)
Fixpoint sync_runs (runs : list (bool * bool)) (p : page) : page * nat :=
  match runs with
  | [] => (p, 0%nat)
  | (synced, init) :: runs' =>
      let '(p, load) := sync_effect synced init p in
      let '(p, n) := sync_runs runs' p in
      (p, ((if load then 1 else 0) + n)%nat)
  end.

Lemma sync_effect_synced init p :
  sync_effect true init p =
  (set_lastSync true (if negb init && negb (hasFetched p) then set_hasFetched true p else p),
   negb init && negb (hasFetched p)).
Proof. unfold sync_effect. destruct init, (hasFetched p); simpl; by rewrite andb_false_r. Qed.

Lemma sync_runs_synced runs p :
  Forall (fun r => r.1 = true) runs ->
  hasFetched (fst (sync_runs runs p)) = hasFetched p || negb (forallb snd runs) /\
  snd (sync_runs runs p) = if hasFetched p || forallb snd runs then 0%nat else 1%nat.
Proof.
  intros Hr. revert p. induction Hr as [|[s i] runs Hs Hr IH]; intros p; simpl in *.
  - by rewrite orb_false_r, orb_true_r.
  - subst s. rewrite sync_effect_synced.
    destruct (sync_runs runs _) as [p' n] eqn:E. simpl.
    destruct (IH (set_lastSync true (if negb i && negb (hasFetched p) then set_hasFetched true p else p)))
      as [IH1 IH2].
    rewrite E in IH1, IH2. simpl in IH1, IH2. rewrite IH1, IH2.
    destruct i, (hasFetched p) eqn:Hf, (forallb snd runs); simpl; rewrite ?Hf; auto.
Qed.

Lemma sync_runs_lastSync runs p :
  Forall (fun r => r.1 = true) runs -> runs <> [] -> lastSyncState (fst (sync_runs runs p)) = true.
Proof.
  intros Hr. revert p. induction Hr as [|[s i] runs Hs Hr IH]; intros p Hne; [done|].
  simpl in Hs. subst s. simpl. rewrite sync_effect_synced.
  destruct runs as [|r runs]; [done|].
  specialize (IH (set_lastSync true (if negb i && negb (hasFetched p) then set_hasFetched true p else p))).
  destruct (sync_runs _ _). by apply IH.
Qed.

(** C40. The page loads the available invoices once per connection:
    over any runs of its effect while the context is synced, it calls
    [loadAvailableInvoices] exactly once if one of the runs comes after
    the initialization and the invoices were not fetched yet, and never
    otherwise; after them, a run that sees the connection lost clears
    [hasFetched], so that the next connection loads them again. *)
Theorem sync_loads_once runs p :
  Forall (fun r => r.1 = true) runs ->
  snd (sync_runs runs p) = (if hasFetched p || forallb snd runs then 0 else 1)%nat /\
  (runs <> [] -> forall init,
     hasFetched (fst (sync_effect false init (fst (sync_runs runs p)))) = false).
Proof.
  intros Hr. split; [apply sync_runs_synced, Hr|].
  intros Hne init. unfold sync_effect. simpl. by rewrite sync_runs_lastSync.
Qed.

(** ** Examples *)

Lemma sync_loads_once_witness :
  Forall (fun r => r.1 = true) [(true, true); (true, false); (true, false)] /\
  snd (sync_runs [(true, true); (true, false); (true, false)] (initial true)) = 1%nat.
Proof.
  split; [repeat constructor|].
  exact (proj1 (sync_loads_once [(true, true); (true, false); (true, false)] (initial true)
                  ltac:(repeat constructor))).
Defined.

Definition created : jsval :=
  JObj [("success", JBool true); ("data", JObj [("payment_reference", JStr "MP-1")])].

Definition one_line_form : jsval :=
  JObj [("contact_name", JStr "Acme");
        ("lines", JArr [JObj [("line_amount", JNum 100); ("tax_rate", JNum 1)]])].

Lemma handleAddManualPayment_adds_total_witness :
  exists payment,
    handleAddManualPayment (arith := int_arith) 0 "2025-01-01T00:00:00Z" created one_line_form
      (initial true) =
      (JObj [("success", JBool true); ("data", payment)], set_manual [payment] (initial true)) /\
    Js.own_value payment "total" = JNum 200.
Proof.
  destruct (handleAddManualPayment_adds_total (arith_ok := int_arith_ok) 0 "2025-01-01T00:00:00Z"
              created one_line_form (initial true)
              [JObj [("line_amount", JNum 100); ("tax_rate", JNum 1)]] [(100, 1)]%Z
              eq_refl eq_refl ltac:(repeat constructor)) as (payment & E & _ & _ & Ht).
  exists payment. split; [exact E|exact Ht].
Defined.

Definition rejected : jsval :=
  JObj [("success", JBool false); ("error", JStr "Invalid");
        ("errors", JArr [JObj [("message", JStr "Contact is required")]])].

Lemma handleAddManualPayment_failure_witness :
  Js.is_nullish rejected = false /\ Js.truthy (Js.own_value rejected "success") = false /\
  exists ts,
    snd (handleAddManualPayment (arith := int_arith) 0 "" rejected one_line_form (initial true)) =
      emits ts (initial true) /\ error_toasts ts /\ ts <> [].
Proof.
  split_and!; [reflexivity|reflexivity|].
  destruct (handleAddManualPayment_failure (arith := int_arith) 0 "" rejected one_line_form
              (initial true) eq_refl eq_refl) as (ts & H1 & _ & H2 & H3).
  exists ts. split_and!; assumption.
Defined.

End RequestApproval.

(** ** components/request-approval/ManualPayment.jsx *)

Module ManualPayment.
Local Open Scope xero_scope.

(** The card's [showForm] and [loading]. *)
Record card := mkCard { showForm : bool; loading : bool }.

Definition initial : card := mkCard false false.

(** The button [setShowForm(!showForm)], disabled while [loading]. *)
Definition toggle (c : card) : card := if loading c then c else mkCard (negb (showForm c)) (loading c).

(** [handleCancel()] *)
Definition handleCancel (c : card) : card := mkCard false (loading c).

(** [handleSubmit(formData)], the [onSubmit] of its [CreatePaymentForm],
    where [onAddPayment(formData)] returned or threw [result]: what it
    returns or rethrows, and the card after its [finally]. *)
Definition handleSubmit (result : string + jsval) (c : card) : (string + jsval) * card :=
  let c := match result with
           | inr r => if Js.truthy r && negb (Js.strict_eq (Js.own_value r "success") (JBool false))
                      then mkCard false (loading c) else c
           | inl _ => c
           end in
  (result, mkCard (showForm c) false).

End ManualPayment.

(** ** The card closes its form exactly when the page added the payment *)

Section ManualPaymentCard.
Import ClientApi RequestApproval.
Context {arith : JsArith}.
Variable now_ms : Z.
Variable now_iso : string.

Lemma emits_manual ts p : manualPayments (emits ts p) = manualPayments p.
Proof. unfold emits. revert p. induction ts as [|e ts IH]; intros p; [done|]. simpl. by rewrite IH. Qed.

Lemma toast_each_manual l p o p' : toast_each l p = (o, p') -> manualPayments p' = manualPayments p.
Proof. intros H. destruct (toast_each_spec _ _ _ _ H) as (ts & -> & _). apply emits_manual. Qed.

(** The answer of the page reaches the card, which is no longer
    loading, and one of the two outcomes holds. *)
Local Ltac card_done := simpl; split_and!; [done|done|first [left; by eexists | right; by split]].

(** [<ManualPayment onAddPayment={handleAddManualPayment} />] of the
    request-approval page: after a submission whatever [createPayment]
    returned, the card's spinner is off and it passes the page's answer
    on to the form; the page added exactly one payment and the form is
    closed, or the page's payments are unchanged and the form stays as
    it was. *)
Theorem manual_payment_card_closes_iff_added result formData p c :
  let '(out, p') := handleAddManualPayment now_ms now_iso result formData p in
  let '(ret, c') := ManualPayment.handleSubmit (inr out) c in
  ret = inr out /\ ManualPayment.loading c' = false /\
  ((exists payment, manualPayments p' = manualPayments p ++ [payment] /\ ManualPayment.showForm c' = false) \/
   (manualPayments p' = manualPayments p /\ ManualPayment.showForm c' = ManualPayment.showForm c)).
Proof.
  unfold handleAddManualPayment.
  destruct (read result "success") as [msg|sv]; [card_done|].
  destruct (Js.truthy sv).
  - destruct (createPaymentObject now_ms now_iso formData result); card_done.
  - destruct (has_errors _); [|card_done].
    destruct (Js.own_value result "errors"); try card_done.
    destruct (toast_each _ p) as [[m|] p'] eqn:Et; simpl; rewrite (toast_each_manual _ _ _ _ Et); card_done.
Qed.

End ManualPaymentCard.
