(* ===== verification/Selection.v ===== *)
(** * The selection of invoices

    The ids of the invoices selected on the request-approval page
    ([RequestApproval.selectedInvoiceIds], [Approval]) change through
    the checkboxes of components/table/TableData.jsx (one row, or every
    row of the page shown), the Select All and Clear All buttons of
    components/request-approval/AvailableInvoices.jsx, and the page's own
    handlers (a removal from the summary, clearing, a submitted batch).
    [includes] is [===] on the values of [JsValue] (SameValueZero differs
    from it on [NaN] only), and [[...new Set(xs)]] keeps the first of the
    values [===] to each other, in order.  The theorem of this file: the
    selected ids, strings, never hold one twice. *)

From S2P Require Import Prelude JsValue ClientApi Approval.

(** ** components/table/TableData.jsx: the selection *)

Module TableData.
Local Open Scope xero_scope.
Import ClientApi.

(** [selectedIds.includes(x)] *)
Definition includes (x : jsval) (xs : list jsval) : bool := existsb (Js.strict_eq x) xs.

(** [[...new Set(xs)]], the values not seen before, in order. *)
Fixpoint set_from (seen xs : list jsval) : list jsval :=
  match xs with
  | [] => []
  | x :: xs' => if includes x seen then set_from seen xs' else x :: set_from (x :: seen) xs'
  end.

Definition set_of (xs : list jsval) : list jsval := set_from [] xs.

(** [getRowId(row)]: [row[rowIdKey] || row.id]. *)
Definition getRowId (rowIdKey : string) (row : jsval) : string + jsval :=
  v <-? read row rowIdKey ;; inr (Js.or v (Js.own_value row "id")).

(** [data.map((row) => getRowId(row))] *)
Fixpoint row_ids (rowIdKey : string) (data : list jsval) : string + list jsval :=
  match data with
  | [] => inr []
  | row :: data' => id <-? getRowId rowIdKey row ;; rest <-? row_ids rowIdKey data' ;; inr (id :: rest)
  end.

(** [toggleSelectRow(e, rowId)]: the ids it passes on. *)
Definition toggleSelectRow (rowId : jsval) (selectedIds : list jsval) : list jsval :=
  if includes rowId selectedIds
  then List.filter (fun id => negb (Js.strict_eq id rowId)) selectedIds
  else selectedIds ++ [rowId].

(** [toggleSelectAll(checked)] on the rows [data] of the page shown. *)
Definition toggleSelectAll (rowIdKey : string) (checked : bool) (data selectedIds : list jsval)
    : string + list jsval :=
  pageIds <-? row_ids rowIdKey data ;;
  inr (if checked then set_of (selectedIds ++ pageIds)
       else List.filter (fun id => negb (includes id pageIds)) selectedIds).

(** The state of the table: [internalSelectedIds] and [selectAll]. *)
Record table := mkTable { internalSelectedIds : list jsval; selectAll : bool }.

(** [selectedIds]: the parent's when it passes them. *)
Definition selectedIds (external : option (list jsval)) (t : table) : list jsval :=
  default (internalSelectedIds t) external.

(** [handleSelectionChange(newSelectedIds)]: the table after it and the
    ids passed to [onSelectionChange]. *)
Definition handleSelectionChange (external : option (list jsval)) (ids : list jsval) (t : table)
    : table * list jsval :=
  match external with
  | Some _ => (t, ids)
  | None => (mkTable ids (selectAll t), ids)
  end.

(** [xs.every(f)] and [xs.some(f)] with a callback that may throw:
    they stop at the first [false], and at the first [true]. *)
Fixpoint js_every {A} (f : A -> string + bool) (xs : list A) : string + bool :=
  match xs with
  | [] => inr true
  | x :: xs' => b <-? f x ;; (if b then js_every f xs' else inr false)
  end.

Fixpoint js_some {A} (f : A -> string + bool) (xs : list A) : string + bool :=
  match xs with
  | [] => inr false
  | x :: xs' => b <-? f x ;; (if b then inr true else js_some f xs')
  end.

(** The effect on [[data, selectedIds]]: [selectAll] is
    [data.length > 0 && data.every((row) => selectedIds.includes(getRowId(row)))]. *)
Definition all_selected (rowIdKey : string) (data ids : list jsval) : string + bool :=
  if Nat.eqb (length data) 0 then inr false
  else js_every (fun row => id <-? getRowId rowIdKey row ;; inr (includes id ids)) data.

End TableData.

(** ** components/request-approval/AvailableInvoices.jsx *)

Module AvailableInvoices.
Local Open Scope xero_scope.
Import ClientApi TableData.

(** [availableInvoices.map((inv) => inv.id)] *)
Fixpoint invoice_ids (invs : list jsval) : string + list jsval :=
  match invs with
  | [] => inr []
  | inv :: invs' => id <-? read inv "id" ;; rest <-? invoice_ids invs' ;; inr (id :: rest)
  end.

(** [handleSelectAll()]: the ids it passes to [onInvoiceSelect]. *)
Definition handleSelectAll (available selectedIds : list jsval) : string + list jsval :=
  allIds <-? invoice_ids available ;; inr (set_of (selectedIds ++ allIds)).

(** [handleClearAll()] *)
Definition handleClearAll : list jsval := [].

(** [selectedIds.includes(inv.id)] *)
Definition selected_inv (selectedIds : list jsval) (inv : jsval) : string + bool :=
  id <-? read inv "id" ;; inr (includes id selectedIds).

(** [allSelected] and [someSelected], which disable the buttons. *)
Definition allSelected (available selectedIds : list jsval) : string + bool :=
  if Nat.eqb (length available) 0 then inr false else js_every (selected_inv selectedIds) available.
Definition someSelected (available selectedIds : list jsval) : string + bool :=
  js_some (selected_inv selectedIds) available.

(** The props of the card's [ClientPaginatedTable]. *)
Record invoices_table := mkTableProps {
  t_data : list jsval; t_selectedIds : list jsval; t_loading : bool; t_error : jsval;
  t_emptyMessage : string; t_rowIdKey : string; t_searchable : bool; t_searchKeys : list string;
  t_initialPageSize : Z; t_pageSizeOptions : list Z
}.

Inductive view :=
| ErrorCard (error : jsval)                 (** [<div className="text-red-500">{error}</div>] *)
| InvoicesCard (selectAllDisabled clearAllDisabled : bool) (table : invoices_table).

(** The render: [allSelected] and [someSelected] are computed before the
    [if (error)] return. *)
Definition render (available selectedIds : list jsval) (isLoading : bool) (error : jsval) : string + view :=
  let error := if Js.is_undef error then JNull else error in
  all <-? allSelected available selectedIds ;;
  some <-? someSelected available selectedIds ;;
  if Js.truthy error then inr (ErrorCard error)
  else inr (InvoicesCard (all || isLoading) (negb some || isLoading)
              (mkTableProps available selectedIds isLoading error "No invoices available" "id" false
                 ["invoiceNumber"; "contactName"; "reference"; "total"] 10 [10; 25; 50; 100]%Z)).

End AvailableInvoices.

(** ** The selection of the page *)

Module InvoiceSelection.
Local Open Scope xero_scope.
Import ClientApi TableData AvailableInvoices RequestApproval.

(** What the user does to the selection: a row's checkbox and the
    header checkbox of the table (on the rows of the page shown), the
    buttons of AvailableInvoices, and the page's handlers. *)
Inductive event :=
| ToggleRow (row : jsval)
| ToggleAll (checked : bool)
| SelectAll
| ClearAll
| Remove (id : jsval)
| ClearInvoices
| BatchSubmitted.

(** The page after [e]; the table of AvailableInvoices shows the rows
    [shown] of the invoices [available], with [rowIdKey] ["id"], and
    passes the ids to [handleInvoiceSelectionChange]. *)
Definition on_event (available shown : list jsval) (e : event) (p : page) : string + page :=
  let ids := selectedInvoiceIds p in
  match e with
  | ToggleRow row =>
      id <-? getRowId "id" row ;; inr (handleInvoiceSelectionChange (toggleSelectRow id ids) p)
  | ToggleAll checked =>
      ids' <-? toggleSelectAll "id" checked shown ids ;; inr (handleInvoiceSelectionChange ids' p)
  | SelectAll => ids' <-? handleSelectAll available ids ;; inr (handleInvoiceSelectionChange ids' p)
  | ClearAll => inr (handleInvoiceSelectionChange handleClearAll p)
  | Remove id => inr (handleRemoveInvoice id p)
  | ClearInvoices => inr (handleClearAllInvoices p)
  | BatchSubmitted => inr (handleBatchSubmitted p)
  end.

(** The event sequence [es], each with the invoices available and the
    rows shown when it happens. *)
Fixpoint run_events (es : list (list jsval * list jsval * event)) (p : page) : string + page :=
  match es with
  | [] => inr p
  | (available, shown, e) :: es' => p' <-? on_event available shown e p ;; run_events es' p'
  end.

(** ** The selected ids never hold one twice *)

(** A row or an invoice whose [id] is a string. *)
Definition str_id (row : jsval) : Prop := exists s, Js.own_value row "id" = JStr s.

Definition is_str (x : jsval) : Prop := exists s, x = JStr s.

(** The selection: strings, none twice. *)
Definition ids_ok (ids : list jsval) : Prop := Forall is_str ids /\ NoDup ids.

Definition event_ok (e : event) : Prop :=
  match e with ToggleRow row => str_id row | _ => True end.

Lemma strict_eq_str s y : Js.strict_eq (JStr s) y = true <-> y = JStr s.
Proof.
  destruct y; simpl; split; intros H; try discriminate; try (injection H as <-).
  - apply String.eqb_eq in H. by subst.
  - apply String.eqb_refl.
Qed.

Lemma includes_str s l : includes (JStr s) l = true <-> JStr s ∈ l.
Proof.
  unfold includes. rewrite existsb_exists. split.
  - intros (y & Hy & E). apply strict_eq_str in E. subst. by apply list_elem_of_In.
  - intros Hin. exists (JStr s). split; [by apply list_elem_of_In|by apply strict_eq_str].
Qed.

Lemma str_id_getRowId row : str_id row -> exists s, getRowId "id" row = inr (JStr s).
Proof.
  intros [s Hs]. unfold getRowId, read. destruct (Js.is_nullish row) eqn:E.
  - by destruct row.
  - rewrite Hs. exists s. unfold Js.or. simpl. by destruct (String.eqb s "").
Qed.

Lemma row_ids_str rows : Forall str_id rows -> exists ids, row_ids "id" rows = inr ids /\ Forall is_str ids.
Proof.
  induction 1 as [|row rows Hr _ (ids & E & Hids)]; [by exists []|].
  destruct (str_id_getRowId row Hr) as [s Hs]. simpl. rewrite Hs. cbn [ex_bind]. rewrite E.
  eexists; split; [reflexivity|]. constructor; [by eexists|done].
Qed.

Lemma invoice_ids_str invs : Forall str_id invs -> exists ids, invoice_ids invs = inr ids /\ Forall is_str ids.
Proof.
  induction 1 as [|inv invs [s Hs] _ (ids & E & Hids)]; [by exists []|].
  simpl. rewrite (read_defined inv "id" ltac:(by rewrite Hs)), Hs. cbn [ex_bind]. rewrite E.
  eexists; split; [reflexivity|]. constructor; [by eexists|done].
Qed.

Lemma set_from_ok seen xs :
  Forall is_str xs -> ids_ok (set_from seen xs) /\ forall y, y ∈ set_from seen xs -> y ∉ seen /\ y ∈ xs.
Proof.
  intros Hxs. revert seen. induction Hxs as [|x xs [s ->] Hxs IH]; intros seen; simpl.
  - split; [split; constructor|]. intros y Hy. by apply elem_of_nil in Hy.
  - destruct (includes (JStr s) seen) eqn:E.
    + destruct (IH seen) as [Hok Hin]. split; [done|]. intros y Hy. split; [by apply Hin|].
      apply elem_of_cons. right. by apply Hin.
    + destruct (IH (JStr s :: seen)) as [[Hs Hn] Hin]. split; [split|].
      * constructor; [by eexists|done].
      * constructor; [|done]. intros Hy. apply Hin in Hy as [Hy _]. apply Hy. by left.
      * intros y Hy. apply elem_of_cons in Hy as [->|Hy].
        -- split; [|by left]. intros Hy. apply includes_str in Hy. congruence.
        -- apply Hin in Hy as [Hy1 Hy2]. split; [intros ?; apply Hy1; by right|by right].
Qed.

Lemma ids_ok_filter f ids : ids_ok ids -> ids_ok (List.filter f ids).
Proof.
  intros [Hs Hn]. split.
  - apply Forall_forall. intros x Hx. apply list_elem_of_In, filter_In in Hx as [Hx _].
    rewrite Forall_forall in Hs. apply Hs. by apply list_elem_of_In.
  - apply NoDup_ListNoDup, List.NoDup_filter, NoDup_ListNoDup, Hn.
Qed.

Lemma ids_ok_toggleSelectRow s ids : ids_ok ids -> ids_ok (toggleSelectRow (JStr s) ids).
Proof.
  intros Hok. unfold toggleSelectRow. destruct (includes (JStr s) ids) eqn:E; [by apply ids_ok_filter|].
  destruct Hok as [Hs Hn]. split.
  - apply Forall_app. split; [done|]. constructor; [by eexists|constructor].
  - apply NoDup_app. split_and!; [done| |by apply NoDup_singleton].
    intros x Hx Hx'. apply list_elem_of_singleton in Hx' as ->.
    assert (includes (JStr s) ids = true) by by apply includes_str. congruence.
Qed.

Lemma ids_ok_set_of xs : Forall is_str xs -> ids_ok (set_of xs).
Proof. intros H. exact (proj1 (set_from_ok [] xs H)). Qed.

Lemma ids_ok_nil : ids_ok [].
Proof. split; constructor. Qed.

Lemma on_event_ok available shown e p p' :
  Forall str_id available -> Forall str_id shown -> event_ok e ->
  ids_ok (selectedInvoiceIds p) -> on_event available shown e p = inr p' ->
  ids_ok (selectedInvoiceIds p').
Proof.
  intros Ha Hsh He Hok H. destruct e as [row|checked| | |id| |]; simpl in H.
  - destruct (str_id_getRowId row He) as [s Hs]. rewrite Hs in H. injection H as <-.
    by apply ids_ok_toggleSelectRow.
  - destruct (row_ids_str shown Hsh) as (ids & E & Hids). unfold toggleSelectAll in H.
    rewrite E in H. injection H as <-. simpl. destruct checked; [|by apply ids_ok_filter].
    apply ids_ok_set_of, Forall_app. split; [apply Hok|done].
  - destruct (invoice_ids_str available Ha) as (ids & E & Hids). unfold handleSelectAll in H.
    rewrite E in H. injection H as <-. apply ids_ok_set_of, Forall_app. split; [apply Hok|done].
  - injection H as <-. apply ids_ok_nil.
  - injection H as <-. by apply ids_ok_filter.
  - injection H as <-. apply ids_ok_nil.
  - injection H as <-. apply ids_ok_nil.
Qed.

(** C26. The invoices selected on the request-approval page are
    never selected twice: from the first render, through any sequence
    of row and header checkboxes of the table, Select All and Clear All
    of AvailableInvoices, and the page's removal, clearing and batch
    submission, on invoices whose ids are strings, the selected ids are
    strings and pairwise distinct; so the batch submitted cannot list an
    invoice twice. *)
Theorem selection_no_duplicates (synced : bool) es p :
  Forall (fun '(available, shown, e) =>
            Forall str_id available /\ Forall str_id shown /\ event_ok e) es ->
  run_events es (initial synced) = inr p -> ids_ok (selectedInvoiceIds p).
Proof.
  intros Hes. assert (Hok0 : ids_ok (selectedInvoiceIds (initial synced))) by apply ids_ok_nil.
  revert Hok0. generalize (initial synced) as p0. induction Hes as [|[[av sh] e] es (Ha & Hsh & He) Hes IH]; intros p0 Hok0 H.
  - by injection H as <-.
  - simpl in H. destruct (on_event av sh e p0) as [|p1] eqn:E; [discriminate|].
    apply (IH p1); [|exact H]. exact (on_event_ok _ _ _ _ _ Ha Hsh He Hok0 E).
Qed.

Definition inv_a : jsval := JObj [("id", JStr "INV-A"); ("total", JNum 10)].
Definition inv_b : jsval := JObj [("id", JStr "INV-B"); ("total", JNum 20)].

(** Select All, then uncheck a row, then check the header box of the
    page. *)
Definition sample_events : list (list jsval * list jsval * event) :=
  [([inv_a; inv_b], [inv_a; inv_b], SelectAll);
   ([inv_a; inv_b], [inv_a; inv_b], ToggleRow inv_a);
   ([inv_a; inv_b], [inv_a; inv_b], ToggleAll true)].

Lemma selection_no_duplicates_witness :
  exists p, run_events sample_events (initial true) = inr p /\
    selectedInvoiceIds p = [JStr "INV-B"; JStr "INV-A"] /\ ids_ok (selectedInvoiceIds p).
Proof.
  destruct (run_events sample_events (initial true)) as [e|p] eqn:E; [vm_compute in E; discriminate|].
  exists p. split_and!; [reflexivity| |].
  - vm_compute in E. injection E as <-. reflexivity.
  - apply (selection_no_duplicates true sample_events p); [|exact E].
    repeat constructor; eexists; reflexivity.
Defined.

End InvoiceSelection.

(** ** The buttons of AvailableInvoices after Select All *)

Section SelectAllButtons.
Import ClientApi TableData AvailableInvoices InvoiceSelection.

Lemma strict_eq_true a b : Js.strict_eq a b = true -> a = b.
Proof.
  destruct a, b; simpl; try discriminate; intros H; try reflexivity;
    f_equal; first [apply Bool.eqb_prop | apply Z.eqb_eq | apply String.eqb_eq]; exact H.
Qed.

Lemma includes_elem x xs : includes x xs = true -> x ∈ xs.
Proof.
  unfold includes. intros E. apply existsb_exists in E as (z & Hz & Ez).
  apply strict_eq_true in Ez as <-. by apply list_elem_of_In.
Qed.

Lemma set_from_complete seen xs y : y ∈ xs -> y ∈ seen \/ y ∈ set_from seen xs.
Proof.
  revert seen. induction xs as [|x xs IH]; intros seen Hy; [by apply elem_of_nil in Hy|].
  simpl. apply elem_of_cons in Hy as [->|Hy].
  - destruct (includes x seen) eqn:E.
    + left. by apply includes_elem.
    + right. by left.
  - destruct (includes x seen); [by apply IH|].
    destruct (IH (x :: seen) Hy) as [Hs|Hs]; [apply elem_of_cons in Hs as [->|Hs]; [right; by left|by left]|].
    right. by right.
Qed.

Lemma invoice_ids_elem invs ids :
  Forall str_id invs -> invoice_ids invs = inr ids -> Forall (fun inv => Js.own_value inv "id" ∈ ids) invs.
Proof.
  intros Hs. revert ids. induction Hs as [|inv invs [s Hv] _ IH]; intros ids E; [constructor|].
  simpl in E. rewrite (read_defined inv "id" ltac:(by rewrite Hv)) in E. cbn [ex_bind] in E.
  destruct (invoice_ids invs) as [|rest]; [discriminate|]. injection E as <-.
  constructor; [by left|]. eapply Forall_impl; [exact (IH rest eq_refl)|]. intros x Hx. by right.
Qed.

Lemma js_every_true {A} (f : A -> string + bool) xs : Forall (fun x => f x = inr true) xs -> js_every f xs = inr true.
Proof. induction 1 as [|x xs Hx _ IH]; [done|]. simpl. by rewrite Hx. Qed.

Lemma selected_inv_true ids inv :
  str_id inv -> Js.own_value inv "id" ∈ ids -> selected_inv ids inv = inr true.
Proof.
  intros [s Hv] Hin. unfold selected_inv. rewrite (read_defined inv "id" ltac:(by rewrite Hv)), Hv.
  cbn [ex_bind]. f_equal. apply includes_str. by rewrite <- Hv.
Qed.

(** After Select All, on invoices whose ids are strings, the card shows
    Select All disabled and Clear All enabled: every available invoice
    is now selected. *)
Theorem select_all_buttons available selectedIds ids :
  available <> [] -> Forall str_id available ->
  handleSelectAll available selectedIds = inr ids ->
  exists props, AvailableInvoices.render available ids false JNull = inr (InvoicesCard true false props).
Proof.
  intros Hne Hs Hsel. destruct (invoice_ids_str available Hs) as (all & E & _).
  unfold handleSelectAll in Hsel. rewrite E in Hsel. injection Hsel as <-.
  assert (Hin : Forall (fun inv => selected_inv (set_of (selectedIds ++ all)) inv = inr true) available).
  { apply Forall_forall. intros inv Hinv. apply selected_inv_true; [by eapply Forall_forall|].
    destruct (set_from_complete [] (selectedIds ++ all) (Js.own_value inv "id")) as [Hn|Hn];
      [|by apply elem_of_nil in Hn|exact Hn].
    apply elem_of_app. right. exact (proj1 (Forall_forall _ _) (invoice_ids_elem _ _ Hs E) inv Hinv). }
  unfold AvailableInvoices.render, allSelected, someSelected. simpl.
  destruct available as [|inv rest]; [done|]. inversion Hin as [|? ? Hinv Hrest]; subst.
  simpl. rewrite Hinv. cbn [ex_bind]. rewrite (js_every_true _ _ Hrest). simpl. by eexists.
Qed.

End SelectAllButtons.

(** Select All on two invoices, one already selected. *)
Lemma select_all_buttons_witness :
  exists ids props,
    AvailableInvoices.handleSelectAll [InvoiceSelection.inv_a; InvoiceSelection.inv_b] [JStr "INV-B"] = inr ids /\
    AvailableInvoices.render [InvoiceSelection.inv_a; InvoiceSelection.inv_b] ids false JNull =
      inr (AvailableInvoices.InvoicesCard true false props).
Proof.
  eexists. destruct (select_all_buttons [InvoiceSelection.inv_a; InvoiceSelection.inv_b] [JStr "INV-B"] _
                       ltac:(discriminate) ltac:(repeat constructor; eexists; reflexivity) eq_refl) as [props Hr].
  exists props. split; [reflexivity|exact Hr].
Defined.
