(* ===== verification/Summary.v ===== *)
(** * The payment summary

    components/request-approval/PaymentSummary.jsx: the selection of the
    request-approval page ([Approval]) grouped by supplier, its total,
    the bank account and payment date of the batch, and the [Finalize]
    button that submits the batch through [usePaymentBatch]
    ([PaymentHooks]).  Its state is [summary]; [handleConfirmSubmit]
    composes [createBatch] with the page's callbacks
    [onClearAllInvoices], [onClearAllManualPayments] and
    [onBatchSubmitted].  [supplierSummary] is the grouping, modelled with
    the way a plain object [{}] finds the names of [Object.prototype]. *)

From S2P Require Import Prelude JsValue ClientApi ClientState ClientHooks JsNumber PaymentHooks Approval.
From Stdlib Require Import Ascii.

(** ** components/ConfirmationModal.jsx: the guard of [handleConfirm] *)

Module ConfirmationModal.

(** [handleConfirm()]: whether it calls [onConfirm()]. *)
Definition handleConfirm (isLoading : bool) : bool := negb isLoading.

(** The lucide-react icons of the title. *)
Inductive icon := AlertTriangle | CheckCircle | AlertCircle | Info.

(** [getIcon()]: the icon of the [variant] and its [className]. *)
Definition getIcon (variant : string) : option (icon * string) :=
  if String.eqb variant "danger" then Some (AlertTriangle, "h-5 w-5 text-red-500")
  else if String.eqb variant "success" then Some (CheckCircle, "h-5 w-5 text-green-500")
  else if String.eqb variant "warning" then Some (AlertCircle, "h-5 w-5 text-yellow-500")
  else if String.eqb variant "info" then Some (Info, "h-5 w-5 text-blue-500")
  else None.

(** [getConfirmButtonVariant()] *)
Definition getConfirmButtonVariant (confirmButtonVariant variant : string) : string :=
  if negb (String.eqb confirmButtonVariant "default") then confirmButtonVariant
  else if String.eqb variant "danger" then "destructive"
  else if String.eqb variant "success" then "default"
  else if String.eqb variant "warning" then "default"
  else "default".

(** The props; [None] is a prop left [undefined], which takes the
    default of the parameter list. *)
Record props (A : Type) := mkProps {
  isOpen : bool;
  title : option string;
  message : option string;
  confirmText : option string;
  cancelText : option string;
  variant : option string;
  isLoading : option bool;
  loadingText : option string;
  children : option A;
  confirmButtonVariant : option string;
  cancelButtonVariant : option string
}.
Arguments mkProps {A}.
Arguments isOpen {A}. Arguments title {A}. Arguments message {A}. Arguments confirmText {A}.
Arguments cancelText {A}. Arguments variant {A}. Arguments isLoading {A}. Arguments loadingText {A}.
Arguments children {A}. Arguments confirmButtonVariant {A}. Arguments cancelButtonVariant {A}.

(** A footer button: its [variant], [disabled] and text. *)
Record button := mkButton { b_variant : string; b_disabled : bool; b_text : string }.

Record view (A : Type) := mkView {
  v_open : bool;                          (** [<Dialog open={isOpen}>] *)
  v_icon : option (icon * string);
  v_title : string;
  v_description : option string;          (** [message && <DialogDescription>] *)
  v_children : option A;                  (** [children && <div className="py-4">] *)
  v_cancel : button;
  v_confirm : button
}.
Arguments mkView {A}.
Arguments v_open {A}. Arguments v_icon {A}. Arguments v_title {A}. Arguments v_description {A}.
Arguments v_children {A}. Arguments v_cancel {A}. Arguments v_confirm {A}.

Definition render {A} (p : props A) : view A :=
  let loading := default false (isLoading p) in
  let variant := default "default" (variant p) in
  let message := default "Are you sure you want to proceed?" (message p) in
  mkView (isOpen p) (getIcon variant) (default "Confirm Action" (title p))
    (if String.eqb message "" then None else Some message)
    (children p)
    (mkButton (default "outline" (cancelButtonVariant p)) loading (default "Cancel" (cancelText p)))
    (mkButton (getConfirmButtonVariant (default "default" (confirmButtonVariant p)) variant) loading
              (if loading then default "Processing..." (loadingText p) else default "Confirm" (confirmText p))).

(** What the user does with the dialog: [onOpenChange] (Escape or a
    click outside an open dialog), the Cancel button, the confirm
    button; a disabled button does nothing. *)
Inductive action := OpenChange | ClickCancel | ClickConfirm.
Inductive call := OnClose | OnConfirm.

Definition handle {A} (p : props A) (a : action) : list call :=
  let loading := default false (isLoading p) in
  match a with
  | OpenChange => if isOpen p then [OnClose] else []
  | ClickCancel => if loading then [] else [OnClose]
  | ClickConfirm => if loading then [] else if handleConfirm loading then [OnConfirm] else []
  end.

End ConfirmationModal.

Module PaymentSummary.
Local Open Scope xero_scope.
Import ClientApi RequestApproval.

Record summary := mkSummary {
  paymentDate : jsval;
  selectedBankAccount : jsval;
  isModalOpen : bool;
  selectedItemForDetails : jsval;
  isConfirmationModalOpen : bool;
  toasts : list effect
}.

(** The first render: [useState(getTodayDateString)]. *)
Definition initial (today : string) : summary := mkSummary (JStr today) (JStr "") false JNull false [].

Definition setPaymentDate (d : jsval) (s : summary) : summary :=
  mkSummary d (selectedBankAccount s) (isModalOpen s) (selectedItemForDetails s)
            (isConfirmationModalOpen s) (toasts s).
Definition setSelectedBankAccount (a : jsval) (s : summary) : summary :=
  mkSummary (paymentDate s) a (isModalOpen s) (selectedItemForDetails s)
            (isConfirmationModalOpen s) (toasts s).
Definition set_modal (b : bool) (item : jsval) (s : summary) : summary :=
  mkSummary (paymentDate s) (selectedBankAccount s) b item (isConfirmationModalOpen s) (toasts s).
Definition set_confirmation (b : bool) (s : summary) : summary :=
  mkSummary (paymentDate s) (selectedBankAccount s) (isModalOpen s) (selectedItemForDetails s) b
            (toasts s).
Definition toast (success : bool) (msg : string) (s : summary) : summary :=
  mkSummary (paymentDate s) (selectedBankAccount s) (isModalOpen s) (selectedItemForDetails s)
            (isConfirmationModalOpen s) (toasts s ++ [Toast success msg]).

(** [handleViewDetails(item)] *)
Definition handleViewDetails (item : jsval) (s : summary) : summary := set_modal true item s.
(** [handleCloseModal()] *)
Definition handleCloseModal (s : summary) : summary := set_modal false JNull s.
(** [handleSubmitClick()] *)
Definition handleSubmitClick (s : summary) : summary := set_confirmation true s.
(** [handleCloseConfirmation()] *)
Definition handleCloseConfirmation (s : summary) : summary := set_confirmation false s.

(** The filter [{ where: 'Type=="BANK"' }] of the bank accounts. *)
Definition bank_filter : jsval :=
  let dq := String (Ascii.ascii_of_nat 34) EmptyString in
  JObj [("where", JStr ("Type==" +:+ dq +:+ "BANK" +:+ dq))].

(** The effect on [[isSynced]]: when synced, [loadBankAccounts()] calls
    [fetchAccounts(bank_filter)], which answers [res]; its errors are
    caught, by [fetchAccounts] itself and by the effect.  The request is
    [fetchAccounts_request bank_filter]. *)
Definition bank_accounts_effect (isSynced : bool) (res : string + jsval) (x : UseXero.hook) : UseXero.hook :=
  if isSynced then snd (UseXero.fetchAccounts res x) else x.

(** [accounts.filter((account) => account.isBankAccount)] *)
Fixpoint bankAccounts (accounts : list jsval) : string + list jsval :=
  match accounts with
  | [] => inr []
  | a :: accounts' =>
      if Js.is_nullish a then inl (type_error a "isBankAccount")
      else rest <-? bankAccounts accounts' ;;
           inr (if Js.truthy (Js.own_value a "isBankAccount") then a :: rest else rest)
  end.

(** [allPayments]: [[...selectedInvoices, ...manualPayments]]. *)
Definition allPayments (selectedInvoices manualPayments : list jsval) : list jsval :=
  selectedInvoices ++ manualPayments.

(** [handleRemove(item)]: the page's [onRemoveManualPayment] or
    [onRemoveInvoice] with [item.id]. *)
Definition handleRemove (item : jsval) (p : page) : string + page :=
  m <-? read item "isManualPayment" ;;
  if Js.truthy m then handleRemoveManualPayment (Js.own_value item "id") p
  else inr (handleRemoveInvoice (Js.own_value item "id") p).

(** The [disabled] of [Finalize]:
    [!paymentDate || !selectedBankAccount || allPayments.length === 0 || batchLoading],
    negated. *)
Definition finalize_enabled (s : summary) (payments : list jsval) (batchLoading : bool) : bool :=
  Js.truthy (paymentDate s) && Js.truthy (selectedBankAccount s)
  && negb (Nat.eqb (length payments) 0) && negb batchLoading.

Section Amounts.
Context {arith : JsArith}.

(** [Number(item.amountDue || item.total || 0)] *)
Definition item_amount (item : jsval) : string + jsval :=
  d <-? read item "amountDue" ;;
  inr (to_number (Js.or (Js.or d (Js.own_value item "total")) (JNum 0))).

(** [allPayments.reduce((sum, item) => sum + Number(...), 0)] *)
Fixpoint sum_amounts (sum : jsval) (items : list jsval) : string + jsval :=
  match items with
  | [] => inr sum
  | i :: items' => a <-? item_amount i ;; sum_amounts (num_add sum a) items'
  end.

Definition totalAmount (payments : list jsval) : string + jsval := sum_amounts (JNum 0) payments.

(** A group of [supplierSummary]: [{ totalAmount, count, items }]. *)
Record group := mkGroup { g_total : jsval; g_count : jsval; g_items : list jsval }.

Fixpoint find_group (k : string) (acc : list (string * group)) : option group :=
  match acc with
  | [] => None
  | (k', g) :: acc' => if String.eqb k k' then Some g else find_group k acc'
  end.

(** [acc[k] = g]: in place when [k] is a key, last otherwise. *)
Fixpoint set_group (k : string) (g : group) (acc : list (string * group)) : list (string * group) :=
  match acc with
  | [] => [(k, g)]
  | (k', g') :: acc' => if String.eqb k k' then (k, g) :: acc' else (k', g') :: set_group k g acc'
  end.

(** The names a plain object inherits from [Object.prototype]. *)
Definition proto_members : list string :=
  ["constructor"; "__proto__"; "toString"; "toLocaleString"; "valueOf"; "hasOwnProperty";
   "isPrototypeOf"; "propertyIsEnumerable"; "__defineGetter__"; "__defineSetter__";
   "__lookupGetter__"; "__lookupSetter__"].

(** The key [curr.contactName || curr.supplier], as a property name. *)
Definition item_key (curr : jsval) : string :=
  Js.to_string (Js.or (Js.own_value curr "contactName") (Js.own_value curr "supplier")).

(** The [reduce] callback of [supplierSummary].  When [acc[supplier]]
    is a member of [Object.prototype], [!acc[supplier]] is false, and
    [acc[supplier].items.push(curr)] reads [push] of [undefined]. *)
Definition summary_step (acc : list (string * group)) (curr : jsval)
    : string + list (string * group) :=
  _ <-? read curr "contactName" ;;
  let k := item_key curr in
  g <-? match find_group k acc with
        | Some g => inr g
        | None => if bool_decide (k ∈ proto_members) then inl (type_error JUndef "push")
                  else inr (mkGroup (JNum 0) (JNum 0) [])
        end ;;
  a <-? item_amount curr ;;
  inr (set_group k (mkGroup (num_add (g_total g) a) (num_add (g_count g) (JNum 1))
                            (g_items g ++ [curr])) acc).

Fixpoint summarize (acc : list (string * group)) (items : list jsval)
    : string + list (string * group) :=
  match items with
  | [] => inr acc
  | i :: items' => acc <-? summary_step acc i ;; summarize acc items'
  end.

Definition supplierSummary (payments : list jsval) : string + list (string * group) :=
  summarize [] payments.

End Amounts.

(** ** The grouping by supplier *)

Section Grouping.
Context {arith : JsArith} {arith_ok : JsArithOk}.

Lemma find_set_same k g acc : find_group k (set_group k g acc) = Some g.
Proof.
  induction acc as [|[k' g'] acc IH]; simpl; [by rewrite String.eqb_refl|].
  destruct (String.eqb_spec k k') as [->|]; simpl; [by rewrite String.eqb_refl|].
  by destruct (String.eqb_spec k k').
Qed.

Lemma find_set_other k k' g acc : k' <> k -> find_group k' (set_group k g acc) = find_group k' acc.
Proof.
  intros Hne. induction acc as [|[k0 g0] acc IH]; simpl.
  - by destruct (String.eqb_spec k' k).
  - destruct (String.eqb_spec k k0) as [->|]; simpl.
    + by destruct (String.eqb_spec k' k0).
    + by rewrite IH.
Qed.

Lemma sum_amounts_app t xs y :
  sum_amounts t (xs ++ [y]) = (u <-? sum_amounts t xs ;; a <-? item_amount y ;; inr (num_add u a)).
Proof.
  revert t. induction xs as [|x xs IH]; intros t; simpl.
  - by destruct (item_amount y).
  - destruct (item_amount x); [done|]. apply IH.
Qed.

Lemma item_amount_ok x : Js.is_nullish x = false -> exists a, item_amount x = inr a.
Proof. unfold item_amount, read. intros ->. by eexists. Qed.

(** What the reduce has built after the items [pre]: a group for each
    key of [pre], with the items of that key in order, their number and
    the sum of their amounts. *)
Definition groups_of (pre : list jsval) (acc : list (string * group)) : Prop :=
  forall k, match find_group k acc with
            | None => Forall (fun x => item_key x <> k) pre
            | Some g => g_items g = List.filter (fun x => String.eqb (item_key x) k) pre /\
                        g_items g <> [] /\
                        g_count g = JNum (Z.of_nat (length (g_items g))) /\
                        sum_amounts (JNum 0) (g_items g) = inr (g_total g)
            end.

Definition summable (x : jsval) : Prop := Js.is_nullish x = false /\ item_key x ∉ proto_members.

Lemma filter_key_none k pre :
  Forall (fun x => item_key x <> k) pre -> List.filter (fun x => String.eqb (item_key x) k) pre = [].
Proof. induction 1; simpl; [done|]. by destruct (String.eqb_spec (item_key x) k). Qed.

Lemma filter_key_snoc k pre x :
  List.filter (fun y => String.eqb (item_key y) k) (pre ++ [x]) =
  List.filter (fun y => String.eqb (item_key y) k) pre ++ if String.eqb (item_key x) k then [x] else [].
Proof.
  induction pre as [|y pre IH]; simpl; [by destruct (String.eqb (item_key x) k)|].
  destruct (String.eqb (item_key y) k); simpl; by rewrite IH.
Qed.

Lemma summary_step_groups pre acc x :
  groups_of pre acc -> summable x ->
  exists acc', summary_step acc x = inr acc' /\ groups_of (pre ++ [x]) acc'.
Proof.
  intros Hg [Hn Hp]. destruct (item_amount_ok x Hn) as [a Ha].
  unfold summary_step, read. rewrite Hn. cbn [ex_bind]. set (k := item_key x).
  pose proof (Hg k) as Hk.
  assert (exists g, (match find_group k acc with Some g => inr g
                     | None => if bool_decide (k ∈ proto_members) then inl (type_error JUndef "push")
                               else inr (mkGroup (JNum 0) (JNum 0) []) end) = inr g /\
          g_items g = List.filter (fun y => String.eqb (item_key y) k) pre /\
          g_count g = JNum (Z.of_nat (length (g_items g))) /\
          sum_amounts (JNum 0) (g_items g) = inr (g_total g)) as (g & -> & Hi & Hc & Ht).
  { destruct (find_group k acc) as [g|].
    - destruct Hk as (? & _ & ? & ?). by exists g.
    - rewrite bool_decide_false by done. eexists; split_and!; [reflexivity| |done|done].
      by rewrite filter_key_none. }
  cbn [ex_bind]. rewrite Ha. cbn [ex_bind]. eexists. split; [reflexivity|].
  intros k'. destruct (String.eqb_spec k k') as [<-|Hne].
  - rewrite find_set_same. simpl. rewrite filter_key_snoc, <- Hi. subst k. rewrite String.eqb_refl.
    split_and!; [done|by destruct (g_items g)| |].
    + rewrite Hc, num_add_int, length_app. simpl. f_equal. lia.
    + by rewrite sum_amounts_app, Ht, Ha.
  - rewrite find_set_other by done. pose proof (Hg k') as Hk'.
    destruct (find_group k' acc) as [g'|].
    + rewrite filter_key_snoc. subst k. destruct (String.eqb_spec (item_key x) k'); [done|].
      by rewrite app_nil_r.
    + apply Forall_app. split; [done|]. by constructor.
Qed.

Lemma summarize_groups pre acc xs :
  groups_of pre acc -> Forall summable xs ->
  exists gs, summarize acc xs = inr gs /\ groups_of (pre ++ xs) gs.
Proof.
  intros Hg Hxs. revert pre acc Hg. induction Hxs as [|x xs Hx Hxs IH]; intros pre acc Hg; simpl.
  - exists acc. by rewrite app_nil_r.
  - destruct (summary_step_groups _ _ _ Hg Hx) as (acc' & -> & Hg'). cbn [ex_bind].
    rewrite cons_middle, app_assoc. by apply IH.
Qed.

Lemma groups_of_nil : groups_of [] [].
Proof. intros k. constructor. Qed.

(** C27. [supplierSummary] groups the payments by supplier (the
    [contactName], else the [supplier]): when no payment is [null] or
    [undefined] or named after a member of [Object.prototype], it has a
    group exactly for the suppliers of the payments, and the group of a
    supplier holds that supplier's payments in their order, their
    number as [count], and as [totalAmount] the sum of their amounts
    computed as the page's [totalAmount] computes it. *)
Theorem supplierSummary_groups ps :
  Forall summable ps ->
  exists gs, supplierSummary ps = inr gs /\
    forall k, match find_group k gs with
              | None => Forall (fun x => item_key x <> k) ps
              | Some g => g_items g = List.filter (fun x => String.eqb (item_key x) k) ps /\
                          g_items g <> [] /\
                          g_count g = JNum (Z.of_nat (length (g_items g))) /\
                          totalAmount (g_items g) = inr (g_total g)
              end.
Proof. intros Hps. exact (summarize_groups [] [] ps groups_of_nil Hps). Qed.

(** C30. A payment whose supplier is named after a member of
    [Object.prototype] ("constructor", "toString", "__proto__", ...)
    makes [supplierSummary] throw: [acc[supplier]] is the inherited
    member, so no group is made, and [items.push] reads [undefined].
    The summary, and with it the request-approval page, fails to render. *)
Theorem supplierSummary_proto_member ps x rest :
  Forall summable ps -> Js.is_nullish x = false -> item_key x ∈ proto_members ->
  supplierSummary (ps ++ x :: rest) = inl (type_error JUndef "push").
Proof.
  intros Hps Hn Hp. unfold supplierSummary.
  destruct (summarize_groups [] [] ps groups_of_nil Hps) as (gs & Hs & Hg).
  assert (Hsplit : forall acc, summarize acc (ps ++ x :: rest) =
            (acc <-? summarize acc ps ;; summarize acc (x :: rest))).
  { clear. induction ps as [|y ps IH]; intros acc; simpl; [done|].
    destruct (summary_step acc y); [done|]. apply IH. }
  rewrite Hsplit, Hs. cbn [ex_bind summarize]. unfold summary_step, read. rewrite Hn. cbn [ex_bind].
  pose proof (Hg (item_key x)) as Hk. simpl in Hk.
  destruct (find_group (item_key x) gs) as [g|].
  - destruct Hk as (Hi & Hne & _). exfalso. apply Hne. rewrite Hi. apply filter_key_none.
    eapply Forall_impl; [exact Hps|]. intros y [_ Hy] Heq. apply Hy. by rewrite Heq.
  - by rewrite bool_decide_true.
Qed.

End Grouping.

(** ** Submitting the batch *)

(** The [invoices] of [submitData]:
    [{...invoice, contactID: invoice.contact?.contactID || ""}]. *)
Fixpoint batch_invoices (invoices : list jsval) : string + list jsval :=
  match invoices with
  | [] => inr []
  | inv :: invs =>
      c <-? read inv "contact" ;;
      rest <-? batch_invoices invs ;;
      inr (JObj (Js.set_field "contactID" (Js.or (opt_read c "contactID") (JStr "")) (Js.spread inv))
           :: rest)
  end.

(** [submitData] of [handleConfirmSubmit], with the bank accounts of the
    render. *)
Definition submitData (banks : list jsval) (s : summary) (selectedInvoices manualPayments : list jsval)
    : string + jsval :=
  acc <-? find_by "accountID" (selectedBankAccount s) banks ;;
  let sel := default JUndef acc in
  invs <-? batch_invoices selectedInvoices ;;
  inr (JObj [("PaymentDate", paymentDate s); ("AccountID", selectedBankAccount s);
             ("BankAccountNumber", Js.or (opt_read sel "bankAccountNumber") (JStr ""));
             ("BankCode", Js.or (opt_read sel "code") (JStr ""));
             ("BankName", Js.or (opt_read sel "name") (JStr ""));
             ("invoices", JArr invs); ("manualPayments", JArr manualPayments)]).

Section Confirm.
(** [toLocaleDateString] of [fetchBatches] and [getTodayDateString()]. *)
Variable localeDate : jsval -> jsval.
Variable today : string.

(** [handleConfirmSubmit()] of the summary rendered with the batch hook
    [r], the page [p] and the selected invoices [selected], after
    [paymentBatchService.create] answered [res] and the refresh
    [createBatch] awaits answered [refresh]: the body it sent, the hook,
    the summary and the page after it.  [inl] is the error the building
    of [submitData] throws, before the [try]. *)
Definition handleConfirmSubmit (banks selected : list jsval) (r : PaymentBatch.hook)
    (res refresh : string + jsval) (h0 : PaymentBatch.hook) (s : summary) (p : page)
    : string + (jsval * PaymentBatch.hook * summary * page) :=
  body <-? submitData banks s selected (manualPayments p) ;;
  let '(out, h) := PaymentBatch.createBatch localeDate r res refresh h0 in
  match out with
  | inr _ =>
      let s := toast true "Payment batch created successfully!" s in
      let s := setSelectedBankAccount (JStr "") (setPaymentDate (JStr today) s) in
      let p := handleBatchSubmitted (handleClearAllManualPayments (handleClearAllInvoices p)) in
      inr (body, h, set_confirmation false s, p)
  | inl msg =>
      inr (body, h, toast false (if String.eqb msg "" then "Failed to create payment batch" else msg) s, p)
  end.

End Confirm.

(** ** Confirming the batch *)

Section ConfirmTheorems.
Variable localeDate : jsval -> jsval.
Variable today : string.

(** C14. The [Finalize] button and the confirmation dialog watch
    [loading] of [usePaymentBatch], which [createBatch] does not set: it
    sets [isSubmitting].  While the create call is in flight, a summary
    whose batch could be finalized still can, the dialog's guard
    [handleConfirm] (given [isLoading={batchLoading}]) lets a second
    confirmation through as it let the first, and confirming again from
    that state sends the same body a second time. *)
Theorem finalize_enabled_while_creating banks selected r res res' refresh refresh' h0 s p body h s' p' :
  finalize_enabled s (allPayments selected (manualPayments p)) (PaymentBatch.loading h0) = true ->
  handleConfirmSubmit localeDate today banks selected r res refresh h0 s p = inr (body, h, s', p') ->
  finalize_enabled s (allPayments selected (manualPayments p))
    (PaymentBatch.loading (PaymentBatch.createBatch_pending h0)) = true /\
  PaymentBatch.isSubmitting (PaymentBatch.createBatch_pending h0) = true /\
  ConfirmationModal.handleConfirm (PaymentBatch.loading (PaymentBatch.createBatch_pending h0)) =
    ConfirmationModal.handleConfirm (PaymentBatch.loading h0) /\
  exists h2 s2 p2,
    handleConfirmSubmit localeDate today banks selected r res' refresh'
      (PaymentBatch.createBatch_pending h0) s p = inr (body, h2, s2, p2).
Proof.
  intros He. unfold handleConfirmSubmit. destruct (submitData _ _ _ _) as [|b]; [discriminate|].
  cbn [ex_bind]. intros Hc. split_and!; [exact He|reflexivity|reflexivity|].
  assert (b = body) as <-.
  { destruct (PaymentBatch.createBatch _ _ _ _ _) as [[] ?]; by injection Hc. }
  destruct (PaymentBatch.createBatch localeDate r res' refresh' _) as [[] ?]; simpl; do 3 eexists; reflexivity.
Qed.

End ConfirmTheorems.

(** ** Examples *)

Definition acme_invoice : jsval := JObj [("id", JStr "INV-1"); ("contactName", JStr "Acme"); ("total", JNum 30)].
Definition acme_payment : jsval := JObj [("id", JStr "MP-1"); ("contactName", JStr "Acme"); ("total", JNum 12)].

Lemma supplierSummary_groups_witness :
  Forall summable [acme_invoice; acme_payment] /\
  supplierSummary (arith := int_arith) [acme_invoice; acme_payment] =
    inr [("Acme", mkGroup (JNum 42) (JNum 2) [acme_invoice; acme_payment])].
Proof.
  assert (H : Forall summable [acme_invoice; acme_payment]).
  { repeat constructor; vm_compute; intros Hm; repeat (inversion Hm as [|? ? ? Hm']; subst; clear Hm; rename Hm' into Hm). }
  split; [exact H|].
  destruct (supplierSummary_groups (arith_ok := int_arith_ok) _ H) as (gs & E & _).
  rewrite E. vm_compute in E. symmetry. exact E.
Defined.

Definition constructor_payment : jsval := JObj [("id", JStr "MP-2"); ("contactName", JStr "constructor")].

Lemma supplierSummary_proto_member_witness :
  Forall summable [acme_invoice] /\ Js.is_nullish constructor_payment = false /\
  item_key constructor_payment ∈ proto_members /\
  supplierSummary (arith := int_arith) [acme_invoice; constructor_payment; acme_payment] =
    inl (type_error JUndef "push").
Proof.
  assert (H : Forall summable [acme_invoice]).
  { repeat constructor; vm_compute; intros Hm; repeat (inversion Hm as [|? ? ? Hm']; subst; clear Hm; rename Hm' into Hm). }
  assert (Hp : item_key constructor_payment ∈ proto_members) by (vm_compute; left).
  split_and!; [exact H|reflexivity|exact Hp|].
  exact (supplierSummary_proto_member (arith_ok := int_arith_ok) [acme_invoice] constructor_payment [acme_payment]
           H eq_refl Hp).
Defined.

Definition ready : summary := setSelectedBankAccount (JStr "BANK-1") (initial "2025-01-01").

Lemma finalize_enabled_while_creating_witness :
  finalize_enabled ready (allPayments [acme_invoice] (manualPayments (RequestApproval.initial true)))
    (PaymentBatch.loading PaymentBatch.initial) = true /\
  finalize_enabled ready (allPayments [acme_invoice] (manualPayments (RequestApproval.initial true)))
    (PaymentBatch.loading (PaymentBatch.createBatch_pending PaymentBatch.initial)) = true.
Proof.
  split; [reflexivity|].
  destruct (handleConfirmSubmit (fun v => v) "2025-01-01" [] [acme_invoice] PaymentBatch.initial
              (inl "Failed to create payment batch") (inr JNull) PaymentBatch.initial ready (RequestApproval.initial true))
    as [e|[[[body h] s'] p']] eqn:E; [vm_compute in E; discriminate|].
  exact (proj1 (finalize_enabled_while_creating (fun v => v) "2025-01-01" [] [acme_invoice]
                  PaymentBatch.initial _ (inl "") _ (inr JNull) PaymentBatch.initial ready (RequestApproval.initial true)
                  body h s' p' eq_refl E)).
Defined.

End PaymentSummary.
