(* ===== verification/SummaryView.v ===== *)
(** * What the payment summary shows

    The render of components/request-approval/PaymentSummary.jsx over the
    state [Summary] models: the count of selected payments, the list of
    components/request-approval/PaymentSummaryList.jsx (one card per
    supplier of [supplierSummary], a row per payment with its label and
    amount), the bank-account select, the total and the [Finalize]
    button.  [Number(...)] and [toFixed(2)] are the interface
    [JsArith]. *)

From S2P Require Import Prelude JsValue ClientApi JsNumber Utils PaymentHooks Approval Summary.

(** ** components/request-approval/PaymentSummaryList.jsx *)

Module SummaryList.
Local Open Scope xero_scope.
Import ClientApi PaymentSummary.

(** [item.id.substring(0, 8)] *)
Definition short_id (id : jsval) : string + jsval :=
  match id with
  | JStr s => inr (JStr (String.substring 0 8 s))
  | JUndef | JNull => inl (type_error id "substring")
  | _ => inl "item.id.substring is not a function"
  end.

(** [item.invoiceNumber || item.payment_reference || item.description ||
    item.id.substring(0, 8)] *)
Definition item_label (item : jsval) : string + jsval :=
  inv <-? read item "invoiceNumber" ;;
  let g := Js.own_value item in
  if Js.truthy inv then inr inv
  else if Js.truthy (g "payment_reference") then inr (g "payment_reference")
  else if Js.truthy (g "description") then inr (g "description")
  else short_id (g "id").

Section Rows.
Context {arith : JsArith}.

(** A row of a supplier: [key={item.id}], the label and
    [${Number(item.amountDue || item.total || 0).toFixed(2)}]. *)
Record item_row := mkItemRow { row_key : jsval; row_label : jsval; row_amount : string }.

Definition item_row_of (item : jsval) : string + item_row :=
  id <-? read item "id" ;;
  l <-? item_label item ;;
  a <-? item_amount item ;;
  inr (mkItemRow id l ("$" +:+ to_fixed a 2)).

(** The card of a supplier: its name, [{summary.count} payment(s)], the
    rows and [Supplier Total]. *)
Record group_row := mkGroupRow {
  g_supplier : string; g_count_text : string; g_rows : list item_row; g_total_text : string
}.

Definition group_row_of (kg : string * group) : string + group_row :=
  let '(supplier, g) := kg in
  rows <-? traverse item_row_of (g_items g) ;;
  inr (mkGroupRow supplier
         (Js.to_string (g_count g) +:+ " " +:+
          (if Js.strict_eq (g_count g) (JNum 1) then "payment" else "payments"))
         rows ("$" +:+ to_fixed (g_total g) 2)).

Inductive view := NoPayments | Groups (gs : list group_row).

(** [<PaymentSummaryList supplierSummary={...} />] *)
Definition render (summary : list (string * group)) : string + view :=
  match summary with
  | [] => inr NoPayments
  | _ => gs <-? traverse group_row_of summary ;; inr (Groups gs)
  end.

End Rows.

End SummaryList.

(** ** The card of components/request-approval/PaymentSummary.jsx *)

Module SummaryView.
Local Open Scope xero_scope.
Import ClientApi PaymentSummary.

Section Card.
Context {arith : JsArith}.

(** An option of the bank-account select: its value and
    [{account.name} - {truncateBankAccountNumber(account.bankAccountNumber)}]. *)
Definition bank_option (account : jsval) : string + jsval * (jsval * jsval) :=
  t <-? Utils.truncateBankAccountNumber (Js.own_value account "bankAccountNumber") ;;
  inr (Js.own_value account "accountID", (Js.own_value account "name", t)).

(** The bank-account select, shown when synced: disabled while the
    accounts load, its placeholder, and its options. *)
Record bank_select := mkSelect { sel_disabled : bool; sel_placeholder : string; sel_options : list (jsval * (jsval * jsval)) }.

(** What the confirmation dialog's children show: [paymentDate],
    [{selectedAccount?.name} - {truncateBankAccountNumber(selectedAccount?.bankAccountNumber)}],
    [allPayments.length] and [${totalAmount.toFixed(2)}]. *)
Record confirm_details := mkDetails {
  d_date : jsval; d_account : jsval * jsval; d_count : nat; d_total : string
}.

(** The [<ConfirmationModal>] of the card. *)
Definition confirm_props (s : summary) (batchLoading : bool) (d : confirm_details)
    : ConfirmationModal.props confirm_details :=
  ConfirmationModal.mkProps (isConfirmationModalOpen s) (Some "Confirm Payment Batch")
    (Some "Please review the payment batch details before finalizing. This action cannot be undone.")
    (Some "Finalize Batch") (Some "Cancel") (Some "info") (Some batchLoading) (Some "Creating batch...")
    (Some d) None None.

Record card := mkCard {
  selected_count : nat;                 (** [{allPayments.length} selected] *)
  payments_list : SummaryList.view;
  bank : option bank_select;
  total_text : string;                  (** [${totalAmount.toFixed(2)}] *)
  finalize_disabled : bool;
  confirm_dialog : ConfirmationModal.view confirm_details
}.

(** The render of [PaymentSummary] for the page's [selectedInvoices] and
    [manualPayments], the [useXero] accounts and loading flag, and
    [usePaymentBatch]'s [loading]. *)
Definition render (isSynced isLoadingAccounts batchLoading : bool) (accounts : list jsval)
    (selectedInvoices manualPayments : list jsval) (s : summary) : string + card :=
  banks <-? bankAccounts accounts ;;
  let payments := allPayments selectedInvoices manualPayments in
  total <-? totalAmount payments ;;
  groups <-? supplierSummary payments ;;
  acc <-? find_by "accountID" (selectedBankAccount s) banks ;;
  let selected := default JUndef acc in
  lst <-? SummaryList.render groups ;;
  sel <-? (if isSynced
           then opts <-? traverse bank_option banks ;;
                inr (Some (mkSelect isLoadingAccounts
                             (if isLoadingAccounts then "Loading bank accounts..." else "Select bank account")
                             opts))
           else inr None) ;;
  number <-? Utils.truncateBankAccountNumber (opt_read selected "bankAccountNumber") ;;
  let total_text := "$" +:+ to_fixed total 2 in
  inr (mkCard (length payments) lst sel total_text
              (negb (finalize_enabled s payments batchLoading))
              (ConfirmationModal.render
                 (confirm_props s batchLoading
                    (mkDetails (paymentDate s) (opt_read selected "name", number) (length payments) total_text)))).


End Card.

End SummaryView.

(** ** The label of a manual payment *)

Section ManualLabel.
Import ClientApi RequestApproval SummaryList.
Local Open Scope xero_scope.
Context {arith : JsArith}.

Lemma createPaymentObject_shape now_ms now_iso formData result payment :
  createPaymentObject now_ms now_iso formData result = inr payment ->
  exists lines subTotal totalTax,
    let f := Js.own_value formData in
    let ref := opt_read (Js.own_value result "data") "payment_reference" in
    payment = JObj [("id", Js.or ref (JStr ("manual_" +:+ Js.to_string (JNum now_ms))));
                    ("contactName", f "contact_name"); ("contactID", f "contact_id");
                    ("status", Js.or (f "status") (JStr "DRAFTED"));
                    ("taxIncl", Js.or (f "taxIncl") (JBool false));
                    ("subTotal", subTotal); ("totalTax", totalTax); ("total", num_add subTotal totalTax);
                    ("lineItems", Js.or lines (JArr [])); ("invoiceNumber", Js.or ref (JStr ""));
                    ("reference", Js.or ref (Js.or (f "reference") (JStr "")));
                    ("description", Js.or (f "description") (JStr ""));
                    ("date", Js.or (f "payment_date") (JStr (before_T now_iso)));
                    ("currency", Js.or (f "currency_code") (JStr "SGD"));
                    ("isManualPayment", JBool true); ("createdAt", JStr now_iso)].
Proof.
  unfold createPaymentObject.
  destruct (read formData "lines") as [|lines]; [discriminate|]. cbn [ex_bind].
  destruct (reduce_opt line_amount lines) as [|st]; [discriminate|]. cbn [ex_bind].
  destruct (reduce_opt line_tax lines) as [|tt]; [discriminate|]. cbn [ex_bind].
  intros [= <-]. by exists lines, st, tt.
Qed.

(** A manual payment saved without a payment reference and without a
    description is labelled, in the summary list, by the first eight
    characters of its id [manual_<Date.now()>]: ["manual_"] and the first
    digit of the time.  All the payments of a session (whose times
    share their first digit) carry the same label. *)
Theorem manual_payment_label now_ms now_iso formData result payment :
  createPaymentObject now_ms now_iso formData result = inr payment ->
  Js.truthy (opt_read (Js.own_value result "data") "payment_reference") = false ->
  Js.truthy (Js.own_value formData "description") = false ->
  item_label payment = inr (JStr ("manual_" +:+ String.substring 0 1 (Js.to_string (JNum now_ms)))).
Proof.
  intros Hc Hr Hd. destruct (createPaymentObject_shape _ _ _ _ _ Hc) as (lines & st & tt & ->).
  unfold item_label, Js.or. simpl. rewrite Hr, Hd. reflexivity.
Qed.

End ManualLabel.

(** Two manual payments a millisecond apart. *)
Lemma manual_payment_label_witness :
  let formData := JObj [("lines", JArr [])] in
  let result := JObj [("success", JBool true)] in
  exists p1 p2,
    RequestApproval.createPaymentObject (arith := int_arith) 1700000000000 "" formData result = inr p1 /\
    RequestApproval.createPaymentObject (arith := int_arith) 1700000000001 "" formData result = inr p2 /\
    Js.own_value p1 "id" <> Js.own_value p2 "id" /\
    SummaryList.item_label p1 = inr (JStr "manual_1") /\ SummaryList.item_label p2 = inr (JStr "manual_1").
Proof.
  intros formData result. eexists _, _. split; [reflexivity|]. split; [reflexivity|].
  split; [vm_compute; discriminate|].
  split.
  - rewrite (manual_payment_label (arith := int_arith) 1700000000000 "" formData result _ eq_refl eq_refl eq_refl).
    reflexivity.
  - rewrite (manual_payment_label (arith := int_arith) 1700000000001 "" formData result _ eq_refl eq_refl eq_refl).
    reflexivity.
Defined.

(** ** The confirmation dialog of the summary *)

Section ConfirmDialog.
Import ClientApi PaymentSummary SummaryView ConfirmationModal.
Context {arith : JsArith}.

Lemma render_confirm_dialog isSynced isLoadingAccounts batchLoading accounts selected manual s c :
  SummaryView.render isSynced isLoadingAccounts batchLoading accounts selected manual s = inr c ->
  exists d, confirm_dialog c = ConfirmationModal.render (confirm_props s batchLoading d).
Proof. unfold SummaryView.render. intros H. inr_binds H. injection H as <-. by eexists. Qed.

(** While [createBatch] runs, the summary's confirmation dialog never
    shows "Creating batch...": it watches [usePaymentBatch]'s [loading],
    which [createBatch] leaves unset, so its buttons stay enabled and
    its confirm button still reads "Finalize Batch" and calls
    [onConfirm] (the dialog side of [PaymentSummary.finalize_enabled_while_creating]). *)
Theorem confirm_dialog_not_loading isSynced isLoadingAccounts accounts selected manual s h0 c :
  PaymentBatch.loading h0 = false ->
  SummaryView.render isSynced isLoadingAccounts (PaymentBatch.loading (PaymentBatch.createBatch_pending h0))
    accounts selected manual s = inr c ->
  v_confirm (confirm_dialog c) = mkButton "default" false "Finalize Batch" /\
  v_cancel (confirm_dialog c) = mkButton "outline" false "Cancel" /\
  forall d, handle (confirm_props s (PaymentBatch.loading (PaymentBatch.createBatch_pending h0)) d) ClickConfirm =
    [OnConfirm].
Proof.
  intros Hl Hr. destruct (render_confirm_dialog _ _ _ _ _ _ _ _ Hr) as [d ->].
  unfold PaymentBatch.createBatch_pending. simpl. rewrite Hl. split_and!; reflexivity.
Qed.

End ConfirmDialog.
