(* ===== verification/DetailsModal.v ===== *)
(** * The details of a selected payment

    components/request-approval/PaymentDetailsModal.jsx, the dialog that
    PaymentSummary.jsx ([Summary]) opens on [handleViewDetails(item)]
    with [itemDetails = selectedItemForDetails] and closes on
    [handleCloseModal()].  The render is modelled as what it shows: the
    optional rows of the bill information, the line items with their
    unit price and amount, the totals, the amount due of a Xero bill,
    and the footer.  [formatCurrency] and [formatDate] are the host's
    ([Intl.NumberFormat], [toLocaleDateString]): a cell keeps the value
    it formats.  A [{cond && <el/>}] child renders [<el/>] when [cond]
    is truthy; otherwise React renders [cond] itself when it is a number
    or a string (the text ["0"] of a zero) and nothing for [false],
    [null] and [undefined]. *)

From S2P Require Import Prelude JsValue ClientApi JsNumber Utils PaymentForm Approval Summary.

Module DetailsModal.
Local Open Scope xero_scope.
Import ClientApi.

(** What a cell shows. *)
Inductive text :=
| Txt (s : string)          (** a literal *)
| Val (v : jsval)           (** [{v}] *)
| Currency (v : jsval)      (** [{formatCurrency(v)}] *)
| DateOf (v : jsval).       (** [{formatDate(v)}] of a truthy [v] *)

(** A child [{cond && <el/>}]. *)
Inductive child (A : Type) := Shown (x : A) | Stray (v : jsval) | Hidden.
Arguments Shown {A} x.
Arguments Stray {A} v.
Arguments Hidden {A}.

Definition and_render {A} (c : jsval) (x : A) : child A :=
  if Js.truthy c then Shown x
  else match c with JNum _ | JStr _ => Stray c | _ => Hidden end.

(** A row of the bill information: its label, what it shows, its
    class ([sm:col-span-2] rows are [wide]). *)
Record info := mkInfo { label : string; value : text; badge_class : option string; wide : bool }.

(** The class of the status badge: [status.toLowerCase()] compared with
    "paid", "pending" and "overdue"; a value that is not a string has
    no [toLowerCase]. *)
Definition status_class (status : jsval) : string + string :=
  match status with
  | JStr s =>
      let l := Utils.toLowerCase s in
      inr (if String.eqb l "paid" then "bg-green-100 text-green-800"
           else if String.eqb l "pending" then "bg-yellow-100 text-yellow-800"
           else if String.eqb l "overdue" then "bg-red-100 text-red-800"
           else "bg-gray-100 text-gray-800")
  | _ => inl "itemDetails.status.toLowerCase is not a function"
  end.

(** The Payment Type badge. *)
Definition payment_type (isManualPayment : jsval) : info :=
  if Js.truthy isManualPayment
  then mkInfo "Payment Type" (Txt "Manual Payment") (Some "bg-purple-100 text-purple-800") false
  else mkInfo "Payment Type" (Txt "Xero Invoice") (Some "bg-blue-100 text-blue-800") false.

(** The grid of the bill information, in the order of the JSX. *)
Definition bill_information (d : jsval) : string + list (child info) :=
  let g := Js.own_value d in
  let supplierName := Js.or (g "contactName") (g "supplier") in
  statusRow <-? (if Js.truthy (g "status")
                 then c <-? status_class (g "status") ;;
                      inr (Shown (mkInfo "Status" (Val (g "status")) (Some c) false))
                 else inr (and_render (g "status") (mkInfo "Status" (Val (g "status")) None false))) ;;
  inr [and_render supplierName (mkInfo "Supplier Name" (Val supplierName) None true);
       and_render (g "invoiceNumber") (mkInfo "Bill Number" (Val (g "invoiceNumber")) None false);
       statusRow;
       and_render (g "reference") (mkInfo "Reference" (Val (g "reference")) None false);
       and_render (g "date") (mkInfo "Date" (DateOf (g "date")) None false);
       Shown (payment_type (g "isManualPayment"));
       and_render (g "dueDate") (mkInfo "Due Date" (DateOf (g "dueDate")) None false);
       and_render (g "description") (mkInfo "Description" (Val (g "description")) None true)].

(** A line of the Items table (the desktop table and the mobile cards
    show the same values). *)
Record line_row := mkLine { l_description : jsval; l_quantity : jsval; l_unit : text; l_amount : text }.

Section Lines.
Context {arith : JsArith}.

(** [unitAmount = line.unitAmount || line.unit_amount || 0] and
    [lineTotal = line.lineAmount || line.line_amount || unitAmount *
    line.quantity]; reading a property of a [null] line throws. *)
Definition line_amounts (line : jsval) : string + jsval * jsval :=
  u1 <-? read line "unitAmount" ;; u2 <-? read line "unit_amount" ;;
  let unitAmount := Js.or u1 (Js.or u2 (JNum 0)) in
  a1 <-? read line "lineAmount" ;; a2 <-? read line "line_amount" ;; q <-? read line "quantity" ;;
  inr (unitAmount, Js.or a1 (Js.or a2 (num_mul unitAmount q))).

Definition line_row_of (line : jsval) : string + line_row :=
  ut <-? line_amounts line ;; let '(u, t) := ut in
  inr (mkLine (Js.own_value line "description") (Js.own_value line "quantity") (Currency u) (Currency t)).

(** [itemDetails.lineItems && itemDetails.lineItems.length > 0 && (...
    lineItems.map(...))]: [.map] of a non-empty string throws. *)
Definition line_items (lineItems : jsval) : string + child (list line_row) :=
  if negb (Js.truthy lineItems) then inr (and_render lineItems [])
  else match lineItems with
       | JArr [] => inr Hidden
       | JArr ls => rows <-? traverse line_row_of ls ;; inr (Shown rows)
       | JStr _ => inl "itemDetails.lineItems.map is not a function"
       | _ => inr Hidden
       end.

End Lines.

(** The Amount Due row of a Xero bill: red when [amountDue > 0]. *)
Definition amount_due (d : jsval) : child (string * text) :=
  let g := Js.own_value d in
  if Js.truthy (g "isManualPayment") then Hidden
  else if Js.is_undef (g "amountDue") then Hidden
  else Shown (if Num.lt (JNum 0) (g "amountDue") then "text-red-600" else "text-green-600",
              Currency (g "amountDue")).

(** What the dialog shows. *)
Record view := mkView {
  description : string;
  infos : list (child info);
  items : child (list line_row);
  subtotal : child text;
  tax : child text;
  total : text;
  due : child (string * text);
  footer_total : text
}.

Section Render.
Context {arith : JsArith}.

(** [PaymentDetailsModal({isOpen, onClose, itemDetails})]: [None] is
    the [null] of a falsy [itemDetails]; otherwise whether the [Dialog]
    is open and its content, which is built (and may throw) even when
    the dialog is closed. *)
Definition render (isOpen : bool) (d : jsval) : string + option (bool * view) :=
  if negb (Js.truthy d) then inr None
  else
    let g := Js.own_value d in
    infos <-? bill_information d ;;
    items <-? line_items (g "lineItems") ;;
    inr (Some (isOpen,
      mkView (if Js.truthy (g "isManualPayment") then "Details from manual payment."
              else "Details from automated payment (Xero).")
             infos items
             (and_render (g "subTotal") (Currency (g "subTotal")))
             (and_render (g "totalTax") (Currency (g "totalTax")))
             (Currency (g "total"))
             (amount_due d)
             (Currency (g "total")))).

(** The dialog of the summary: [<PaymentDetailsModal isOpen={isModalOpen}
    itemDetails={selectedItemForDetails} />]. *)
Definition summary_modal (s : PaymentSummary.summary) : string + option (bool * view) :=
  render (PaymentSummary.isModalOpen s) (PaymentSummary.selectedItemForDetails s).

End Render.

End DetailsModal.

(** ** What the dialog shows *)

Section DetailsLemmas.
Import ClientApi DetailsModal.
Local Open Scope xero_scope.
Context {arith : JsArith}.

Lemma read_not_nullish x k : Js.is_nullish x = false -> read x k = inr (Js.own_value x k).
Proof. unfold read. by intros ->. Qed.

(** A line that is not [null] or [undefined] always has a row. *)
Lemma line_row_of_ok line : Js.is_nullish line = false -> exists r, line_row_of line = inr r.
Proof.
  intros Hn. unfold line_row_of, line_amounts. rewrite !read_not_nullish by done. simpl. by eexists.
Qed.

(** The bill information is computed unless a truthy status is not a
    string. *)
Lemma bill_information_ok d :
  (Js.truthy (Js.own_value d "status") = true -> exists s, Js.own_value d "status" = JStr s) ->
  exists infos, bill_information d = inr infos.
Proof.
  intros Hs. unfold bill_information.
  destruct (Js.truthy (Js.own_value d "status")) eqn:Ht; [|by eexists].
  destruct (Hs eq_refl) as [s ->]. by eexists.
Qed.

Lemma own_num_not_nullish x k a : Js.own_value x k = JNum a -> Js.is_nullish x = false.
Proof. by destruct x. Qed.

Lemma render_ok isOpen d infos c :
  Js.truthy d = true -> bill_information d = inr infos -> line_items (Js.own_value d "lineItems") = inr c ->
  render isOpen d =
    inr (Some (isOpen, mkView (if Js.truthy (Js.own_value d "isManualPayment") then "Details from manual payment."
                               else "Details from automated payment (Xero).")
                              infos c
                              (and_render (Js.own_value d "subTotal") (Currency (Js.own_value d "subTotal")))
                              (and_render (Js.own_value d "totalTax") (Currency (Js.own_value d "totalTax")))
                              (Currency (Js.own_value d "total")) (amount_due d)
                              (Currency (Js.own_value d "total")))).
Proof. intros Ht Hb Hc. unfold render. by rewrite Ht, Hb; cbn [negb ex_bind]; rewrite Hc. Qed.

(** A zero [subTotal] or [totalTax] is not hidden: [{0 && <el/>}]
    renders the text ["0"] where the row would be. *)
Theorem zero_totals_stray isOpen d o v :
  render isOpen d = inr (Some (o, v)) ->
  (Js.own_value d "subTotal" = JNum 0 -> subtotal v = Stray (JNum 0)) /\
  (Js.own_value d "totalTax" = JNum 0 -> tax v = Stray (JNum 0)).
Proof.
  unfold render. destruct (Js.truthy d); [|done]. simpl.
  destruct (bill_information d); [done|]. simpl. destruct (line_items _); [done|].
  intros [= <- <-]. simpl. split; intros ->; reflexivity.
Qed.

End DetailsLemmas.

(** ** A manual payment's details *)

Section ManualDetails.
Import ClientApi RequestApproval DetailsModal.
Local Open Scope xero_scope.
Context {arith : JsArith} {arith_ok : JsArithOk}.
Variable now_ms : Z.
Variable now_iso : string.

(** The lines of a payment that has them all render. *)
Lemma line_items_lines ls ars :
  lines_amounts ls ars -> exists c, line_items (JArr ls) = inr c.
Proof.
  intros Ha. assert (Hn : Forall (fun l => Js.is_nullish l = false) ls).
  { induction Ha as [|l ar ls ars [Hl _] _ IH]; constructor; [by eapply own_num_not_nullish|done]. }
  unfold line_items. destruct ls as [|l ls']; [by eexists|]. cbn -[traverse line_row_of].
  destruct (traverse_ok line_row_of (l :: ls')) as [rows ->]; [|by eexists].
  eapply Forall_impl; [exact Hn|]. intros x. apply line_row_of_ok.
Qed.

(** A manual payment added from a form whose lines carry no tax opens,
    from the summary, a dialog that says it is a manual payment, shows
    no Amount Due, and shows the text ["0"] in place of the Tax row
    ([totalTax] is [0], [zero_totals_stray]); closing it renders
    nothing. *)
Theorem manual_payment_details result formData p ls ars s :
  Js.truthy (Js.own_value result "success") = true ->
  Js.own_value formData "lines" = JArr ls -> lines_amounts ls ars ->
  (Js.truthy (Js.own_value formData "status") = true -> exists st, Js.own_value formData "status" = JStr st) ->
  Forall (fun ar => ar.2 = 0%Z) ars ->
  exists payment v,
    snd (handleAddManualPayment now_ms now_iso result formData p) = set_manual (manualPayments p ++ [payment]) p /\
    summary_modal (PaymentSummary.handleViewDetails payment s) = inr (Some (true, v)) /\
    description v = "Details from manual payment." /\ due v = Hidden /\ tax v = Stray (JNum 0) /\
    summary_modal (PaymentSummary.handleCloseModal (PaymentSummary.handleViewDetails payment s)) = inr None.
Proof.
  intros Hs Hl Ha Hst H0.
  assert (Hz : foldr (fun ar s => ar.1 * ar.2 + s)%Z 0%Z ars = 0%Z) 
    by (clear -H0; induction H0 as [|ar ars' Har _ IH]; simpl; [done|rewrite Har, IH; lia]).
  unfold handleAddManualPayment. rewrite (read_defined _ _ (truthy_defined _ Hs)), Hs. unfold createPaymentObject.
  rewrite (read_defined _ _ ltac:(by rewrite Hl)), Hl. cbn [ex_bind].
  rewrite (reduce_opt_spec _ _ _ _ (line_amount_num _ _ Ha)), (reduce_opt_spec _ _ _ _ (line_tax_num _ _ Ha)), Hz.
  cbn [ex_bind]. set (payment := JObj (("id", _) :: _)).
  destruct (line_items_lines ls ars Ha) as [c Hc].
  destruct (bill_information_ok payment) as [infos Hi].
  { simpl. intros _. unfold Js.or. destruct (Js.truthy (Js.own_value formData "status")) eqn:E; [by apply Hst|by eexists]. }
  exists payment. unfold summary_modal. simpl.
  rewrite (render_ok true payment infos c); [|done|exact Hi|exact Hc].
  eexists. split_and!; reflexivity.
Qed.

End ManualDetails.

(** A manual payment of one line of 100 without tax. *)
Lemma manual_payment_details_witness :
  let line := JObj [("line_amount", JNum 100); ("tax_rate", JNum 0)] in
  let formData := JObj [("lines", JArr [line])] in
  let result := JObj [("success", JBool true)] in
  exists payment v,
    snd (RequestApproval.handleAddManualPayment (arith := int_arith) 0 "" result formData
           (RequestApproval.initial true)) =
      RequestApproval.set_manual (RequestApproval.manualPayments (RequestApproval.initial true) ++ [payment])
        (RequestApproval.initial true) /\
    DetailsModal.summary_modal (arith := int_arith)
      (PaymentSummary.handleViewDetails payment (PaymentSummary.initial "2025-01-01")) = inr (Some (true, v)) /\
    DetailsModal.description v = "Details from manual payment." /\ DetailsModal.due v = DetailsModal.Hidden /\
    DetailsModal.tax v = DetailsModal.Stray (JNum 0) /\
    DetailsModal.summary_modal (arith := int_arith)
      (PaymentSummary.handleCloseModal (PaymentSummary.handleViewDetails payment (PaymentSummary.initial "2025-01-01")))
      = inr None.
Proof.
  intros line formData result.
  apply (manual_payment_details (arith_ok := int_arith_ok) 0 "" result formData _ [line] [(100%Z, 0%Z)]).
  - reflexivity.
  - reflexivity.
  - repeat constructor.
  - discriminate.
  - repeat constructor.
Defined.

(** A Xero bill fully paid and without tax. *)
Lemma zero_totals_stray_witness :
  let d := JObj [("subTotal", JNum 0); ("totalTax", JNum 0); ("total", JNum 0)] in
  exists o v, DetailsModal.render (arith := int_arith) true d = inr (Some (o, v)) /\
    DetailsModal.subtotal v = DetailsModal.Stray (JNum 0) /\ DetailsModal.tax v = DetailsModal.Stray (JNum 0).
Proof.
  intros d. eexists _, _. split; [reflexivity|].
  destruct (zero_totals_stray (arith := int_arith) true d _ _ eq_refl) as [Hs Ht].
  split; [apply Hs|apply Ht]; reflexivity.
Defined.
