(* ===== verification/SupplierSearch.v ===== *)
(** * The supplier search and the data of the manual-payment form

    The effects and asynchronous handlers of
    components/manual-payment/CreatePaymentForm.jsx that [PaymentForm]
    leaves out: the mount effect guarded by the ref [hasFetched], whose
    [loadInitialData()] starts [fetchAccounts] and [fetchTaxRates] of the
    form's [useXero] ([ClientHooks]) together; the debounced effect on
    [contactSearchTerm] and [searchContacts]; [handleClickOutside], the
    input's [onFocus] and the supplier dropdown.  A fetch of [useXero] is
    cut at its [await] ([UseXero.begin_fetch], then [accounts_done],
    [taxRates_done] or [contacts_done]), so that the completions of the
    two fetches of the mount can come in either order, and the search can
    complete on a hook other than the one of the render that started it.
    [searchContacts] is the closure of the render whose [useXero] hook
    was [h0]: it reads [searchedContacts] of [h0] after its [await].  The
    fetches of [useXero] catch their errors, so the [catch] blocks of
    [loadInitialData] and [searchContacts] are not reached. *)

From S2P Require Import Prelude JsValue ClientApi ClientHooks JsNumber PaymentForm Approval DetailsModal.
From stdpp Require Import pretty.

Module SupplierSearch.
Local Open Scope xero_scope.
Import ClientApi Form.

(** The state of the form: [Form.form], [isSearching], the form's
    [useXero] hook and the ref [hasFetched]. *)
Record state := mkState { form : Form.form; isSearching : bool; xero : UseXero.hook; hasFetched : bool }.

Definition initial (today : string) : state := mkState (Form.initial today) false UseXero.initial false.

Definition set_form (f : Form.form) (s : state) : state := mkState f (isSearching s) (xero s) (hasFetched s).
Definition set_xero (h : UseXero.hook) (s : state) : state := mkState (form s) (isSearching s) h (hasFetched s).
Definition set_searching (b : bool) (s : state) : state := mkState (form s) b (xero s) (hasFetched s).

Definition set_dropdown (b : bool) (f : Form.form) : Form.form :=
  mkForm (formData f) (errors f) (isSubmitting f) (contactSearchTerm f) b (selectedContact f) (toasts f).

(** [searchedContacts]: [data.contacts] of the hook. *)
Definition searchedContacts (h : UseXero.hook) : jsval := default JUndef (Js.field "contacts" (UseXero.data h)).

(** [v?.length > 0] (and [v.length > 0] on a value that is not
    [null] or [undefined]): the test [RequestApproval.has_errors]. *)
Definition length_positive (v : jsval) : bool := RequestApproval.has_errors v.

(** ** The mount: [loadInitialData()] *)

(** [{ where: 'Type!="BANK"' }] *)
Definition not_bank_filter : jsval :=
  let dq := String (Ascii.ascii_of_nat 34) EmptyString in
  JObj [("where", JStr ("Type!=" +:+ dq +:+ "BANK" +:+ dq))].

(** The effect on [[]]: once, [loadInitialData()] starts both fetches
    of [Promise.all]; each has run up to its [await]. *)
Definition mount (s : state) : list request * state :=
  if hasFetched s then ([], s)
  else ([fetchAccounts_request not_bank_filter; fetchTaxRates_request (JObj [])],
        mkState (form s) (isSearching s) (UseXero.begin_fetch (UseXero.begin_fetch (xero s))) true).

(** The completions of the two fetches, on the hook as it is when the
    answer arrives; [Promise.all] discards their results. *)
Definition accounts_loaded (res : string + jsval) (s : state) : state :=
  set_xero (snd (UseXero.accounts_done res (xero s))) s.
Definition taxRates_loaded (res : string + jsval) (s : state) : state :=
  set_xero (snd (UseXero.taxRates_done res (xero s))) s.

(** ** The search *)

(** The filters of [searchContacts(searchTerm)]. *)
Definition search_filters (searchTerm : jsval) : jsval :=
  JObj [("searchTerm", searchTerm); ("where", JStr "IsSupplier==true"); ("page", JNum 1); ("pageSize", JNum 10)].

(** The timer of the effect on [[contactSearchTerm]], 300 ms after the
    last change: [searchContacts(term)] up to its [await] when
    [term.trim()] is not empty and [term] has at least two characters,
    otherwise [setShowContactDropdown(false)]. *)
Definition search_timer (term : jsval) (s : state) : string + option request * state :=
  match term with
  | JStr t =>
      if negb (String.eqb (Js.trim t) "") && (2 <=? String.length t)%nat
      then inr (Some (fetchContacts_request (search_filters term)),
                set_xero (UseXero.begin_fetch (xero s)) (set_searching true s))
      else inr (None, set_form (set_dropdown false (form s)) s)
  | _ => inl "contactSearchTerm.trim is not a function"
  end.

(** The rest of [searchContacts] after [fetchContacts] answered [res]:
    [h0] is the hook of the render whose closure runs, and
    [setShowContactDropdown(searchedContacts?.length > 0)] reads its
    [searchedContacts]; the [finally] clears [isSearching]. *)
Definition search_done (h0 : UseXero.hook) (res : string + jsval) (s : state) : state :=
  let '(response, h) := UseXero.contacts_done res h0 (xero s) in
  let f := if Js.truthy (Js.own_value response "success")
           then set_dropdown (length_positive (searchedContacts h0)) (form s) else form s in
  set_searching false (mkState f (isSearching s) h (hasFetched s)).

(** [handleClickOutside(event)]: [dropdownRef.current] is set while the
    dropdown is shown; [inDropdown] and [inInput] say where the click
    landed. *)
Definition handleClickOutside (inDropdown inInput : bool) (s : state) : state :=
  if showContactDropdown (form s) && negb inDropdown && negb inInput
  then set_form (set_dropdown false (form s)) s else s.

(** The input's [onFocus]: [searchedContacts.length > 0]. *)
Definition onFocus (s : state) : string + state :=
  let c := searchedContacts (xero s) in
  if Js.is_nullish c then inl (type_error c "length")
  else inr (if length_positive c then set_form (set_dropdown true (form s)) s else s).

(** ** The dropdown *)

(** A supplier of the dropdown: its name, its e-mail, and
    [contact.bankAccountDetails || contact.batchPayments?.bankAccountNumber]. *)
Record supplier_row := mkRow { row_name : jsval; row_email : DetailsModal.child jsval; row_bank : DetailsModal.child jsval }.

Definition supplier_row_of (contact : jsval) : string + supplier_row :=
  name <-? read contact "name" ;;
  let bank := Js.or (Js.own_value contact "bankAccountDetails")
                    (opt_read (Js.own_value contact "batchPayments") "bankAccountNumber") in
  inr (mkRow name (DetailsModal.and_render (Js.own_value contact "emailAddress") (Js.own_value contact "emailAddress"))
             (DetailsModal.and_render bank bank)).

Inductive dropdown := Closed | NoSuppliers | Suppliers (rows : list supplier_row).

(** [{showContactDropdown && (<div> ... </div>)}]: the list of
    [searchedContacts], or "No suppliers found". *)
Definition dropdown_view (s : state) : string + dropdown :=
  if negb (showContactDropdown (form s)) then inr Closed
  else
    let c := searchedContacts (xero s) in
    if Js.is_nullish c then inl (type_error c "length")
    else if negb (length_positive c) then inr NoSuppliers
    else match c with
         | JArr cs => rows <-? traverse supplier_row_of cs ;; inr (Suppliers rows)
         | _ => inl "searchedContacts.map is not a function"
         end.

End SupplierSearch.

(** ** What the form draws *)

Module FormView.
Local Open Scope xero_scope.
Import ClientApi Form SupplierSearch DetailsModal.

(** [{errors[k] && <p className="text-sm text-red-500">{errors[k]}</p>}] *)
Definition field_error (f : Form.form) (k : string) : child jsval :=
  let e := default JUndef (Js.field k (errors f)) in and_render e e.

(** An option of a select: its [value] and the two values its text
    shows ([{account.code} - {account.name}], [{taxRate.name}
    ({taxRate.effectiveRate}%)]). *)
Definition option_of (k a b : string) (x : jsval) : string + jsval * (jsval * jsval) :=
  v <-? read x k ;; inr (v, (Js.own_value x a, Js.own_value x b)).

(** The card of a line item. *)
Record line_card := mkLineCard {
  item_title : string;                              (** [Item {index + 1}] *)
  remove_button : bool;                             (** [formData.lines.length > 1] *)
  description : jsval; description_error : child jsval;
  account_value : jsval; account_disabled : bool; account_placeholder : string;
  account_options : list (jsval * (jsval * jsval)); account_error : child jsval;
  quantity : jsval; quantity_error : child jsval;
  unit_amount : jsval; unit_amount_error : child jsval;
  tax_value : jsval; tax_disabled : bool; tax_placeholder : string;
  tax_options : list (jsval * (jsval * jsval));   (** "No Tax (0%)", then the applicable rates *)
  line_amount : string                              (** [line.line_amount.toFixed(2)]: the
                                                         default line's 0 or [calculateLineAmount]'s number *)
}.

Record form_view := mkFormView {
  supplier_input : jsval;                           (** [value={contactSearchTerm}] *)
  supplier_checked : bool;                          (** [{selectedContact && <Check />}] *)
  supplier_spinner : bool;                          (** [{isSearching && ...}] *)
  supplier_dropdown : dropdown;
  supplier_error : child jsval;
  selected_contact : child jsval;                   (** [{selectedContact && <SelectedContact data />}] *)
  description_value : jsval; description_field_error : child jsval;
  taxIncl_value : jsval; taxIncl_options : list (jsval * jsval); taxIncl_error : child jsval;
  line_cards : list line_card;
  lines_error : child jsval;
  total : jsval * string;                           (** [{formData.currency_code} {calculateTotalAmount()}] *)
  submit_disabled : bool;
  submit_label : string
}.

Section Render.
Context {arith : JsArith}.
(** The form's [useXero] arrays and its [isLoading]; the [loading] prop. *)
Variable accounts allTaxRates : list jsval.
Variable isLoading loading : bool.

Definition line_card_of (f : Form.form) (nlines index : nat) (line : jsval) : string + line_card :=
  rates <-? LineItems.applicableTaxRates accounts allTaxRates line ;;
  d <-? read line "description" ;;
  let g := Js.own_value line in
  let err k := field_error f ("lines." +:+ pretty index +:+ "." +:+ k) in
  accs <-? traverse (option_of "accountID" "code" "name") accounts ;;
  taxes <-? traverse (option_of "taxType" "name" "effectiveRate") rates ;;
  inr (mkLineCard ("Item " +:+ pretty (S index)) (1 <? nlines)%nat d (err "description")
         (Js.or (g "accountID") (JStr "")) isLoading
         (if isLoading then "Loading accounts..." else "Select account") accs (err "accountID")
         (g "quantity") (err "quantity") (g "unit_amount") (err "unit_amount")
         (Js.or (g "tax_name") (JStr "0")) (negb (LineItems.tax_select_enabled isLoading line))
         (if isLoading then "Loading..."
          else if negb (Js.truthy (g "accountID")) then "Select account first" else "Select tax rate")
         ((JStr "0", (JStr "No Tax (0%)", JUndef)) :: taxes) (to_fixed (g "line_amount") 2)).

(** [formData.lines.map((line, index) => ...)] *)
Fixpoint line_cards_from (f : Form.form) (nlines index : nat) (ls : list jsval) : string + list line_card :=
  match ls with
  | [] => inr []
  | l :: ls' => c <-? line_card_of f nlines index l ;;
                cs <-? line_cards_from f nlines (S index) ls' ;; inr (c :: cs)
  end.

Definition render (s : state) : string + form_view :=
  let f := form s in
  let g := Js.own_value (formData f) in
  dd <-? dropdown_view s ;;
  taxIncl <-? traverse (option_of "value" "label" "label") Validation.taxTypeOptions ;;
  cards <-? (match g "lines" with
             | JArr ls => line_cards_from f (length ls) 0 ls
             | JUndef | JNull => inl (type_error (g "lines") "map")
             | _ => inl "formData.lines.map is not a function"
             end) ;;
  total <-? LineItems.calculateTotalAmount (formData f) ;;
  inr (mkFormView (contactSearchTerm f) (Js.truthy (selectedContact f)) (isSearching s) dd
         (field_error f "contact_name") (and_render (selectedContact f) (selectedContact f))
         (g "description") (field_error f "description")
         (g "taxIncl") (map (fun o => (o.1, o.2.1)) taxIncl) (field_error f "taxIncl")
         cards (field_error f "lines") (g "currency_code", total)
         (loading || Form.isSubmitting f || isLoading)
         (if loading || Form.isSubmitting f then "Creating..." else "Create Payment")).

End Render.

End FormView.

(** ** A submission of the empty form *)

Section OpeningSubmit.
Import ClientApi Form SupplierSearch DetailsModal FormView.
Context {arith : JsArith}.

(** Submitting the form as it opens, before the accounts and tax rates
    have loaded, sends nothing, and the form then shows each error of
    the validation under its own field: the keys the validation writes
    ([description], [contact_name], [lines.0.description], ...) are the
    keys the fields read.  The quantity (default 1), the tax treatment
    and the list of lines show no error, and the submit button stays
    enabled unless a load is running. *)
Theorem opening_submit_errors_shown today parseFloat result isLoading loading :
  exists f v,
    Form.handleSubmit today parseFloat result (Form.initial today) = inr (None, f) /\
    FormView.render [] [] isLoading loading (set_form f (SupplierSearch.initial today)) = inr v /\
    description_field_error v = Shown (JStr "Description is required") /\
    supplier_error v = Shown (JStr "Contact name is required") /\
    taxIncl_error v = Hidden /\ lines_error v = Hidden /\
    map (fun c => (description_error c, account_error c, quantity_error c, unit_amount_error c)) (line_cards v) =
      [(Shown (JStr "Line description is required"), Shown (JStr "Account code is required"), Hidden,
        Shown (JStr "Unit amount must be greater than 0"))] /\
    submit_disabled v = loading || isLoading.
Proof.
  eexists _, _. split; [reflexivity|]. split; [reflexivity|].
  split_and!; try reflexivity. simpl. by destruct loading.
Qed.

End OpeningSubmit.

(** ** The search reads the suppliers of the render that started it *)

Section SearchLemmas.
Import ClientApi Form SupplierSearch.
Local Open Scope xero_scope.

Lemma search_timer_started term s req s1 :
  search_timer term s = inr (Some req, s1) ->
  s1 = set_xero (UseXero.begin_fetch (xero s)) (set_searching true s).
Proof.
  unfold search_timer. destruct term; try discriminate. case_match; [by intros [= _ <-]|discriminate].
Qed.

(** After its [await], the search opens the dropdown only when the
    render that started it had suppliers, or it was open. *)
Lemma search_done_dropdown h0 res s :
  showContactDropdown (form (search_done h0 res s)) = true ->
  length_positive (searchedContacts h0) = true \/ showContactDropdown (form s) = true.
Proof.
  unfold search_done. destruct (UseXero.contacts_done res h0 (xero s)) as [response h]. simpl.
  case_match; simpl; auto.
Qed.

(** A successful answer is stored as the hook's contacts. *)
Lemma contacts_done_stores res h0 h response d p :
  res = inr response -> read response "data" = inr d -> read response "pagination" = inr p ->
  searchedContacts (snd (UseXero.contacts_done res h0 h)) = d.
Proof.
  intros -> Hd Hp. unfold UseXero.contacts_done. simpl. rewrite Hd, Hp. simpl.
  unfold searchedContacts. simpl. by rewrite set_field_same.
Qed.

(** The first search of the form (no supplier found before, the
    dropdown closed) stores the suppliers of the answer in the hook but
    leaves the dropdown closed, whatever the answer holds:
    [searchContacts] reads [searchedContacts] of the render that started
    it, the empty list, instead of the suppliers just fetched. *)
Theorem first_search_dropdown_closed term s req s1 res :
  searchedContacts (xero s) = JArr [] -> showContactDropdown (form s) = false ->
  search_timer term s = inr (Some req, s1) ->
  dropdown_view (search_done (xero s) res s1) = inr Closed /\
  forall response d p, res = inr response -> read response "data" = inr d ->
    read response "pagination" = inr p -> searchedContacts (xero (search_done (xero s) res s1)) = d.
Proof.
  intros Hc Hd Ht. apply search_timer_started in Ht as ->. split.
  - unfold dropdown_view.
    match goal with |- context [negb ?b] => destruct b eqn:E; [|reflexivity] end.
    apply search_done_dropdown in E as [E|E]; [rewrite Hc in E; discriminate|simpl in E; congruence].
  - intros response d p Hr Hdat Hp. unfold search_done.
    pose proof (contacts_done_stores res (xero s) (UseXero.begin_fetch (xero s)) response d p Hr Hdat Hp) as Hs.
    destruct (UseXero.contacts_done _ _ _) as [r h]. exact Hs.
Qed.

End SearchLemmas.

(** ** The two fetches of the mount *)

Section MountLemmas.
Import SupplierSearch.
Local Open Scope xero_scope.

(** [setData((prev) => ({...prev, k: v}))], when the fetch sets it. *)
Definition touch (t : option (string * jsval)) (fs : list (string * jsval)) : list (string * jsval) :=
  match t with Some (k, v) => Js.set_field k v fs | None => fs end.

Lemma touch_commute t1 t2 fs k :
  (forall k1 v1 k2 v2, t1 = Some (k1, v1) -> t2 = Some (k2, v2) -> k1 <> k2) ->
  Js.field k (touch t1 (touch t2 fs)) = Js.field k (touch t2 (touch t1 fs)).
Proof.
  intros Hne. destruct t1 as [[k1 v1]|], t2 as [[k2 v2]|]; cbn [touch]; try done.
  specialize (Hne k1 v1 k2 v2 eq_refl eq_refl).
  destruct (decide (k = k1)) as [->|H1].
  { rewrite set_field_same, (set_field_other k1 k2) by done. by rewrite set_field_same. }
  rewrite (set_field_other k k1) by done.
  destruct (decide (k = k2)) as [->|H2].
  { by rewrite !set_field_same. }
  rewrite !(set_field_other k k2) by done. by rewrite (set_field_other k k1).
Qed.

Lemma touch_other t key k fs :
  (forall k1 v, t = Some (k1, v) -> k1 = key) -> k <> key -> Js.field k (touch t fs) = Js.field k fs.
Proof.
  intros Ht Hk. destruct t as [[k1 v]|]; [|done]. cbn [touch].
  rewrite set_field_other; [done|]. by rewrite (Ht k1 v eq_refl).
Qed.

(** The completion of a fetch clears [isLoading], keeps the
    pagination, and sets at most the data of its own key. *)
Definition completes (key : string) (done_ : UseXero.hook -> jsval * UseXero.hook) : Prop :=
  exists t, (forall k v, t = Some (k, v) -> k = key) /\
  forall h,
    UseXero.data (snd (done_ h)) = touch t (UseXero.data h) /\
    UseXero.isLoading (snd (done_ h)) = false /\ UseXero.pagination (snd (done_ h)) = UseXero.pagination h.

Lemma accounts_done_completes res : completes "accounts" (UseXero.accounts_done res).
Proof.
  unfold completes, UseXero.accounts_done.
  destruct (_ <-? _ ;; _) as [msg|[response f]]; simpl.
  - exists None. naive_solver.
  - exists (Some ("accounts", f)). naive_solver.
Qed.

Lemma taxRates_done_completes res : completes "taxRates" (UseXero.taxRates_done res).
Proof.
  unfold completes, UseXero.taxRates_done.
  destruct res as [msg|response]; [exists None; naive_solver|].
  destruct (ClientApi.read response "data") as [e|d]; simpl.
  - exists None. naive_solver.
  - exists (Some ("taxRates", d)). naive_solver.
Qed.

(** The mount's two fetches can complete in either order: the form
    ends with the same accounts, tax rates and pagination, and no longer
    loading, whichever answer comes first. *)
Theorem mount_completions_commute ra rt s :
  let a := taxRates_loaded rt (accounts_loaded ra s) in
  let b := accounts_loaded ra (taxRates_loaded rt s) in
  (forall k, Js.field k (UseXero.data (xero a)) = Js.field k (UseXero.data (xero b))) /\
  UseXero.isLoading (xero a) = false /\ UseXero.isLoading (xero b) = false /\
  UseXero.pagination (xero a) = UseXero.pagination (xero b) /\ form a = form b.
Proof.
  destruct (accounts_done_completes ra) as (ta & Hka & Ha).
  destruct (taxRates_done_completes rt) as (tt & Hkt & Ht).
  unfold accounts_loaded, taxRates_loaded, set_xero. simpl.
  destruct (Ha (xero s)) as (Ha1 & _ & Ha3), (Ht (xero s)) as (Ht1 & _ & Ht3).
  destruct (Ha (snd (UseXero.taxRates_done rt (xero s)))) as (Hb1 & Hb2 & Hb3).
  destruct (Ht (snd (UseXero.accounts_done ra (xero s)))) as (Hc1 & Hc2 & Hc3).
  split_and!; try done.
  - intros k. rewrite Hc1, Hb1, Ha1, Ht1. apply touch_commute.
    intros k1 v1 k2 v2 E1 E2. rewrite (Hkt _ _ E1), (Hka _ _ E2). done.
  - by rewrite Hc3, Hb3, Ha3, Ht3.
Qed.

(** The two fetches of the mount share the hook's one [isLoading]: the
    first answer, whichever it is, clears it while the other list is
    still the empty one of the initial hook, so the account select is
    enabled with no account ("Select account", not "Loading
    accounts..."), or the tax-rate select with no rate. *)
Theorem mount_loading_cleared_early today ra rt :
  let s := snd (mount (initial today)) in
  UseXero.isLoading (xero s) = true /\
  UseXero.isLoading (xero (accounts_loaded ra s)) = false /\
  Js.field "taxRates" (UseXero.data (xero (accounts_loaded ra s))) = Some (JArr []) /\
  UseXero.isLoading (xero (taxRates_loaded rt s)) = false /\
  Js.field "accounts" (UseXero.data (xero (taxRates_loaded rt s))) = Some (JArr []).
Proof.
  destruct (accounts_done_completes ra) as (ta & Hka & Ha).
  destruct (taxRates_done_completes rt) as (tt & Hkt & Ht).
  intros s. unfold accounts_loaded, taxRates_loaded, set_xero. cbn [xero].
  destruct (Ha (xero s)) as (Ha1 & Ha2 & _), (Ht (xero s)) as (Ht1 & Ht2 & _).
  split_and!; [reflexivity|done| |done|].
  - rewrite Ha1, (touch_other _ "accounts") by done. reflexivity.
  - rewrite Ht1, (touch_other _ "taxRates") by done. reflexivity.
Qed.

End MountLemmas.

(** The first search for "acme", answered with one supplier. *)
Lemma first_search_dropdown_closed_witness :
  let s := snd (SupplierSearch.mount (SupplierSearch.initial "2025-01-01")) in
  let res := inr (JObj [("success", JBool true); ("data", JArr [JObj [("name", JStr "Acme")]]);
                        ("pagination", JNull)]) in
  exists req s1, SupplierSearch.search_timer (JStr "acme") s = inr (Some req, s1) /\
    SupplierSearch.dropdown_view (SupplierSearch.search_done (SupplierSearch.xero s) res s1) = inr SupplierSearch.Closed /\
    SupplierSearch.searchedContacts (SupplierSearch.xero (SupplierSearch.search_done (SupplierSearch.xero s) res s1)) =
      JArr [JObj [("name", JStr "Acme")]].
Proof.
  intros s res. eexists _, _. split; [reflexivity|].
  destruct (first_search_dropdown_closed (JStr "acme") s _ _ res eq_refl eq_refl eq_refl) as [H1 H2].
  split; [exact H1|]. by apply (H2 _ _ JNull eq_refl).
Defined.
