(* ===== verification/BillList.v ===== *)
(** * The supplier bills and the sync-required card

    components/invoices/SupplierBillList.jsx, the list of the bills
    (invoices of type [ACCPAY]) that pages/SupplierBillsPage.jsx shows at
    [/bills], over its own [useXero] ([ClientHooks]) and the table
    [PaginatedTable] ([Tables]), whose calls it handles; and
    components/xero/SyncRequired.jsx, the card the pages show while Xero
    is not synced.

    [loadInvoices] is a [useCallback] over [currentPage], [pageSize] and
    [filterStatus]: a handler calls the one of the render it belongs
    to.  Each call sends its request and runs [fetchInvoices] up to its
    [await]; the answers come back in any order ([Answer i] completes
    the [i]-th pending call), and each completion runs the rest of
    [fetchInvoices] ([UseXero.invoices_done]) on the hook as it is then.
    The effect on [[filterStatus, pageSize]] runs after a render where
    one of them changed. *)

From S2P Require Import Prelude JsValue ClientApi ClientState ClientHooks Tables Router DetailsModal.

(** ** components/xero/SyncRequired.jsx *)

Module SyncRequired.

Inductive icon := Loader | AlertCircle | RefreshCw.

Record card := mkCard {
  card_icon : icon;
  title : string;
  message : string;
  detail : DetailsModal.child jsval;            (** [{error && <p>{error}</p>}] *)
  sync_label : string;
  sync_disabled : bool;
  check_connection : DetailsModal.child unit    (** [{error && onRetry && <Button>}] *)
}.

Inductive view := Initializing | Card (c : card).

(** [<SyncRequired onSync isSyncing error onRetry isInitializing />];
    [has_retry] says whether [onRetry] was given. *)
Definition render (isSyncing : bool) (error : jsval) (has_retry : bool) (isInitializing : bool) : view :=
  if isInitializing then Initializing
  else
    let e := Js.truthy error in
    Card (mkCard (if e then AlertCircle else RefreshCw)
                 (if e then "Connection Error" else "Sync Required")
                 (if e then "Failed to connect to Xero. Please check your connection and try again."
                  else "Please sync with Xero first to use the features.")
                 (DetailsModal.and_render error error)
                 (if isSyncing then "Syncing..." else "Sync with Xero")
                 isSyncing
                 (if e then (if has_retry then DetailsModal.Shown tt else DetailsModal.Hidden)
                  else DetailsModal.and_render error tt)).

End SyncRequired.

(** ** components/invoices/SupplierBillList.jsx *)

Module BillList.
Local Open Scope xero_scope.
Import ClientApi.

(** The list's [useState]s, its [useXero] hook, the hooks of the
    renders whose [fetchInvoices] still awaits, the requests sent, and
    the navigations. *)
Record state := mkState {
  filterStatus : jsval; currentPage : jsval; pageSize : jsval;
  xero : UseXero.hook; pending : list UseXero.hook; sent : list request; effects : list effect
}.

Definition initial : state := mkState (JStr "all") (JNum 1) (JNum 10) UseXero.initial [] [] [].

Definition set_filter (v : jsval) (s : state) : state :=
  mkState v (currentPage s) (pageSize s) (xero s) (pending s) (sent s) (effects s).
Definition set_page (v : jsval) (s : state) : state :=
  mkState (filterStatus s) v (pageSize s) (xero s) (pending s) (sent s) (effects s).
Definition set_size (v : jsval) (s : state) : state :=
  mkState (filterStatus s) (currentPage s) v (xero s) (pending s) (sent s) (effects s).

(** The [filters] of [loadInvoices]. *)
Definition filters (filterStatus page size : jsval) : jsval :=
  JObj ([("type", JStr "ACCPAY"); ("page", page); ("pageSize", size)] ++
        if Js.strict_eq filterStatus (JStr "all") then [] else [("status", filterStatus)]).

(** [loadInvoices(page = currentPage, size = pageSize)] of the render
    [r], called on the state [s]: the request sent and [fetchInvoices]
    up to its [await]. *)
Definition loadInvoices (r : state) (page size : option jsval) (s : state) : state :=
  let req := fetchInvoices_request (filters (filterStatus r) (default (currentPage r) page)
                                            (default (pageSize r) size)) in
  mkState (filterStatus s) (currentPage s) (pageSize s) (UseXero.begin_fetch (xero s))
          (pending s ++ [xero r]) (sent s ++ [req]) (effects s).

(** The render after [before]: the effect on [[filterStatus, pageSize]]
    calls [loadInvoices(1)] when one of them changed. *)
Definition rerender (before after : state) : state :=
  if Js.strict_eq (filterStatus before) (filterStatus after) && Js.strict_eq (pageSize before) (pageSize after)
  then after else loadInvoices after (Some (JNum 1)) None after.

(** The rest of the [i]-th pending [fetchInvoices] after its answer. *)
Definition answer (i : nat) (res : string + jsval) (s : state) : state :=
  match pending s !! i with
  | Some h0 => mkState (filterStatus s) (currentPage s) (pageSize s)
                       (snd (UseXero.invoices_done res h0 (xero s))) (delete i (pending s)) (sent s) (effects s)
  | None => s
  end.

(** A call of [PaginatedTable] to [onPageChange] or [onPageSizeChange],
    the handler of the render [r]. *)
Definition handle_call (r : state) (c : Tables.call) (s : state) : state :=
  match c with
  | Tables.OnPageChange n => loadInvoices r (Some (JNum n)) None (set_page (JNum n) s)
  | Tables.OnPageSizeChange n =>
      loadInvoices r (Some (JNum 1)) (Some (JNum n)) (set_page (JNum 1) (set_size (JNum n) s))
  end.

Inductive event :=
| Mount                              (** the effect's first run *)
| SelectStatus (v : jsval)           (** the [Select]'s [setFilterStatus] *)
| PageChange (page : jsval)          (** [handlePageChange(newPage)] *)
| PageSizeChange (size : jsval)      (** [handlePageSizeChange(newPageSize)] *)
| RowClick (invoice : jsval)         (** [handleViewInvoice(invoice)] *)
| Retry                              (** [onRetry={() => loadInvoices(currentPage)}] *)
| Answer (i : nat) (res : string + jsval)
| TableCalls (cs : list Tables.call).  (** the calls of one event of [PaginatedTable] *)

Definition step (e : event) (s : state) : string + state :=
  match e with
  | Mount => inr (loadInvoices s (Some (JNum 1)) None s)
  | SelectStatus v => inr (rerender s (set_filter v s))
  | PageChange n => inr (rerender s (loadInvoices s (Some n) None (set_page n s)))
  | PageSizeChange n =>
      inr (rerender s (loadInvoices s (Some (JNum 1)) (Some n) (set_page (JNum 1) (set_size n s))))
  | RowClick invoice =>
      id <-? read invoice "invoiceID" ;;
      inr (mkState (filterStatus s) (currentPage s) (pageSize s) (xero s) (pending s) (sent s)
                   (effects s ++ [Navigate ("/invoices/" +:+ Js.to_string id) None]))
  | Retry => inr (loadInvoices s (Some (currentPage s)) None s)
  | Answer i res => inr (answer i res s)
  | TableCalls cs => inr (rerender s (fold_left (fun acc c => handle_call s c acc) cs s))
  end.

Fixpoint run (es : list event) (s : state) : string + state :=
  match es with
  | [] => inr s
  | e :: es' => s' <-? step e s ;; run es' s'
  end.

(** What the card shows: the [PaginatedTable] of the hook's invoices, or
    the sync-required card without error or retry. *)
Record table_props := mkTableProps {
  t_data : jsval; t_pagination : jsval; t_loading : bool; t_error : jsval; t_emptyMessage : string
}.

Inductive view := Table (p : table_props) | NotSynced (v : SyncRequired.view).

Definition render (isSynced isSyncing : bool) (s : state) : view :=
  if isSynced
  then Table (mkTableProps (default JUndef (Js.field "invoices" (UseXero.data (xero s))))
                           (UseXero.page_of "invoices" (xero s)) (UseXero.isLoading (xero s))
                           (UseXero.error (xero s)) "No bills found.")
  else NotSynced (SyncRequired.render isSyncing JUndef false false).

End BillList.

(** ** Requests and answers of the bill list *)

Section BillListLemmas.
Import ClientApi BillList.
Local Open Scope xero_scope.

(** A successful answer sets the hook's invoices and their pagination. *)
Lemma invoices_done_success res h0 h response d f p :
  res = inr response -> read response "data" = inr d -> UseXero.formatInvoices d = inr f ->
  read response "pagination" = inr p ->
  Js.field "invoices" (UseXero.data (snd (UseXero.invoices_done res h0 h))) = Some f /\
  UseXero.page_of "invoices" (snd (UseXero.invoices_done res h0 h)) = p.
Proof.
  intros -> Hd Hf Hp. unfold UseXero.invoices_done, UseXero.page_of. simpl.
  rewrite Hd. simpl. rewrite Hf. simpl. rewrite Hp. simpl. by rewrite !set_field_same.
Qed.

(** A change of the page size sends the same request twice: once from
    [handlePageSizeChange] ([loadInvoices(1, newPageSize)]) and once
    from the effect on [pageSize] ([loadInvoices(1)] of the next render),
    both for page 1 at the new size. *)
Theorem page_size_change_requests_twice s n s' :
  Js.strict_eq (pageSize s) n = false -> step (PageSizeChange n) s = inr s' ->
  let r := fetchInvoices_request (filters (filterStatus s) (JNum 1) n) in
  sent s' = sent s ++ [r; r] /\ currentPage s' = JNum 1 /\ pageSize s' = n.
Proof.
  intros Hn [= <-]. unfold rerender. simpl. rewrite Hn, andb_false_r. simpl.
  by rewrite <- app_assoc.
Qed.

(** Answers that come back in another order than their requests: after
    [handlePageChange(p2)] and then [handlePageChange(p3)], if the answer
    for [p3] comes first and the one for [p2] last, the list is on page
    [p3] but shows the invoices and the pagination of page [p2]. *)
Theorem late_answer_overwrites s p2 p3 r2 r3 s' :
  Js.strict_eq (filterStatus s) (filterStatus s) = true -> Js.strict_eq (pageSize s) (pageSize s) = true ->
  pending s = [] ->
  run [PageChange p2; PageChange p3; Answer 1 r3; Answer 0 r2] s = inr s' ->
  currentPage s' = p3 /\ pending s' = [] /\
  sent s' = sent s ++ [fetchInvoices_request (filters (filterStatus s) p2 (pageSize s));
                       fetchInvoices_request (filters (filterStatus s) p3 (pageSize s))] /\
  forall response d f p, r2 = inr response -> read response "data" = inr d ->
    UseXero.formatInvoices d = inr f -> read response "pagination" = inr p ->
    Js.field "invoices" (UseXero.data (xero s')) = Some f /\ UseXero.page_of "invoices" (xero s') = p.
Proof.
  intros Hf Hs Hp. cbn [run step ex_bind]. unfold rerender, answer. simpl.
  repeat (rewrite ?Hf, ?Hs; progress simpl). rewrite Hp. simpl. intros [= <-]. simpl.
  split_and!; [done|done|by rewrite <- app_assoc|]. intros response d f p Hr Hd Hfm Hpg.
  exact (invoices_done_success _ _ _ _ _ _ _ Hr Hd Hfm Hpg).
Qed.

Lemma drop_empty_snoc l x : x <> "" -> Router.drop_empty (l ++ [x]) = Router.drop_empty l ++ [x].
Proof.
  intros Hx. induction l as [|[|c a] l IH]; simpl; [by destruct x|exact IH|done].
Qed.

(** No route of the table begins with [invoices]. *)
Lemma invoices_path_not_found id : Router.match_routes ("/invoices/" +:+ id) = (Router.Unguarded, Router.NotFoundPage).
Proof.
  unfold Router.match_routes, Router.path_segments.
  change (Js.split Router.is_slash ("/invoices/" +:+ id)) with ("" :: "invoices" :: Js.split_acc Router.is_slash "" id).
  cbn iota beta. change (rev ("invoices" :: ?l)) with (rev l ++ ["invoices"]).
  rewrite drop_empty_snoc by discriminate. rewrite rev_app_distr. simpl.
  destruct (forallb _ _); reflexivity.
Qed.

(** A click on a row of the bills navigates to [/invoices/:invoiceID],
    a path that no route declares: signed in or not, the browser shows
    [NotFoundPage], without the layout. *)
Theorem row_click_not_found s invoice s' :
  step (RowClick invoice) s = inr s' ->
  exists path, effects s' = effects s ++ [Navigate path None] /\
    forall jwtDecode now b, fst (Router.render jwtDecode now b path) = Router.Shows Router.NotFoundPage false.
Proof.
  simpl. destruct (read invoice "invoiceID") as [|id]; [discriminate|]. intros [= <-].
  eexists. split; [reflexivity|]. intros jwtDecode now b. unfold Router.render.
  by rewrite invoices_path_not_found.
Qed.

(** Through the table, a new page size sends three requests: the
    table's [handlePageSizeChange] calls [onPageSizeChange(n)]
    ([loadInvoices(1, n)]) and then [onPageChange(1)], whose
    [loadInvoices(1)] belongs to the render before the change and asks
    for the old page size; the effect on [pageSize] then asks again for
    page 1 at the new size. *)
Theorem table_page_size_three_requests s n s' :
  Js.strict_eq (pageSize s) (JNum n) = false ->
  step (TableCalls (Tables.handlePageSizeChange true n)) s = inr s' ->
  let r size := fetchInvoices_request (filters (filterStatus s) (JNum 1) size) in
  sent s' = sent s ++ [r (JNum n); r (pageSize s); r (JNum n)] /\ currentPage s' = JNum 1 /\ pageSize s' = JNum n.
Proof.
  intros Hn [= <-]. unfold rerender. simpl. rewrite Hn, andb_false_r. simpl.
  by rewrite <- !app_assoc.
Qed.

End BillListLemmas.

(** From the first render, the page size set to 25. *)
Lemma page_size_change_requests_twice_witness :
  exists s', BillList.step (BillList.PageSizeChange (JNum 25)) BillList.initial = inr s' /\
  let r := ClientApi.fetchInvoices_request (BillList.filters (JStr "all") (JNum 1) (JNum 25)) in
  BillList.sent s' = [r; r] /\ BillList.currentPage s' = JNum 1 /\ BillList.pageSize s' = JNum 25.
Proof.
  eexists. split; [reflexivity|].
  exact (page_size_change_requests_twice BillList.initial (JNum 25) _ eq_refl eq_refl).
Defined.

(** Pages 2 and 3 asked in turn, the answer for page 3 first. *)
Lemma late_answer_overwrites_witness :
  let ans n := inr (JObj [("data", JArr []); ("pagination", JNum n)]) in
  exists s', BillList.run [BillList.PageChange (JNum 2); BillList.PageChange (JNum 3);
                           BillList.Answer 1 (ans 3%Z); BillList.Answer 0 (ans 2%Z)] BillList.initial = inr s' /\
    BillList.currentPage s' = JNum 3 /\ UseXero.page_of "invoices" (BillList.xero s') = JNum 2.
Proof.
  intros ans. eexists. split; [reflexivity|].
  destruct (late_answer_overwrites BillList.initial (JNum 2) (JNum 3) (ans 2%Z) (ans 3%Z) _
              eq_refl eq_refl eq_refl eq_refl) as (Hp & _ & _ & H).
  split; [exact Hp|]. by apply (H _ (JArr []) (JArr []) (JNum 2) eq_refl eq_refl eq_refl eq_refl).
Defined.

(** A click on the bill [INV-1]. *)
Lemma row_click_not_found_witness :
  exists s', BillList.step (BillList.RowClick (JObj [("invoiceID", JStr "INV-1")])) BillList.initial = inr s' /\
  exists path, BillList.effects s' = [Navigate path None] /\
    forall jwtDecode now b, fst (Router.render jwtDecode now b path) = Router.Shows Router.NotFoundPage false.
Proof.
  eexists. split; [reflexivity|].
  exact (row_click_not_found BillList.initial (JObj [("invoiceID", JStr "INV-1")]) _ eq_refl).
Defined.

(** From the first render, 25 rows per page chosen in the table. *)
Lemma table_page_size_three_requests_witness :
  exists s', BillList.step (BillList.TableCalls (Tables.handlePageSizeChange true 25)) BillList.initial = inr s' /\
  let r size := ClientApi.fetchInvoices_request (BillList.filters (JStr "all") (JNum 1) size) in
  BillList.sent s' = [r (JNum 25); r (JNum 10); r (JNum 25)] /\ BillList.currentPage s' = JNum 1 /\
  BillList.pageSize s' = JNum 25.
Proof.
  eexists. split; [reflexivity|].
  exact (table_page_size_three_requests BillList.initial 25 _ eq_refl eq_refl).
Defined.
