(* ===== verification/ApprovalPage.v ===== *)
(** * The batch approval page

    pages/ApprovalPage.jsx with components/approval/Filters.jsx.  The
    page keeps its
    [filters] ([{search, isApproved}]), the two confirmation dialogs and
    the refs [initialFetchDone] and [prevFiltersRef]; its effect fetches
    the batches of [usePaymentBatch] ([PaymentHooks]) the first time, and
    again from page 1 whenever the filters differ, as [JSON.stringify]
    ([Json]) texts, from the last fetched ones.  [Filters] keeps the
    search input, debounced by a timer of 500 ms before it changes the
    page's filters. *)

From S2P Require Import Prelude JsValue ClientApi ClientState Json PaymentForm PaymentHooks Summary.

(** ** components/approval/Filters.jsx *)

Module Filters.
Local Open Scope xero_scope.
Import Form.

(** The state [searchInput], first [filters.search || ""]. *)
Definition initial (filters : jsval) : jsval := Js.or (Js.own_value filters "search") (JStr "").

(** The debounce timer of the effect on [[searchInput, filters]]: the
    filters it passes to [onFiltersChange], if any. *)
Definition search_timer (searchInput filters : jsval) : option jsval :=
  if negb (Js.strict_eq searchInput (Js.own_value filters "search"))
  then Some (with_field "search" searchInput filters) else None.

(** The effect on [[filters.search]]: [setSearchInput(filters.search || "")]. *)
Definition sync_search (filters : jsval) : jsval := Js.or (Js.own_value filters "search") (JStr "").

(** [handleFilterChange(key, value)]: what it passes to [onFiltersChange]. *)
Definition handleFilterChange (key : string) (value filters : jsval) : jsval :=
  with_field key value filters.

(** [hasActiveFilters] *)
Definition hasActiveFilters (filters : jsval) : bool :=
  Js.truthy (Js.own_value filters "search")
  || negb (Js.strict_eq (Js.own_value filters "isApproved") (JStr "all")).

(** [getStatusLabel(value)] *)
Definition getStatusLabel (value : jsval) : jsval :=
  if Js.strict_eq value (JStr "true") then JStr "Approved"
  else if Js.strict_eq value (JStr "false") then JStr "Pending" else JNull.

(** What a control passes to the page: [onFiltersChange(f)] or
    [onClearFilters()]. *)
Inductive call := FiltersChange (f : jsval) | ClearFilters.

(** [handleClear()]: the new [searchInput] and the call. *)
Definition handleClear : jsval * list call := (JStr "", [ClearFilters]).

(** The [X] of the search badge. *)
Definition remove_search (filters : jsval) : jsval * list call :=
  (JStr "", [FiltersChange (with_field "search" (JStr "") filters)]).

(** The [X] of the status badge: [handleFilterChange("isApproved", "all")]. *)
Definition remove_status (filters : jsval) : list call :=
  [FiltersChange (handleFilterChange "isApproved" (JStr "all") filters)].

(** What the filters draw: the search input and the status select
    (disabled while loading), the Clear button, and the badges of the
    active filters ([Search: ...], [Status: ...]). *)
Record view := mkView {
  search_value : jsval;
  status_value : jsval;
  controls_disabled : bool;
  clear_button : bool;
  active : option (option jsval * option jsval)
}.

Definition render (filters searchInput : jsval) (loading : bool) : view :=
  let g := Js.own_value filters in
  let has := hasActiveFilters filters in
  mkView searchInput (g "isApproved") loading has
    (if has then
       Some (if Js.truthy (g "search") then Some (g "search") else None,
             if negb (Js.strict_eq (g "isApproved") (JStr "all")) then Some (getStatusLabel (g "isApproved"))
             else None)
     else None).

End Filters.

(** ** pages/ApprovalPage.jsx *)

Module ApprovalPage.
Local Open Scope xero_scope.
Import ClientApi Form.

(** A confirmation dialog: [{isOpen, batch}]. *)
Record modal := mkModal { isOpen : bool; batch : jsval }.

Definition closed : modal := mkModal false JNull.

Record page := mkPage {
  filters : jsval;
  approveModal : modal;
  deleteModal : modal;
  initialFetchDone : bool;
  prevFilters : jsval
}.

Definition default_filters : jsval := JObj [("search", JStr ""); ("isApproved", JStr "all")].

(** The first render: [prevFiltersRef] starts as the first [filters]. *)
Definition initial : page := mkPage default_filters closed closed false default_filters.

Definition set_filters (f : jsval) (p : page) : page :=
  mkPage f (approveModal p) (deleteModal p) (initialFetchDone p) (prevFilters p).
Definition set_approve (m : modal) (p : page) : page :=
  mkPage (filters p) m (deleteModal p) (initialFetchDone p) (prevFilters p).
Definition set_delete (m : modal) (p : page) : page :=
  mkPage (filters p) (approveModal p) m (initialFetchDone p) (prevFilters p).
Definition set_done (p : page) : page :=
  mkPage (filters p) (approveModal p) (deleteModal p) true (prevFilters p).
Definition set_prev (f : jsval) (p : page) : page :=
  mkPage (filters p) (approveModal p) (deleteModal p) (initialFetchDone p) f.

(** [processedFilters]: [isApproved] is [undefined] for ["all"], else
    whether it is ["true"]. *)
Definition processed (filters : jsval) : jsval :=
  let a := Js.own_value filters "isApproved" in
  with_field "isApproved"
    (if Js.strict_eq a (JStr "all") then JUndef else JBool (Js.strict_eq a (JStr "true"))) filters.

(** The effect on [[filters, fetchBatches]]: the page after it and the
    argument of the [fetchBatches] it calls, if any. *)
Definition fetch_effect (p : page) : page * option jsval :=
  let pf := processed (filters p) in
  let filtersChanged := negb (bool_decide (Json.stringify (prevFilters p) = Json.stringify (filters p))) in
  if negb (initialFetchDone p) then
    (set_prev (filters p) (set_done p), Some (JObj [("filters", pf)]))
  else if filtersChanged then
    (set_prev (filters p) p, Some (JObj [("page", JNum 1); ("filters", pf)]))
  else (p, None).

(** [handleFiltersChange(newFilters)] *)
Definition handleFiltersChange (f : jsval) (p : page) : page := set_filters f p.

(** [handleClearFilters()] *)
Definition handleClearFilters (p : page) : page := set_filters default_filters p.

(** [handleApprove(batch)] and [handleDelete(batch)] *)
Definition handleApprove (b : jsval) (p : page) : page := set_approve (mkModal true b) p.
Definition handleDelete (b : jsval) (p : page) : page := set_delete (mkModal true b) p.

(** The [onClose] of the dialogs. *)
Definition closeApprove (p : page) : page := set_approve closed p.
Definition closeDelete (p : page) : page := set_delete closed p.

(** [confirmApprove()], with [approveBatch]'s answer [res] and [today]
    its [toLocaleDateString()]: the dialog closes only when the approval
    resolved; what it throws (also reading [id] of a [null] batch) is
    logged. *)
Definition confirmApprove (today : jsval) (res : string + jsval) (h : PaymentBatch.hook) (p : page)
    : PaymentBatch.hook * page :=
  match read (batch (approveModal p)) "id" with
  | inl _ => (h, p)
  | inr id =>
      let '(out, h) := PaymentBatch.approveBatch id today res h in
      match out with inr _ => (h, closeApprove p) | inl _ => (h, p) end
  end.

(** [confirmDelete()], with the render [r] of [usePaymentBatch]. *)
Definition confirmDelete (localeDate : jsval -> jsval) (r : PaymentBatch.hook) (res refresh : string + jsval)
    (h : PaymentBatch.hook) (p : page) : PaymentBatch.hook * page :=
  match read (batch (deleteModal p)) "id" with
  | inl _ => (h, p)
  | inr id =>
      let '(out, h) := PaymentBatch.deleteBatch localeDate r id res refresh h in
      match out with inr _ => (h, closeDelete p) | inl _ => (h, p) end
  end.

(** [handlePageChange(page)] and [handlePageSizeChange(size)]. *)
Definition handlePageChange (localeDate : jsval -> jsval) (r : PaymentBatch.hook) (page : jsval)
    (res : string + jsval) (h : PaymentBatch.hook) : option request * PaymentBatch.hook :=
  PaymentBatch.goToPage localeDate r page res h.
Definition handlePageSizeChange (localeDate : jsval -> jsval) (r : PaymentBatch.hook) (size : jsval)
    (res : string + jsval) (h : PaymentBatch.hook) : option request * PaymentBatch.hook :=
  PaymentBatch.changePageSize localeDate r size res h.

(** A search typed into [Filters]: when its debounce timer fires, the
    filters it passes to the page, and the argument of the
    [fetchBatches] the page's effect then calls, if any. *)
Definition debounced_search (t : string) (p : page) : option jsval :=
  match Filters.search_timer (JStr t) (filters p) with
  | None => None
  | Some nf => snd (fetch_effect (handleFiltersChange nf p))
  end.

(** ** The batches are refetched from page 1 exactly when the filters change *)

(** The filters as the page and [Filters] build them. *)
Definition filter_obj (s a : string) : jsval := JObj [("search", JStr s); ("isApproved", JStr a)].

(** The [isApproved] of the query for the status [a]. *)
Definition approval (a : string) : jsval :=
  if String.eqb a "all" then JUndef else JBool (String.eqb a "true").

Lemma stringify_filter_inj s a s' a' :
  Json.stringify (filter_obj s a) = Json.stringify (filter_obj s' a') -> s = s' /\ a = a'.
Proof.
  simpl. intros H. injection H as H.
  rewrite !string_app_assoc, !string_app_cons, !string_app_nil_l in H.
  apply Json.esc_dq_inj in H as [-> H]. injection H as H.
  rewrite !string_app_assoc, !string_app_cons, !string_app_nil_l in H.
  by apply Json.esc_dq_inj in H as [-> _].
Qed.

Lemma fetchBatches_filters localeDate r res h s a :
  exists h', PaymentBatch.fetchBatches localeDate r
               (JObj [("page", JNum 1); ("filters", processed (filter_obj s a))]) res h =
             inr (batch_get_request (JNum 1) (PaymentBatch.pageSize r)
                    (JObj [("search", JStr s); ("isApproved", approval a)]), h').
Proof. eexists. reflexivity. Qed.

(** After the first fetch, the effect fetches exactly when the filters
    differ from the last fetched ones, from page 1 with them. *)
Lemma fetch_effect_filters p s a s0 a0 :
  initialFetchDone p = true -> filters p = filter_obj s a -> prevFilters p = filter_obj s0 a0 ->
  snd (fetch_effect p) =
    if bool_decide (s = s0 /\ a = a0) then None
    else Some (JObj [("page", JNum 1); ("filters", processed (filter_obj s a))]).
Proof.
  intros Hd Hf Hp. unfold fetch_effect. rewrite Hd, Hf, Hp. simpl negb. cbv iota.
  case_bool_decide as E; case_bool_decide as E'; try done.
  - exfalso. apply E'. by apply stringify_filter_inj in E as [-> ->].
  - destruct E' as [-> ->]. by destruct E.
Qed.

Lemma search_timer_filter t s a :
  Filters.search_timer (JStr t) (filter_obj s a) =
    if String.eqb t s then None else Some (filter_obj t a).
Proof. unfold Filters.search_timer. simpl. by destruct (String.eqb t s). Qed.

(** C37. A search typed into the approval page's [Filters] on a
    page whose filters [{search: s, isApproved: a}] were fetched: when
    the debounce timer fires, nothing is fetched if the text is [s];
    otherwise the page fetches the batches again, from page 1, with the
    new search and the status filter, which the query leaves out for
    "all". *)
Theorem debounced_search_refetches localeDate r res h p s a t :
  initialFetchDone p = true -> filters p = filter_obj s a -> prevFilters p = filter_obj s a ->
  match debounced_search t p with
  | None => t = s
  | Some args =>
      t <> s /\
      exists h', PaymentBatch.fetchBatches localeDate r args res h =
                 inr (batch_get_request (JNum 1) (PaymentBatch.pageSize r)
                        (JObj [("search", JStr t); ("isApproved", approval a)]), h')
  end.
Proof.
  intros Hd Hf Hp. unfold debounced_search. rewrite Hf, search_timer_filter.
  destruct (String.eqb_spec t s) as [->|Hne]; [done|].
  rewrite (fetch_effect_filters _ t a s a) by done.
  rewrite bool_decide_false by naive_solver. split; [done|]. apply fetchBatches_filters.
Qed.

(** The Clear button and the badge row show exactly when the filters
    differ from the defaults; Clear (through [handleClearFilters])
    brings the page back to the defaults, where they disappear. *)
Theorem filters_clear_shown s a searchInput loading p :
  Filters.clear_button (Filters.render (filter_obj s a) searchInput loading) =
    negb (bool_decide (filter_obj s a = default_filters)) /\
  Filters.handleClear = (JStr "", [Filters.ClearFilters]) /\
  Filters.clear_button (Filters.render (filters (handleClearFilters p)) (JStr "") loading) = false.
Proof.
  split; [|done]. unfold Filters.render. cbn [Filters.clear_button]. case_bool_decide as E; [by rewrite E|].
  unfold Filters.hasActiveFilters, filter_obj, default_filters in *. simpl.
  destruct (String.eqb_spec s ""), (String.eqb_spec a "all"); subst; simpl; done.
Qed.

(** The page after its first fetch. *)
Definition fetched : page := fst (fetch_effect initial).

Lemma debounced_search_refetches_witness :
  initialFetchDone fetched = true /\ filters fetched = filter_obj "" "all" /\
  prevFilters fetched = filter_obj "" "all" /\
  exists args h',
    debounced_search "ACME" fetched = Some args /\
    PaymentBatch.fetchBatches (fun v => v) PaymentBatch.initial args (inr JNull) PaymentBatch.initial =
      inr (batch_get_request (JNum 1) (JNum 10) (JObj [("search", JStr "ACME"); ("isApproved", JUndef)]), h').
Proof.
  split_and!; [reflexivity|reflexivity|reflexivity|].
  pose proof (debounced_search_refetches (fun v => v) PaymentBatch.initial (inr JNull) PaymentBatch.initial
                fetched "" "all" "ACME" eq_refl eq_refl eq_refl) as H.
  destruct (debounced_search "ACME" fetched) as [args|]; [|discriminate H].
  destruct H as [_ [h' Hh]]. exists args, h'. split; [reflexivity|exact Hh].
Defined.

End ApprovalPage.
