(* ===== verification/Columns.v ===== *)
(** * Table columns and cells

    utils/columnData.jsx describes the columns of the tables: a key, a
    header and a [render(row)]; components/table/TableData.jsx draws
    them: the error alert, the header row, five skeleton rows while
    loading, the empty message, or one row per datum with its checkbox
    and a cell per column ([column.render ? column.render(row) :
    row[column.key]]), then the selection indicator.  A cell is what it
    shows; the wrappers that only style it ([span], [div] with classes)
    are left out, and [formatDate], [formatCurrency] and
    [toLocaleDateString] are the host's, so a cell keeps their
    arguments.  The actions of the approval table call the approval
    page's [handleApprove] and [handleDelete] ([ApprovalPage]). *)

From S2P Require Import Prelude JsValue ClientApi ClientState JsNumber Utils PaymentForm PaymentHooks RecentBatches Selection ApprovalPage.
From stdpp Require Import pretty.

Module Columns.
Local Open Scope xero_scope.
Import ClientApi.

(** The Approve button of a batch row: its variant, the row its
    [onClick] passes to [onApprove] (none when it has no [onClick]),
    whether it is disabled, and its label. *)
Record approve_button := mkApprove {
  ab_variant : string; ab_onClick : option jsval; ab_disabled : bool; ab_label : string
}.

Inductive cell :=
| CValue (v : jsval)                   (** [{v}] *)
| CText (s : string)                   (** a literal text *)
| CDate (v : jsval)                    (** [formatDate(v)] *)
| CCurrency (amount currency : jsval)  (** [formatCurrency(amount, currency)]; [undefined] is "USD" *)
| CLocaleDate (v : jsval)              (** [new Date(v).toLocaleDateString()] *)
| CTruncated (v : jsval)               (** [<div className="truncate" title={v}>{v}</div>] *)
| CInvoiceType (v : jsval)             (** [<InvoiceTypeBadge type={v} />] *)
| CInvoiceStatus (v : jsval)           (** [<InvoiceStatusBadge status={v} />] *)
| CBadge (variant : string) (label : jsval)
| CBatchStatus (b : StatusBadge.badge)
| CActions (approve : approve_button) (onDelete : jsval).

Record column := mkColumn { key : string; header : string; render : option (jsval -> string + cell) }.

Definition col (k h : string) (r : jsval -> string + cell) : column := mkColumn k h (Some r).

(** [row.invoiceNumber || row.invoiceID.substring(0, 8)] *)
Definition invoice_number (row : jsval) : string + cell :=
  let n := Js.own_value row "invoiceNumber" in
  if Js.truthy n then inr (CValue n) else
  id <-? read row "invoiceID" ;;
  match id with
  | JStr s => inr (CValue (JStr (String.substring 0 8 s)))
  | _ => inl "row.invoiceID.substring is not a function"
  end.

(** [(row) => (row[k] ? formatDate(row[k]) : fallback)] *)
Definition date_or (k fallback : string) (row : jsval) : string + cell :=
  let v := Js.own_value row k in inr (if Js.truthy v then CDate v else CText fallback).

Definition currency_of (k : string) (row : jsval) : string + cell :=
  inr (CCurrency (Js.own_value row k) (Js.own_value row "currencyCode")).

(** [InvoiceColumns], the columns of the supplier bills. *)
Definition InvoiceColumns : list column :=
  [col "contact" "Contact"
     (fun row => inr (CValue (Js.or (opt_read (Js.own_value row "contact") "name") (JStr "Unknown Contact"))));
   col "invoiceNumber" "Invoice #" invoice_number;
   col "date" "Date" (fun row => inr (CDate (Js.own_value row "date")));
   col "dueDate" "Due Date" (date_or "dueDate" "-");
   col "type" "Type" (fun row => inr (CInvoiceType (Js.own_value row "type")));
   col "status" "Status" (fun row => inr (CInvoiceStatus (Js.own_value row "status")));
   col "reference" "Reference" (fun row => inr (CValue (Js.or (Js.own_value row "reference") (JStr "-"))));
   col "total" "Total" (currency_of "total");
   col "amountDue" "Due" (currency_of "amountDue");
   col "amountPaid" "Paid"
     (fun row => if Num.lt (JNum 0) (Js.own_value row "amountPaid") then currency_of "amountPaid" row
                 else inr (CText "-"))].

(** [RequestApprovalColumns], the columns of the available invoices. *)
Definition RequestApprovalColumns : list column :=
  [col "contact" "Contact"
     (fun row => inr (CValue (Js.or (Js.own_value row "contactName") (JStr "Unknown Contact"))));
   col "invoiceNumber" "Invoice #" invoice_number;
   col "date" "Date" (fun row => inr (CDate (Js.own_value row "date")));
   col "dueDate" "Due Date" (date_or "dueDate" "-");
   col "total" "Total" (currency_of "total");
   col "amountDue" "Due" (currency_of "amountDue")].

Section Amounts.
Context {arith : JsArith}.

(** [RequestApprovalColumns2] *)
Definition RequestApprovalColumns2 : list column :=
  [col "supplier" "Supplier" (fun row => inr (CValue (Js.own_value row "supplier")));
   col "invoiceNumber" "Invoice #" (fun row => inr (CValue (Js.own_value row "invoiceNumber")));
   col "date" "Date" (fun row => inr (CLocaleDate (Js.own_value row "date")));
   col "dueDate" "Due Date" (fun row => inr (CLocaleDate (Js.own_value row "dueDate")));
   col "amount" "Amount"
     (fun row => inr (CText ("$" +:+ to_fixed (to_number (Js.own_value row "amount")) 2)))].

End Amounts.

(** [ManualPaymentColumns]: the first column is headed "Payment Date"
    and shows [payment_reference]. *)
Definition ManualPaymentColumns : list column :=
  [mkColumn "payment_reference" "Payment Date" None;
   col "description" "Description" (fun row => inr (CTruncated (Js.own_value row "description")));
   col "payment_date" "Payment Date" (fun row => inr (CDate (Js.own_value row "payment_date")));
   col "total_amount" "Total Amount" (fun row => inr (CCurrency (Js.own_value row "total_amount") JUndef));
   col "status" "Status"
     (fun row => v <-? Utils.getStatusVariant (Js.own_value row "status") ;;
                 inr (CBadge v (Js.or (Js.own_value row "status") (JStr "N/A"))))].

(** [PaymentBatchColumns] *)
Definition PaymentBatchColumns : list column :=
  [mkColumn "batchIdNumber" "Batch ID" None;
   col "paymentDate" "Payment Date" (fun row => inr (CDate (Js.own_value row "paymentDate")));
   col "bankName" "Bank Name" (fun row => inr (CTruncated (Js.own_value row "bankName")));
   col "bankAccountNumber" "Account Number" (fun row => inr (CValue (Js.own_value row "bankAccountNumber")));
   col "lastApprDate" "Last Approval Date" (date_or "lastApprDate" "N/A");
   col "entereddate" "Entered Date" (fun row => inr (CDate (Js.own_value row "entereddate")));
   col "isApproved" "Status"
     (fun row => inr (CBatchStatus (StatusBadge.render_default (Js.own_value row "isApproved"))));
   col "amountToAppr" "Amount To Approve" (fun row => inr (CCurrency (Js.own_value row "amountToAppr") JUndef))].

(** The Actions cell of [createPaymentBatchColumnsWithActions]. *)
Definition actions (row : jsval) : cell :=
  let approved := Js.truthy (Js.own_value row "isApproved") in
  CActions (mkApprove (if approved then "secondary" else "default") (if approved then None else Some row)
                      approved (if approved then "Approved" else "Approve"))
           row.

(** [createPaymentBatchColumnsWithActions(onApprove, onDelete)]: the
    callbacks are the rows the cells pass them. *)
Definition createPaymentBatchColumnsWithActions : list column :=
  PaymentBatchColumns ++ [col "actions" "Actions" (fun row => inr (actions row))].

End Columns.

(** ** components/table/TableData.jsx: what the table draws *)

Module TableView.
Local Open Scope xero_scope.
Import ClientApi Columns.

(** [column.render ? column.render(row) : row[column.key]] *)
Definition cell_of (c : column) (row : jsval) : string + cell :=
  match render c with
  | Some r => r row
  | None => v <-? read row (key c) ;; inr (CValue v)
  end.

(** A row: its React key [getRowId(row)], its checkbox (when
    [selectable], whether it is checked) and its cells. *)
Definition row_view (selectable : bool) (rowIdKey : string) (selectedIds : list jsval)
    (columns : list column) (row : jsval) : string + (jsval * option bool * list cell) :=
  id <-? TableData.getRowId rowIdKey row ;;
  cells <-? traverse (fun c => cell_of c row) columns ;;
  inr (id, (if selectable then Some (TableData.includes id selectedIds) else None), cells).

Inductive body :=
| Skeleton (rows cells : nat)
| Empty (message : jsval) (colSpan : nat)
| Rows (rows : list (jsval * option bool * list cell)).

Inductive view :=
| AlertView (error : jsval) (retry : bool)
| TableView (headers : list string) (selectAllBox : option bool) (b : body) (indicator : option string).

(** The selection indicator: ["n item selected"] or ["n items selected"]. *)
Definition indicator (selectable : bool) (selectedIds : list jsval) : option string :=
  if selectable && negb (bool_decide (selectedIds = [])) then
    Some (pretty (length selectedIds) +:+ " item" +:+
          (if bool_decide (length selectedIds = 1%nat) then "" else "s") +:+ " selected")
  else None.

(** The render of [TableData] with [onRetry] present or not. *)
Definition render (error : jsval) (onRetry loading selectable selectAll : bool) (rowIdKey : string)
    (emptyMessage : jsval) (columns : list column) (data selectedIds : list jsval) : string + view :=
  if Js.truthy error then inr (AlertView error onRetry) else
  let width := (length columns + (if selectable then 1 else 0))%nat in
  b <-? (if loading then inr (Skeleton 5 width)
         else match data with
              | [] => inr (Empty emptyMessage width)
              | _ => rows <-? traverse (row_view selectable rowIdKey selectedIds columns) data ;; inr (Rows rows)
              end) ;;
  inr (TableView (map header columns) (if selectable then Some selectAll else None) b
                 (indicator selectable selectedIds)).

End TableView.

(** ** The shape of the table *)

Section TableShape.
Import Columns TableView.
Context (selectable : bool) (rowIdKey : string) (selectedIds : list jsval) (columns : list column).

Lemma row_view_shape row id box cells :
  row_view selectable rowIdKey selectedIds columns row = inr (id, box, cells) ->
  length cells = length columns /\ (is_Some box <-> selectable = true).
Proof.
  unfold row_view. destruct (TableData.getRowId rowIdKey row) as [|i]; [discriminate|]. simpl.
  destruct (traverse _ columns) as [|cs] eqn:E; [discriminate|]. intros [= <- <- <-].
  split; [exact (traverse_length _ _ _ E)|]. destruct selectable; [split; eauto|split; [intros [? ?]|intros ?]; discriminate].
Qed.

(** Once loaded and without error, [TableData] draws a header per
    column and one row per datum, in the order of the data; each row has
    a cell per column, and a checkbox exactly when the table is
    [selectable]; or it throws what a cell or [getRowId] throws. *)
Theorem table_rows_shape error onRetry selectAll emptyMessage data headers box rows ind :
  render error onRetry false selectable selectAll rowIdKey emptyMessage columns data selectedIds =
    inr (TableView headers box (Rows rows) ind) ->
  headers = map header columns /\ length rows = length data /\
  Forall (fun r => length r.2 = length columns /\ (is_Some r.1.2 <-> selectable = true)) rows.
Proof.
  unfold render. destruct (Js.truthy error); [discriminate|]. simpl.
  destruct data as [|d data]; [discriminate|].
  destruct (traverse _ (d :: data)) as [|rs] eqn:E; [discriminate|]. simpl. intros [= <- _ <- _].
  pose proof (traverse_Forall2 _ _ _ E) as HF. split_and!; [done|symmetry; exact (Forall2_length _ _ _ HF)|].
  apply (Forall2_Forall_r _ _ _ _ HF), Forall_forall. intros row _ [[id b] cells].
  apply row_view_shape.
Qed.

End TableShape.

(** ** components/approval/PaymentList.jsx: the actions of a batch row *)

Module PaymentList.
Import Columns.

(** A click on the Approve button of an Actions cell, with
    [onApprove = handleApprove] of the approval page. *)
Definition click_approve (c : cell) (p : ApprovalPage.page) : ApprovalPage.page :=
  match c with
  | CActions ab _ => match ab_onClick ab with Some row => ApprovalPage.handleApprove row p | None => p end
  | _ => p
  end.

(** A click on its Delete button, with [onDelete = handleDelete]. *)
Definition click_delete (c : cell) (p : ApprovalPage.page) : ApprovalPage.page :=
  match c with CActions _ row => ApprovalPage.handleDelete row p | _ => p end.

End PaymentList.

(** ** The actions of the approval table *)

Section ApprovalTable.
Import ClientApi Columns ApprovalPage.

(** The cells of a batch row of the approval table. *)
Lemma batch_row_cells fs :
  let row := JObj fs in
  traverse (fun c => TableView.cell_of c row) createPaymentBatchColumnsWithActions =
    inr [CValue (Js.own_value row "batchIdNumber"); CDate (Js.own_value row "paymentDate");
         CTruncated (Js.own_value row "bankName"); CValue (Js.own_value row "bankAccountNumber");
         (if Js.truthy (Js.own_value row "lastApprDate") then CDate (Js.own_value row "lastApprDate")
          else CText "N/A");
         CDate (Js.own_value row "entereddate");
         CBatchStatus (StatusBadge.render_default (Js.own_value row "isApproved"));
         CCurrency (Js.own_value row "amountToAppr") JUndef; actions row].
Proof. reflexivity. Qed.

(** In the batches table of the approval page (PaymentList: no
    checkbox, [rowIdKey="id"]), every batch row ends with its Actions
    cell.  Its Approve button opens the approval dialog with the batch
    exactly when the batch is not approved (an approved batch's button
    has no [onClick]); confirming the dialog then calls [approveBatch]
    with that batch's [id].  Its Delete button opens the deletion dialog
    with the batch, approved or not. *)
Theorem approval_table_actions fs p :
  let row := JObj fs in
  let p' := PaymentList.click_approve (actions row) p in
  (exists id cells, TableView.row_view false "id" [] createPaymentBatchColumnsWithActions row =
                      inr (id, None, cells) /\ last cells = Some (actions row)) /\
  approveModal p' = (if Js.truthy (Js.own_value row "isApproved") then approveModal p else mkModal true row) /\
  deleteModal (PaymentList.click_delete (actions row) p) = mkModal true row /\
  (Js.truthy (Js.own_value row "isApproved") = false -> forall today res h,
     confirmApprove today res h p' =
       let '(out, h') := PaymentBatch.approveBatch (Js.own_value row "id") today res h in
       (h', match out with inr _ => closeApprove p' | inl _ => p' end)).
Proof.
  intros row p'. split_and!.
  - do 2 eexists. split; reflexivity.
  - subst p'. unfold PaymentList.click_approve, actions. by destruct (Js.truthy _).
  - reflexivity.
  - intros Hf today res h. subst p'. unfold PaymentList.click_approve, actions. rewrite Hf.
    unfold confirmApprove. simpl. by destruct (PaymentBatch.approveBatch _ _ _ _) as [[] ?].
Qed.

End ApprovalTable.
