(* ===== verification/PageViews.v ===== *)
(** * What the pages draw

    The renders of pages/ApprovalPage.jsx and pages/ManualPaymentsPage.jsx
    over the states [ApprovalPage] and [PaymentHooks] model: the table
    components/table/PaginatedTable.jsx hands to [TableData] (the rest of
    its props after its own [emptyMessage]); on the approval page, the
    props of [Filters], the batches list of
    components/approval/PaymentList.jsx and the two dialogs of
    components/ConfirmationModal.jsx ([Summary]), whose texts are built
    from the batch of the dialog; on the manual payments page, its own
    state ([currentPage], [pageSize]) set by the callbacks of its table,
    the effect that fetches the payments of [useManualPayments] when they
    or [isSynced] change, the Refresh button, the form card (the form, or
    [SyncRequired] of [BillList]) and the payments card.  The calls a
    table handler makes are applied in one batch, as React batches the
    updates of one event, before the effect runs once. *)

From S2P Require Import Prelude JsValue ClientApi ClientState PaymentForm PaymentHooks Tables BillList Summary ApprovalPage Columns.

(** ** components/table/PaginatedTable.jsx: the table it hands to [TableData] *)

Module PaginatedTable.
Import Columns.

(** [emptyMessage] as [TableData] receives it from
    [<TableData ... emptyMessage={noResultsMessage} {...props} />]: a
    prop of the rest [props] comes after, so it wins, and [undefined]
    there takes [TableData]'s default ["No data found."]. *)
Definition empty_message (noResultsMessage : string) (props : list (string * jsval)) : jsval :=
  match Js.field "emptyMessage" props with
  | Some JUndef => JStr "No data found."
  | Some v => v
  | None => JStr noResultsMessage
  end.

(** The [TableData] of the table: no [error], no [onRetry], not
    selectable, its own selection empty. *)
Definition table (loading : bool) (noResultsMessage : string) (props : list (string * jsval))
    (rowIdKey : string) (columns : list column) (data : list jsval) : string + TableView.view :=
  TableView.render JNull false loading false false rowIdKey (empty_message noResultsMessage props) columns data [].

End PaginatedTable.

(** ** components/approval/PaymentList.jsx *)

Module PaymentListView.
Import PaymentBatch.

Record view := mkView {
  pagination : jsval;                  (** [{page, pageSize, pageCount, itemCount}] *)
  table : string + TableView.view
}.

(** [<PaymentList batches totalItem totalPages currentPage pageSize loading ... />]
    with the page's [usePaymentBatch] state: [PaginatedTable]'s own
    [noResultsMessage] is its default, and [emptyMessage] and
    [rowIdKey] go to [TableData]. *)
Definition render (h : hook) : view :=
  mkView (JObj [("page", currentPage h); ("pageSize", pageSize h);
                ("pageCount", totalPages h); ("itemCount", totalItem h)])
    (PaginatedTable.table (loading h) "No results found"
       [("emptyMessage", JStr "No batch available"); ("rowIdKey", JStr "id")] "id"
       Columns.createPaymentBatchColumnsWithActions (batches h)).

End PaymentListView.

(** ** pages/ApprovalPage.jsx *)

Module ApprovalView.
Import ApprovalPage ConfirmationModal.

(** [approveModal.batch?.batchIdNumber] in a template literal. *)
Definition batch_label (m : modal) : string := Js.to_string (Js.opt_get (batch m) "batchIdNumber").

(** The props of the approval dialog. *)
Definition approve_props (isSubmitting : bool) (m : modal) : props unit :=
  mkProps (ApprovalPage.isOpen m) (Some "Approve Payment Batch")
    (Some ("Are you sure you want to approve payment batch " +:+ batch_label m +:+ "?"))
    (Some "Approve") (Some "Cancel") (Some "success") (Some isSubmitting) (Some "Approving...")
    None None None.

(** The props of the deletion dialog. *)
Definition delete_props (isSubmitting : bool) (m : modal) : props unit :=
  mkProps (ApprovalPage.isOpen m) (Some "Delete Payment Batch")
    (Some ("Are you sure you want to delete payment batch " +:+ batch_label m +:+
           "? This action cannot be undone."))
    (Some "Delete") (Some "Cancel") (Some "danger") (Some isSubmitting) (Some "Deleting...")
    None None None.

Record view := mkView {
  filters_props : jsval * bool;        (** [<Filters filters loading />] *)
  payment_list : PaymentListView.view;
  approve_dialog : ConfirmationModal.view unit;
  delete_dialog : ConfirmationModal.view unit
}.

Definition render (h : PaymentBatch.hook) (p : page) : view :=
  mkView (filters p, PaymentBatch.loading h) (PaymentListView.render h)
    (ConfirmationModal.render (approve_props (PaymentBatch.isSubmitting h) (approveModal p)))
    (ConfirmationModal.render (delete_props (PaymentBatch.isSubmitting h) (deleteModal p))).

End ApprovalView.

(** ** pages/ManualPaymentsPage.jsx *)

Module ManualPage.
Local Open Scope xero_scope.
Import ClientApi ManualPayments.

Record page := mkPage { currentPage : Z; pageSize : Z }.

Definition initial : page := mkPage 1 10.

(** [onPageChange={setCurrentPage}] and [onPageSizeChange={setPageSize}]. *)
Definition on_call (p : page) (c : Tables.call) : page :=
  match c with
  | Tables.OnPageChange n => mkPage n (pageSize p)
  | Tables.OnPageSizeChange s => mkPage (currentPage p) s
  end.

Definition on_calls (cs : list Tables.call) (p : page) : page := fold_left on_call cs p.

(** The effect on [[currentPage, pageSize, isSynced]] after a render
    that changed one of them since the render [p0], [synced0]. *)
Definition deps_effect (synced0 : bool) (p0 : page) (synced : bool) (p : page) (res : string + jsval) (h : hook)
    : option request * hook :=
  if Z.eqb (currentPage p0) (currentPage p) && Z.eqb (pageSize p0) (pageSize p) && Bool.eqb synced0 synced
  then (None, h)
  else ManualPaymentsPage.load synced (JNum (currentPage p)) (JNum (pageSize p)) res h.

(** A table handler's calls [cs], one render, then the effect. *)
Definition table_event (synced : bool) (cs : list Tables.call) (res : string + jsval) (h : hook) (p : page)
    : option request * hook * page :=
  let p' := on_calls cs p in
  let '(r, h') := deps_effect synced p synced p' res h in (r, h', p').

(** [handleRefresh()], the Refresh button: [refreshPayments()] is
    [fetchPayments()] called without argument; the request it sends, if
    any, what the call returns, and the hook after it. *)
Definition handleRefresh (res : string + jsval) (h : hook) : option request * (string + unit) * hook :=
  let '(out, h') := fetchPayments JUndef res h in
  (match fetchPayments_request JUndef with inr r => Some r | inl _ => None end, out, h').

(** [<PaginatedTable data={payments} .../>] receives the hook's
    [payments]: [undefined] is the default [[]], an array its rows, and
    [TableData] throws on other values once it reads [length] or calls
    [map]. *)
Definition table_data (v : jsval) : string + list jsval :=
  match v with
  | JArr xs => inr xs
  | JUndef => inr []
  | JNull => inl (type_error JNull "length")
  | _ => inl "data.map is not a function"
  end.

Inductive form_card :=
| PaymentForm (loading : bool)                 (** [<CreatePaymentForm onSubmit loading />] *)
| SyncCard (v : SyncRequired.view).

Inductive list_card :=
| PaymentTable (pagination : jsval) (table : string + TableView.view)
| SyncPrompt.                                   (** "Please sync with Xero to view payments" *)

Record view := mkView {
  refresh_disabled : bool;
  refresh_spinning : bool;
  form : form_card;
  total_badge : option jsval;                  (** [totalItem > 0 && ({totalItem} total)] *)
  payments_card : list_card
}.

Definition render (h : hook) (c : XeroContext.ctx) (p : page) : view :=
  let synced := XeroContext.isSynced c in
  mkView (loading h || negb synced) (loading h)
    (if synced then PaymentForm (loading h)
     else SyncCard (SyncRequired.render (XeroContext.isSyncing c) (XeroContext.error c) true
                                        (XeroContext.isInitializing c)))
    (if Num.lt (JNum 0) (totalItem h) then Some (totalItem h) else None)
    (if synced then
       PaymentTable (JObj [("page", JNum (currentPage p)); ("pageSize", JNum (pageSize p));
                           ("pageCount", totalPages h); ("itemCount", totalItem h)])
         (if loading h
          then PaginatedTable.table true "No results found"
                 [("emptyMessage", JStr "No payments available"); ("rowIdKey", JStr "id")] "id"
                 Columns.ManualPaymentColumns []
          else rows <-? table_data (payments h) ;;
               PaginatedTable.table false "No results found"
                 [("emptyMessage", JStr "No payments available"); ("rowIdKey", JStr "id")] "id"
                 Columns.ManualPaymentColumns rows)
     else SyncPrompt).

End ManualPage.

(** ** The dialogs of the approval page *)

Section Dialogs.
Import ClientApi Columns ApprovalPage ConfirmationModal ApprovalView.

(** A dialog that is loading calls nothing from its buttons; only
    dismissing an open dialog still calls [onClose]. *)
Lemma loading_dialog_calls {A} (d : props A) a :
  isLoading d = Some true ->
  handle d a = match a with OpenChange => if ConfirmationModal.isOpen d then [OnClose] else [] | _ => [] end.
Proof. intros Hl. unfold handle. rewrite Hl. by destruct a. Qed.

(** Closing a dialog forgets its batch: its text then names the batch
    [undefined]. *)
Lemma closed_batch_label : batch_label closed = "undefined".
Proof. reflexivity. Qed.

(** Clicking Approve on a batch row that is not approved opens the
    approval dialog on that batch: the success icon, the title, the
    question naming the row's [batchIdNumber], and the two buttons,
    disabled with the text "Approving..." while a submission runs; its
    confirm button then calls [onConfirm] exactly when nothing is being
    submitted. *)
Theorem approve_dialog_of_row fs h p :
  let row := JObj fs in
  let p' := PaymentList.click_approve (actions row) p in
  let sub := PaymentBatch.isSubmitting h in
  Js.truthy (Js.own_value row "isApproved") = false ->
  approve_dialog (render h p') =
    ConfirmationModal.mkView true (Some (CheckCircle, "h-5 w-5 text-green-500")) "Approve Payment Batch"
      (Some ("Are you sure you want to approve payment batch " +:+
             Js.to_string (Js.own_value row "batchIdNumber") +:+ "?"))
      None (mkButton "outline" sub "Cancel")
      (mkButton "default" sub (if sub then "Approving..." else "Approve")) /\
  handle (approve_props sub (approveModal p')) ClickConfirm = (if sub then [] else [OnConfirm]).
Proof.
  intros row p' sub Hf. subst p'. unfold PaymentList.click_approve, actions. rewrite Hf.
  split; [reflexivity|]. unfold handle, handleConfirm. simpl. by destruct sub.
Qed.

(** When [confirmApprove] closes the approval dialog (the approval
    succeeded), the dialog's state forgets the batch, and the closed
    dialog's text, which the dialog's closing animation still shows,
    reads "Are you sure you want to approve payment batch undefined?". *)
Theorem approved_dialog_reads_undefined today res h p h' p' :
  ApprovalPage.isOpen (approveModal p) = true ->
  confirmApprove today res h p = (h', p') ->
  v_open (approve_dialog (render h' p')) = false ->
  v_description (approve_dialog (render h' p')) =
    Some "Are you sure you want to approve payment batch undefined?".
Proof.
  intros Ho. unfold confirmApprove.
  destruct (read (batch (approveModal p)) "id") as [|id]; [intros [= <- <-]; simpl; by rewrite Ho|].
  destruct (PaymentBatch.approveBatch id today res h) as [[|] h1].
  - intros [= <- <-]. simpl. by rewrite Ho.
  - intros [= <- <-]. reflexivity.
Qed.

(** The batches table, loaded and empty, shows PaymentList's message
    "No batch available": the [emptyMessage] spread after
    [PaginatedTable]'s own ["No results found"] wins. *)
Lemma no_batches_message h :
  PaymentBatch.loading h = false -> PaymentBatch.batches h = [] ->
  PaymentListView.table (PaymentListView.render h) =
    inr (TableView.TableView (map header createPaymentBatchColumnsWithActions) None
           (TableView.Empty (JStr "No batch available") 9) None).
Proof. intros Hl Hb. unfold PaymentListView.render, PaginatedTable.table. simpl. by rewrite Hl, Hb. Qed.

End Dialogs.

(** Batch 7 approved from its dialog. *)
Lemma approved_dialog_reads_undefined_witness :
  let p := ApprovalPage.handleApprove (JObj [("id", JNum 7); ("batchIdNumber", JStr "PB-7")]) ApprovalPage.initial in
  exists h' p',
    ApprovalPage.confirmApprove (JStr "1/1/2026") (inr (JObj [])) PaymentBatch.initial p = (h', p') /\
    ConfirmationModal.v_open (ApprovalView.approve_dialog (ApprovalView.render h' p')) = false /\
    ConfirmationModal.v_description (ApprovalView.approve_dialog (ApprovalView.render h' p')) =
      Some "Are you sure you want to approve payment batch undefined?".
Proof.
  intros p. eexists _, _. split; [reflexivity|]. split; [reflexivity|].
  exact (approved_dialog_reads_undefined (JStr "1/1/2026") (inr (JObj [])) PaymentBatch.initial p _ _
           eq_refl eq_refl eq_refl).
Defined.

(** A batch not approved, clicked while nothing is submitted. *)
Lemma approve_dialog_of_row_witness :
  Js.truthy (Js.own_value (JObj [("id", JNum 7); ("batchIdNumber", JStr "PB-7")]) "isApproved") = false /\
  ConfirmationModal.v_description
    (ApprovalView.approve_dialog
       (ApprovalView.render PaymentBatch.initial
          (PaymentList.click_approve (Columns.actions (JObj [("id", JNum 7); ("batchIdNumber", JStr "PB-7")]))
             ApprovalPage.initial))) =
    Some "Are you sure you want to approve payment batch PB-7?".
Proof.
  split; [reflexivity|].
  rewrite (proj1 (approve_dialog_of_row [("id", JNum 7); ("batchIdNumber", JStr "PB-7")]
                    PaymentBatch.initial ApprovalPage.initial eq_refl)).
  reflexivity.
Defined.

(** ** A new page size *)

Section PageSize.
Import ClientApi ManualPage.

(** Choosing a page size in the payments table sends one request, for
    page 1 with the new size: the table calls [onPageSizeChange] and
    then [onPageChange(1)], both batched into one render, so the effect
    runs once (SupplierBillList, which fetches from its handlers, sends
    two or three). *)
Theorem page_size_change_one_request s res h p :
  (currentPage p, pageSize p) <> (1%Z, s) ->
  let '(r, _, p') := table_event true (Tables.handlePageSizeChange true s) res h p in
  p' = mkPage 1 s /\ r = Some (manual_get_request (JNum 1) (JNum s) (JStr "payment_date") (JStr "DESC")).
Proof.
  intros Hne. unfold table_event, deps_effect. simpl.
  destruct (Z.eqb_spec (currentPage p) 1) as [E1|]; destruct (Z.eqb_spec (pageSize p) s) as [E2|]; simpl;
    [exfalso; apply Hne; by rewrite E1, E2| | |]; split; reflexivity.
Qed.

(** The Refresh button does nothing: [fetchPayments()] destructures
    its missing argument before its [try], so the call rejects at once,
    sends no request and leaves the hook (its [loading] included) as it
    was, whatever the server would answer. *)
Theorem refresh_sends_nothing res h :
  handleRefresh res h = (None, inl (destructure_error "page" JUndef), h).
Proof. reflexivity. Qed.

End PageSize.

(** From the second page of ten rows to 25 rows. *)
Lemma page_size_change_one_request_witness :
  (ManualPage.currentPage (ManualPage.mkPage 2 10), ManualPage.pageSize (ManualPage.mkPage 2 10)) <> (1%Z, 25%Z) /\
  let '(r, _, _) := ManualPage.table_event true (Tables.handlePageSizeChange true 25) (inl "offline")
                      ManualPayments.initial (ManualPage.mkPage 2 10) in
  r = Some (ClientApi.manual_get_request (JNum 1) (JNum 25) (JStr "payment_date") (JStr "DESC")).
Proof.
  split; [simpl; congruence|].
  pose proof (page_size_change_one_request 25 (inl "offline") ManualPayments.initial (ManualPage.mkPage 2 10)
                ltac:(simpl; congruence)) as H.
  destruct (ManualPage.table_event _ _ _ _ _) as [[r h'] p']. exact (proj2 H).
Defined.
