(* ===== verification/EndToEnd.v ===== *)
(** * The frontend against the backend

    The theorems of this file compose the server's answers (the
    controllers of [Auth] and [Controller], the pipeline of [App], the
    envelope of [Envelope]) with what the frontend's services and state
    ([ClientApi], [ClientState]) do with them: what a user of the web
    application sees for each answer.  It also wires the manual-payment
    form ([PaymentForm]) to the page's [onSubmit] ([PaymentHooks]), and
    the payment summary's confirmation ([Summary]) to the server's answer
    to POST /api/payment-batch. *)

From S2P Require Import Prelude JsValue Provider XeroService Envelope AuthSchema Auth Controller Validate App ClientApi ClientState Routes ClientHooks PaymentForm PaymentHooks RecentBatches Approval Summary.

Module EndToEnd.
Local Open Scope xero_scope.
Import ClientApi Envelope Auth App.

(** What the client's axios receives for a controller's response
    [(status, payload)], once [responseFormatter] has wrapped it. *)
Definition delivered (production : bool) (r : Z * jsval) : answer :=
  axios_answer r.1 (send production r.1 r.2).

(** [authService.login] on the login controller's response, which
    [fetch] delivers with its status. *)
Definition login_delivered (production : bool) (r : Z * jsval) (b : browser)
    : (string + jsval) * browser :=
  login_handle r.1 (send production r.1 r.2) b.

(** The callback page's first effect run, after the render that mounts
    it with [status = "processing"]. *)
Definition callback_mount (code state err : option string) (res conn : string + jsval) (now : Z)
    (st : list (string * string)) (c : XeroContext.ctx) : CallbackPage.page * XeroContext.ctx :=
  CallbackPage.callback_effect "processing" code state err res conn now
    (CallbackPage.initial_page st) c.

(** The client calls whose endpoint no router of the server declares. *)
Definition unrouted_call (r : request) : Prop :=
  r = getSyncStatus_request \/ r = getConnectionStatus_request \/
  (exists f, r = fetchAvailableInvoices_request f) \/
  (exists p s f, r = batch_get_request p s f) \/ (exists b, r = batch_create_request b) \/
  (exists i, r = batch_getById_request i) \/ (exists i a, r = batch_approve_request i a) \/
  (exists i x, r = batch_delete_request i x) \/
  (exists p s b o, r = manual_get_request p s b o) \/ (exists b, r = manual_create_request b) \/
  (exists i, r = manual_getById_request i).

(** [<CreatePaymentForm onSubmit={handleCreatePayment} />] of
    pages/ManualPaymentsPage.jsx: a submission of the form whose
    [onSubmit] ran [handleCreatePayment] with the answers [res] of the
    create call and [refresh] of the refresh it awaits. *)
Definition submit_manual_payment (today : string) (parseFloat : jsval -> jsval)
    (res refresh : string + jsval) (h : ManualPayments.hook) (f : Form.form) :=
  Form.handleSubmit today parseFloat
    (inr (fst (ManualPaymentsPage.handleCreatePayment res refresh h))) f.

(** ** Lemmas *)

(** What axios gives back for an enveloped error answer. *)
Lemma error_answer production status data :
  (400 <= status)%Z ->
  exists e, axios_answer status (send production status data) =
    inl (JObj [("success", JBool false); ("statusCode", JNum status); ("error", e);
               ("data", JNull)]).
Proof.
  intros Hle. unfold send. rewrite error_branch by done. unfold axios_answer.
  destruct (Z.leb_spec 200 status), (Z.ltb_spec status 300); try lia; simpl; eauto.
Qed.

(** An enveloped success answer reaches the service as [response.data]. *)
Lemma success_answer production status data :
  (200 <= status < 300)%Z ->
  axios_answer status (send production status data) = inr (send production status data).
Proof.
  intros Hs. unfold axios_answer.
  destruct (Z.leb_spec 200 status), (Z.ltb_spec status 300); try lia; reflexivity.
Qed.

(** The two pipelines of an unrouted path: straight to [notFoundHandler],
    or through [authenticateToken] first. *)
Lemma not_found_pipelines l :
  l = app_prefix ++ [Limit "apiLimiter"; NotFound] \/
  l = app_prefix ++ [Limit "apiLimiter"; Authenticate; NotFound] ->
  last l = Some NotFound /\ forall h, Handler h ∉ l.
Proof. intros [->| ->]; split; [done| |done|]; intros h Hh; elem_cases Hh. Qed.

(** Ids and suffixes after a prefix with a fixed first segment. *)
Lemma unmounted_path method r s :
  Js.no_sep is_slash r = true ->
  AuthSchema.to_lower r ∉ ["auth"; "user"; "xero"; ""]%string ->
  last (pipeline method ("/api/" +:+ r +:+ "/" +:+ s)) = Some NotFound /\
  forall h, Handler h ∉ pipeline method ("/api/" +:+ r +:+ "/" +:+ s).
Proof. intros Hr Hl. apply not_found_pipelines. left. by apply pipeline_unmounted. Qed.

Section CallbackLemmas.
Import CallbackPage.

Definition no_navigation (p : page) : Prop := forall u x, Navigate u x ∉ page_effects p.

Lemma no_navigation_perform p e :
  no_navigation p -> (forall u x, e <> Navigate u x) -> no_navigation (p_perform e p).
Proof.
  intros Hp He u x Hin. apply elem_of_app in Hin as [Hin|Hin]; [by eapply Hp|].
  apply list_elem_of_singleton in Hin. by eapply He.
Qed.

Lemma no_navigation_status s p : no_navigation p -> no_navigation (set_status s p).
Proof. done. Qed.

Ltac no_nav :=
  repeat first [apply no_navigation_status
               |apply no_navigation_perform; [|intros ? ? ?; discriminate]];
  assumption.

(** The paths of [handleCallback] perform toasts only, and keep
    [processedRef]. *)
Lemma callback_body_toasts code err res conn now p c :
  no_navigation p ->
  no_navigation (fst (callback_body code err res conn now p c)) /\
  processed (fst (callback_body code err res conn now p c)) = processed p.
Proof.
  intros Hp. unfold callback_body.
  destruct (param_truthy err); [split; [no_nav|done]|].
  destruct (param_truthy code); [|split; [no_nav|done]]. cbn [negb].
  destruct res as [m|result]; [split; [no_nav|done]|].
  destruct (read result "success") as [te|v]; [split; [no_nav|done]|].
  destruct (Js.truthy v); split; (no_nav || done).
Qed.

(** [handleCallback] ends with [redirectWithDelay], after toasts only. *)
Lemma handleCallback_redirect captured code err res conn now p c :
  no_navigation p ->
  exists p', no_navigation p' /\ processed p' = processed p /\
    fst (handleCallback captured code err res conn now p c) = redirectWithDelay captured p'.
Proof.
  intros Hp. exists (fst (callback_body code err res conn now p c)).
  destruct (callback_body_toasts code err res conn now p c Hp) as [Hn Hq].
  split_and!; [done|done|]. unfold handleCallback.
  by destruct (callback_body code err res conn now p c).
Qed.

Lemma redirect_effects captured p :
  exists url, page_effects (redirectWithDelay captured p) =
    page_effects p ++ [RemoveItem "xero_return_url"; Timeout 2000 "navigate";
                       Navigate url (Some (if String.eqb captured "success" then "connected"
                                           else "failed"))].
Proof. unfold redirectWithDelay, take_return_url. simpl. eexists. by rewrite <- !app_assoc. Qed.

End CallbackLemmas.

(** ** Theorems *)

(** No message of the server reaches the user through the client's
    services: for every answer with status [>= 400], the envelope moves
    the message under [error], so each service throws its own fallback
    text ([xeroService.sync], [fetchContacts], [fetchAccounts], the
    payment services), and [manualPaymentService.create] returns
    ["Failed to create manual payment"] with no errors. *)
Theorem service_errors_fallback production status data fallback :
  (400 <= status)%Z ->
  let a := delivered production (status, data) in
  plain fallback a = inl fallback /\
  list_result fallback a = inl fallback /\
  fetchContacts_handle a = inl "Failed to fetch contacts"%string /\
  manual_create_handle a =
    inr (JObj [("success", JBool false); ("error", JStr "Failed to create manual payment");
               ("errors", JArr [])]).
Proof.
  intros Hle a. subst a. unfold delivered. simpl. destruct (error_answer production status data Hle) as [e ->].
  split_and!; reflexivity.
Qed.


Section Login.
Context `{AuthLib}.

(** A login through the web client either stores the token the
    server signed in the [token] cookie, or fails with a TypeError: every
    failed login is answered 401 [{success: false, message, error}], whose
    envelope has no [errors] array, so [authService.login] reads
    [data.errors[0]] of [undefined] and never shows the server's
    message. *)
Theorem login_client_outcome production body w b :
  exists status payload w',
    loginUser_handler body w = (inr (status, payload), w') /\
    ((status = 401%Z /\
      login_delivered production (status, payload) b =
        (inl "Cannot read properties of undefined (reading '0')"%string, b)) \/
     (status = 200%Z /\ exists tok user,
        loginUser (Js.opt_get body "email") (Js.opt_get body "password") w =
          (inr (JObj [("token", JStr tok); ("user", user)]), w') /\
        login_delivered production (status, payload) b =
          (inr (send production status payload), setToken (JStr tok) b))).
Proof.
  unfold login_delivered, loginUser_handler, destructure, st_catch. st_simpl.
  destruct (Js.is_nullish body); simpl.
  { do 3 eexists. split; [reflexivity|]. left. split; reflexivity. }
  destruct (loginUser (Js.opt_get body "email") (Js.opt_get body "password") w)
    as [[e|r] w'] eqn:E.
  - destruct e. do 3 eexists. split; [reflexivity|]. left. split; reflexivity.
  - destruct (loginUser_ok _ _ _ _ _ E) as (tok & user & ->).
    do 3 eexists. split; [reflexivity|]. right. split; [reflexivity|].
    exists tok, user. split; [done|reflexivity].
Qed.

(** Every error answer (status >= 400) reaches [authService.login] as
    the TypeError of reading [data.errors[0]]: the envelope keeps
    [errors] inside [error]. *)
Lemma login_rejected production status data b :
  (400 <= status)%Z ->
  login_handle status (send production status data) b =
    (inl "Cannot read properties of undefined (reading '0')"%string, b).
Proof.
  intros Hle. unfold send. rewrite error_branch by done. unfold login_handle.
  destruct (Z.leb_spec 200 status), (Z.ltb_spec status 300); try lia; reflexivity.
Qed.

(** C31. A login through the login page, against [POST /api/auth/login]
    ([validateBody(loginSchema)], then [loginUser]): the server either
    signs a token (200), and the page stores it in the [token] cookie,
    shows "Login successful!" and navigates to "/", or answers 500 to a
    form zod rejects ([validate]'s [catch] throws the TypeError of zod
    4's missing [error.errors], answered by [errorHandler]) or 401 to
    wrong credentials, and the page then shows the toast "Cannot read
    properties of undefined (reading '0')", the TypeError of
    [authService.login], instead of any server message; the page's
    spinner is off after it either way. *)
Theorem login_page_outcome production stack email_format w b p :
  exists status payload w',
    login_route email_format production stack (LoginPage.formData p) w = (inr (status, payload), w') /\
    let '(p', b') := LoginPage.handleSubmit (inr (status, send production status payload)) b p in
    LoginPage.loading p' = false /\
    (((status = 500%Z \/ status = 401%Z) /\ b' = b /\
      LoginPage.effects p' =
        LoginPage.effects p ++ [Toast false "Cannot read properties of undefined (reading '0')"]) \/
     (status = 200%Z /\ exists tok, b' = setToken (JStr tok) b /\
      LoginPage.effects p' = LoginPage.effects p ++ [Toast true "Login successful!"; Navigate "/" None])).
Proof.
  unfold login_route, Validate.validateBody, Validate.validate.
  destruct (AuthSchema.parse_login _ _) as [issues|out].
  - do 3 eexists. split; [reflexivity|]. unfold LoginPage.handleSubmit.
    rewrite login_rejected by lia. simpl. split; [done|]. left. by split_and!; [left|..].
  - destruct (login_client_outcome production (Validate.target_of (Js.set_field "body" (JObj out) [("body", LoginPage.formData p)]) "body") w b)
      as (status & payload & w' & Hh & [[Hs Hl]|[Hs (tok & user & _ & Hl)]]);
      exists status, payload, w'; split; try exact Hh; unfold login_delivered in Hl; simpl in Hl;
      unfold LoginPage.handleSubmit; rewrite Hl; simpl.
    + split; [done|]. left. by split_and!; [right|..].
    + split; [done|]. right. split; [done|]. exists tok. split; [done|]. by rewrite <- app_assoc.
Qed.

End Login.


(** C38. The web client cannot start the Xero consent: for an
    administrator, [GET /api/xero/auth] answers the consent URL as
    [{url}], which the envelope delivers as [data.url]; [sync()] looks
    for [authUrl] beside [success: false], so it never sets
    [window.location.href].  It marks Xero as synced instead, with the
    default success toast, and schedules the smart interval. *)
Theorem admin_sync_without_consent production user url pathname now c :
  Js.opt_get user "role" = JStr "admin" ->
  let '(r, c') := XeroContext.sync pathname
                    (plain "Failed to sync with Xero"
                       (delivered production (Controller.initiateXeroAuth (inr url) user))) now c in
  r = inr (JObj [("success", JBool true); ("statusCode", JNum 200);
                 ("data", JObj [("url", JStr url)]); ("error", JNull)]) /\
  XeroContext.isSynced c' = true /\ XeroContext.isSyncing c' = false /\
  XeroContext.error c' = JNull /\
  XeroContext.effects c' =
    XeroContext.effects c ++ [Toast true "Successfully synced with Xero";
                              Timeout 1000 "setupSmartInterval"].
Proof.
  intros Hrole. unfold delivered, Controller.initiateXeroAuth. rewrite Hrole. simpl.
  split_and!; try reflexivity. by rewrite <- app_assoc.
Qed.


(** A call of [unrouted_call] runs no handler and ends in
    [notFoundHandler]. *)
Lemma unrouted_pipeline r :
  unrouted_call r ->
  last (pipeline (r_method r) (r_url r)) = Some NotFound /\
  forall h, Handler h ∉ pipeline (r_method r) (r_url r).
Proof.
  intros Hr.
  destruct_or! Hr; repeat match goal with H : ex _ |- _ => destruct H end; subst;
    cbn [r_method r_url getSyncStatus_request getConnectionStatus_request
         fetchAvailableInvoices_request batch_get_request batch_create_request
         batch_getById_request batch_approve_request batch_delete_request
         manual_get_request manual_create_request manual_getById_request get post].
  1-5: apply not_found_pipelines; vm_compute; auto.
  1-3: apply (unmounted_path _ "payment-batch"); [done|vm_compute; set_solver].
  1-2: apply not_found_pipelines; vm_compute; auto.
  apply (unmounted_path _ "payments"); [done|vm_compute; set_solver].
Qed.

(** C39. The frontend calls endpoints the server never declares: the sync
    status, the connection status, the available invoices, every payment
    batch and manual payment call.  Each, whatever its ids and
    parameters, runs no handler and ends in [notFoundHandler]; in
    particular the context's [checkConnectionStatus] receives the 404
    and always leaves [isSynced] false. *)
Theorem client_calls_unrouted r :
  unrouted_call r ->
  (last (pipeline (r_method r) (r_url r)) = Some NotFound /\
   forall h, Handler h ∉ pipeline (r_method r) (r_url r)) /\
  forall production now c,
    XeroContext.isSynced
      (snd (XeroContext.checkConnectionStatus
              (plain "Failed to get connection status"
                 (axios_answer 404 (send production 404
                    (snd (notFoundHandler "GET" "/api/xero/connection")))))
              now c)) = false.
Proof. intros Hr. split; [by apply unrouted_pipeline|reflexivity]. Qed.


(** C36. The card of recent batches on the request-approval page
    never shows a batch: the request [fetchBatches({page: 1, size:
    limit})] sends runs no handler of the server and ends in
    [notFoundHandler], and for every error answer (status >= 400) the
    card, no longer loading, shows "Failed to fetch payment batches"
    instead of the server's message. *)
Theorem recent_batches_show_error localeDate production status data limit s :
  (400 <= status)%Z ->
  let '(req, s') := RecentBatches.refresh localeDate limit
                      (plain "Failed to fetch payment batches" (delivered production (status, data))) s in
  (exists r, req = Some r /\ last (pipeline (r_method r) (r_url r)) = Some NotFound /\
             forall h, Handler h ∉ pipeline (r_method r) (r_url r)) /\
  RecentBatches.render limit s' = RecentBatches.Failed (JStr "Failed to fetch payment batches").
Proof.
  intros Hle.
  assert (Hp : plain "Failed to fetch payment batches" (delivered production (status, data)) =
                 inl "Failed to fetch payment batches"%string).
  { unfold delivered. simpl. destruct (error_answer production status data Hle) as [e ->]. reflexivity. }
  rewrite Hp. pose proof (load_spec localeDate limit (inl "Failed to fetch payment batches") s) as Hs.
  pose proof (refresh_failed localeDate limit (inl "Failed to fetch payment batches") s
                "Failed to fetch payment batches" eq_refl ltac:(done)) as Hf.
  revert Hf. unfold RecentBatches.refresh.
  destruct (RecentBatches.loadRecentBatches _ _ _ s) as [req s']. simpl. intros Hf.
  destruct Hs as [-> _]. split; [|exact Hf]. eexists; split; [done|].
  apply unrouted_pipeline. do 3 right; left. eauto.
Qed.

(** The Xero callback page always reports a failed connection:
    [redirectWithDelay] reads [status] from the render whose effect
    started, where it is still "processing", so whatever the backend
    answers (success included) the page navigates back with [xeroStatus:
    "failed"] and never with "connected".  The re-runs of the effect that
    the status changes trigger stop at [processedRef] and navigate no
    more. *)
Theorem callback_reports_failed code state err res conn now st c :
  CallbackPage.param_truthy code || CallbackPage.param_truthy state ||
    CallbackPage.param_truthy err = true ->
  let '(p, c') := callback_mount code state err res conn now st c in
  (exists url, Navigate url (Some "failed") ∈ CallbackPage.page_effects p) /\
  (forall url, Navigate url (Some "connected") ∉ CallbackPage.page_effects p) /\
  (forall captured res' conn' now',
     CallbackPage.callback_effect captured code state err res' conn' now' p c' = (p, c')).
Proof.
  intros Hp. unfold callback_mount, CallbackPage.callback_effect at 1.
  replace (negb _ && negb _ && negb _) with false
    by (destruct (CallbackPage.param_truthy code), (CallbackPage.param_truthy state),
          (CallbackPage.param_truthy err); done).
  cbn [CallbackPage.processed CallbackPage.initial_page negb].
  destruct (handleCallback_redirect "processing" code err res conn now
              (CallbackPage.mkPage "processing" true st []) c) as (p' & Hnav & Hproc & Hp');
    [intros u x Hin; by apply elem_of_nil in Hin|].
  destruct (CallbackPage.handleCallback _ _ _ _ _ _ _ _) as [p c'] eqn:E. simpl in Hp'. subst p.
  destruct (redirect_effects "processing" p') as [url Hu]. rewrite Hu. split_and!.
  - exists url. set_solver.
  - intros u Hin. apply elem_of_app in Hin as [Hin|Hin]; [by eapply Hnav|]. elem_cases Hin.
  - intros. unfold CallbackPage.callback_effect.
    replace (negb _ && negb _ && negb _) with false
      by (destruct (CallbackPage.param_truthy code), (CallbackPage.param_truthy state),
            (CallbackPage.param_truthy err); done).
    unfold CallbackPage.redirectWithDelay, CallbackPage.take_return_url. simpl.
    by rewrite Hproc.
Qed.


(** C11. A page of invoices the provider answers without pagination
    crashes the page that fetched it: with [page] and [pageSize] given,
    [getInvoices] answers [{pagination: null, data, message}], which the
    envelope delivers as an object in [data]; [xeroService.fetchInvoices]
    passes that object on as the list.  [useXero]'s [fetchInvoices]
    only queues [formatInvoices] of it in a [setData] updater, so it
    resolves with the answer, with no error, [isLoading] off and the
    lists unchanged; the next render runs the updater, and
    "rawInvoices.map is not a function" is thrown by that render, not
    caught by the fetch. *)
Theorem invoices_without_pagination production params bfs invs h :
  Js.truthy (XeroService.param params "page") = true -> Js.truthy (XeroService.param params "pageSize") = true ->
  Js.field "pagination" bfs = None -> Js.field "invoices" bfs = Some (JArr invs) ->
  UseXero.render_error h = None ->
  let res := fetchInvoices_handle 200
               (delivered production (200%Z, XeroService.shaped "invoices" "Invoices synced successfully" params bfs)) in
  let '(r, h') := UseXero.fetchInvoices res h in
  UseXero.render_error h' = Some "rawInvoices.map is not a function" /\
  UseXero.error h' = JNull /\ UseXero.data h' = UseXero.data h /\ UseXero.isLoading h' = false /\
  res = inr r.
Proof.
  intros Hp Hs Hnp Hi Hr. unfold XeroService.shaped. rewrite Hp, Hs, Hnp, Hi. simpl.
  unfold UseXero.set_crash. simpl. rewrite Hr. split_and!; reflexivity.
Qed.

(** ** Witnesses *)

(** C12. Submitting the manual-payment form never confirms a payment:
    whatever the server answers to the create call (it has no route for
    it, see C39) and to the refresh, a submission that passes the
    validation shows the loading toast and dismisses it, and nothing
    else: no success toast, no error toast, and the form keeps the data
    it submitted. *)
Theorem manual_payment_never_confirmed today parseFloat res refresh h f body f' :
  submit_manual_payment today parseFloat res refresh h f = inr (Some body, f') ->
  Form.toasts f' = Form.toasts f ++ [Form.Loading "Creating manual payment..."; Form.Dismiss] /\
  Form.formData f' = Form.formData f /\ Form.isSubmitting f' = false.
Proof.
  unfold submit_manual_payment, Form.handleSubmit.
  destruct (PaymentHooks.handleCreatePayment_not_success res refresh h) as (fs & -> & Hs).
  destruct (Form.submit_gate parseFloat f) as [|[errs|b]]; simpl; try discriminate.
  simpl in Hs. rewrite Hs. simpl. intros [= <- <-]. simpl. by rewrite <- app_assoc.
Qed.

(** C13. Finalizing a payment batch never succeeds against the
    server: POST /api/payment-batch reaches no handler, and for every
    answer with status 400 or more the confirmation leaves the page's
    selection as it was (nothing cleared, no reload scheduled), leaves
    the summary as it was but for the one toast "Failed to create
    payment batch", and settles the batch hook. *)
Theorem finalize_batch_fails production status data localeDate today banks selected r refresh h0 s p
    body h s' p' :
  (400 <= status)%Z ->
  PaymentSummary.handleConfirmSubmit localeDate today banks selected r
    (plain "Failed to create payment batch" (delivered production (status, data))) refresh h0 s p
    = inr (body, h, s', p') ->
  p' = p /\ s' = PaymentSummary.toast false "Failed to create payment batch" s /\
  PaymentBatch.isSubmitting h = false.
Proof.
  intros Hle Hc. unfold delivered in Hc. simpl in Hc.
  destruct (error_answer production status data Hle) as [e He]. rewrite He in Hc.
  unfold PaymentSummary.handleConfirmSubmit in Hc.
  destruct (PaymentSummary.submitData _ _ _ _) as [|b]; [discriminate|].
  cbn [ex_bind] in Hc. simpl in Hc. injection Hc as <- <- <- <-. done.
Qed.

Section Witnesses.

Lemma service_errors_fallback_witness :
  (400 <= 404)%Z /\
  let a := delivered true (404%Z, snd (notFoundHandler "GET" "/api/payment-batch")) in
  plain "Failed to fetch payment batches" a = inl "Failed to fetch payment batches"%string /\
  list_result "Failed to fetch payment batches" a = inl "Failed to fetch payment batches"%string /\
  fetchContacts_handle a = inl "Failed to fetch contacts"%string /\
  manual_create_handle a =
    inr (JObj [("success", JBool false); ("error", JStr "Failed to create manual payment");
               ("errors", JArr [])]).
Proof. split; [lia|]. apply service_errors_fallback. lia. Defined.

Lemma admin_sync_without_consent_witness :
  Js.opt_get (JObj [("role", JStr "admin")]) "role" = JStr "admin" /\
  let '(r, c') := XeroContext.sync "/bills"
                    (plain "Failed to sync with Xero"
                       (delivered true (Controller.initiateXeroAuth (inr "https://login.xero.com/consent")
                                          (JObj [("role", JStr "admin")])))) 0 XeroContext.initial in
  r = inr (JObj [("success", JBool true); ("statusCode", JNum 200);
                 ("data", JObj [("url", JStr "https://login.xero.com/consent")]); ("error", JNull)]) /\
  XeroContext.isSynced c' = true /\ XeroContext.isSyncing c' = false /\
  XeroContext.error c' = JNull /\
  XeroContext.effects c' =
    XeroContext.effects XeroContext.initial ++ [Toast true "Successfully synced with Xero";
                                                Timeout 1000 "setupSmartInterval"].
Proof. split; [reflexivity|]. apply admin_sync_without_consent. reflexivity. Defined.

Lemma client_calls_unrouted_witness :
  unrouted_call (batch_getById_request (JNum 7)) /\
  (last (pipeline (r_method (batch_getById_request (JNum 7))) (r_url (batch_getById_request (JNum 7))))
     = Some NotFound /\
   forall h, Handler h ∉ pipeline (r_method (batch_getById_request (JNum 7)))
                                   (r_url (batch_getById_request (JNum 7)))) /\
  forall production now c,
    XeroContext.isSynced
      (snd (XeroContext.checkConnectionStatus
              (plain "Failed to get connection status"
                 (axios_answer 404 (send production 404
                    (snd (notFoundHandler "GET" "/api/xero/connection")))))
              now c)) = false.
Proof.
  assert (H : unrouted_call (batch_getById_request (JNum 7))).
  { unfold unrouted_call. do 5 right. left. by exists (JNum 7). }
  split; [exact H|]. exact (client_calls_unrouted _ H).
Defined.

Lemma callback_reports_failed_witness :
  CallbackPage.param_truthy (Some "4/abc") || CallbackPage.param_truthy (Some "xyz") ||
    CallbackPage.param_truthy None = true /\
  let '(p, c') := callback_mount (Some "4/abc") (Some "xyz") None
                    (inr (JObj [("success", JBool true); ("statusCode", JNum 200);
                                ("data", JNull); ("message", JStr "Xero connected successfully");
                                ("error", JNull)]))
                    (inl "Failed to get connection status") 0
                    [("xero_return_url", "/bills")] XeroContext.initial in
  (exists url, Navigate url (Some "failed") ∈ CallbackPage.page_effects p) /\
  (forall url, Navigate url (Some "connected") ∉ CallbackPage.page_effects p) /\
  (forall captured res' conn' now',
     CallbackPage.callback_effect captured (Some "4/abc") (Some "xyz") None res' conn' now' p c' =
       (p, c')).
Proof. split; [reflexivity|]. apply callback_reports_failed. reflexivity. Defined.

Lemma invoices_without_pagination_witness :
  let params := [("page", JNum 1); ("pageSize", JNum 10)] in
  let bfs := [("invoices", JArr [JObj [("invoiceID", JStr "inv-1")]])] in
  Js.truthy (XeroService.param params "page") = true /\
  Js.truthy (XeroService.param params "pageSize") = true /\
  Js.field "pagination" bfs = None /\
  Js.field "invoices" bfs = Some (JArr [JObj [("invoiceID", JStr "inv-1")]]) /\
  UseXero.render_error UseXero.initial = None /\
  let res := fetchInvoices_handle 200
               (delivered true (200%Z, XeroService.shaped "invoices" "Invoices synced successfully"
                                         params bfs)) in
  let '(r, h') := UseXero.fetchInvoices res UseXero.initial in
  UseXero.render_error h' = Some "rawInvoices.map is not a function" /\
  UseXero.error h' = JNull /\ UseXero.data h' = UseXero.data UseXero.initial /\
  UseXero.isLoading h' = false /\ res = inr r.
Proof.
  intros params bfs. do 5 (split; [reflexivity|]).
  apply (invoices_without_pagination true params bfs [JObj [("invoiceID", JStr "inv-1")]]);
    reflexivity.
Defined.

Definition filled_form : Form.form :=
  Form.mkForm (JObj Validation.sample_fields) [] false (JStr "ACME Ltd") false JNull [].

Lemma manual_payment_never_confirmed_witness :
  exists body f',
    submit_manual_payment "2024-05-01" (fun v => v) (inr (JObj [("success", JBool true)])) (inr JNull)
      ManualPayments.initial filled_form = inr (Some body, f') /\
    Form.toasts f' = [Form.Loading "Creating manual payment..."; Form.Dismiss] /\
    Form.formData f' = JObj Validation.sample_fields /\ Form.isSubmitting f' = false.
Proof.
  destruct (submit_manual_payment "2024-05-01" (fun v => v) (inr (JObj [("success", JBool true)]))
              (inr JNull) ManualPayments.initial filled_form) as [e|[[body|] f']] eqn:E;
    [vm_compute in E; discriminate| |vm_compute in E; discriminate].
  exists body, f'. split; [reflexivity|].
  exact (manual_payment_never_confirmed "2024-05-01" (fun v => v) _ _ _ filled_form body f' E).
Defined.

Lemma finalize_batch_fails_witness :
  (400 <= 404)%Z /\
  exists body h s' p',
    PaymentSummary.handleConfirmSubmit (fun v => v) "2025-01-01" [] [] PaymentBatch.initial
      (plain "Failed to create payment batch"
         (delivered true (404%Z, snd (notFoundHandler "POST" "/api/payment-batch"))))
      (inr JNull) PaymentBatch.initial (PaymentSummary.initial "2025-01-01")
      (RequestApproval.initial true) = inr (body, h, s', p') /\
    p' = RequestApproval.initial true /\
    s' = PaymentSummary.toast false "Failed to create payment batch" (PaymentSummary.initial "2025-01-01") /\
    PaymentBatch.isSubmitting h = false.
Proof.
  split; [lia|].
  destruct (PaymentSummary.handleConfirmSubmit (fun v => v) "2025-01-01" [] [] PaymentBatch.initial
      (plain "Failed to create payment batch"
         (delivered true (404%Z, snd (notFoundHandler "POST" "/api/payment-batch"))))
      (inr JNull) PaymentBatch.initial (PaymentSummary.initial "2025-01-01")
      (RequestApproval.initial true)) as [e|[[[body h] s'] p']] eqn:E; [vm_compute in E; discriminate|].
  exists body, h, s', p'. split; [reflexivity|].
  exact (finalize_batch_fails true 404 _ _ _ _ _ _ _ _ _ _ body h s' p' ltac:(lia) E).
Defined.

Lemma recent_batches_show_error_witness :
  (400 <= 404)%Z /\
  let '(req, s') := RecentBatches.refresh (fun d => d) 5
                      (plain "Failed to fetch payment batches"
                         (delivered true (404%Z, snd (notFoundHandler "GET" "/api/payment-batch"))))
                      RecentBatches.initial in
  (exists r, req = Some r /\ last (pipeline (r_method r) (r_url r)) = Some NotFound /\
             forall h, Handler h ∉ pipeline (r_method r) (r_url r)) /\
  RecentBatches.render 5 s' = RecentBatches.Failed (JStr "Failed to fetch payment batches").
Proof. split; [lia|]. apply recent_batches_show_error. lia. Defined.

End Witnesses.

End EndToEnd.
